(** * robertomaluco-v2: trace tree, structured extractor and agent loop

    A shallow embedding of [logger.py], [json_utils.py], [agent/modes.py],
    [agent/provider.py], [agent/plan_schema.py], [agent/tools.py] (the input
    models and the client of the repository host, operation by operation),
    [agent/gemini.py] and the event handlers of [app.py], followed by the
    properties of the specification that concern them (C1 to C10) and by
    further properties of the code (X1 to X25).

    The file has three parts: the embedding, module by module; the
    vocabulary of the statements together with the worlds of the examples;
    the lemmas and theorems.

    Conventions of the embedding.
    - A Python [str] is a [string]; its characters are the code points 0..255,
      and [str.strip], [str.lower] and [str.splitlines] follow CPython on
      that range.  Code points above 255 are outside the model.
    - A Python value (JSON payloads, trace data, tool results) is a [value];
      a [dict] is an association list in insertion order.
    - A Python [int] is a [Z].  A Python [float] is the rational it denotes:
      readings of [time.monotonic()] and the argument of [time.sleep] are
      rationals, and the result of an operation on floats is rounded to the
      nearest binary64 value ([binary64]).  Magnitudes of [2^1024] and more,
      where Python's result is [inf], are outside the model.
    - Code that raises returns [Raise e]; code that talks to the outside
      (clocks, the two HTTP endpoints) threads a [World]. *)

From Stdlib Require Import ZArith List String Ascii Bool Arith Lia QArith.
From Stdlib Require Import DecimalString.
Import ListNotations.
Set Warnings "-register-all".
Local Close Scope Q_scope.
Local Open Scope string_scope.
Local Open Scope list_scope.
Local Open Scope nat_scope.

(* ------------------------------------------------------------------ *)
(** ** Python strings *)

Module PyStr.

(** [str.isspace] on one character. *)
Definition is_space (c : ascii) : bool :=
  let n := nat_of_ascii c in
  ((9 <=? n) && (n <=? 13)) || ((28 <=? n) && (n <=? 32))
  || (n =? 133) || (n =? 160).

(** Line boundaries of [str.splitlines]. *)
Definition is_linebreak (c : ascii) : bool :=
  let n := nat_of_ascii c in
  ((10 <=? n) && (n <=? 13)) || ((28 <=? n) && (n <=? 30)) || (n =? 133).

Definition lower_char (c : ascii) : ascii :=
  let n := nat_of_ascii c in
  if ((65 <=? n) && (n <=? 90))
     || ((192 <=? n) && (n <=? 222) && negb (n =? 215))
  then ascii_of_nat (n + 32) else c.

(** [s.lower()] *)
Fixpoint lower (s : string) : string :=
  match s with
  | EmptyString => EmptyString
  | String c t => String (lower_char c) (lower t)
  end.

Fixpoint lstrip_by (p : ascii -> bool) (s : string) : string :=
  match s with
  | EmptyString => EmptyString
  | String c t => if p c then lstrip_by p t else s
  end.

Fixpoint rstrip_by (p : ascii -> bool) (s : string) : string :=
  match s with
  | EmptyString => EmptyString
  | String c t =>
      match rstrip_by p t with
      | EmptyString => if p c then EmptyString else String c EmptyString
      | r => String c r
      end
  end.

Definition lstrip : string -> string := lstrip_by is_space.
Definition rstrip : string -> string := rstrip_by is_space.

(** [s.strip()] *)
Definition strip (s : string) : string := rstrip (lstrip s).

Fixpoint mem_char (c : ascii) (set : string) : bool :=
  match set with
  | EmptyString => false
  | String a t => Ascii.eqb a c || mem_char c t
  end.

(** [s.strip(set)] *)
Definition strip_chars (set : string) (s : string) : string :=
  rstrip_by (fun c => mem_char c set) (lstrip_by (fun c => mem_char c set) s).

(** [s.startswith(p)] *)
Fixpoint startswith (s p : string) : bool :=
  match p, s with
  | EmptyString, _ => true
  | String a p', String b s' => Ascii.eqb a b && startswith s' p'
  | String _ _, EmptyString => false
  end.

(** [p in s] *)
Fixpoint contains (p s : string) : bool :=
  startswith s p
  || match s with
     | EmptyString => false
     | String _ t => contains p t
     end.

(** [s.find(c)] for a one-character needle; [None] is Python's [-1]. *)
Fixpoint find (c : ascii) (s : string) : option nat :=
  match s with
  | EmptyString => None
  | String a t =>
      if Ascii.eqb a c then Some 0
      else match find c t with
           | Some i => Some (S i)
           | None => None
           end
  end.

(** [s[n:]] *)
Fixpoint drop (n : nat) (s : string) : string :=
  match n, s with
  | 0, _ => s
  | S n', String _ t => drop n' t
  | S _, EmptyString => EmptyString
  end.

(** [s[:n]] *)
Fixpoint take (n : nat) (s : string) : string :=
  match n, s with
  | 0, _ => EmptyString
  | S n', String a t => String a (take n' t)
  | S _, EmptyString => EmptyString
  end.

(** [s[i:j]] for [0 <= i] and [0 <= j]. *)
Definition slice (i j : nat) (s : string) : string := take (j - i) (drop i s).

(** [s.endswith(suffix)] *)
Definition endswith (s suffix : string) : bool :=
  (String.length suffix <=? String.length s)
  && String.eqb (drop (String.length s - String.length suffix) s) suffix.

(** [s.removesuffix(suffix)] *)
Definition removesuffix (s suffix : string) : string :=
  match suffix with
  | EmptyString => s
  | _ => if endswith s suffix
         then take (String.length s - String.length suffix) s else s
  end.

(** [s.split(sep, 1)] for a non-empty [sep]: the text before the first
    occurrence and the text after it, or [None] when [sep] does not occur
    (the split is then the one-element list [[s]]). *)
Fixpoint split_once (sep s : string) : option (string * string) :=
  if startswith s sep then Some (EmptyString, drop (String.length sep) s)
  else match s with
       | EmptyString => None
       | String a t =>
           match split_once sep t with
           | Some (before, after) => Some (String a before, after)
           | None => None
           end
       end.

(** [s.split(c)] for a one-character separator; [cur] is the piece being
    collected. *)
Fixpoint split_from (c : ascii) (s cur : string) : list string :=
  match s with
  | EmptyString => [cur]
  | String a t =>
      if Ascii.eqb a c then cur :: split_from c t EmptyString
      else split_from c t (cur ++ String a EmptyString)%string
  end.

Definition split (c : ascii) (s : string) : list string :=
  split_from c s EmptyString.

(** [s.replace(a, b)] for single characters *)
Fixpoint replace_char (a b : ascii) (s : string) : string :=
  match s with
  | EmptyString => EmptyString
  | String c t => String (if Ascii.eqb c a then b else c) (replace_char a b t)
  end.

Definition CR : ascii := ascii_of_nat 13.
Definition LF : ascii := ascii_of_nat 10.

(** [s.splitlines()]: [cur] is the line being collected. *)
Fixpoint splitlines_from (s cur : string) {struct s} : list string :=
  match s with
  | EmptyString =>
      match cur with
      | EmptyString => []
      | _ => [cur]
      end
  | String c t =>
      if is_linebreak c then
        match t with
        | String c2 t2 =>
            if Ascii.eqb c CR && Ascii.eqb c2 LF
            then cur :: splitlines_from t2 EmptyString
            else cur :: splitlines_from t EmptyString
        | EmptyString => cur :: splitlines_from t EmptyString
        end
      else splitlines_from t (cur ++ String c EmptyString)%string
  end.

Definition splitlines (s : string) : list string :=
  splitlines_from s EmptyString.

(** [sep.join(parts)] *)
Fixpoint join (sep : string) (parts : list string) : string :=
  match parts with
  | [] => EmptyString
  | [p] => p
  | p :: rest => (p ++ sep ++ join sep rest)%string
  end.

Definition newline : string := String LF EmptyString.

End PyStr.

(* ------------------------------------------------------------------ *)
(** ** Python values *)

Inductive value : Type :=
| VNone
| VBool (b : bool)
| VInt (z : Z)
| VFloat (repr : string)   (* a float, carried by its [repr]; no float arithmetic is modelled *)
| VStr (s : string)
| VList (l : list value)
| VDict (d : list (string * value)).

Definition dict : Type := list (string * value).

(** [d.get(k)], [None] when the key is absent. *)
Fixpoint dict_get (k : string) (d : dict) : option value :=
  match d with
  | [] => None
  | (k', v) :: rest => if String.eqb k' k then Some v else dict_get k rest
  end.

(** [k in d] *)
Definition dict_mem (k : string) (d : dict) : bool :=
  match dict_get k d with Some _ => true | None => false end.

(** [d[k] = v]: replaces in place, appends a new key at the end. *)
Fixpoint dict_set (k : string) (v : value) (d : dict) : dict :=
  match d with
  | [] => [(k, v)]
  | (k', v') :: rest =>
      if String.eqb k' k then (k', v) :: rest else (k', v') :: dict_set k v rest
  end.

(** [d.update(extra)] *)
Definition dict_update (d extra : dict) : dict :=
  fold_left (fun acc kv => dict_set (fst kv) (snd kv) acc) extra d.

(** [d.get(k, default)] *)
Definition dict_get_default (k : string) (default : value) (d : dict) : value :=
  match dict_get k d with Some v => v | None => default end.

(** Truth value testing ([bool(v)]). *)
Definition truthy (v : value) : bool :=
  match v with
  | VNone => false
  | VBool b => b
  | VInt z => negb (z =? 0)%Z
  | VFloat r => negb (String.eqb r "0.0" || String.eqb r "-0.0")
  | VStr s => negb (String.eqb s EmptyString)
  | VList l => match l with [] => false | _ => true end
  | VDict d => match d with [] => false | _ => true end
  end.

(** A position inside a value, through mappings and lists. *)
Inductive step : Type :=
| Key (k : string)
| Idx (i : nat).

Fixpoint at_path (p : list step) (v : value) : option value :=
  match p with
  | [] => Some v
  | Key k :: p' =>
      match v with
      | VDict d =>
          match dict_get k d with
          | Some v' => at_path p' v'
          | None => None
          end
      | _ => None
      end
  | Idx i :: p' =>
      match v with
      | VList l =>
          match nth_error l i with
          | Some v' => at_path p' v'
          | None => None
          end
      | _ => None
      end
  end.

(** [int(q)]: truncation towards zero. *)
Definition Qtrunc (q : Q) : Z := Z.quot (Qnum q) (Zpos (Qden q)).

(** [n / d] rounded to the nearest integer, a tie to the even one, for
    [0 <= n]. *)
Definition round_half_even (n : Z) (d : positive) : Z :=
  let q := (n / Zpos d)%Z in
  let r := (n mod Zpos d)%Z in
  match (2 * r ?= Zpos d)%Z with
  | Lt => q
  | Gt => (q + 1)%Z
  | Eq => if Z.even q then q else (q + 1)%Z
  end.

(** The result of an operation on floats whose exact value is [q]: the
    nearest binary64 value, a tie going to the even significand.  With [e]
    the exponent of [q], [2^e <= |q| < 2^(e + 1)], and at least [-1022]
    (below, the values are subnormal), the result is a multiple of
    [2^(e - 52)]. *)
Definition binary64 (q : Q) : Q :=
  let n := Z.abs (Qnum q) in
  let d := Qden q in
  if (n =? 0)%Z then 0%Q else
  let e0 := (Z.log2 n - Z.log2 (Zpos d))%Z in
  let reaches := if (0 <=? e0)%Z then (Zpos d * 2 ^ e0 <=? n)%Z
                 else (Zpos d <=? n * 2 ^ (- e0))%Z in
  let e := Z.max (if reaches then e0 else e0 - 1) (-1022) in
  let shift := (52 - e)%Z in
  let v := if (0 <=? shift)%Z
           then Qmake (round_half_even (n * 2 ^ shift) d) (Z.to_pos (2 ^ shift))
           else inject_Z (round_half_even n (d * Z.to_pos (2 ^ (- shift)))
                          * 2 ^ (- shift)) in
  Qred (if (Qnum q <? 0)%Z then Qopp v else v).
Arguments binary64 : simpl never.

(** The clocks the program reads.  Every reading consumes one tick of the
    world's counter, so successive readings may differ. *)
Record Clock : Type := {
  utc_now_iso : nat -> string;   (* datetime.now(timezone.utc).isoformat() *)
  monotonic : nat -> Q;          (* time.monotonic(), a binary64 value *)
  epoch : nat -> Z               (* int(time.time()) *)
}.

(* ------------------------------------------------------------------ *)
(** ** logger.py *)

Module logger.

Definition SENSITIVE : list string :=
  ["token"; "authorization"; "api_key"; "secret"].

(** [any(token in lowered for token in (...))] *)
Definition mentions_sensitive (lowered : string) : bool :=
  existsb (fun token => PyStr.contains token lowered) SENSITIVE.

Fixpoint _safe_value (v : value) : value :=
  match v with
  | VStr s =>
      if mentions_sensitive (PyStr.lower s) then VStr "[REDACTED]"
      else if 2000 <? String.length s
           then VStr (PyStr.take 2000 s ++ "...[truncated]")%string
           else VStr s
  | VDict d => VDict (map (fun '(k, x) => (k, _safe_value x)) d)
  | VList l => VList (map _safe_value l)
  | _ => v
  end.

Module TraceEvent.
Record t : Type := mk {
  name : string;
  status : string;
  timestamp : string;
  data : dict
}.

(** [TraceEvent(name=..., status=..., data=...)]: the timestamp is read at
    creation. *)
Definition create (clk : Clock) (nm st : string) (dt : dict) (tick : nat)
  : t * nat :=
  (mk nm st (utc_now_iso clk tick) dt, S tick).

Definition as_dict (e : t) : value :=
  VDict [ ("name", VStr (name e));
          ("status", VStr (status e));
          ("timestamp", VStr (timestamp e));
          ("data", _safe_value (VDict (data e))) ].
End TraceEvent.

Module TraceSpan.
Inductive t : Type := mk {
  name : string;
  status : string;
  started_at : string;
  started_at_monotonic : Q;
  finished_at : option string;
  duration_ms : option Z;
  data : dict;
  events : list TraceEvent.t;
  children : list t
}.

(** [TraceSpan(name=..., data=...)] *)
Definition create (clk : Clock) (nm : string) (dt : dict) (tick : nat)
  : t * nat :=
  (mk nm "in_progress" (utc_now_iso clk tick) (monotonic clk (S tick))
      None None dt [] [],
   S (S tick)).

Definition event (clk : Clock) (nm st : string) (dt : dict) (sp : t)
                 (tick : nat) : t * nat :=
  let '(e, tick') := TraceEvent.create clk nm st dt tick in
  (mk (name sp) (status sp) (started_at sp) (started_at_monotonic sp)
      (finished_at sp) (duration_ms sp) (data sp)
      (events sp ++ [e]) (children sp),
   tick').

(** [child]: the new span is appended; its index among the children is
    returned as a handle on it. *)
Definition child (clk : Clock) (nm : string) (dt : dict) (sp : t)
                 (tick : nat) : t * nat * nat :=
  let '(c, tick') := create clk nm dt tick in
  (mk (name sp) (status sp) (started_at sp) (started_at_monotonic sp)
      (finished_at sp) (duration_ms sp) (data sp)
      (events sp) (children sp ++ [c]),
   List.length (children sp), tick').

Definition finish (clk : Clock) (st : string) (dt : dict) (sp : t)
                  (tick : nat) : t * nat :=
  match finished_at sp with
  | Some _ => (sp, tick)
  | None =>
      let now := utc_now_iso clk tick in
      let elapsed := binary64 (monotonic clk (S tick) - started_at_monotonic sp)%Q in
      (mk (name sp) st (started_at sp) (started_at_monotonic sp)
          (Some now)
          (Some (Qtrunc (binary64 (elapsed * 1000)%Q)))
          (match dt with [] => data sp | _ => dict_update (data sp) dt end)
          (events sp) (children sp),
       S (S tick))
  end.

Definition opt_str (o : option string) : value :=
  match o with Some s => VStr s | None => VNone end.

Definition opt_int (o : option Z) : value :=
  match o with Some z => VInt z | None => VNone end.

Fixpoint as_dict (sp : t) : value :=
  match sp with
  | mk nm st sa _ fa du dt evs ch =>
      VDict [ ("name", VStr nm);
              ("status", VStr st);
              ("started_at", VStr sa);
              ("finished_at", opt_str fa);
              ("duration_ms", opt_int du);
              ("data", _safe_value (VDict dt));
              ("events", VList (map TraceEvent.as_dict evs));
              ("children", VList (map as_dict ch)) ]
  end.

(** A span below [sp], named by the child indices leading to it.  Child
    lists only grow at the end, so such a handle stays valid. *)
Fixpoint get (path : list nat) (sp : t) : option t :=
  match path with
  | [] => Some sp
  | i :: rest =>
      match nth_error (children sp) i with
      | Some c => get rest c
      | None => None
      end
  end.

Fixpoint replace_nth {A} (i : nat) (x : A) (l : list A) : list A :=
  match l, i with
  | [], _ => []
  | _ :: tl, 0 => x :: tl
  | hd :: tl, S i' => hd :: replace_nth i' x tl
  end.

(** In-place mutation of the span at [path]. *)
Fixpoint update (path : list nat) (f : t -> t) (sp : t) : t :=
  match path with
  | [] => f sp
  | i :: rest =>
      match nth_error (children sp) i with
      | Some c =>
          mk (name sp) (status sp) (started_at sp) (started_at_monotonic sp)
             (finished_at sp) (duration_ms sp) (data sp) (events sp)
             (replace_nth i (update rest f c) (children sp))
      | None => sp
      end
  end.
End TraceSpan.

Module RequestTrace.
Record t : Type := mk {
  request_id : string;
  metadata : dict;
  started_at : string;
  root : TraceSpan.t
}.

(** [RequestTrace(request_id, metadata)]; [metadata or {}] is the mapping
    itself or the empty one. *)
Definition create (clk : Clock) (rid : string) (md : option dict)
                  (tick : nat) : t * nat :=
  let md' := match md with Some d => d | None => [] end in
  let now := utc_now_iso clk tick in
  let '(r, tick') := TraceSpan.create clk "request.lifecycle" [] (S tick) in
  (mk rid md' now r, tick').

Definition as_dict (tr : t) : value :=
  VDict [ ("request_id", VStr (request_id tr));
          ("started_at", VStr (started_at tr));
          ("metadata", _safe_value (VDict (metadata tr)));
          ("trace", TraceSpan.as_dict (root tr)) ].
End RequestTrace.

End logger.

(* ------------------------------------------------------------------ *)
(** ** Exceptions and results *)

(** The pieces of an f-string: literal text and formatted values. *)
Inductive fragment : Type :=
| Lit (s : string)
| Fmt (v : value).

Inductive exn : Type :=
| ValueError (msg : string)          (* includes json.JSONDecodeError *)
| RuntimeError (msg : list fragment)
| KeyError (k : string)
| TypeError
| AttributeError
| ValidationError.                   (* pydantic *)

Inductive outcome (A : Type) : Type :=
| Ok (a : A)
| Raise (e : exn).
Arguments Ok {A} a.
Arguments Raise {A} e.

(** Sequencing of code that may raise. *)
Definition and_then {A B} (r : outcome A) (k : A -> outcome B) : outcome B :=
  match r with
  | Ok a => k a
  | Raise e => Raise e
  end.

Definition DQ : ascii := ascii_of_nat 34.        (* the double quote *)
Definition BACKSLASH : ascii := ascii_of_nat 92.
Definition LBRACE : ascii := "{"%char.
Definition RBRACE : ascii := "}"%char.

(** Writes a text that contains double quotes: every apostrophe of [s]
    stands for a double quote. *)
Fixpoint dq (s : string) : string :=
  match s with
  | EmptyString => EmptyString
  | String c t => String (if Ascii.eqb c "'"%char then DQ else c) (dq t)
  end.

(* ------------------------------------------------------------------ *)
(** ** json_utils.py *)

Module json_utils.

Definition FENCE : string := "```".

Definition strip_code_fences (text : string) : string :=
  let stripped := PyStr.strip text in
  if negb (PyStr.startswith stripped FENCE) then stripped
  else
    let lines := PyStr.splitlines stripped in
    let lines :=
      match lines with
      | first :: rest => if PyStr.startswith first FENCE then rest else lines
      | [] => lines
      end in
    let lines :=
      match lines with
      | [] => lines
      | _ => if String.eqb (PyStr.strip (last lines EmptyString)) FENCE
             then removelast lines else lines
      end in
    PyStr.strip (PyStr.join PyStr.newline lines).

(** The [for index, char in enumerate(...)] loop over the characters that
    remain; the result is [end], [None] standing for [-1]. *)
Fixpoint scan (rest : string) (index : nat) (depth : Z)
              (in_string escaped : bool) {struct rest} : option nat :=
  match rest with
  | EmptyString => None
  | String char t =>
      if in_string then
        if escaped then scan t (S index) depth in_string false
        else if Ascii.eqb char BACKSLASH then scan t (S index) depth in_string true
        else if Ascii.eqb char DQ then scan t (S index) depth false escaped
        else scan t (S index) depth in_string escaped
      else if Ascii.eqb char DQ then scan t (S index) depth true escaped
      else if Ascii.eqb char LBRACE then scan t (S index) (depth + 1) in_string escaped
      else if Ascii.eqb char RBRACE then
        if (depth - 1 =? 0)%Z then Some index
        else scan t (S index) (depth - 1) in_string escaped
      else scan t (S index) depth in_string escaped
  end.

(** The statements of [extract_first_json_object] up to [raw] and the
    text after it: the candidate from the first brace to the brace that
    closes it, and what follows. *)
Definition candidate_span (candidate : string) : outcome (string * string) :=
  match PyStr.find LBRACE candidate with
  | None => Raise (ValueError "No JSON object found in text")
  | Some start =>
      match scan (PyStr.drop start candidate) start 0%Z false false with
      | None => Raise (ValueError "Unterminated JSON object in text")
      | Some end_ =>
          Ok (PyStr.slice start (end_ + 1) candidate,
              PyStr.drop (end_ + 1) candidate)
      end
  end.

Section Extract.
(** [json.loads]: the parsed value, or the message of the
    [JSONDecodeError] it raises. *)
Variable json_loads : string -> string + value.

Definition extract_first_json_object (text : string)
  : outcome (dict * string) :=
  match candidate_span (strip_code_fences text) with
  | Raise e => Raise e
  | Ok (raw, after) =>
      let trailing := PyStr.strip after in
      match json_loads raw with
      | inl msg => Raise (ValueError msg)
      | inr (VDict payload) => Ok (payload, trailing)
      | inr _ => Raise (ValueError "Top-level JSON payload must be an object")
      end
  end.
End Extract.

End json_utils.

(* ------------------------------------------------------------------ *)
(** ** agent/modes.py *)

Module modes.

Record ModeDecision : Type := {
  mode : string;
  reason : string
}.

Definition PLAN_HINTS : list string :=
  [ "plan mode"; "make a plan"; "create a plan"; "before you code";
    "implementation plan"; "review before coding" ].

Definition CODE_HINTS : list string :=
  [ "feature"; "implement"; "ship"; "build"; "code"; "refactor"; "bug";
    "fix"; "repository"; "repo"; "pull request"; "pr" ].

Definition detect_mode (prompt : string) : ModeDecision :=
  let normalized := PyStr.lower (PyStr.strip prompt) in
  match find (fun hint => PyStr.contains hint normalized) PLAN_HINTS with
  | Some hint => {| mode := "plan"; reason := ("matched_hint:" ++ hint)%string |}
  | None =>
      match find (fun hint => PyStr.contains hint normalized) CODE_HINTS with
      | Some hint =>
          {| mode := "plan"; reason := ("matched_code_hint:" ++ hint)%string |}
      | None => {| mode := "chat"; reason := "default" |}
      end
  end.

(** [schema] is the text of [PlanSchema.model_json_schema()], which
    pydantic generates. *)
Definition build_plan_prompt (schema user_prompt : string) : string :=
  ("You are in plan mode. Analyze the request and return only JSON matching this schema. "
   ++ "Do not include markdown fences or commentary." ++ PyStr.newline ++ PyStr.newline
   ++ "Schema:" ++ PyStr.newline ++ schema ++ PyStr.newline ++ PyStr.newline
   ++ "User request:" ++ PyStr.newline ++ user_prompt)%string.

End modes.

(* ------------------------------------------------------------------ *)
(** ** Operations on Python values that may raise *)

Module Py.

(** [v.get(k, default)] *)
Definition get (k : string) (default : value) (v : value) : outcome value :=
  match v with
  | VDict d => Ok (dict_get_default k default d)
  | _ => Raise AttributeError
  end.

(** [v[k]] for a string key *)
Definition item (k : string) (v : value) : outcome value :=
  match v with
  | VDict d =>
      match dict_get k d with
      | Some x => Ok x
      | None => Raise (KeyError k)
      end
  | _ => Raise TypeError
  end.

Fixpoint chars (s : string) : list value :=
  match s with
  | EmptyString => []
  | String c t => VStr (String c EmptyString) :: chars t
  end.

(** The items a [for] loop over [v] visits. *)
Definition iter (v : value) : outcome (list value) :=
  match v with
  | VList l => Ok l
  | VDict d => Ok (map (fun kv => VStr (fst kv)) d)
  | VStr s => Ok (chars s)
  | _ => Raise TypeError
  end.

(** [v == s] for a string literal [s] *)
Definition eq_str (v : value) (s : string) : bool :=
  match v with
  | VStr s' => String.eqb s' s
  | _ => false
  end.

(** [sep.join(items)]; items that are not strings raise. *)
Fixpoint join (sep : string) (items : list value) : outcome string :=
  match items with
  | [] => Ok EmptyString
  | VStr s :: rest =>
      match rest with
      | [] => Ok s
      | _ => match join sep rest with
             | Ok r => Ok (s ++ sep ++ r)%string
             | Raise e => Raise e
             end
      end
  | _ :: _ => Raise TypeError
  end.

End Py.

(* ------------------------------------------------------------------ *)
(** ** The world outside the program, and computations over it *)

(** What [urlopen] on the generation endpoint does. *)
Inductive http_outcome : Type :=
| HttpOk (status : Z) (raw : string)       (* a response was read *)
| HttpError (code : Z) (detail : string)   (* urllib.error.HTTPError *)
| Timeout                                  (* TimeoutError, socket.timeout *)
| UrlError (reason : string).              (* urllib.error.URLError *)

(** A [TraceSpan] held in a variable: the child indices that lead to it from
    the root of the request's trace, or [None]. *)
Definition span_ref : Type := option (list nat).

Record World (G : Type) : Type := mkWorld {
  trace : option logger.RequestTrace.t;  (* the [trace] argument, mutated in place *)
  ticks : nat;                           (* clock readings so far *)
  gemini_log : list string;              (* prompts posted to the generation endpoint *)
  sleeps : list Q;                       (* arguments of time.sleep, in order *)
  active_span : span_ref;                (* GithubTools._active_trace_span *)
  host : G;                              (* state behind the repository host's API *)
  host_calls : nat                       (* calls into the host's client so far *)
}.
Arguments mkWorld {G}.
Arguments trace {G}.
Arguments ticks {G}.
Arguments gemini_log {G}.
Arguments sleeps {G}.
Arguments active_span {G}.
Arguments host {G}.
Arguments host_calls {G}.

Definition M (G A : Type) : Type := World G -> outcome A * World G.

Definition ret {G A} (a : A) : M G A := fun w => (Ok a, w).

Definition raise {G A} (e : exn) : M G A := fun w => (Raise e, w).

Definition bind {G A B} (c : M G A) (k : A -> M G B) : M G B :=
  fun w =>
    match c w with
    | (Ok a, w') => k a w'
    | (Raise e, w') => (Raise e, w')
    end.

Definition lift {G A} (r : outcome A) : M G A := fun w => (r, w).

Declare Scope eff_scope.
Delimit Scope eff_scope with eff.
Notation "x <- c1 ;; c2" := (bind c1 (fun x => c2))
  (at level 61, c1 at next level, right associativity) : eff_scope.
Notation "c1 ;; c2" := (bind c1 (fun _ => c2))
  (at level 61, right associativity) : eff_scope.

(** An operation of the repository host's client: its result, the events it
    reported through [_trace_event], and the host afterwards. *)
Record event_spec : Type := {
  es_name : string;
  es_status : string;
  es_data : dict
}.

Definition backend_op (G A : Type) : Type :=
  G -> (outcome A * list event_spec) * G.

Section Effects.
Context {G : Type}.
Variable clk : Clock.
Local Open Scope eff_scope.

Definition set_trace (t : option logger.RequestTrace.t) (w : World G) : World G :=
  mkWorld t (ticks w) (gemini_log w) (sleeps w) (active_span w) (host w)
          (host_calls w).

Definition set_ticks (n : nat) (w : World G) : World G :=
  mkWorld (trace w) n (gemini_log w) (sleeps w) (active_span w) (host w)
          (host_calls w).

Definition set_active (s : span_ref) (w : World G) : World G :=
  mkWorld (trace w) (ticks w) (gemini_log w) (sleeps w) s (host w) (host_calls w).

(** The host after one more call into its client. *)
Definition set_host (g : G) (w : World G) : World G :=
  mkWorld (trace w) (ticks w) (gemini_log w) (sleeps w) (active_span w) g
          (S (host_calls w)).

Definition set_root (r : logger.TraceSpan.t) (tr : logger.RequestTrace.t)
  : logger.RequestTrace.t :=
  logger.RequestTrace.mk (logger.RequestTrace.request_id tr)
    (logger.RequestTrace.metadata tr) (logger.RequestTrace.started_at tr) r.

(** Runs a span method on the span behind [h]; nothing happens for [None]
    (the [if span:] guards of the source). *)
Definition on_span (h : span_ref)
    (f : logger.TraceSpan.t -> nat -> logger.TraceSpan.t * nat) : M G unit :=
  fun w =>
    match h, trace w with
    | Some p, Some tr =>
        match logger.TraceSpan.get p (logger.RequestTrace.root tr) with
        | Some sp =>
            let '(sp', tick') := f sp (ticks w) in
            let root' := logger.TraceSpan.update p (fun _ => sp')
                           (logger.RequestTrace.root tr) in
            (Ok tt, set_ticks tick' (set_trace (Some (set_root root' tr)) w))
        | None => (Ok tt, w)
        end
    | _, _ => (Ok tt, w)
    end.

(** [h.event(name, status=..., **data) if h] *)
Definition span_event (h : span_ref) (nm st : string) (dt : dict) : M G unit :=
  on_span h (logger.TraceSpan.event clk nm st dt).

(** [h.finish(status=..., **data) if h] *)
Definition span_finish (h : span_ref) (st : string) (dt : dict) : M G unit :=
  on_span h (logger.TraceSpan.finish clk st dt).

(** [h.child(name, **data) if h else None] *)
Definition span_child (h : span_ref) (nm : string) (dt : dict) : M G span_ref :=
  fun w =>
    match h, trace w with
    | Some p, Some tr =>
        match logger.TraceSpan.get p (logger.RequestTrace.root tr) with
        | Some sp =>
            let '(sp', i, tick') := logger.TraceSpan.child clk nm dt sp (ticks w) in
            let root' := logger.TraceSpan.update p (fun _ => sp')
                           (logger.RequestTrace.root tr) in
            (Ok (Some (p ++ [i])),
             set_ticks tick' (set_trace (Some (set_root root' tr)) w))
        | None => (Ok None, w)
        end
    | _, _ => (Ok None, w)
    end.

(** [trace.span(name, **data) if trace else None] *)
Definition trace_span (nm : string) (dt : dict) : M G span_ref :=
  fun w =>
    match trace w with
    | Some _ => span_child (Some []) nm dt w
    | None => (Ok None, w)
    end.

(** [int(time.time())] *)
Definition time_now : M G Z :=
  fun w => (Ok (epoch clk (ticks w)), set_ticks (S (ticks w)) w).

(** [time.sleep(seconds)] *)
Definition sleep (seconds : Q) : M G unit :=
  fun w => (Ok tt, mkWorld (trace w) (ticks w) (gemini_log w)
                     (sleeps w ++ [seconds]) (active_span w) (host w)
                     (host_calls w)).

(** [GithubTools._trace_event] for each event of a finished operation. *)
Fixpoint report (evs : list event_spec) : M G unit :=
  match evs with
  | [] => ret tt
  | e :: rest =>
      (fun w => span_event (active_span w) (es_name e) (es_status e) (es_data e) w) ;;
      report rest
  end.

(** A call into the repository host's client. *)
Definition call {A} (op : backend_op G A) : M G A :=
  fun w =>
    let '((r, evs), g') := op (host w) in
    match report evs (set_host g' w) with
    | (_, w') => (r, w')
    end.

(** [with self.tools.with_trace(span): body]; the previous span is put
    back whether [body] returns or raises. *)
Definition with_trace {A} (span : span_ref) (body : M G A) : M G A :=
  fun w =>
    let previous := active_span w in
    let '(r, w') := body (set_active span w) in
    (r, set_active previous w').

End Effects.

(* ------------------------------------------------------------------ *)
(** ** agent/tools.py *)

Module tools.

(** [RepoAccess.sanitize_slug], the validator of [owner] and [repo]. *)
Definition sanitize_slug (value field_name : string) : string :=
  let cleaned := PyStr.strip (PyStr.strip_chars "<>" (PyStr.strip value)) in
  let cleaned :=
    match PyStr.split_once "|" cleaned with
    | Some (before, _) => before
    | None => cleaned
    end in
  let cleaned :=
    match PyStr.split_once "github.com/" cleaned with
    | Some (_, tail) =>
        let tail := match PyStr.split_once "?" tail with
                    | Some (before, _) => before
                    | None => tail
                    end in
        let tail := match PyStr.split_once "#" tail with
                    | Some (before, _) => before
                    | None => tail
                    end in
        let tail := PyStr.strip_chars "/" tail in
        let parts :=
          filter (fun part => negb (String.eqb part EmptyString))
                 (PyStr.split "/"%char tail) in
        match parts with
        | [] => cleaned
        | first :: more =>
            if String.eqb field_name "owner" then first
            else match more with
                 | second :: _ => second
                 | [] => first
                 end
        end
    | None => cleaned
    end in
  PyStr.removesuffix cleaned ".git".

Module RepoAccess.
Record t : Type := mk {
  owner : string;
  repo : string;
  branch : string
}.

(** [RepoAccess(owner=..., repo=..., branch=...)]: the validator runs
    first, then the [min_length=1] constraints. *)
Definition create (o r b : string) : outcome t :=
  let o' := sanitize_slug o "owner" in
  let r' := sanitize_slug r "repo" in
  if (1 <=? String.length o') && (1 <=? String.length r')
     && (1 <=? String.length b)
  then Ok (mk o' r' b) else Raise ValidationError.

Definition model_dump (a : t) : value :=
  VDict [ ("owner", VStr (owner a)); ("repo", VStr (repo a));
          ("branch", VStr (branch a)) ].
End RepoAccess.

(** [extra="forbid"]: every key of the input is a declared field. *)
Definition only_fields (fields : list string) (d : dict) : bool :=
  forallb (fun kv => existsb (String.eqb (fst kv)) fields) d.

(** A required [str] field with [min_length]. *)
Definition str_field (k : string) (min_length : nat) (d : dict) : option string :=
  match dict_get k d with
  | Some (VStr s) => if min_length <=? String.length s then Some s else None
  | _ => None
  end.

Module PullRequestInput.
Record t : Type := mk {
  title : string;
  body : string;
  head_branch : string;
  base_branch : string
}.

Definition model_validate (arguments : value) : outcome t :=
  match arguments with
  | VDict d =>
      let body_ := match dict_get "body" d with
                   | None => Some EmptyString
                   | Some (VStr s) => Some s
                   | Some _ => None
                   end in
      let base_ := match dict_get "base_branch" d with
                   | None => Some "main"
                   | Some _ => str_field "base_branch" 1 d
                   end in
      match only_fields ["title"; "body"; "head_branch"; "base_branch"] d,
            str_field "title" 1 d, body_, str_field "head_branch" 1 d, base_ with
      | true, Some t_, Some b_, Some h_, Some bb_ => Ok (mk t_ b_ h_ bb_)
      | _, _, _, _, _ => Raise ValidationError
      end
  | _ => Raise ValidationError
  end.
End PullRequestInput.

Module WriteFileInput.
Record t : Type := mk {
  path : string;
  content : string;
  commit_message : string;
  branch : option string
}.

Definition model_validate (arguments : value) : outcome t :=
  match arguments with
  | VDict d =>
      let branch_ := match dict_get "branch" d with
                     | None => Some None
                     | Some VNone => Some None
                     | Some (VStr s) => Some (Some s)
                     | Some _ => None
                     end in
      match only_fields ["path"; "content"; "commit_message"; "branch"] d,
            str_field "path" 1 d, str_field "content" 0 d,
            str_field "commit_message" 1 d, branch_ with
      | true, Some p_, Some c_, Some m_, Some b_ => Ok (mk p_ c_ m_ b_)
      | _, _, _, _, _ => Raise ValidationError
      end
  | _ => Raise ValidationError
  end.
End WriteFileInput.

(** The client of the repository host that the provider is given.
    [_request] is its HTTP boundary; the five operations below are built on
    it in [tools.py] and are taken here as operations of the host. *)
Record GithubTools (G : Type) : Type := {
  _request : string -> string -> option value -> backend_op G value;
  create_branch : RepoAccess.t -> value -> value -> backend_op G value;
  list_files : RepoAccess.t -> value -> backend_op G (list value);
  read_file : RepoAccess.t -> value -> value -> backend_op G string;
  write_file : RepoAccess.t -> WriteFileInput.t -> backend_op G value;
  create_pull_request : RepoAccess.t -> PullRequestInput.t -> backend_op G value
}.
Arguments _request {G}.
Arguments create_branch {G}.
Arguments list_files {G}.
Arguments read_file {G}.
Arguments write_file {G}.
Arguments create_pull_request {G}.

Section Methods.
Context {G : Type}.
Variable clk : Clock.
Variable self : GithubTools G.
Local Open Scope eff_scope.

Definition repo_path (access : RepoAccess.t) : string :=
  ("/repos/" ++ RepoAccess.owner access ++ "/" ++ RepoAccess.repo access)%string.

Definition NO_PUSH_ACCESS : list fragment :=
  [ Lit "GITHUB_TOKEN has no push access to this repo. ";
    Lit "Use a token with repo write permissions (Contents + Pull requests)." ].

(** The test on the repository document:
    [isinstance(permissions, dict) and not permissions.get("push", False)] *)
Definition push_denied (permissions : value) : bool :=
  match permissions with
  | VDict d => negb (truthy (dict_get_default "push" (VBool false) d))
  | _ => false
  end.

Definition ensure_repo_write_access (access : RepoAccess.t) : M G unit :=
  repo <- call clk (_request self "GET" (repo_path access) None) ;;
  permissions <- lift (Py.get "permissions" VNone repo) ;;
  if push_denied permissions then raise (RuntimeError NO_PUSH_ACCESS)
  else ret tt.

Definition get_default_branch (access : RepoAccess.t) : M G value :=
  repo <- call clk (_request self "GET" (repo_path access) None) ;;
  default_branch <- lift (Py.get "default_branch" VNone repo) ;;
  ret (if truthy default_branch then default_branch
       else VStr (RepoAccess.branch access)).
End Methods.

End tools.

(* ------------------------------------------------------------------ *)
(** ** agent/provider.py *)

Module provider.

Record AgentRequest : Type := {
  prompt : string;
  mode : string;
  context : dict
}.

Record AgentResponse : Type := {
  provider : string;
  text : string
}.

(** [AgentResponse(provider=..., text=...)]: [text] must be a [str]. *)
Definition response (p : string) (t : value) : outcome AgentResponse :=
  match t with
  | VStr s => Ok {| provider := p; text := s |}
  | _ => Raise ValidationError
  end.

End provider.

(** What the program is run against: the clocks, the standard library's JSON
    codec, the schema text pydantic generates, the generation endpoint (its
    answer to the [n]-th request, given the prompt) and the client of the
    repository host. *)
Record Env (G : Type) : Type := {
  clock : Clock;
  json_loads : string -> string + value;
  json_dumps : value -> string;
  plan_schema : string;
  gemini_urlopen : nat -> string -> http_outcome;
  github : tools.GithubTools G
}.
Arguments clock {G}.
Arguments json_loads {G}.
Arguments json_dumps {G}.
Arguments plan_schema {G}.
Arguments gemini_urlopen {G}.
Arguments github {G}.

(* ------------------------------------------------------------------ *)
(** ** agent/gemini.py *)

Module gemini.

Record GeminiProvider : Type := {
  api_key : string;
  model : string;
  request_timeout_seconds : Z;
  max_retries : nat
}.

(** [GeminiProvider.__init__]; [getenv] is [os.getenv].  An empty string
    counts as missing, as [or] and [not] treat it. *)
Definition init (getenv : string -> option string)
                (api_key_arg model_arg : option string) : outcome GeminiProvider :=
  let nonempty (o : option string) :=
    match o with
    | Some EmptyString => None
    | _ => o
    end in
  let key := match nonempty api_key_arg with
             | Some k => Some k
             | None => getenv "GEMINI_API_KEY"
             end in
  let mdl := match nonempty model_arg with
             | Some m => m
             | None => match getenv "GEMINI_MODEL" with
                       | Some m => m
                       | None => "gemini-2.5-pro"
                       end
             end in
  match nonempty key with
  | Some k => Ok {| api_key := k; model := mdl;
                    request_timeout_seconds := 60; max_retries := 2 |}
  | None => Raise (RuntimeError [Lit "Missing GEMINI_API_KEY for AGENT_MODEL=gemini"])
  end.

Definition name : string := "gemini".

Definition nl : string := PyStr.newline.

Definition SYSTEM : string :=
  ("You are an autonomous software agent. "
   ++ "You must output only valid JSON with one of these shapes:" ++ nl
   ++ dq "1) {'type':'tool_call','tool':'<name>','arguments':{...}}" ++ nl
   ++ dq "2) {'type':'final','message':'<final summary for user>'}" ++ nl ++ nl
   ++ "Available tools:" ++ nl
   ++ "- get_default_branch: {}" ++ nl
   ++ "- create_branch: {new_branch: string, from_branch?: string}" ++ nl
   ++ "- list_files: {branch?: string}" ++ nl
   ++ "- read_file: {path: string, branch?: string}" ++ nl
   ++ "- write_file: {path: string, content: string, commit_message: string, branch?: string}" ++ nl
   ++ "- create_pull_request: {title: string, body: string, head_branch: string, base_branch?: string}" ++ nl ++ nl
   ++ "Workflow guidance:" ++ nl
   ++ "1) Discover files" ++ nl
   ++ "2) Read relevant files" ++ nl
   ++ "3) Create a branch if needed" ++ nl
   ++ "4) Write updated file contents" ++ nl
   ++ "5) Open PR" ++ nl
   ++ "When done, return a final summary including PR URL." ++ nl
   ++ "Never include markdown code fences.")%string.

(** The characters of [[A-Za-z0-9_.-]]. *)
Definition is_slug_char (c : ascii) : bool :=
  let n := nat_of_ascii c in
  ((65 <=? n) && (n <=? 90)) || ((97 <=? n) && (n <=? 122))
  || ((48 <=? n) && (n <=? 57))
  || (n =? 95) || (n =? 46) || (n =? 45).

(** The longest run of slug characters at the front, and what follows. *)
Fixpoint span_slug (s : string) : string * string :=
  match s with
  | EmptyString => (EmptyString, EmptyString)
  | String c t =>
      if is_slug_char c
      then let '(run, rest) := span_slug t in (String c run, rest)
      else (EmptyString, s)
  end.

Definition URL_PREFIX : string := "https://github.com/".

(** The pattern [https://github\.com/([A-Za-z0-9_.-]+)/([A-Za-z0-9_.-]+)]
    matched at the front of [s]; the two groups. *)
Definition match_repo_url (s : string) : option (string * string) :=
  if PyStr.startswith s URL_PREFIX then
    let '(g1, rest) := span_slug (PyStr.drop (String.length URL_PREFIX) s) in
    match g1, rest with
    | String _ _, String slash rest' =>
        if Ascii.eqb slash "/"%char then
          match span_slug rest' with
          | (String c g2, _) => Some (g1, String c g2)
          | (EmptyString, _) => None
          end
        else None
    | _, _ => None
    end
  else None.

(** [re.search]: the leftmost match. *)
Fixpoint search_repo_url (s : string) : option (string * string) :=
  match match_repo_url s with
  | Some groups => Some groups
  | None =>
      match s with
      | EmptyString => None
      | String _ t => search_repo_url t
      end
  end.

Definition _extract_repo_access (prompt : string)
  : outcome (option tools.RepoAccess.t) :=
  let cleaned := PyStr.replace_char ">"%char " "%char
                   (PyStr.replace_char "<"%char " "%char prompt) in
  match search_repo_url cleaned with
  | None => Ok None
  | Some (owner, repo) =>
      match tools.RepoAccess.create owner (PyStr.removesuffix repo ".git") "main" with
      | Ok access => Ok (Some access)
      | Raise e => Raise e
      end
  end.

Definition int_of_nat (n : nat) : value := VInt (Z.of_nat n).

(** The names [_execute_tool_inner] dispatches on. *)
Definition TOOL_NAMES : list string :=
  [ "get_default_branch"; "create_branch"; "list_files"; "read_file";
    "write_file"; "create_pull_request" ].

Section Provider.
Context {G : Type}.
Variable env : Env G.
Variable self : GeminiProvider.
Local Open Scope eff_scope.

Abbreviation clk := (clock env).

(** [urlopen(req, timeout=...)] on the generation endpoint. *)
Definition urlopen (prompt : string) : M G http_outcome :=
  fun w =>
    (Ok (gemini_urlopen env (List.length (gemini_log w)) prompt),
     mkWorld (trace w) (ticks w) (gemini_log w ++ [prompt]) (sleeps w)
             (active_span w) (host w) (host_calls w)).

Definition endpoint : string := ("/models/" ++ model self ++ ":generateContent")%string.

(** [1.5 * (attempt + 1)] *)
Definition backoff (attempt : nat) : Q :=
  ((3 # 2) * inject_Z (Z.of_nat (attempt + 1)))%Q.

(** [RuntimeError(f"Gemini API error ({exc.code}): {detail}")] *)
Definition api_error (code : Z) (detail : string) : exn :=
  RuntimeError [Lit "Gemini API error ("; Fmt (VInt code); Lit "): "; Lit detail].

Definition timeout_error (attempt : nat) : exn :=
  RuntimeError [ Lit "Gemini request timed out after ";
                 Fmt (VInt (request_timeout_seconds self));
                 Lit "s (attempt "; Fmt (int_of_nat (attempt + 1));
                 Lit "/"; Fmt (int_of_nat (max_retries self + 1)); Lit ")" ].

Definition network_error (reason : string) : exn :=
  RuntimeError [Lit "Gemini network error: "; Lit reason].

(** The [for attempt in range(self.max_retries + 1)] loop over the
    attempts that remain.  It ends with [raw] and [last_error]. *)
Fixpoint attempt_loop (prompt : string) (trace_span : span_ref)
                      (attempts : list nat) (last_error : option exn)
  : M G (string * option exn) :=
  match attempts with
  | [] => ret (EmptyString, last_error)
  | attempt :: later =>
      span_event clk trace_span "gemini.http.start" "ok"
        [ ("attempt", int_of_nat (attempt + 1)); ("endpoint", VStr endpoint) ] ;;
      r <- urlopen prompt ;;
      match r with
      | HttpOk status raw =>
          span_event clk trace_span "gemini.http.success" "ok"
            [ ("attempt", int_of_nat (attempt + 1)); ("status_code", VInt status) ] ;;
          ret (raw, None)
      | HttpError code detail =>
          span_event clk trace_span "gemini.http.error" "error"
            [ ("attempt", int_of_nat (attempt + 1)); ("status_code", VInt code);
              ("detail", VStr detail) ] ;;
          raise (api_error code detail)
      | Timeout =>
          span_event clk trace_span "gemini.http.error" "error"
            [ ("attempt", int_of_nat (attempt + 1)); ("reason", VStr "timeout") ] ;;
          (if attempt <? max_retries self then sleep (backoff attempt) else ret tt) ;;
          attempt_loop prompt trace_span later (Some (timeout_error attempt))
      | UrlError reason =>
          span_event clk trace_span "gemini.http.error" "error"
            [ ("attempt", int_of_nat (attempt + 1)); ("reason", VStr reason) ] ;;
          (if attempt <? max_retries self then sleep (backoff attempt) else ret tt) ;;
          attempt_loop prompt trace_span later (Some (network_error reason))
      end
  end.

(** The texts of one candidate: [for part in content.get("parts", [])]. *)
Fixpoint part_texts (parts : list value) : outcome (list value) :=
  match parts with
  | [] => Ok []
  | part :: rest =>
      and_then (Py.get "text" VNone part) (fun text =>
      and_then (part_texts rest) (fun more =>
      Ok (if truthy text then text :: more else more)))
  end.

(** [for candidate in candidates] *)
Fixpoint candidate_texts (candidates : list value) : outcome (list value) :=
  match candidates with
  | [] => Ok []
  | candidate :: rest =>
      and_then (Py.get "content" (VDict []) candidate) (fun content =>
      and_then (Py.get "parts" (VList []) content) (fun parts =>
      and_then (Py.iter parts) (fun ps =>
      and_then (part_texts ps) (fun here =>
      and_then (candidate_texts rest) (fun more =>
      Ok (here ++ more))))))
  end.

(** The statements of [_generate_text] from [body = json.loads(raw)] to
    [combined]. *)
Definition combined_text (raw : string) : outcome string :=
  match json_loads env raw with
  | inl msg => Raise (ValueError msg)
  | inr body =>
      and_then (Py.get "candidates" (VList []) body) (fun candidates =>
      and_then (Py.iter candidates) (fun cs =>
      and_then (candidate_texts cs) (fun texts =>
      and_then (Py.join nl texts) (fun joined =>
      Ok (PyStr.strip joined)))))
  end.

Definition _generate_text (prompt : string) (trace_span : span_ref) : M G string :=
  r <- attempt_loop prompt trace_span (seq 0 (max_retries self + 1)) None ;;
  let '(raw, last_error) := r in
  match last_error with
  | Some e => raise e
  | None =>
      combined <- lift (combined_text raw) ;;
      match combined with
      | EmptyString =>
          span_event clk trace_span "gemini.parse.error" "error"
            [ ("reason", VStr "missing_text_content") ] ;;
          raise (RuntimeError [Lit "Gemini response missing text content"])
      | _ => ret combined
      end
  end.

(** The mapping [_build_tool_prompt] serializes. *)
Definition tool_prompt_payload (user_prompt : string)
    (access : tools.RepoAccess.t) (history : list value) (timestamp : Z) : value :=
  VDict [ ("system", VStr SYSTEM);
          ("repo", tools.RepoAccess.model_dump access);
          ("request", VStr user_prompt);
          ("history", VList history);
          ("timestamp", VInt timestamp) ].

Definition _build_tool_prompt (user_prompt : string)
    (access : tools.RepoAccess.t) (history : list value) : M G string :=
  timestamp <- time_now clk ;;
  ret (json_dumps env (tool_prompt_payload user_prompt access history timestamp)).

(** The statements of [_parse_action] after the extraction: the action
    is classified by its [type]. *)
Definition classify_action (payload : dict) : outcome dict :=
  let action_type := dict_get_default "type" VNone payload in
  if Py.eq_str action_type "tool_call" then
    if negb (dict_mem "tool" payload)
    then Raise (RuntimeError [Lit "Invalid tool_call payload: "; Fmt (VDict payload)])
    else Ok (if dict_mem "arguments" payload then payload
             else payload ++ [("arguments", VDict [])])
  else if Py.eq_str action_type "final" then
    if negb (truthy (dict_get_default "message" VNone payload))
    then Raise (RuntimeError [Lit "Invalid final payload: "; Fmt (VDict payload)])
    else Ok payload
  else Raise (RuntimeError [ Lit "Unsupported action type from Gemini: ";
                             Fmt (VDict payload) ]).

Definition _parse_action (model_text : string) (trace_span : span_ref)
  : M G dict :=
  match json_utils.extract_first_json_object (json_loads env) model_text with
  | Raise (ValueError msg) =>
      span_event clk trace_span "gemini.action.parse.error" "error"
        [ ("error", VStr msg); ("raw", VStr model_text) ] ;;
      raise (RuntimeError [Lit "Gemini response is not JSON: "; Lit model_text])
  | Raise e => raise e
  | Ok (payload, trailing) =>
      (match trailing with
       | EmptyString => ret tt
       | _ => span_event clk trace_span "gemini.action.trailing_text" "warn"
                [ ("trailing", VStr trailing) ]
       end) ;;
      lift (classify_action payload)
  end.

Definition _execute_tool_inner (access : tools.RepoAccess.t)
    (tool_name arguments : value) : M G value :=
  if Py.eq_str tool_name "get_default_branch" then
    b <- tools.get_default_branch clk (github env) access ;;
    ret (VDict [("default_branch", b)])
  else if Py.eq_str tool_name "create_branch" then
    new_branch <- lift (Py.item "new_branch" arguments) ;;
    from_branch <- lift (Py.get "from_branch" VNone arguments) ;;
    created <- call clk (tools.create_branch (github env) access new_branch from_branch) ;;
    ret (VDict [("branch", created)])
  else if Py.eq_str tool_name "list_files" then
    branch <- lift (Py.get "branch" VNone arguments) ;;
    files <- call clk (tools.list_files (github env) access branch) ;;
    ret (VDict [ ("files", VList (firstn 500 files));
                 ("total_files", int_of_nat (List.length files)) ])
  else if Py.eq_str tool_name "read_file" then
    path <- lift (Py.item "path" arguments) ;;
    branch <- lift (Py.get "branch" VNone arguments) ;;
    content <- call clk (tools.read_file (github env) access path branch) ;;
    path' <- lift (Py.item "path" arguments) ;;
    ret (VDict [("path", path'); ("content", VStr content)])
  else if Py.eq_str tool_name "write_file" then
    payload <- lift (tools.WriteFileInput.model_validate arguments) ;;
    commit_sha <- call clk (tools.write_file (github env) access payload) ;;
    ret (VDict [ ("path", VStr (tools.WriteFileInput.path payload));
                 ("commit_sha", commit_sha) ])
  else if Py.eq_str tool_name "create_pull_request" then
    payload <- lift (tools.PullRequestInput.model_validate arguments) ;;
    url <- call clk (tools.create_pull_request (github env) access payload) ;;
    ret (VDict [("pull_request_url", url)])
  else raise (RuntimeError [Lit "Unknown tool requested by Gemini: "; Fmt tool_name]).

Definition _execute_tool (access : tools.RepoAccess.t)
    (tool_name arguments : value) (trace_span : span_ref) : M G value :=
  with_trace trace_span (_execute_tool_inner access tool_name arguments).

(** The entry appended to [history] after a tool call. *)
Definition history_entry (model_text : string) (tool_result : value) : value :=
  VDict [ ("assistant", VStr model_text); ("tool_result", tool_result) ].

Definition STEP_LIMIT_TEXT : string :=
  "I couldn't complete the workflow within the step limit.".

(** [action[k]] on the mapping [_parse_action] returned *)
Definition action_item (k : string) (action : dict) : M G value :=
  lift (Py.item k (VDict action)).

(** The [for step_index in range(12)] loop over the steps that remain,
    followed by the statements after the loop. *)
Fixpoint tool_loop (request : provider.AgentRequest)
    (access : tools.RepoAccess.t) (llm_span : span_ref)
    (steps : list nat) (history : list value) : M G provider.AgentResponse :=
  match steps with
  | [] =>
      span_finish clk llm_span "error" [("reason", VStr "step_limit_exceeded")] ;;
      ret {| provider.provider := name; provider.text := STEP_LIMIT_TEXT |}
  | step_index :: later =>
      prompt <- _build_tool_prompt (provider.prompt request) access history ;;
      step_span <- span_child clk llm_span "llm.step"
                     [("index", int_of_nat (step_index + 1))] ;;
      model_text <- _generate_text prompt step_span ;;
      action <- _parse_action model_text step_span ;;
      action_type <- action_item "type" action ;;
      if Py.eq_str action_type "final" then
        span_finish clk step_span "ok" [("action_type", VStr "final")] ;;
        span_finish clk llm_span "ok" [("mode", VStr "tool_workflow")] ;;
        message <- action_item "message" action ;;
        lift (provider.response name message)
      else
        tool <- action_item "tool" action ;;
        let arguments := dict_get_default "arguments" (VDict []) action in
        tool_span <- span_child clk step_span "llm.tool_call"
                       [("tool", tool); ("arguments", arguments)] ;;
        tool' <- action_item "tool" action ;;
        tool_result <- _execute_tool access tool' arguments tool_span ;;
        span_finish clk tool_span "ok" [] ;;
        let history' := history ++ [history_entry model_text tool_result] in
        span_finish clk step_span "ok" [("action_type", VStr "tool_call")] ;;
        tool_loop request access llm_span later history'
  end.

Definition respond (request : provider.AgentRequest)
  : M G provider.AgentResponse :=
  llm_span <- trace_span clk "llm.workflow"
                [ ("provider", VStr name); ("model", VStr (model self));
                  ("mode", VStr (provider.mode request)) ] ;;
  if String.eqb (provider.mode request) "plan" then
    text <- _generate_text
              (modes.build_plan_prompt (plan_schema env) (provider.prompt request))
              llm_span ;;
    span_finish clk llm_span "ok"
      [ ("mode", VStr "plan"); ("text_length", int_of_nat (String.length text)) ] ;;
    ret {| provider.provider := name; provider.text := text |}
  else
    access <- lift (_extract_repo_access (provider.prompt request)) ;;
    match access with
    | None =>
        text <- _generate_text (provider.prompt request) llm_span ;;
        span_finish clk llm_span "ok"
          [ ("mode", VStr "chat"); ("text_length", int_of_nat (String.length text)) ] ;;
        ret {| provider.provider := name; provider.text := text |}
    | Some access =>
        with_trace llm_span
          (tools.ensure_repo_write_access clk (github env) access) ;;
        tool_loop request access llm_span (seq 0 12) []
    end.
End Provider.

End gemini.

(* ------------------------------------------------------------------ *)
(** ** Vocabulary of the statements *)

Import logger.

(** The steps from a span's document to the document of a descendant. *)
Definition span_steps (path : list nat) : list step :=
  flat_map (fun i => [Key "children"; Idx i]) path.

(** A span as [child(name, **data)] leaves it, read at the given clock values. *)
Definition fresh_span (nm : string) (dt : dict) : logger.TraceSpan.t :=
  logger.TraceSpan.mk nm "in_progress" "2026-01-01T00:00:00+00:00" 0%Q
    None None dt [] [].

(** A clock that advances one second per reading. *)
Definition demo_clock : Clock :=
  {| utc_now_iso := fun _ => "2026-01-01T00:00:00+00:00";
     monotonic := fun n => inject_Z (Z.of_nat n);
     epoch := fun n => Z.of_nat n |}.

(** The float nearest to 0.29, and a clock whose every reading it is. *)
Definition NEAREST_0_29 : Q := 5224175567749775 # 18014398509481984.

Definition still_clock : Clock :=
  {| utc_now_iso := fun _ => "2026-01-01T00:00:00+00:00";
     monotonic := fun _ => NEAREST_0_29;
     epoch := fun n => Z.of_nat n |}.

(** [data_at tr pos d]: the data mapping [d] of the request trace [tr] is
    serialized at position [pos] of its document.  These are the metadata of
    the request, the data of every span of the tree and the data of every
    event of every span. *)
Inductive data_at (tr : logger.RequestTrace.t) : list step -> dict -> Prop :=
| data_at_metadata :
    data_at tr [Key "metadata"] (logger.RequestTrace.metadata tr)
| data_at_span path sp :
    logger.TraceSpan.get path (logger.RequestTrace.root tr) = Some sp ->
    data_at tr (Key "trace" :: span_steps path ++ [Key "data"])
            (logger.TraceSpan.data sp)
| data_at_event path sp j e :
    logger.TraceSpan.get path (logger.RequestTrace.root tr) = Some sp ->
    nth_error (logger.TraceSpan.events sp) j = Some e ->
    data_at tr (Key "trace" :: span_steps path ++ [Key "events"; Idx j; Key "data"])
            (logger.TraceEvent.data e).
(** A request trace with one child span under the root; the span carries an
    event.  The data hold a secret under a telling key and a string that
    names a secret. *)
Definition demo_trace : RequestTrace.t :=
  RequestTrace.mk "req-1" [("user", VStr "U1")] "2026-01-01T00:00:00+00:00"
    (TraceSpan.mk "request.lifecycle" "in_progress" "2026-01-01T00:00:00+00:00"
       0%Q None None [] []
       [ TraceSpan.mk "llm.workflow" "in_progress" "2026-01-01T00:00:00+00:00"
           0%Q None None
           [ ("api_key", VStr "hunter2");
             ("headers", VList [VStr "Authorization: Bearer abc"]) ]
           [ TraceEvent.mk "gemini.http.start" "ok" "2026-01-01T00:00:00+00:00"
               [("note", VStr "Secret rotated")] ]
           [] ]).

(** [untouched w w']: from [w] to [w'] only the trace and the clock moved. *)
Definition untouched {G} (w w' : World G) : Prop :=
  gemini_log w' = gemini_log w /\ sleeps w' = sleeps w
  /\ host w' = host w /\ active_span w' = active_span w
  /\ host_calls w' = host_calls w.

(** [posted w w' prompts]: from [w] to [w'] exactly [prompts] were posted to
    the generation endpoint, in this order. *)
Definition posted {G} (w w' : World G) (prompts : list string) : Prop :=
  gemini_log w' = gemini_log w ++ prompts.

(** Timeouts and connection errors. *)
Definition is_transport_failure (o : http_outcome) : bool :=
  match o with
  | Timeout | UrlError _ => true
  | HttpOk _ _ | HttpError _ _ => false
  end.

(** [advanced w w' prompts naps]: from [w] to [w'] the program posted
    [prompts] to the generation endpoint and slept for [naps]; it made no
    call into the client of the repository host. *)
Definition advanced {G} (w w' : World G) (prompts : list string) (naps : list Q)
  : Prop :=
  gemini_log w' = gemini_log w ++ prompts /\ sleeps w' = sleeps w ++ naps
  /\ host w' = host w /\ active_span w' = active_span w
  /\ host_calls w' = host_calls w.

(** The error [_generate_text] keeps in [last_error] for a failed attempt. *)
Definition failure_error (self : gemini.GeminiProvider) (attempt : nat)
    (o : http_outcome) (otherwise : option exn) : option exn :=
  match o with
  | Timeout => Some (gemini.timeout_error self attempt)
  | UrlError reason => Some (gemini.network_error reason)
  | _ => otherwise
  end.

(** The pauses after failed attempts [a], [a+1], ..., [a+k-1]. *)
Definition naps_of (self : gemini.GeminiProvider) (a k : nat) : list Q :=
  map gemini.backoff (filter (fun i => i <? gemini.max_retries self) (seq a k)).

(** [last_error] after the attempts [a], ..., [a+k-1] all failed; [o j] is
    the outcome of the [j]-th of them. *)
Fixpoint last_error_after (self : gemini.GeminiProvider) (o : nat -> http_outcome)
    (a k : nat) (le : option exn) : option exn :=
  match k with
  | 0 => le
  | S k' => last_error_after self (fun j => o (S j)) (S a) k'
              (failure_error self a (o 0) le)
  end.

(** What [_generate_text] makes of a response document: its text, or the
    error it raises. *)
Definition text_result {G} (env : Env G) (raw : string) : outcome string :=
  match gemini.combined_text env raw with
  | Ok EmptyString => Raise (RuntimeError [Lit "Gemini response missing text content"])
  | r => r
  end.

(** *** A JSON codec for the examples

    [json.loads] and [json.dumps] belong to the standard library and enter
    the embedding as parameters.  The examples instantiate them with the
    codec below, which covers JSON texts without fractions and exponents and
    strings of code points below 256. *)

Module DemoJson.

Definition is_ws (c : ascii) : bool :=
  let n := nat_of_ascii c in
  (n =? 32) || (n =? 9) || (n =? 10) || (n =? 13).

Definition skip_ws : string -> string := PyStr.lstrip_by is_ws.

Definition is_digit (c : ascii) : bool :=
  let n := nat_of_ascii c in (48 <=? n) && (n <=? 57).

Fixpoint span_digits (s : string) : string * string :=
  match s with
  | String c t =>
      if is_digit c
      then let '(ds, rest) := span_digits t in (String c ds, rest)
      else (EmptyString, s)
  | EmptyString => (EmptyString, EmptyString)
  end.

Definition hex_value (c : ascii) : option nat :=
  let n := nat_of_ascii c in
  if (48 <=? n) && (n <=? 57) then Some (n - 48)
  else if (97 <=? n) && (n <=? 102) then Some (n - 87)
  else if (65 <=? n) && (n <=? 70) then Some (n - 55)
  else None.

Definition hex_digit (n : nat) : ascii :=
  if n <? 10 then ascii_of_nat (48 + n) else ascii_of_nat (87 + n).

(** An integer literal; a fraction or an exponent is not covered. *)
Definition parse_int (s : string) : option (Z * string) :=
  let '(neg, body) := match s with
                      | String c t => if Ascii.eqb c "-"%char then (true, t) else (false, s)
                      | EmptyString => (false, s)
                      end in
  let '(ds, rest) := span_digits body in
  let followed := match rest with
                  | String c _ => Ascii.eqb c "."%char || Ascii.eqb c "e"%char
                                  || Ascii.eqb c "E"%char
                  | EmptyString => false
                  end in
  match ds with
  | EmptyString => None
  | _ =>
      if followed then None
      else match NilZero.int_of_string ds with
           | Some i => Some (if neg then (- Z.of_int i)%Z else Z.of_int i, rest)
           | None => None
           end
  end.

(** The characters of a string literal after its opening quote. *)
Fixpoint parse_chars (s : string) : option (string * string) :=
  match s with
  | EmptyString => None
  | String c t =>
      if Ascii.eqb c DQ then Some (EmptyString, t)
      else if Ascii.eqb c BACKSLASH then
        match t with
        | String e t' =>
            let plain (x : ascii) :=
              match parse_chars t' with
              | Some (r, rest) => Some (String x r, rest)
              | None => None
              end in
            if Ascii.eqb e DQ then plain DQ
            else if Ascii.eqb e BACKSLASH then plain BACKSLASH
            else if Ascii.eqb e "/"%char then plain "/"%char
            else if Ascii.eqb e "b"%char then plain (ascii_of_nat 8)
            else if Ascii.eqb e "f"%char then plain (ascii_of_nat 12)
            else if Ascii.eqb e "n"%char then plain (ascii_of_nat 10)
            else if Ascii.eqb e "r"%char then plain (ascii_of_nat 13)
            else if Ascii.eqb e "t"%char then plain (ascii_of_nat 9)
            else if Ascii.eqb e "u"%char then
              match t' with
              | String h1 (String h2 (String h3 (String h4 t''))) =>
                  match hex_value h1, hex_value h2, hex_value h3, hex_value h4 with
                  | Some 0, Some 0, Some a, Some b =>
                      match parse_chars t'' with
                      | Some (r, rest) => Some (String (ascii_of_nat (16 * a + b)) r, rest)
                      | None => None
                      end
                  | _, _, _, _ => None
                  end
              | _ => None
              end
            else None
        | EmptyString => None
        end
      else if nat_of_ascii c <? 32 then None
      else match parse_chars t with
           | Some (r, rest) => Some (String c r, rest)
           | None => None
           end
  end.

Fixpoint parse_value (fuel : nat) (s : string) : option (value * string) :=
  match fuel with
  | 0 => None
  | S fuel' =>
      match skip_ws s with
      | EmptyString => None
      | String c t as s' =>
          if Ascii.eqb c LBRACE then
            match skip_ws t with
            | String c2 t2 =>
                if Ascii.eqb c2 RBRACE then Some (VDict [], t2)
                else parse_members fuel' t []
            | EmptyString => None
            end
          else if Ascii.eqb c "["%char then
            match skip_ws t with
            | String c2 t2 =>
                if Ascii.eqb c2 "]"%char then Some (VList [], t2)
                else parse_elements fuel' t []
            | EmptyString => None
            end
          else if Ascii.eqb c DQ then
            match parse_chars t with
            | Some (str, rest) => Some (VStr str, rest)
            | None => None
            end
          else if PyStr.startswith s' "true" then Some (VBool true, PyStr.drop 4 s')
          else if PyStr.startswith s' "false" then Some (VBool false, PyStr.drop 5 s')
          else if PyStr.startswith s' "null" then Some (VNone, PyStr.drop 4 s')
          else match parse_int s' with
               | Some (z, rest) => Some (VInt z, rest)
               | None => None
               end
      end
  end
with parse_members (fuel : nat) (s : string) (acc : dict) : option (value * string) :=
  match fuel with
  | 0 => None
  | S fuel' =>
      match skip_ws s with
      | String c t =>
          if Ascii.eqb c DQ then
            match parse_chars t with
            | Some (k, rest) =>
                match skip_ws rest with
                | String colon rest2 =>
                    if Ascii.eqb colon ":"%char then
                      match parse_value fuel' rest2 with
                      | Some (v, rest3) =>
                          match skip_ws rest3 with
                          | String d rest4 =>
                              if Ascii.eqb d ","%char
                              then parse_members fuel' rest4 (dict_set k v acc)
                              else if Ascii.eqb d RBRACE
                                   then Some (VDict (dict_set k v acc), rest4)
                                   else None
                          | EmptyString => None
                          end
                      | None => None
                      end
                    else None
                | EmptyString => None
                end
            | None => None
            end
          else None
      | EmptyString => None
      end
  end
with parse_elements (fuel : nat) (s : string) (acc : list value) : option (value * string) :=
  match fuel with
  | 0 => None
  | S fuel' =>
      match parse_value fuel' s with
      | Some (v, rest) =>
          match skip_ws rest with
          | String d rest2 =>
              if Ascii.eqb d ","%char then parse_elements fuel' rest2 (acc ++ [v])
              else if Ascii.eqb d "]"%char then Some (VList (acc ++ [v]), rest2)
              else None
          | EmptyString => None
          end
      | None => None
      end
  end.

Definition loads (s : string) : string + value :=
  match parse_value (2 * String.length s + 2) s with
  | Some (v, rest) =>
      match skip_ws rest with
      | EmptyString => inr v
      | _ => inl "Extra data"
      end
  | None => inl "Expecting value"
  end.

Definition escape_char (c : ascii) : string :=
  let n := nat_of_ascii c in
  if Ascii.eqb c DQ then String BACKSLASH (String DQ EmptyString)
  else if Ascii.eqb c BACKSLASH then String BACKSLASH (String BACKSLASH EmptyString)
  else if n =? 10 then String BACKSLASH "n"
  else if n =? 13 then String BACKSLASH "r"
  else if n =? 9 then String BACKSLASH "t"
  else if n =? 8 then String BACKSLASH "b"
  else if n =? 12 then String BACKSLASH "f"
  else if (n <? 32) || (126 <? n)
       then String BACKSLASH
              (String "u" (String "0" (String "0"
                 (String (hex_digit (n / 16)) (String (hex_digit (n mod 16)) EmptyString)))))
       else String c EmptyString.

Fixpoint escape (s : string) : string :=
  match s with
  | EmptyString => EmptyString
  | String c t => (escape_char c ++ escape t)%string
  end.

Definition quote (s : string) : string :=
  (String DQ (escape s) ++ String DQ EmptyString)%string.

(** [json.dumps] with its default separators. *)
Fixpoint dumps (v : value) : string :=
  match v with
  | VNone => "null"
  | VBool true => "true"
  | VBool false => "false"
  | VInt z => NilZero.string_of_int (Z.to_int z)
  | VFloat r => r
  | VStr s => quote s
  | VList l => ("[" ++ PyStr.join ", " (map dumps l) ++ "]")%string
  | VDict d =>
      ("{" ++ PyStr.join ", " (map (fun '(k, x) => (quote k ++ ": " ++ dumps x)%string) d)
       ++ "}")%string
  end.

End DemoJson.

(** *** A world for the examples *)

(** A repository host that grants push access and answers every operation;
    its state is the list of the operations performed. *)
Definition demo_github : tools.GithubTools (list string) :=
  {| tools._request := fun method path _ g =>
       ((Ok (VDict [ ("default_branch", VStr "main");
                     ("permissions", VDict [("push", VBool true)]) ]),
         [ {| es_name := "github.http.start"; es_status := "ok";
              es_data := [("method", VStr method); ("path", VStr path)] |} ]),
        g ++ [(method ++ " " ++ path)%string]);
     tools.create_branch := fun _ new_branch _ g =>
       ((Ok new_branch, []), g ++ ["create_branch"]);
     tools.list_files := fun _ _ g =>
       ((Ok [VStr "README.md"; VStr "src/app.py"], []), g ++ ["list_files"]);
     tools.read_file := fun _ _ _ g =>
       ((Ok "print(1)", []), g ++ ["read_file"]);
     tools.write_file := fun _ _ g =>
       ((Ok (VStr "abc123"), []), g ++ ["write_file"]);
     tools.create_pull_request := fun _ _ g =>
       ((Ok (VStr "https://github.com/acme/widgets/pull/4"), []),
        g ++ ["create_pull_request"]) |}.

Definition demo_env (answers : nat -> string -> http_outcome) : Env (list string) :=
  {| clock := demo_clock;
     json_loads := DemoJson.loads;
     json_dumps := DemoJson.dumps;
     plan_schema := "{'title': 'PlanSchema'}";
     gemini_urlopen := answers;
     github := demo_github |}.

Definition demo_self : gemini.GeminiProvider :=
  {| gemini.api_key := "key-1"; gemini.model := "gemini-2.5-pro";
     gemini.request_timeout_seconds := 60; gemini.max_retries := 2 |}.

(** The world at the start of a request: a fresh trace, nothing posted. *)
Definition demo_world : World (list string) :=
  let '(tr, tick) := RequestTrace.create demo_clock "req-1" None 0 in
  mkWorld (Some tr) tick [] [] None [] 0.

(** The response document of the generation endpoint that carries [text]. *)
Definition gemini_reply (text : string) : http_outcome :=
  HttpOk 200
    (DemoJson.dumps
       (VDict [ ("candidates",
                 VList [ VDict [ ("content",
                   VDict [ ("parts", VList [ VDict [("text", VStr text)] ]) ]) ] ]) ])).

(** The answer of the host to [GET /repos/{owner}/{repo}] in state [g]. *)
Definition repo_document {G} (gh : tools.GithubTools G)
    (access : tools.RepoAccess.t) (g : G) : outcome value :=
  fst (fst (tools._request gh "GET" (tools.repo_path access) None g)).

(** The [push] entry of a permissions mapping is absent, or tests false
    ([False], [None], zero, empty). *)
Definition push_absent_or_false (permissions : dict) : Prop :=
  match dict_get "push" permissions with
  | None => True
  | Some v => truthy v = false
  end.

(** The write-access check as a function of the repository document. *)
Definition check_outcome (document : outcome value) : outcome unit :=
  and_then document (fun repo =>
  and_then (Py.get "permissions" VNone repo) (fun permissions =>
  if tools.push_denied permissions
  then Raise (RuntimeError tools.NO_PUSH_ACCESS) else Ok tt)).

(** The first character of [p] is not whitespace. *)
Definition starts_nonspace (p : string) : bool :=
  match p with
  | String a _ => negb (PyStr.is_space a)
  | EmptyString => false
  end.

(** The last character of [p] is not whitespace. *)
Fixpoint ends_nonspace (p : string) : bool :=
  match p with
  | EmptyString => false
  | String a EmptyString => negb (PyStr.is_space a)
  | String _ t => ends_nonspace t
  end.

(** The request of scenario B of the specification. *)
Definition scenario_b_prompt : string :=
  "fix bug in https://github.com/acme/widgets".

(** An endpoint that answers every request with a plan. *)
Definition plan_answers : nat -> string -> http_outcome :=
  fun _ _ => gemini_reply (dq "{'objective': 'fix it'}").

(** *** JSON texts *)

(** Whitespace between the tokens of a JSON text. *)
Definition json_ws (s : string) : Prop :=
  forall c, PyStr.mem_char c s = true -> DemoJson.is_ws c = true.

(** The characters of literals and numbers: letters, digits, sign, point. *)
Definition is_atom_char (c : ascii) : bool :=
  let n := nat_of_ascii c in
  ((48 <=? n) && (n <=? 57)) || ((65 <=? n) && (n <=? 90))
  || ((97 <=? n) && (n <=? 122)) || (n =? 43) || (n =? 45) || (n =? 46).

(** [true], [false], [null] and the numbers are among these. *)
Definition json_atom (s : string) : Prop :=
  s <> EmptyString /\ forall c, PyStr.mem_char c s = true -> is_atom_char c = true.

(** A string literal after its opening quote: plain characters, escapes (a
    backslash and the character it escapes) and the closing quote. *)
Inductive json_chars : string -> Prop :=
| jc_close : json_chars (String DQ EmptyString)
| jc_plain c t :
    c <> DQ -> c <> BACKSLASH -> json_chars t -> json_chars (String c t)
| jc_escape e t :
    json_chars t -> json_chars (String BACKSLASH (String e t)).

(** The texts of JSON values, of the items of an array and of the members of
    an object. *)
Inductive json_text : string -> Prop :=
| jt_pad a s b :
    json_ws a -> json_ws b -> json_text s -> json_text (a ++ s ++ b)%string
| jt_atom s : json_atom s -> json_text s
| jt_string body : json_chars body -> json_text (String DQ body)
| jt_array_empty a : json_ws a -> json_text ("[" ++ a ++ "]")%string
| jt_array items : json_items items -> json_text ("[" ++ items ++ "]")%string
| jt_object_empty a : json_ws a -> json_text ("{" ++ a ++ "}")%string
| jt_object members : json_members members -> json_text ("{" ++ members ++ "}")%string
with json_items : string -> Prop :=
| ji_last s : json_text s -> json_items s
| ji_more s rest :
    json_text s -> json_items rest -> json_items (s ++ "," ++ rest)%string
with json_members : string -> Prop :=
| jm_last a k b v :
    json_ws a -> json_chars k -> json_ws b -> json_text v ->
    json_members (a ++ String DQ k ++ b ++ ":" ++ v)%string
| jm_more a k b v rest :
    json_ws a -> json_chars k -> json_ws b -> json_text v -> json_members rest ->
    json_members (a ++ String DQ k ++ b ++ ":" ++ v ++ "," ++ rest)%string.

Scheme json_text_mut := Induction for json_text Sort Prop
  with json_items_mut := Induction for json_items Sort Prop
  with json_members_mut := Induction for json_members Sort Prop.

Combined Scheme json_mutind from json_text_mut, json_items_mut, json_members_mut.

(** The text of a JSON object: braces around nothing or around members. *)
Inductive json_object_text : string -> Prop :=
| jo_empty a : json_ws a -> json_object_text ("{" ++ a ++ "}")%string
| jo_members members :
    json_members members -> json_object_text ("{" ++ members ++ "}")%string.

(** The specification's reading of step (2): the index of the first brace
    that is not inside a quoted string, the quotes being followed from the
    start of the text. *)
Fixpoint first_unquoted_brace (s : string) (index : nat)
    (in_string escaped : bool) : option nat :=
  match s with
  | EmptyString => None
  | String c t =>
      if in_string then
        if escaped then first_unquoted_brace t (S index) true false
        else if Ascii.eqb c BACKSLASH then first_unquoted_brace t (S index) true true
        else if Ascii.eqb c DQ then first_unquoted_brace t (S index) false false
        else first_unquoted_brace t (S index) true false
      else if Ascii.eqb c DQ then first_unquoted_brace t (S index) true false
      else if Ascii.eqb c LBRACE then Some index
      else first_unquoted_brace t (S index) false false
  end.

(** [scan_passes s]: outside a string and inside an open object, the scan
    reads through [s] and is afterwards where it was. *)
Definition scan_passes (s : string) : Prop :=
  forall (t : string) (index : nat) (depth : Z),
    (1 <= depth)%Z ->
    json_utils.scan (s ++ t)%string index depth false false
    = json_utils.scan t (index + String.length s) depth false false.

(** The message of the no-object-found error. *)
Definition NO_OBJECT : string := "No JSON object found in text".

(** An answer of the oracle: chatter, an object whose string value holds
    braces and an escaped quote, and a remark after it. *)
Definition chatty_object : string := dq "{'msg': '}{\''}".
Definition chatty_answer : string :=
  ("Sure: " ++ chatty_object ++ "  see above ")%string.

(** *** Runs of the tool workflow *)

(** What [_parse_action] makes of the model's text. *)
Definition parse_result {G} (env : Env G) (model_text : string) : outcome dict :=
  match json_utils.extract_first_json_object (json_loads env) model_text with
  | Raise (ValueError _) =>
      Raise (RuntimeError [Lit "Gemini response is not JSON: "; Lit model_text])
  | Raise e => Raise e
  | Ok (payload, _) => gemini.classify_action payload
  end.

(** [answers env n text]: the [n]-th request to the generation endpoint is
    answered, whatever the prompt, by a document whose text is [text]. *)
Definition answers {G} (env : Env G) (n : nat) (text : string) : Prop :=
  forall prompt, exists st raw,
    gemini_urlopen env n prompt = HttpOk st raw /\ text_result env raw = Ok text.

(** The text decodes to a [tool_call] action. *)
Definition decodes_to_tool_call {G} (env : Env G) (text : string) (action : dict)
  : Prop :=
  parse_result env text = Ok action
  /\ dict_get "type" action = Some (VStr "tool_call").

(** The text decodes to a [final] action with the given message. *)
Definition decodes_to_final {G} (env : Env G) (text : string) (message : value)
  : Prop :=
  exists action,
    parse_result env text = Ok action
    /\ dict_get "type" action = Some (VStr "final")
    /\ dict_get "message" action = Some message.

(** The dispatch of the action's tool succeeds, in whatever state the
    repository host is. *)
Definition tool_succeeds {G} (env : Env G) (access : tools.RepoAccess.t)
    (action : dict) : Prop :=
  forall (span : span_ref) (w : World G),
    exists result w',
      gemini._execute_tool env access
        (dict_get_default "tool" VNone action)
        (dict_get_default "arguments" (VDict []) action) span w
      = (Ok result, w').

(** The access check passes in the world [w]. *)
Definition access_granted {G} (env : Env G) (access : tools.RepoAccess.t)
    (w : World G) : Prop :=
  check_outcome (repo_document (github env) access (host w)) = Ok tt.

(** [tool_calls env access n0 k texts]: the requests [n0], ..., [n0 + k - 1]
    are answered by the texts [texts 0], ..., [texts (k - 1)]; each decodes
    to a tool call, and its dispatch succeeds. *)
Definition tool_calls {G} (env : Env G) (access : tools.RepoAccess.t)
    (n0 k : nat) (texts : nat -> string) : Prop :=
  forall i, i < k ->
    answers env (n0 + i) (texts i)
    /\ exists action, decodes_to_tool_call env (texts i) action
                      /\ tool_succeeds env access action.

(** The prompt of a step of the tool workflow: the payload over the
    history and a reading of the clock, serialized. *)
Definition tool_prompt {G} (env : Env G) (request : provider.AgentRequest)
    (access : tools.RepoAccess.t) (history : list value) (timestamp : Z) : string :=
  json_dumps env
    (gemini.tool_prompt_payload (provider.prompt request) access history timestamp).

(** [answers_after env self n tries text asked]: when the prompt is one of
    [asked], the requests [n], ..., [n + tries - 1] to the generation
    endpoint fail in transport (a timeout or a connection error, after
    which [_generate_text] tries again), and the request [n + tries] is
    answered by a document whose text is [text].  [tries] is at most the
    number of retries. *)
Definition answers_after {G} (env : Env G) (self : gemini.GeminiProvider)
    (n tries : nat) (text : string) (asked : string -> Prop) : Prop :=
  tries <= gemini.max_retries self
  /\ forall prompt,
       asked prompt ->
       (forall j, j < tries ->
          is_transport_failure (gemini_urlopen env (n + j) prompt) = true)
       /\ exists st raw,
            gemini_urlopen env (n + tries) prompt = HttpOk st raw
            /\ text_result env raw = Ok text.

(** The number of the first request of step [i], when the requests of the
    workflow begin at [n0] and step [j] takes [tries j] failed attempts and
    the one that is answered. *)
Fixpoint request_index (n0 : nat) (tries : nat -> nat) (i : nat) : nat :=
  match i with
  | 0 => n0
  | S i' => request_index (n0 + S (tries 0)) (fun j => tries (S j)) i'
  end.

(** What reaches the generation endpoint when the [i]-th prompt is posted
    [tries i + 1] times. *)
Fixpoint reposted (tries : nat -> nat) (prompts : list string) : list string :=
  match prompts with
  | [] => []
  | prompt :: rest =>
      repeat prompt (S (tries 0)) ++ reposted (fun j => tries (S j)) rest
  end.

(** The state in which the access check leaves the repository host. *)
Definition host_after_check {G} (env : Env G) (access : tools.RepoAccess.t)
    (g : G) : G :=
  snd (tools._request (github env) "GET" (tools.repo_path access) None g).

(** The dispatch of the action's tool succeeds whenever the repository host
    is in a state of [before]; it leaves the host in a state of [after], and
    its result is one of [results]. *)
Definition dispatch_succeeds {G} (env : Env G) (access : tools.RepoAccess.t)
    (action : dict) (before after : G -> Prop) (results : value -> Prop) : Prop :=
  forall (span : span_ref) (w : World G),
    before (host w) ->
    exists result w',
      gemini._execute_tool env access
        (dict_get_default "tool" VNone action)
        (dict_get_default "arguments" (VDict []) action) span w
      = (Ok result, w')
      /\ after (host w') /\ results result.

(** The entries are those of the tool calls answered by [texts], in order,
    the result of the [i]-th call being one of [results i]. *)
Definition entries_with (texts : nat -> string) (results : nat -> value -> Prop)
    (entries : list value) : Prop :=
  forall i, i < List.length entries ->
    exists result,
      results i result
      /\ nth_error entries i = Some (gemini.history_entry (texts i) result).

(** The prompts the workflow can build at step [i] of a run that began
    with [history]: the history has grown by the entries of the [i] tool
    calls before, and the timestamp is a reading of the clock. *)
Definition step_prompt {G} (env : Env G) (request : provider.AgentRequest)
    (access : tools.RepoAccess.t) (history : list value) (texts : nat -> string)
    (results : nat -> value -> Prop) (i : nat) (prompt : string) : Prop :=
  exists entries n,
    List.length entries = i
    /\ entries_with texts results entries
    /\ prompt = tool_prompt env request access (history ++ entries)
                  (epoch (clock env) n).

(** [tool_run env self request access history n0 k tries texts states
    results]: a run of [k] steps of the workflow that begins with [history]
    and whose requests begin at [n0].  The prompt of step [i] is answered,
    after [tries i] failed attempts, by the text [texts i]; the text decodes
    to a tool call; and the dispatch of the call succeeds in the states
    [states i] of the repository host, one of which the host is in at that
    step; it leaves the host in one of [states (i + 1)], and its result is
    one of [results i]. *)
Definition tool_run {G} (env : Env G) (self : gemini.GeminiProvider)
    (request : provider.AgentRequest) (access : tools.RepoAccess.t)
    (history : list value) (n0 k : nat) (tries : nat -> nat)
    (texts : nat -> string) (states : nat -> G -> Prop)
    (results : nat -> value -> Prop) : Prop :=
  forall i, i < k ->
    answers_after env self (request_index n0 tries i) (tries i) (texts i)
      (step_prompt env request access history texts results i)
    /\ exists action, decodes_to_tool_call env (texts i) action
                      /\ dispatch_succeeds env access action
                           (states i) (states (S i)) (results i).

(** The entries are those of the tool calls answered by [texts], in order. *)
Definition entries_of (texts : nat -> string) (entries : list value) : Prop :=
  forall i, i < List.length entries ->
    exists result, nth_error entries i = Some (gemini.history_entry (texts i) result).

(** The [i]-th prompt serializes the history grown by the first [i] entries. *)
Definition prompts_of {G} (env : Env G) (request : provider.AgentRequest)
    (access : tools.RepoAccess.t) (history entries : list value)
    (prompts : list string) : Prop :=
  forall i, i < List.length prompts ->
    exists ts,
      nth_error prompts i
      = Some (json_dumps env
                (gemini.tool_prompt_payload (provider.prompt request) access
                   (history ++ firstn i entries) ts)).

(** The tool name is none of the names the dispatch knows. *)
Definition unknown_tool (tool : value) : Prop :=
  forall name, In name gemini.TOOL_NAMES -> Py.eq_str tool name = false.

(** A request in chat mode that names a repository. *)
Definition demo_request : provider.AgentRequest :=
  {| provider.prompt := "update the readme of https://github.com/acme/widgets";
     provider.mode := "chat";
     provider.context := [] |}.

Definition demo_access : tools.RepoAccess.t :=
  tools.RepoAccess.mk "acme" "widgets" "main".

Definition list_files_call : string :=
  dq "{'type':'tool_call','tool':'list_files','arguments':{}}".

Definition delete_repo_call : string :=
  dq "{'type':'tool_call','tool':'delete_repo','arguments':{}}".

Definition final_answer : string :=
  dq "{'type':'final','message':'Created PR #4'}".

(** An oracle that asks for the file list, again and again. *)
Definition listing_answers : nat -> string -> http_outcome :=
  fun _ _ => gemini_reply list_files_call.

(** An oracle that never answers with JSON. *)
Definition chatter_answers : nat -> string -> http_outcome :=
  fun _ _ => gemini_reply "I cannot help with that.".

(** Scenario B: one tool call, then the final answer. *)
Definition scenario_b_answers : nat -> string -> http_outcome :=
  fun n _ => match n with
             | 0 => gemini_reply list_files_call
             | _ => gemini_reply final_answer
             end.

(** Scenario C: a tool call, then a call of a tool that does not exist. *)
Definition scenario_c_answers : nat -> string -> http_outcome :=
  fun n _ => match n with
             | 0 => gemini_reply list_files_call
             | _ => gemini_reply delete_repo_call
             end.

(** *** A repository host with a budget

    Every operation of this host takes one unit of its budget, the state of
    the host; with the budget used up, every operation is refused. *)
Definition RATE_LIMITED : exn :=
  RuntimeError [Lit "GitHub API error (403): rate limit exceeded"].

Definition metered {A} (answer : A) : backend_op nat A :=
  fun budget =>
    match budget with
    | 0 => ((Raise RATE_LIMITED, []), 0)
    | S remaining => ((Ok answer, []), remaining)
    end.

Definition metered_github : tools.GithubTools nat :=
  {| tools._request := fun _ _ _ =>
       metered (VDict [ ("default_branch", VStr "main");
                        ("permissions", VDict [("push", VBool true)]) ]);
     tools.create_branch := fun _ new_branch _ => metered new_branch;
     tools.list_files := fun _ _ => metered [VStr "README.md"; VStr "src/app.py"];
     tools.read_file := fun _ _ _ => metered "print(1)";
     tools.write_file := fun _ _ => metered (VStr "abc123");
     tools.create_pull_request := fun _ _ =>
       metered (VStr "https://github.com/acme/widgets/pull/4") |}.

Definition metered_env (answers : nat -> string -> http_outcome) : Env nat :=
  {| clock := demo_clock;
     json_loads := DemoJson.loads;
     json_dumps := DemoJson.dumps;
     plan_schema := "{'title': 'PlanSchema'}";
     gemini_urlopen := answers;
     github := metered_github |}.

(** The world at the start of a request, the host having [budget] units. *)
Definition metered_world (budget : nat) : World nat :=
  let '(tr, tick) := RequestTrace.create demo_clock "req-1" None 0 in
  mkWorld (Some tr) tick [] [] None budget 0.

(** The host has [budget] units left. *)
Definition has_budget (budget : nat) (g : nat) : Prop := g = budget.

(** An oracle that asks for the file list again and again; its first
    request times out and its fourth meets a connection error. *)
Definition flaky_listing_answers : nat -> string -> http_outcome :=
  fun n _ => match n with
             | 0 => Timeout
             | 3 => UrlError "connection reset"
             | _ => gemini_reply list_files_call
             end.

(** The failed attempts of the steps under [flaky_listing_answers]. *)
Definition flaky_listing_tries (i : nat) : nat :=
  match i with
  | 0 | 2 => 1
  | _ => 0
  end.

(** Scenario B with a timeout: one tool call, a request that times out,
    then the final answer. *)
Definition flaky_scenario_b_answers : nat -> string -> http_outcome :=
  fun n _ => match n with
             | 0 => gemini_reply list_files_call
             | 1 => Timeout
             | _ => gemini_reply final_answer
             end.

(** No float occurs in the value. *)
Fixpoint float_free (v : value) : bool :=
  match v with
  | VFloat _ => false
  | VList l => forallb float_free l
  | VDict d => forallb (fun '(_, x) => float_free x) d
  | _ => true
  end.

(** Induction on values, through the lists and the mappings. *)
Fixpoint value_ind' (P : value -> Prop)
    (HNone : P VNone) (HBool : forall b, P (VBool b)) (HInt : forall z, P (VInt z))
    (HFloat : forall r, P (VFloat r)) (HStr : forall s, P (VStr s))
    (HList : forall l, (forall x, In x l -> P x) -> P (VList l))
    (HDict : forall d, (forall k x, In (k, x) d -> P x) -> P (VDict d))
    (v : value) {struct v} : P v.
Proof.
  destruct v as [|b|z|r|s|l|d].
  - exact HNone.
  - apply HBool.
  - apply HInt.
  - apply HFloat.
  - apply HStr.
  - apply HList. induction l as [|y l IH]; intros x Hx.
    + destruct Hx.
    + destruct (in_inv Hx) as [<-|Hin].
      * exact (value_ind' P HNone HBool HInt HFloat HStr HList HDict y).
      * exact (IH x Hin).
  - apply HDict. induction d as [|[k' y] d IH]; intros k x Hx.
    + destruct Hx.
    + destruct (in_inv Hx) as [Heq|Hin].
      * injection Heq as _ <-.
        exact (value_ind' P HNone HBool HInt HFloat HStr HList HDict y).
      * exact (IH k x Hin).
Defined.

(** A member of an object as [dumps] writes it. *)
Definition member_text (k v : string) : string :=
  (DemoJson.quote k ++ ": " ++ v)%string.

(* ------------------------------------------------------------------ *)
(** ** Further vocabulary: strings, trace trees, tool dispatch *)

(** Every character of [s] satisfies [p]. *)
Fixpoint all_chars (p : ascii -> bool) (s : string) : bool :=
  match s with
  | EmptyString => true
  | String c t => p c && all_chars p t
  end.

(** The text holds no line boundary of [str.splitlines]. *)
Definition one_line (s : string) : bool :=
  all_chars (fun c => negb (PyStr.is_linebreak c)) s.

(** The text is made of whitespace only. *)
Definition blank (s : string) : bool := all_chars PyStr.is_space s.

(** The longest string [_safe_value] lets through: 2000 characters and
    the truncation mark. *)
Definition SAFE_LENGTH : nat := 2000 + String.length "...[truncated]".


(** [grows sp sp']: the span [sp'] is the span [sp] at a later time.  Its
    name and its start are the same, its events are those of [sp] followed
    by further ones, its children are those of [sp], each grown, followed by
    further ones; and if [sp] was finished, then its status, end, duration
    and data are those of [sp]. *)
Inductive grows : TraceSpan.t -> TraceSpan.t -> Prop :=
| grows_span nm st st' sa m fa fa' du du' dt dt' evs more ch ch' :
    grows_children ch ch' ->
    (fa <> None -> st' = st /\ fa' = fa /\ du' = du /\ dt' = dt) ->
    grows (TraceSpan.mk nm st sa m fa du dt evs ch)
          (TraceSpan.mk nm st' sa m fa' du' dt' (evs ++ more) ch')
with grows_children : list TraceSpan.t -> list TraceSpan.t -> Prop :=
| grows_nil more : grows_children [] more
| grows_cons c c' l l' :
    grows c c' -> grows_children l l' -> grows_children (c :: l) (c' :: l').

Scheme grows_mut := Induction for grows Sort Prop
  with grows_children_mut := Induction for grows_children Sort Prop.

Combined Scheme grows_mutind from grows_mut, grows_children_mut.

(** [trace_grows w w']: the request trace of [w'] is that of [w] with a
    grown tree; there is none in [w'] if there was none in [w]. *)
Definition trace_grows {G} (w w' : World G) : Prop :=
  match trace w with
  | None => trace w' = None
  | Some tr =>
      exists tr',
        trace w' = Some tr'
        /\ RequestTrace.request_id tr' = RequestTrace.request_id tr
        /\ RequestTrace.metadata tr' = RequestTrace.metadata tr
        /\ RequestTrace.started_at tr' = RequestTrace.started_at tr
        /\ grows (RequestTrace.root tr) (RequestTrace.root tr')
  end.

(** The computation only ever appends to the trace. *)
Definition appends {G A} (c : M G A) : Prop :=
  forall w, trace_grows w (snd (c w)).

(** Induction on spans, through the lists of children. *)
Fixpoint span_ind' (P : TraceSpan.t -> Prop)
    (H : forall nm st sa m fa du dt evs ch,
           (forall c, In c ch -> P c) ->
           P (TraceSpan.mk nm st sa m fa du dt evs ch))
    (sp : TraceSpan.t) {struct sp} : P sp.
Proof.
  destruct sp as [nm st sa m fa du dt evs ch].
  apply H. induction ch as [|c ch IH]; intros x Hx.
  - destruct Hx.
  - destruct (in_inv Hx) as [<-|Hin].
    + exact (span_ind' P H c).
    + exact (IH x Hin).
Defined.


(** The text of a fenced block: the opening fence with its tag, the lines
    of the body, the closing fence. *)
Definition fenced_block (tag : string) (body : list string) : string :=
  PyStr.join PyStr.newline
    ((json_utils.FENCE ++ tag)%string :: body ++ [json_utils.FENCE]).


(** The groups of the first repository URL in the prompt, as
    [_extract_repo_access] finds them. *)
Definition repo_url_groups (prompt : string) : option (string * string) :=
  gemini.search_repo_url
    (PyStr.replace_char ">"%char " "%char
       (PyStr.replace_char "<"%char " "%char prompt)).

(** The hints of either list. *)
Definition ALL_HINTS : list string := modes.PLAN_HINTS ++ modes.CODE_HINTS.

(** An endpoint that answers every request with the same sentence. *)
Definition greeting_answers : nat -> string -> http_outcome :=
  fun _ _ => gemini_reply "Hello! How can I help?".

(** A repository host whose token may read but not push. *)
Definition read_only_github : tools.GithubTools (list string) :=
  {| tools._request := fun method path _ g =>
       ((Ok (VDict [ ("default_branch", VStr "main");
                     ("permissions", VDict [("push", VBool false)]) ]), []),
        g ++ [(method ++ " " ++ path)%string]);
     tools.create_branch := tools.create_branch demo_github;
     tools.list_files := tools.list_files demo_github;
     tools.read_file := tools.read_file demo_github;
     tools.write_file := tools.write_file demo_github;
     tools.create_pull_request := tools.create_pull_request demo_github |}.

Definition read_only_env : Env (list string) :=
  {| clock := demo_clock;
     json_loads := DemoJson.loads;
     json_dumps := DemoJson.dumps;
     plan_schema := "{'title': 'PlanSchema'}";
     gemini_urlopen := listing_answers;
     github := read_only_github |}.

(* ------------------------------------------------------------------ *)
(** ** Python: [str()], [repr()] and the text of an exception *)

Module PyFmt.

Definition hex_lower (n : nat) : ascii :=
  if n <? 10 then ascii_of_nat (48 + n) else ascii_of_nat (87 + n).

Definition hex_upper (n : nat) : ascii :=
  if n <? 10 then ascii_of_nat (48 + n) else ascii_of_nat (55 + n).

(** [str.isprintable] on one character of the range 0..255. *)
Definition is_printable (c : ascii) : bool :=
  let n := nat_of_ascii c in
  negb ((n <? 32) || ((127 <=? n) && (n <=? 160)) || (n =? 173)).

(** One character inside the quotes of [repr(s)]. *)
Definition repr_char (quote c : ascii) : string :=
  let n := nat_of_ascii c in
  if Ascii.eqb c quote || Ascii.eqb c BACKSLASH
  then String BACKSLASH (String c EmptyString)
  else if n =? 9 then String BACKSLASH "t"
  else if n =? 10 then String BACKSLASH "n"
  else if n =? 13 then String BACKSLASH "r"
  else if is_printable c then String c EmptyString
  else String BACKSLASH
         (String "x" (String (hex_lower (n / 16))
                        (String (hex_lower (n mod 16)) EmptyString))).

Fixpoint repr_chars (quote : ascii) (s : string) : string :=
  match s with
  | EmptyString => EmptyString
  | String c t => (repr_char quote c ++ repr_chars quote t)%string
  end.

Definition APOSTROPHE : ascii := "'"%char.

(** [repr(s)] for a string: in apostrophes, unless it holds an apostrophe
    and no double quote. *)
Definition repr_str (s : string) : string :=
  let quote := if PyStr.mem_char APOSTROPHE s && negb (PyStr.mem_char DQ s)
               then DQ else APOSTROPHE in
  (String quote (repr_chars quote s) ++ String quote EmptyString)%string.

(** [repr(v)] *)
Fixpoint repr (v : value) : string :=
  match v with
  | VNone => "None"
  | VBool true => "True"
  | VBool false => "False"
  | VInt z => NilZero.string_of_int (Z.to_int z)
  | VFloat r => r
  | VStr s => repr_str s
  | VList l => ("[" ++ PyStr.join ", " (map repr l) ++ "]")%string
  | VDict d =>
      ("{" ++ PyStr.join ", " (map (fun '(k, x) => (repr_str k ++ ": " ++ repr x)%string) d)
       ++ "}")%string
  end.

(** [str(v)], which is also what an f-string writes for [{v}]. *)
Definition str (v : value) : string :=
  match v with
  | VStr s => s
  | _ => repr v
  end.

(** The text of an f-string. *)
Fixpoint render (msg : list fragment) : string :=
  match msg with
  | [] => EmptyString
  | Lit s :: rest => (s ++ render rest)%string
  | Fmt v :: rest => (str v ++ render rest)%string
  end.

End PyFmt.

(* ------------------------------------------------------------------ *)
(** ** urllib.parse.quote *)

Module parse.

(** The characters [quote] never escapes: letters, digits and [_.-~]. *)
Definition is_unreserved (c : ascii) : bool :=
  let n := nat_of_ascii c in
  ((65 <=? n) && (n <=? 90)) || ((97 <=? n) && (n <=? 122))
  || ((48 <=? n) && (n <=? 57))
  || (n =? 95) || (n =? 46) || (n =? 45) || (n =? 126).

Definition percent (byte : nat) : string :=
  String "%" (String (PyFmt.hex_upper (byte / 16))
                (String (PyFmt.hex_upper (byte mod 16)) EmptyString)).

(** One character: itself if it is unreserved or safe, else the bytes of
    its UTF-8 encoding, each as [%XX]. *)
Definition quote_char (safe : string) (c : ascii) : string :=
  let n := nat_of_ascii c in
  if n <? 128 then
    if is_unreserved c || PyStr.mem_char c safe then String c EmptyString
    else percent n
  else (percent (192 + n / 64) ++ percent (128 + n mod 64))%string.

(** [quote(s, safe=safe)] for a string [s] and ASCII [safe]. *)
Fixpoint quote (safe : string) (s : string) : string :=
  match s with
  | EmptyString => EmptyString
  | String c t => (quote_char safe c ++ quote safe t)%string
  end.

(** [quote(v, safe=safe)] for any value: only strings are accepted. *)
Definition quote_value (safe : string) (v : value) : outcome string :=
  match v with
  | VStr s => Ok (quote safe s)
  | _ => Raise TypeError
  end.

End parse.

(* ------------------------------------------------------------------ *)
(** ** agent/tools.py: the operations of [GithubTools]

    The operations are written over [backend_op]: a result, the events
    reported through [_trace_event] on the way, and the host afterwards.
    [call] hands the events to the active span in the order of their
    report. *)

(** [s.replace(a, empty)] for a single character, [empty] the empty string *)
Fixpoint remove_char (a : ascii) (s : string) : string :=
  match s with
  | EmptyString => EmptyString
  | String c t => if Ascii.eqb c a then remove_char a t else String c (remove_char a t)
  end.

Definition op_ret {G A} (a : A) : backend_op G A := fun g => ((Ok a, []), g).

Definition op_raise {G A} (e : exn) : backend_op G A := fun g => ((Raise e, []), g).

Definition op_lift {G A} (r : outcome A) : backend_op G A := fun g => ((r, []), g).

Definition op_bind {G A B} (c : backend_op G A) (k : A -> backend_op G B)
  : backend_op G B :=
  fun g =>
    let '((r, evs), g1) := c g in
    match r with
    | Ok a => let '((r2, evs2), g2) := k a g1 in ((r2, evs ++ evs2), g2)
    | Raise e => ((Raise e, evs), g1)
    end.

(** [try: body / except RuntimeError as exc: handler]; the handler is given
    the message of [exc]. *)
Definition op_except_runtime {G A} (body : backend_op G A)
    (handler : list fragment -> backend_op G A) : backend_op G A :=
  fun g =>
    let '((r, evs), g1) := body g in
    match r with
    | Raise (RuntimeError msg) =>
        let '((r2, evs2), g2) := handler msg g1 in ((r2, evs ++ evs2), g2)
    | _ => ((r, evs), g1)
    end.

Declare Scope op_scope.
Delimit Scope op_scope with op.
Notation "x <- c1 ;; c2" := (op_bind c1 (fun x => c2))
  (at level 61, c1 at next level, right associativity) : op_scope.
Notation "c1 ;; c2" := (op_bind c1 (fun _ => c2))
  (at level 61, right associativity) : op_scope.

Module GithubTools.

(** What [urlopen] does with a request to the repository host. *)
Inductive reply : Type :=
| Answered (status : Z) (raw : string)    (* a response was read *)
| HTTPError (code : Z) (detail : string)  (* urllib.error.HTTPError *)
| URLError (reason : string)              (* urllib.error.URLError *)
| Raised (e : exn).                       (* any exception [_request] does not catch *)

(** A [GithubTools] object: its token, its base URL, and [urlopen] on the
    method, the URL, the headers and the body of a request. *)
Record t (G : Type) : Type := mk {
  token : option string;
  api_base : string;
  urlopen : string -> string -> list (string * string) -> option string ->
            G -> reply * G
}.
Arguments mk {G}.
Arguments token {G}.
Arguments api_base {G}.
Arguments urlopen {G}.

(** [GithubTools.__init__]; [getenv] is [os.getenv]. *)
Definition init {G} (getenv : string -> option string)
    (urlopen_ : string -> string -> list (string * string) -> option string ->
                G -> reply * G)
    (token_arg : option string) (api_base_arg : string) : t G :=
  mk (match token_arg with
      | Some (String c k) => Some (String c k)
      | _ => getenv "GITHUB_TOKEN"
      end)
     (PyStr.rstrip_by (fun c => PyStr.mem_char c "/") api_base_arg)
     urlopen_.

Definition event (nm st : string) (dt : dict) : event_spec :=
  {| es_name := nm; es_status := st; es_data := dt |}.

Definition headers (token_ : string) : list (string * string) :=
  [ ("Accept", "application/vnd.github+json");
    ("Authorization", ("Bearer " ++ token_)%string);
    ("X-GitHub-Api-Version", "2022-11-28");
    ("User-Agent", "robertomaluco-agent");
    ("Content-Type", "application/json") ].

Definition WRITE_METHODS : list string := ["POST"; "PUT"; "PATCH"; "DELETE"].

(** The message of the [RuntimeError] raised for an [HTTPError]. *)
Definition http_error_message (method path : string) (code : Z) (detail : string)
  : list fragment :=
  if (code =? 404)%Z && PyStr.startswith path "/repos/" then
    [ Lit "GitHub API error (404) on "; Lit method; Lit " "; Lit path; Lit ": ";
      Lit detail; Lit ". ";
      Lit "For private repos, verify GITHUB_TOKEN can access this repo ";
      Lit "(repo selected for fine-grained token, Contents/Pull requests permissions, ";
      Lit "and SSO authorization if required)." ]
  else if (code =? 403)%Z && PyStr.startswith path "/repos/"
          && existsb (String.eqb method) WRITE_METHODS then
    [ Lit "GitHub API error (403) on "; Lit method; Lit " "; Lit path; Lit ": ";
      Lit detail; Lit ". ";
      Lit "This token can likely read the repo but cannot write. ";
      Lit "For this workflow, grant write permissions to Contents and Pull requests ";
      Lit "(and SSO authorize the token if your org requires it)." ]
  else
    [ Lit "GitHub API error ("; Fmt (VInt code); Lit ") on "; Lit method; Lit " ";
      Lit path; Lit ": "; Lit detail ].

Definition MISSING_TOKEN : list fragment :=
  [Lit "Missing GITHUB_TOKEN for GitHub tools"].

Definition NOT_FOUND : string := "GitHub API error (404)".

Section Request.
Context {G : Type}.
Variable json_loads : string -> string + value.
Variable json_dumps : value -> string.
Variable self : t G.

Definition _request (method path : string) (payload : option value)
  : backend_op G value :=
  fun g =>
    match token self with
    | Some (String c k) =>
        let data := option_map json_dumps payload in
        let where_ := [("method", VStr method); ("path", VStr path)] in
        let start := event "github.http.start" "ok" where_ in
        let '(r, g') := urlopen self method (api_base self ++ path)%string
                          (headers (String c k)) data g in
        match r with
        | Answered status raw =>
            let success := event "github.http.success" "ok"
                             (where_ ++ [("status_code", VInt status)]) in
            ((match raw with
              | EmptyString => Ok (VDict [])
              | _ => match json_loads raw with
                     | inl msg => Raise (ValueError msg)
                     | inr v => Ok v
                     end
              end, [start; success]), g')
        | HTTPError code detail =>
            let failure := event "github.http.error" "error"
                             (where_ ++ [ ("status_code", VInt code);
                                          ("detail", VStr detail) ]) in
            ((Raise (RuntimeError (http_error_message method path code detail)),
              [start; failure]), g')
        | URLError reason =>
            let failure := event "github.http.error" "error"
                             (where_ ++ [("reason", VStr reason)]) in
            ((Raise (RuntimeError [ Lit "GitHub network error on "; Lit method;
                                    Lit " "; Lit path; Lit ": "; Lit reason ]),
              [start; failure]), g')
        | Raised e => ((Raise e, [start]), g')
        end
    | _ =>
        ((Raise (RuntimeError MISSING_TOKEN),
          [event "github.auth.error" "error" [("reason", VStr "missing_token")]]), g)
    end.

End Request.

(** The operations built on [_request]. *)
Section Operations.
Context {G : Type}.
Variable b64encode : string -> string.          (* base64 of the UTF-8 bytes *)
Variable b64decode : string -> string + string. (* the decoded text, or the message of the [ValueError] *)
Variable request : string -> string -> option value -> backend_op G value.
Local Open Scope op_scope.

Definition get_default_branch (access : tools.RepoAccess.t) : backend_op G value :=
  repo <- request "GET" (tools.repo_path access) None ;;
  default_branch <- op_lift (Py.get "default_branch" VNone repo) ;;
  op_ret (if truthy default_branch then default_branch
          else VStr (tools.RepoAccess.branch access)).

Definition ref_path (access : tools.RepoAccess.t) (quoted : string) : string :=
  (tools.repo_path access ++ "/git/ref/heads/" ++ quoted)%string.

Definition refs_path (access : tools.RepoAccess.t) : string :=
  (tools.repo_path access ++ "/git/refs")%string.

Definition tree_path (access : tools.RepoAccess.t) (quoted : string) : string :=
  (tools.repo_path access ++ "/git/trees/" ++ quoted ++ "?recursive=1")%string.

Definition contents_path (access : tools.RepoAccess.t) (encoded_path : string)
  : string :=
  (tools.repo_path access ++ "/contents/" ++ encoded_path)%string.

Definition contents_at (access : tools.RepoAccess.t) (encoded_path quoted : string)
  : string :=
  (contents_path access encoded_path ++ "?ref=" ++ quoted)%string.

Definition pulls_path (access : tools.RepoAccess.t) : string :=
  (tools.repo_path access ++ "/pulls")%string.

(** The test of [create_branch] on the message of a failed creation:
    the branch is there already. *)
Definition already_exists (text : string) : bool :=
  PyStr.contains "GitHub API error (422)" text
  && PyStr.contains "Reference already exists" text.

Definition create_branch (access : tools.RepoAccess.t)
    (new_branch from_branch : value) : backend_op G value :=
  source <- (if truthy from_branch then op_ret from_branch
             else get_default_branch access) ;;
  quoted <- op_lift (parse.quote_value EmptyString source) ;;
  source_ref <- request "GET" (ref_path access quoted) None ;;
  object <- op_lift (Py.item "object" source_ref) ;;
  sha <- op_lift (Py.item "sha" object) ;;
  op_except_runtime
    (request "POST" (refs_path access)
       (Some (VDict [ ("ref", VStr ("refs/heads/" ++ PyFmt.str new_branch)%string);
                      ("sha", sha) ])) ;;
     op_ret tt)
    (fun msg =>
       if negb (already_exists (PyFmt.render msg)) then op_raise (RuntimeError msg)
       else op_ret tt) ;;
  op_ret new_branch.

Definition _get_tree_with_fallback (access : tools.RepoAccess.t) (ref : value)
  : backend_op G value :=
  op_except_runtime
    (quoted <- op_lift (parse.quote_value EmptyString ref) ;;
     request "GET" (tree_path access quoted) None)
    (fun msg =>
       if negb (PyStr.contains NOT_FOUND (PyFmt.render msg))
       then op_raise (RuntimeError msg)
       else
         fallback <- get_default_branch access ;;
         if match fallback, ref with
            | VStr a, VStr b => String.eqb a b
            | _, _ => false
            end
         then op_raise (RuntimeError msg)
         else
           quoted <- op_lift (parse.quote_value EmptyString fallback) ;;
           request "GET" (tree_path access quoted) None).

(** The loop of [list_files] over the entries of the tree. *)
Fixpoint blob_paths (entries : list value) : outcome (list value) :=
  match entries with
  | [] => Ok []
  | entry :: rest =>
      and_then (Py.get "type" VNone entry) (fun type_ =>
      and_then (if Py.eq_str type_ "blob" then Py.get "path" VNone entry
                else Ok VNone) (fun path =>
      and_then (if truthy path then Py.item "path" entry else Ok VNone) (fun path' =>
      and_then (blob_paths rest) (fun more =>
      Ok (if truthy path then path' :: more else more)))))
  end.

Definition list_files (access : tools.RepoAccess.t) (branch : value)
  : backend_op G (list value) :=
  let ref := if truthy branch then branch
             else VStr (tools.RepoAccess.branch access) in
  tree <- _get_tree_with_fallback access ref ;;
  entries <- op_lift (and_then (Py.get "tree" (VList []) tree) Py.iter) ;;
  op_lift (blob_paths entries).

(** [data.get("content", empty).replace(newline, empty)], [empty] the empty string *)
Definition content_of (data : value) : outcome string :=
  and_then (Py.get "content" (VStr EmptyString) data) (fun content =>
  match content with
  | VStr s => Ok (remove_char PyStr.LF s)
  | _ => Raise AttributeError
  end).

Definition read_file (access : tools.RepoAccess.t) (path branch : value)
  : backend_op G string :=
  let ref := if truthy branch then branch
             else VStr (tools.RepoAccess.branch access) in
  encoded_path <- op_lift (parse.quote_value "/" path) ;;
  data <- op_except_runtime
            (quoted <- op_lift (parse.quote_value EmptyString ref) ;;
             request "GET" (contents_at access encoded_path quoted) None)
            (fun msg =>
               if negb (PyStr.contains NOT_FOUND (PyFmt.render msg))
               then op_raise (RuntimeError msg)
               else
                 fallback <- get_default_branch access ;;
                 quoted <- op_lift (parse.quote_value EmptyString fallback) ;;
                 request "GET" (contents_at access encoded_path quoted) None) ;;
  content <- op_lift (content_of data) ;;
  match content with
  | EmptyString => op_ret EmptyString
  | _ => op_lift (match b64decode content with
                  | inl msg => Raise (ValueError msg)
                  | inr text => Ok text
                  end)
  end.

Definition write_file (access : tools.RepoAccess.t)
    (payload : tools.WriteFileInput.t) : backend_op G value :=
  let branch := match tools.WriteFileInput.branch payload with
                | Some (String c b) => String c b
                | _ => tools.RepoAccess.branch access
                end in
  let encoded_path := parse.quote "/" (tools.WriteFileInput.path payload) in
  let body := [ ("message", VStr (tools.WriteFileInput.commit_message payload));
                ("content", VStr (b64encode (tools.WriteFileInput.content payload)));
                ("branch", VStr branch) ] in
  body' <- op_except_runtime
             (existing <- request "GET"
                            (contents_at access encoded_path
                               (parse.quote EmptyString branch)) None ;;
              sha <- op_lift (Py.get "sha" VNone existing) ;;
              if truthy sha then
                sha' <- op_lift (Py.item "sha" existing) ;;
                op_ret (dict_set "sha" sha' body)
              else op_ret body)
             (fun msg =>
                if negb (PyStr.contains NOT_FOUND (PyFmt.render msg))
                then op_raise (RuntimeError msg)
                else op_ret body) ;;
  response <- request "PUT" (contents_path access encoded_path) (Some (VDict body')) ;;
  commit <- op_lift (Py.get "commit" (VDict []) response) ;;
  op_lift (Py.get "sha" (VStr EmptyString) commit).

Definition create_commit (access : tools.RepoAccess.t) (message : string) : string :=
  ("Direct commit creation is not used. "
   ++ "Use write_file with commit message: " ++ message)%string.

Definition create_pull_request (access : tools.RepoAccess.t)
    (payload : tools.PullRequestInput.t) : backend_op G value :=
  response <- request "POST" (pulls_path access)
                (Some (VDict [ ("title", VStr (tools.PullRequestInput.title payload));
                               ("body", VStr (tools.PullRequestInput.body payload));
                               ("head", VStr (tools.PullRequestInput.head_branch payload));
                               ("base", VStr (tools.PullRequestInput.base_branch payload)) ])) ;;
  op_lift (Py.get "html_url" (VStr EmptyString) response).

End Operations.

(** The client as the providers use it. *)
Definition client {G} (json_loads : string -> string + value)
    (json_dumps : value -> string)
    (b64encode : string -> string) (b64decode : string -> string + string)
    (self : t G) : tools.GithubTools G :=
  let request := _request json_loads json_dumps self in
  {| tools._request := request;
     tools.create_branch := create_branch request;
     tools.list_files := list_files request;
     tools.read_file := read_file b64decode request;
     tools.write_file := write_file b64encode request;
     tools.create_pull_request := create_pull_request request |}.

End GithubTools.


(* ------------------------------------------------------------------ *)
(** ** Vocabulary for the client of the repository host *)

(** The first words of the message raised for an [HTTPError]; a hint may
    follow them. *)
Definition http_error_prefix (method path : string) (code : Z) (detail : string)
  : string :=
  ("GitHub API error (" ++ PyFmt.str (VInt code) ++ ") on " ++ method ++ " "
   ++ path ++ ": " ++ detail)%string.

(** The event [_request] reports for a missing token. *)
Definition AUTH_ERROR : event_spec :=
  GithubTools.event "github.auth.error" "error" [("reason", VStr "missing_token")].

(** A transport that records every request (method, URL and body) in the
    state of the host and answers through [answer]. *)
Definition recording (answer : string -> string -> GithubTools.reply)
  : string -> string -> list (string * string) -> option string ->
    list string -> GithubTools.reply * list string :=
  fun method url _ data g =>
    (answer method url,
     g ++ [(method ++ " " ++ url
            ++ match data with Some d => " " ++ d | None => EmptyString end)%string]).

(** The base64 codec of the examples knows two texts. *)
Definition demo_b64encode (s : string) : string :=
  if String.eqb s "hi" then "aGk=" else "Ynll".

Definition demo_b64decode (s : string) : string + string :=
  if String.eqb s "aGk=" then inr "hi"
  else if String.eqb s "Ynll" then inr "bye"
  else inl "Incorrect padding".

(** A client with a token over a recording transport. *)
Definition demo_client (answer : string -> string -> GithubTools.reply)
  : tools.GithubTools (list string) :=
  GithubTools.client DemoJson.loads DemoJson.dumps demo_b64encode demo_b64decode
    (GithubTools.mk (Some "ghp_1") "https://api.github.com" (recording answer)).

(** The same client without a token. *)
Definition anonymous_client (answer : string -> string -> GithubTools.reply)
  : tools.GithubTools (list string) :=
  GithubTools.client DemoJson.loads DemoJson.dumps demo_b64encode demo_b64decode
    (GithubTools.mk None "https://api.github.com" (recording answer)).

(** [stops_at c g]: the operation raises in [g] and leaves the host as it
    is. *)
Definition stops_at {G A} (c : backend_op G A) (g : G) : Prop :=
  snd (c g) = g /\ exists e, fst (fst (c g)) = Raise e.

(** The branch [write_file] commits to. *)
Definition target_branch (access : tools.RepoAccess.t)
    (payload : tools.WriteFileInput.t) : string :=
  match tools.WriteFileInput.branch payload with
  | Some (String c b) => String c b
  | _ => tools.RepoAccess.branch access
  end.

(** The body [write_file] starts from: message, content, branch. *)
Definition write_body (b64encode : string -> string)
    (access : tools.RepoAccess.t) (payload : tools.WriteFileInput.t) : dict :=
  [ ("message", VStr (tools.WriteFileInput.commit_message payload));
    ("content", VStr (b64encode (tools.WriteFileInput.content payload)));
    ("branch", VStr (target_branch access payload)) ].

(** What [write_file] returns for the response to its [PUT]. *)
Definition commit_sha (response : value) : outcome value :=
  and_then (Py.get "commit" (VDict []) response)
           (Py.get "sha" (VStr EmptyString)).

(** What [read_file] returns for the document of a file. *)
Definition file_text (b64decode : string -> string + string) (data : value)
  : outcome string :=
  and_then (GithubTools.content_of data) (fun content =>
  match content with
  | EmptyString => Ok EmptyString
  | _ => match b64decode content with
         | inl msg => Raise (ValueError msg)
         | inr text => Ok text
         end
  end).

(** The step of [create_branch] that finds the branch to start from. *)
Definition source_branch {G}
    (request : string -> string -> option value -> backend_op G value)
    (access : tools.RepoAccess.t) (from_branch : value) : backend_op G value :=
  if truthy from_branch then op_ret from_branch
  else GithubTools.get_default_branch request access.

(** The body of the [POST] that creates a branch. *)
Definition new_ref (new_branch sha : value) : value :=
  VDict [ ("ref", VStr ("refs/heads/" ++ PyFmt.str new_branch)%string);
          ("sha", sha) ].

(** The entry of a tree is a blob with a path. *)
Definition is_blob (entry : dict) : bool :=
  Py.eq_str (dict_get_default "type" VNone entry) "blob"
  && truthy (dict_get_default "path" VNone entry).

(** The paths of the blobs among the entries. *)
Definition paths_of (entries : list dict) : list value :=
  map (dict_get_default "path" VNone) (filter is_blob entries).

(** A host on which every branch exists already. *)
Definition branch_exists_answer (method url : string) : GithubTools.reply :=
  if String.eqb method "POST"
  then GithubTools.HTTPError 422 (dq "{'message': 'Reference already exists'}")
  else GithubTools.Answered 200 (dq "{'object': {'sha': 'abc'}}").

(** A host that holds the file already, under the blob [abc]. *)
Definition file_exists_answer (method url : string) : GithubTools.reply :=
  if String.eqb method "PUT"
  then GithubTools.Answered 200 (dq "{'commit': {'sha': 'c0ffee'}}")
  else GithubTools.Answered 200 (dq "{'sha': 'abc', 'content': 'aGk='}").

(** A host that does not hold the file. *)
Definition file_missing_answer (method url : string) : GithubTools.reply :=
  if String.eqb method "PUT"
  then GithubTools.Answered 201 (dq "{'commit': {'sha': 'c0ffee'}}")
  else GithubTools.HTTPError 404 (dq "{'message': 'Not Found'}").

(** A host that knows the file on its default branch [trunk] only. *)
Definition only_on_trunk_answer (method url : string) : GithubTools.reply :=
  if PyStr.endswith url "?ref=trunk"
  then GithubTools.Answered 200 (dq "{'content': 'aGk='}")
  else if PyStr.endswith url "/repos/acme/widgets"
       then GithubTools.Answered 200 (dq "{'default_branch': 'trunk'}")
       else GithubTools.HTTPError 404 (dq "{'message': 'No commit found'}").

(** A host without the tree of [main], whose default branch is [main]. *)
Definition no_tree_answer (method url : string) : GithubTools.reply :=
  if PyStr.endswith url "/repos/acme/widgets"
  then GithubTools.Answered 200 (dq "{'default_branch': 'main'}")
  else GithubTools.HTTPError 404 (dq "{'message': 'Not Found'}").

Definition demo_write : tools.WriteFileInput.t :=
  tools.WriteFileInput.mk "docs/read me.md" "hi" "update docs" None.

(** A host whose tree holds two files and a directory. *)
Definition tree_answer (method url : string) : GithubTools.reply :=
  GithubTools.Answered 200
    (dq "{'sha': 'abc', 'tree': [{'path': 'README.md', 'type': 'blob'}, {'path': 'src', 'type': 'tree'}, {'path': 'src/app.py', 'type': 'blob'}]}").

(** The program run against a client of the repository host. *)
Definition client_env (answer : string -> string -> GithubTools.reply)
    (answers : nat -> string -> http_outcome) : Env (list string) :=
  {| clock := demo_clock;
     json_loads := DemoJson.loads;
     json_dumps := DemoJson.dumps;
     plan_schema := "{'title': 'PlanSchema'}";
     gemini_urlopen := answers;
     github := demo_client answer |}.

(* ------------------------------------------------------------------ *)
(** ** agent/plan_schema.py *)

Module plan_schema.

Module PlanStep.
Record t : Type := mk {
  title : string;
  details : string
}.

(** One item of [implementation_steps]: a mapping with exactly the two
    fields, both non-empty strings. *)
Definition validate (v : value) : option t :=
  match v with
  | VDict d =>
      match tools.only_fields ["title"; "details"] d,
            tools.str_field "title" 1 d, tools.str_field "details" 1 d with
      | true, Some t_, Some d_ => Some (mk t_ d_)
      | _, _, _ => None
      end
  | _ => None
  end.
End PlanStep.

Module PlanSchema.
Record t : Type := mk {
  objective : string;
  assumptions : list string;
  files_to_touch : list string;
  implementation_steps : list PlanStep.t;
  risks : list string;
  test_plan : list string;
  rollback_plan : list string
}.

Definition FIELDS : list string :=
  [ "objective"; "assumptions"; "files_to_touch"; "implementation_steps";
    "risks"; "test_plan"; "rollback_plan" ].

(** The items of a [list[str]]. *)
Fixpoint strings (l : list value) : option (list string) :=
  match l with
  | [] => Some []
  | VStr s :: rest =>
      match strings rest with
      | Some ss => Some (s :: ss)
      | None => None
      end
  | _ :: _ => None
  end.

(** A [list[str]] field whose default is the empty list. *)
Definition str_list (k : string) (d : dict) : option (list string) :=
  match dict_get k d with
  | None => Some []
  | Some (VList l) => strings l
  | Some _ => None
  end.

Fixpoint steps (l : list value) : option (list PlanStep.t) :=
  match l with
  | [] => Some []
  | v :: rest =>
      match PlanStep.validate v, steps rest with
      | Some s, Some ss => Some (s :: ss)
      | _, _ => None
      end
  end.

(** The required [list[PlanStep]] with [min_length=1]. *)
Definition step_list (k : string) (d : dict) : option (list PlanStep.t) :=
  match dict_get k d with
  | Some (VList l) =>
      match steps l with
      | Some (s :: ss) => Some (s :: ss)
      | _ => None
      end
  | _ => None
  end.

Definition model_validate (payload : dict) : outcome t :=
  match tools.only_fields FIELDS payload,
        tools.str_field "objective" 1 payload,
        str_list "assumptions" payload,
        str_list "files_to_touch" payload,
        step_list "implementation_steps" payload,
        str_list "risks" payload,
        str_list "test_plan" payload,
        str_list "rollback_plan" payload with
  | true, Some o, Some a, Some f, Some i, Some r, Some tp, Some rp =>
      Ok (mk o a f i r tp rp)
  | _, _, _, _, _, _, _, _ => Raise ValidationError
  end.
End PlanSchema.

Definition parse_plan_response (json_loads : string -> string + value)
    (text : string) : outcome PlanSchema.t :=
  match json_utils.extract_first_json_object json_loads text with
  | Ok (payload, _trailing) => PlanSchema.model_validate payload
  | Raise e => Raise e
  end.

End plan_schema.

(* ------------------------------------------------------------------ *)
(** ** agent/provider.py: the interface of the providers *)

(** An [AgentProvider]: its name and [respond], which is given the request
    and works on the trace of the world. *)
Record AgentProvider (G : Type) : Type := {
  provider_name : string;
  provider_respond : provider.AgentRequest -> M G provider.AgentResponse
}.
Arguments provider_name {G}.
Arguments provider_respond {G}.

(** The Gemini provider behind the interface. *)
Definition gemini_provider {G} (env : Env G) (self : gemini.GeminiProvider)
  : AgentProvider G :=
  {| provider_name := gemini.name;
     provider_respond := gemini.respond env self |}.

(* ------------------------------------------------------------------ *)
(** ** The application: what it says and what it prints *)

(** The messages passed to [say] and the lines passed to [print], in
    order. *)
Record Outbox : Type := {
  said : list string;
  printed : list string
}.

(** Computations of the application: over the world and the outbox. *)
Definition App (G A : Type) : Type :=
  World G * Outbox -> outcome A * (World G * Outbox).

Definition app_ret {G A} (a : A) : App G A := fun s => (Ok a, s).

Definition app_lift {G A} (r : outcome A) : App G A := fun s => (r, s).

Definition app_bind {G A B} (c : App G A) (k : A -> App G B) : App G B :=
  fun s =>
    match c s with
    | (Ok a, s') => k a s'
    | (Raise e, s') => (Raise e, s')
    end.

(** A computation over the world alone. *)
Definition run {G A} (c : M G A) : App G A :=
  fun s =>
    let '(r, w') := c (fst s) in (r, (w', snd s)).

(** [try: body / except Exception as exc: handler] *)
Definition app_except {G A} (body : App G A) (handler : exn -> App G A) : App G A :=
  fun s =>
    match body s with
    | (Raise e, s') => handler e s'
    | (Ok a, s') => (Ok a, s')
    end.

(** [say(text)]; the call is taken to return. *)
Definition say {G} (text : string) : App G unit :=
  fun s =>
    (Ok tt, (fst s, {| said := said (snd s) ++ [text]; printed := printed (snd s) |})).

(** [print(line)] *)
Definition print {G} (line : string) : App G unit :=
  fun s =>
    (Ok tt, (fst s, {| said := said (snd s); printed := printed (snd s) ++ [line] |})).

Declare Scope app_scope.
Delimit Scope app_scope with app.
Notation "x <- c1 ;; c2" := (app_bind c1 (fun x => c2))
  (at level 61, c1 at next level, right associativity) : app_scope.
Notation "c1 ;; c2" := (app_bind c1 (fun _ => c2))
  (at level 61, right associativity) : app_scope.

(** [str(exc)].  The text of the exceptions the libraries raise
    ([TypeError], [AttributeError], pydantic's [ValidationError]) is given by
    [describe]. *)
Definition str_exc (describe : exn -> string) (e : exn) : string :=
  match e with
  | ValueError msg => msg
  | RuntimeError msg => PyFmt.render msg
  | KeyError k => PyFmt.repr_str k
  | _ => describe e
  end.

(** The handle of the root span: [trace.root]. *)
Definition ROOT : span_ref := Some [].

(* ------------------------------------------------------------------ *)
(** ** logger.py: [TraceStore] *)

Module TraceStore.
Section Store.
Context {G : Type}.
Variable clk : Clock.
Variable uuid4 : nat -> string.             (* [str(uuid.uuid4())], drawn at a clock count *)
Variable json_dumps_indent : value -> string. (* [json.dumps(v, indent=2, ensure_ascii=False)] *)
Local Open Scope app_scope.

(** [trace_store.create(metadata=...)]: the new trace becomes the trace
    of the world. *)
Definition create (metadata : dict) : M G unit :=
  fun w =>
    let '(tr, tick') :=
      RequestTrace.create clk (uuid4 (ticks w)) (Some metadata) (ticks w) in
    (Ok tt, set_ticks tick' (set_trace (Some tr) w)).

(** The first statement of [persist]: an open root is finished with the
    status it has. *)
Definition close_root : M G unit :=
  fun w =>
    match trace w with
    | Some tr =>
        match TraceSpan.finished_at (RequestTrace.root tr) with
        | None => span_finish clk ROOT (TraceSpan.status (RequestTrace.root tr)) [] w
        | Some _ => (Ok tt, w)
        end
    | None => (Raise AttributeError, w)
    end.

(** [trace.as_dict()] *)
Definition payload : M G value :=
  fun w =>
    match trace w with
    | Some tr => (Ok (RequestTrace.as_dict tr), w)
    | None => (Raise AttributeError, w)
    end.

Definition persist : App G unit :=
  run close_root ;;
  document <- run payload ;;
  print "TRACE_START" ;;
  print (json_dumps_indent document) ;;
  print "TRACE_END".

End Store.
End TraceStore.

(* ------------------------------------------------------------------ *)
(** ** app.py *)

Module app.


(** [event.get("text")], or the empty string when that tests false *)
Definition text_of (event : dict) : value :=
  let text := dict_get_default "text" VNone event in
  if truthy text then text else VStr EmptyString.

Definition build_agent_request (event : dict) (mode : string)
  : outcome provider.AgentRequest :=
  match text_of event with
  | VStr (String c s) =>
      Ok {| provider.prompt := String c s;
            provider.mode := mode;
            provider.context :=
              [ ("user", dict_get_default "user" VNone event);
                ("channel", dict_get_default "channel" VNone event);
                ("channel_type", dict_get_default "channel_type" VNone event);
                ("thread_ts", dict_get_default "thread_ts" VNone event) ] |}
  | _ => Raise ValidationError
  end.

Definition item_lines (pre post : string) (items : list string) : list string :=
  map (fun item => (pre ++ item ++ post)%string) items.

(** [for index, step in enumerate(plan.implementation_steps, start=index)] *)
Fixpoint step_lines (index : nat) (steps : list plan_schema.PlanStep.t)
  : list string :=
  match steps with
  | [] => []
  | step :: rest =>
      (PyFmt.str (gemini.int_of_nat index) ++ ". "
       ++ plan_schema.PlanStep.title step ++ ": "
       ++ plan_schema.PlanStep.details step)%string
      :: step_lines (S index) rest
  end.

(** A section that opens with its heading and closes with an empty line. *)
Definition section_before (heading pre post : string) (items : list string)
  : list string :=
  match items with
  | [] => []
  | _ => (heading :: item_lines pre post items) ++ [EmptyString]
  end.

(** A section that opens with an empty line and its heading. *)
Definition section_after (heading : string) (items : list string) : list string :=
  match items with
  | [] => []
  | _ => EmptyString :: heading :: item_lines "- " EmptyString items
  end.

Definition format_plan_for_slack (plan : plan_schema.PlanSchema.t) : string :=
  PyStr.join PyStr.newline
    ([ "*Plan Mode Output*";
       ("*Objective*: " ++ plan_schema.PlanSchema.objective plan)%string;
       EmptyString ]
     ++ section_before "*Assumptions*" "- " EmptyString
          (plan_schema.PlanSchema.assumptions plan)
     ++ section_before "*Files To Touch*" "- `" "`"
          (plan_schema.PlanSchema.files_to_touch plan)
     ++ ["*Implementation Steps*"]
     ++ step_lines 1 (plan_schema.PlanSchema.implementation_steps plan)
     ++ section_after "*Risks*" (plan_schema.PlanSchema.risks plan)
     ++ section_after "*Test Plan*" (plan_schema.PlanSchema.test_plan plan)
     ++ section_after "*Rollback Plan*" (plan_schema.PlanSchema.rollback_plan plan)).

Definition PLAN_FALLBACK : string :=
  ("Plan mode was requested, but I could not parse a valid plan schema. "
   ++ "Returning raw model output below:" ++ PyStr.newline ++ PyStr.newline)%string.

Definition SORRY : string := "Sorry, I hit an error while processing your request: ".

Section Handlers.
Context {G : Type}.
Variable clk : Clock.
Variable uuid4 : nat -> string.
Variable json_loads : string -> string + value.
Variable json_dumps_indent : value -> string.
Variable describe : exn -> string.
Variable provider_ : AgentProvider G.
Local Open Scope app_scope.

Definition persist : App G unit := TraceStore.persist clk json_dumps_indent.

(** [trace.request_id] *)
Definition request_id : M G string :=
  fun w =>
    match trace w with
    | Some tr => (Ok (RequestTrace.request_id tr), w)
    | None => (Raise AttributeError, w)
    end.

(** [detect_mode(text)] on the text of the event. *)
Definition detect (text : value) : outcome modes.ModeDecision :=
  match text with
  | VStr s => Ok (modes.detect_mode s)
  | _ => Raise AttributeError
  end.

Definition length_of (s : string) : value := gemini.int_of_nat (String.length s).

(** The statements of [handle_event] inside the outer [try], after
    [provider.respond] has returned. *)
Definition answer (request : provider.AgentRequest) (provider_span : span_ref)
    (response : provider.AgentResponse) : App G string :=
  run (span_finish clk provider_span "ok"
         [("text_length", length_of (provider.text response))]) ;;
  run (span_event clk ROOT "response.ready" "ok"
         [ ("provider", VStr (provider.provider response));
           ("text_length", length_of (provider.text response)) ]) ;;
  if String.eqb (provider.mode request) "plan" then
    plan_span <- run (trace_span clk "plan.validate" []) ;;
    match plan_schema.parse_plan_response json_loads (provider.text response) with
    | Ok plan =>
        run (span_finish clk plan_span "ok" []) ;;
        app_ret (format_plan_for_slack plan)
    | Raise exc =>
        run (span_finish clk plan_span "error"
               [("error", VStr (str_exc describe exc))]) ;;
        run (span_event clk ROOT "plan.validation.failed" "warn"
               [("error", VStr (str_exc describe exc))]) ;;
        app_ret (PLAN_FALLBACK ++ provider.text response)%string
    end
  else app_ret (provider.text response).

(** The handler of the outer [try]. *)
Definition apologize (provider_span : span_ref) (exc : exn) : App G unit :=
  run (span_finish clk provider_span "error"
         [("error", VStr (str_exc describe exc))]) ;;
  run (span_finish clk ROOT "error" [("error", VStr (str_exc describe exc))]) ;;
  run (span_event clk ROOT "request.error" "error"
         [("error", VStr (str_exc describe exc))]) ;;
  persist ;;
  say (SORRY ++ str_exc describe exc)%string.

(** The statements of [handle_event] after the outer [try]. *)
Definition deliver (outgoing_text : string) : App G unit :=
  say_span <- run (trace_span clk "slack.say" []) ;;
  say outgoing_text ;;
  run (span_finish clk say_span "ok" []) ;;
  run (span_event clk ROOT "response.sent" "ok" []) ;;
  run (span_finish clk ROOT "ok" []) ;;
  persist.

Definition metadata_of (event : dict) : dict :=
  [ ("provider", VStr (provider_name provider_));
    ("event_type", dict_get_default "type" VNone event);
    ("user", dict_get_default "user" VNone event);
    ("channel", dict_get_default "channel" VNone event);
    ("channel_type", dict_get_default "channel_type" VNone event) ].

Definition handle_event (event : dict) : App G unit :=
  let text := text_of event in
  run (TraceStore.create clk uuid4 (metadata_of event)) ;;
  run (span_event clk ROOT "request.received" "ok" []) ;;
  mode_decision <- app_lift (detect text) ;;
  run (span_event clk ROOT "mode.detected" "ok"
         [ ("mode", VStr (modes.mode mode_decision));
           ("reason", VStr (modes.reason mode_decision)) ]) ;;
  built <- app_lift (build_agent_request event (modes.mode mode_decision)) ;;
  rid <- run request_id ;;
  let request :=
    {| provider.prompt := provider.prompt built;
       provider.mode := provider.mode built;
       provider.context := dict_set "request_id" (VStr rid) (provider.context built) |} in
  provider_span <- run (trace_span clk "provider.respond"
                          [ ("provider", VStr (provider_name provider_));
                            ("mode", VStr (provider.mode request)) ]) ;;
  outgoing <- app_except
                (response <- run (provider_respond provider_ request) ;;
                 outgoing_text <- answer request provider_span response ;;
                 app_ret (Some outgoing_text))
                (fun exc => apologize provider_span exc ;; app_ret None) ;;
  match outgoing with
  | Some outgoing_text => deliver outgoing_text
  | None => app_ret tt
  end.



End Handlers.

End app.

(* ------------------------------------------------------------------ *)
(** ** Vocabulary for the application *)

(** The request [handle_event] builds for an event whose text is [text],
    under the request id [rid]. *)
Definition request_for (event : dict) (text rid : string) : provider.AgentRequest :=
  {| provider.prompt := text;
     provider.mode := modes.mode (modes.detect_mode text);
     provider.context :=
       [ ("user", dict_get_default "user" VNone event);
         ("channel", dict_get_default "channel" VNone event);
         ("channel_type", dict_get_default "channel_type" VNone event);
         ("thread_ts", dict_get_default "thread_ts" VNone event);
         ("request_id", VStr rid) ] |}.

(** What is said for the outcome of [provider.respond]. *)
Definition reply_text (json_loads : string -> string + value)
    (describe : exn -> string) (mode : string)
    (r : outcome provider.AgentResponse) : string :=
  match r with
  | Raise exc => (app.SORRY ++ str_exc describe exc)%string
  | Ok response =>
      if String.eqb mode "plan" then
        match plan_schema.parse_plan_response json_loads (provider.text response) with
        | Ok plan => app.format_plan_for_slack plan
        | Raise _ => (app.PLAN_FALLBACK ++ provider.text response)%string
        end
      else provider.text response
  end.

(** The three lines [persist] prints for a document. *)
Definition trace_lines (json_dumps_indent : value -> string) (document : value)
  : list string :=
  ["TRACE_START"; json_dumps_indent document; "TRACE_END"].

(** The world holds a request trace. *)
Definition has_trace {G} (w : World G) : Prop := trace w <> None.

(** The world holds a request trace whose root is finished. *)
Definition root_finished {G} (w : World G) : Prop :=
  exists tr, trace w = Some tr
             /\ TraceSpan.finished_at (RequestTrace.root tr) <> None.

(** The document of the trace of the world. *)
Definition document_of {G} (w : World G) : value :=
  match trace w with
  | Some tr => RequestTrace.as_dict tr
  | None => VNone
  end.

(** Request ids for the examples. *)
Definition demo_uuid4 (n : nat) : string := "req-1".

(** The texts of library exceptions, for the examples. *)
Definition demo_describe (e : exn) : string :=
  match e with
  | TypeError => "TypeError"
  | AttributeError => "AttributeError"
  | _ => "1 validation error"
  end.

(** A message sent to the bot. *)
Definition hello_event : dict :=
  [ ("type", VStr "message"); ("channel_type", VStr "im");
    ("user", VStr "U1"); ("channel", VStr "D1"); ("text", VStr "hello there") ].

Definition empty_outbox : Outbox := {| said := []; printed := [] |}.

(** The application of the examples: the Gemini provider over the
    demonstration environment. *)
Definition demo_handle (answers : nat -> string -> http_outcome) (event : dict)
  : App (list string) unit :=
  app.handle_event demo_clock demo_uuid4 DemoJson.loads DemoJson.dumps demo_describe
    (gemini_provider (demo_env answers) demo_self) event.

(** An endpoint that refuses every request. *)
Definition quota_answers : nat -> string -> http_outcome :=
  fun _ _ => HttpError 429 "quota exceeded".

(** An event without a text. *)
Definition join_event : dict :=
  [ ("type", VStr "message"); ("channel_type", VStr "im"); ("user", VStr "U1") ].



(* ================================================================== *)
(** * Properties *)


(* ------------------------------------------------------------------ *)
(** ** Trace tree: redaction *)

Section Redaction.

Lemma dict_get_safe (k : string) (d : dict) :
  dict_get k (map (fun '(k', x) => (k', _safe_value x)) d)
  = option_map _safe_value (dict_get k d).
Proof.
  induction d as [|[k' x] d IH]; simpl; [reflexivity|].
  destruct (String.eqb k' k); [reflexivity | exact IH].
Qed.

(** Serialization commutes with looking up a position. *)
Lemma at_path_safe (p : list step) :
  forall v x, at_path p v = Some x ->
              at_path p (_safe_value v) = Some (_safe_value x).
Proof.
  induction p as [|[k|i] p IH]; intros v x H.
  - simpl in *. congruence.
  - destruct v; simpl in H; try discriminate.
    cbn [_safe_value at_path]. rewrite dict_get_safe.
    destruct (dict_get k d) as [v'|]; [|discriminate].
    simpl. now apply IH.
  - destruct v; simpl in H; try discriminate.
    cbn [_safe_value at_path]. rewrite nth_error_map.
    destruct (nth_error l i) as [v'|]; [|discriminate].
    simpl. now apply IH.
Qed.

Lemma safe_sensitive (s : string) :
  mentions_sensitive (PyStr.lower s) = true ->
  _safe_value (VStr s) = VStr "[REDACTED]".
Proof. intros H. simpl. now rewrite H. Qed.

Lemma safe_plain (s : string) :
  mentions_sensitive (PyStr.lower s) = false ->
  String.length s <= 2000 ->
  _safe_value (VStr s) = VStr s.
Proof.
  intros H L. cbn [_safe_value]. rewrite H.
  destruct (Nat.ltb_spec 2000 (String.length s)); [lia | reflexivity].
Qed.

Lemma span_as_dict_data (sp : TraceSpan.t) (p : list step) :
  at_path (Key "data" :: p) (TraceSpan.as_dict sp)
  = at_path p (_safe_value (VDict (TraceSpan.data sp))).
Proof. destruct sp. reflexivity. Qed.

Lemma span_as_dict_event (sp : TraceSpan.t) (j : nat) (p : list step) :
  at_path (Key "events" :: Idx j :: p) (TraceSpan.as_dict sp)
  = match nth_error (TraceSpan.events sp) j with
    | Some e => at_path p (TraceEvent.as_dict e)
    | None => None
    end.
Proof.
  destruct sp. cbn [at_path TraceSpan.as_dict TraceSpan.events].
  change (dict_get "events" _) with (Some (VList (map TraceEvent.as_dict events))).
  cbv beta iota. rewrite nth_error_map.
  now destruct (nth_error events j).
Qed.

Lemma span_as_dict_child (sp : TraceSpan.t) (i : nat) (p : list step) :
  at_path (Key "children" :: Idx i :: p) (TraceSpan.as_dict sp)
  = match nth_error (TraceSpan.children sp) i with
    | Some c => at_path p (TraceSpan.as_dict c)
    | None => None
    end.
Proof.
  destruct sp. cbn [at_path TraceSpan.as_dict TraceSpan.children].
  change (dict_get "children" _) with (Some (VList (map TraceSpan.as_dict children))).
  cbv beta iota. rewrite nth_error_map.
  now destruct (nth_error children i).
Qed.

Lemma span_as_dict_descendant (path : list nat) :
  forall root sp p,
    TraceSpan.get path root = Some sp ->
    at_path (span_steps path ++ p) (TraceSpan.as_dict root)
    = at_path p (TraceSpan.as_dict sp).
Proof.
  induction path as [|i path IH]; intros root sp p H.
  - simpl in *. congruence.
  - simpl in H. cbn [span_steps flat_map app].
    rewrite span_as_dict_child.
    destruct (nth_error (TraceSpan.children root) i) as [c|]; [|discriminate].
    now apply IH.
Qed.

End Redaction.

(** C1, counterexample.  A span whose data holds a short secret under the key
    [api_key]: the key contains one of the sensitive names, yet the
    serialized document carries the original string at that position, not
    the redaction marker. *)
Lemma C1_redaction_by_key_counterexample :
  let data := [("api_key", VStr "hunter2")] in
  let sp := fresh_span "llm.workflow" data in
  mentions_sensitive (PyStr.lower "api_key") = true
  /\ at_path [Key "api_key"] (VDict data) = Some (VStr "hunter2")
  /\ at_path [Key "data"; Key "api_key"] (TraceSpan.as_dict sp)
     = Some (VStr "hunter2")
  /\ at_path [Key "data"; Key "api_key"] (TraceSpan.as_dict sp)
     <> Some (VStr "[REDACTED]").
Proof. repeat split. discriminate. Qed.

(** The document holds, where a data mapping is serialized, its safe copy. *)
Lemma data_at_serialized (tr : RequestTrace.t) (pos : list step) (d : dict) :
  data_at tr pos d ->
  forall p, at_path (pos ++ p) (RequestTrace.as_dict tr)
            = at_path p (_safe_value (VDict d)).
Proof.
  intros [ | path sp Hget | path sp j e Hget Hev] p.
  - reflexivity.
  - cbn [app]. rewrite <- app_assoc.
    change (at_path (Key "trace" :: ?q) (RequestTrace.as_dict tr))
      with (at_path (span_steps path ++ [Key "data"] ++ p)
                    (TraceSpan.as_dict (RequestTrace.root tr))).
    rewrite (span_as_dict_descendant path _ sp _ Hget).
    apply span_as_dict_data.
  - cbn [app]. rewrite <- app_assoc.
    change (at_path (Key "trace" :: ?q) (RequestTrace.as_dict tr))
      with (at_path (span_steps path ++ [Key "events"; Idx j; Key "data"] ++ p)
                    (TraceSpan.as_dict (RequestTrace.root tr))).
    rewrite (span_as_dict_descendant path _ sp _ Hget).
    cbn [app]. rewrite span_as_dict_event, Hev. reflexivity.
Qed.

(** C1, as amended.  In every data mapping of the trace document (the
    metadata of the request, the data of any span of the tree, the data of
    any event of any span), at any depth through mappings and lists, a string
    whose own lower-cased text contains one of [token], [authorization],
    [api_key], [secret] is replaced by the marker [[REDACTED]].  The key under
    which a string is stored is not consulted: a string of at most 2000
    characters that mentions none of the names is serialized unchanged. *)
Theorem C1_redaction_by_content :
  forall (tr : RequestTrace.t) (pos : list step) (d : dict)
         (p : list step) (s : string),
    data_at tr pos d ->
    at_path p (VDict d) = Some (VStr s) ->
    (mentions_sensitive (PyStr.lower s) = true ->
     at_path (pos ++ p) (RequestTrace.as_dict tr) = Some (VStr "[REDACTED]"))
    /\ (mentions_sensitive (PyStr.lower s) = false ->
        String.length s <= 2000 ->
        at_path (pos ++ p) (RequestTrace.as_dict tr) = Some (VStr s)).
Proof.
  intros tr pos d p s Hpos Hs.
  rewrite (data_at_serialized tr pos d Hpos p).
  rewrite (at_path_safe p _ _ Hs).
  split.
  - intros H. now rewrite safe_sensitive.
  - intros H L. now rewrite safe_plain.
Qed.

Lemma C1_redaction_by_content_witness :
  at_path ((Key "trace" :: span_steps [0] ++ [Key "data"]) ++ [Key "headers"; Idx 0])
          (RequestTrace.as_dict demo_trace) = Some (VStr "[REDACTED]")
  /\ at_path ((Key "trace" :: span_steps [0] ++ [Key "data"]) ++ [Key "api_key"])
             (RequestTrace.as_dict demo_trace) = Some (VStr "hunter2").
Proof.
  split.
  - refine (proj1 (C1_redaction_by_content demo_trace _ _
                     [Key "headers"; Idx 0] "Authorization: Bearer abc"
                     (data_at_span demo_trace [0] _ eq_refl) eq_refl) eq_refl).
  - refine (proj2 (C1_redaction_by_content demo_trace _ _
                     [Key "api_key"] "hunter2"
                     (data_at_span demo_trace [0] _ eq_refl) eq_refl) eq_refl _).
    simpl. lia.
Defined.

(* ------------------------------------------------------------------ *)
(** ** Trace tree: finishing a span *)

Section Finish.

Lemma nth_error_replace_nth {A} (l : list A) :
  forall i x y, nth_error l i = Some y ->
                nth_error (TraceSpan.replace_nth i x l) i = Some x.
Proof.
  induction l as [|a l IH]; intros [|i] x y H; simpl in *; try discriminate.
  - reflexivity.
  - eapply IH; eassumption.
Qed.

Lemma replace_nth_same {A} (l : list A) :
  forall i x, nth_error l i = Some x -> TraceSpan.replace_nth i x l = l.
Proof.
  induction l as [|a l IH]; intros [|i] x H; simpl in *; try discriminate.
  - congruence.
  - f_equal. now apply IH.
Qed.

(** A span read back through its handle after an update in place. *)
Lemma get_update (path : list nat) (f : TraceSpan.t -> TraceSpan.t) :
  forall root sp, TraceSpan.get path root = Some sp ->
                  TraceSpan.get path (TraceSpan.update path f root) = Some (f sp).
Proof.
  induction path as [|i path IH]; intros root sp H; simpl in *.
  - congruence.
  - destruct (nth_error (TraceSpan.children root) i) as [c|] eqn:E; [|discriminate].
    cbn [TraceSpan.children].
    rewrite (nth_error_replace_nth _ _ _ _ E). now apply IH.
Qed.

Lemma update_same (path : list nat) :
  forall root sp, TraceSpan.get path root = Some sp ->
                  TraceSpan.update path (fun _ => sp) root = root.
Proof.
  induction path as [|i path IH]; intros root sp H; simpl in *.
  - congruence.
  - destruct (nth_error (TraceSpan.children root) i) as [c|] eqn:E; [|discriminate].
    rewrite (IH _ _ H), (replace_nth_same _ _ _ E). now destruct root.
Qed.

Lemma finish_finished (clk : Clock) (st : string) (dt : dict)
      (sp : TraceSpan.t) (tick : nat) :
  TraceSpan.finished_at (fst (TraceSpan.finish clk st dt sp tick)) <> None.
Proof.
  unfold TraceSpan.finish.
  destruct (TraceSpan.finished_at sp) eqn:E; simpl; congruence.
Qed.

Lemma finish_again (clk : Clock) (st : string) (dt : dict)
      (sp : TraceSpan.t) (tick : nat) :
  TraceSpan.finished_at sp <> None ->
  TraceSpan.finish clk st dt sp tick = (sp, tick).
Proof.
  intros H. unfold TraceSpan.finish.
  destruct (TraceSpan.finished_at sp); [reflexivity | congruence].
Qed.

(** The duration is rounded as Python rounds it: the float nearest to 0.29,
    taken a thousand times, is 290 exactly, although the rational it
    denotes lies below 0.29. *)
Example duration_of_0_29 :
  TraceSpan.duration_ms
    (fst (TraceSpan.finish still_clock "ok" [] (fresh_span "llm.step" []) 0))
  = Some 290%Z
  /\ Qtrunc (NEAREST_0_29 * 1000)%Q = 289%Z.
Proof. split; vm_compute; reflexivity. Qed.

End Finish.

(** C7.  Finishing a span is idempotent.  Whatever the status and the extra
    data of a second [finish], it returns the span of the first call as it
    is and reads no clock; on an open span the first call records its own
    status, the time of finishing and the duration measured between the two
    readings of the monotonic clock.  The same holds for the span object in
    the request's trace reached through a handle: the second call leaves the
    world as the first one left it. *)
Theorem C7_finish_idempotent :
  forall (clk : Clock) (sp : TraceSpan.t) (st1 st2 : string) (dt1 dt2 : dict)
         (tick tick2 : nat),
    let first := fst (TraceSpan.finish clk st1 dt1 sp tick) in
    TraceSpan.finish clk st2 dt2 first tick2 = (first, tick2)
    /\ (TraceSpan.finished_at sp = None ->
        TraceSpan.status first = st1
        /\ TraceSpan.finished_at first = Some (utc_now_iso clk tick)
        /\ TraceSpan.duration_ms first
           = Some (Qtrunc
                     (binary64
                        (binary64 (monotonic clk (S tick)
                                   - TraceSpan.started_at_monotonic sp)
                         * 1000)%Q)))
    /\ (forall (G : Type) (w : World G) (h : span_ref),
          let w1 := snd (span_finish clk h st1 dt1 w) in
          span_finish clk h st2 dt2 w1 = (Ok tt, w1)).
Proof.
  intros clk sp st1 st2 dt1 dt2 tick tick2 first. split; [|split].
  - apply finish_again, finish_finished.
  - intros Hopen. subst first. unfold TraceSpan.finish. rewrite Hopen.
    simpl. repeat split.
  - intros G w h w1. subst w1. unfold span_finish, on_span.
    destruct h as [p|]; [|reflexivity].
    destruct (trace w) as [tr|] eqn:Et; [|simpl; now rewrite Et].
    destruct (TraceSpan.get p (RequestTrace.root tr)) as [s|] eqn:Eg;
      [|simpl; now rewrite Et, Eg].
    destruct (TraceSpan.finish clk st1 dt1 s (ticks w)) as [s1 t1] eqn:Ef.
    cbn [snd trace set_ticks set_trace set_root RequestTrace.root ticks].
    rewrite (get_update p _ _ _ Eg).
    assert (Hs1 : s1 = fst (TraceSpan.finish clk st1 dt1 s (ticks w)))
      by now rewrite Ef.
    rewrite finish_again by (rewrite Hs1; apply finish_finished).
    rewrite (update_same p _ s1) by now apply (get_update p (fun _ => s1) _ _ Eg).
    reflexivity.
Qed.

Lemma C7_finish_idempotent_witness :
  let sp := fresh_span "llm.step" [("index", VInt 1)] in
  let first := fst (TraceSpan.finish demo_clock "ok" [] sp 3) in
  TraceSpan.finish demo_clock "error" [("reason", VStr "late")] first 9 = (first, 9)
  /\ TraceSpan.status first = "ok"
  /\ TraceSpan.duration_ms first = Some 4000%Z.
Proof.
  pose proof (C7_finish_idempotent demo_clock
                (fresh_span "llm.step" [("index", VInt 1)])
                "ok" "error" [] [("reason", VStr "late")] 3 9) as [H1 [H2 _]].
  destruct (H2 eq_refl) as [Hs [_ Hd]].
  split; [exact H1 | split; [exact Hs | exact Hd]].
Defined.

(* ------------------------------------------------------------------ *)
(** ** Running computations *)

Section Running.
Context {G : Type}.
Variable clk : Clock.

Lemma bind_ok {A B} (c : M G A) (k : A -> M G B) (w w' : World G) (a : A) :
  c w = (Ok a, w') -> bind c k w = k a w'.
Proof. intros H. unfold bind. now rewrite H. Qed.

Lemma bind_raise {A B} (c : M G A) (k : A -> M G B) (w w' : World G) (e : exn) :
  c w = (Raise e, w') -> bind c k w = (Raise e, w').
Proof. intros H. unfold bind. now rewrite H. Qed.

Lemma untouched_refl (w : World G) : untouched w w.
Proof. repeat split. Qed.

Lemma untouched_trans (w1 w2 w3 : World G) :
  untouched w1 w2 -> untouched w2 w3 -> untouched w1 w3.
Proof.
  intros (a1 & a2 & a3 & a4 & a5) (b1 & b2 & b3 & b4 & b5).
  repeat split; congruence.
Qed.

Lemma on_span_run (h : span_ref) f (w : World G) :
  exists w', on_span h f w = (Ok tt, w') /\ untouched w w'.
Proof.
  unfold on_span. destruct h as [p|]; [|eexists; split; [reflexivity|apply untouched_refl]].
  destruct (trace w) as [tr|]; [|eexists; split; [reflexivity|apply untouched_refl]].
  destruct (TraceSpan.get p (RequestTrace.root tr));
    [|eexists; split; [reflexivity|apply untouched_refl]].
  destruct (f t (ticks w)) as [sp' tick'].
  eexists; split; [reflexivity|]. repeat split.
Qed.

Lemma span_event_run (h : span_ref) nm st dt (w : World G) :
  exists w', span_event clk h nm st dt w = (Ok tt, w') /\ untouched w w'.
Proof. apply on_span_run. Qed.

Lemma span_finish_run (h : span_ref) st dt (w : World G) :
  exists w', span_finish clk h st dt w = (Ok tt, w') /\ untouched w w'.
Proof. apply on_span_run. Qed.

Lemma span_child_run (h : span_ref) nm dt (w : World G) :
  exists r w', span_child clk h nm dt w = (Ok r, w') /\ untouched w w'.
Proof.
  unfold span_child.
  destruct h as [p|]; [|do 2 eexists; split; [reflexivity|apply untouched_refl]].
  destruct (trace w) as [tr|]; [|do 2 eexists; split; [reflexivity|apply untouched_refl]].
  destruct (TraceSpan.get p (RequestTrace.root tr));
    [|do 2 eexists; split; [reflexivity|apply untouched_refl]].
  destruct (TraceSpan.child clk nm dt t (ticks w)) as [[sp' i] tick'].
  do 2 eexists; split; [reflexivity|]. repeat split.
Qed.

Lemma trace_span_run nm dt (w : World G) :
  exists r w', trace_span clk nm dt w = (Ok r, w') /\ untouched w w'.
Proof.
  unfold trace_span. destruct (trace w).
  - apply span_child_run.
  - do 2 eexists; split; [reflexivity|apply untouched_refl].
Qed.

Lemma time_now_run (w : World G) :
  exists w', time_now clk w = (Ok (epoch clk (ticks w)), w') /\ untouched w w'.
Proof. eexists; split; [reflexivity|]. repeat split. Qed.

Lemma report_run (evs : list event_spec) :
  forall w : World G, exists w', report clk evs w = (Ok tt, w') /\ untouched w w'.
Proof.
  induction evs as [|e evs IH]; intros w.
  - eexists; split; [reflexivity|apply untouched_refl].
  - cbn [report].
    destruct (span_event_run (active_span w) (es_name e) (es_status e) (es_data e) w)
      as (w1 & E1 & U1).
    destruct (IH w1) as (w2 & E2 & U2).
    exists w2. split; [|eapply untouched_trans; eassumption].
    unfold bind. now rewrite E1.
Qed.

(** A call into the host's client gives the client's result and moves the
    host as the client says; the log of the generation endpoint stays. *)
Lemma call_run {A} (op : backend_op G A) (w : World G) :
  exists w', call clk op w = (fst (fst (op (host w))), w')
             /\ gemini_log w' = gemini_log w /\ sleeps w' = sleeps w
             /\ host w' = snd (op (host w)) /\ active_span w' = active_span w
             /\ host_calls w' = S (host_calls w).
Proof.
  unfold call. destruct (op (host w)) as [[r evs] g'].
  destruct (report_run evs (set_host g' w)) as (w1 & E1 & (a1 & a2 & a3 & a4 & a5)).
  rewrite E1. exists w1. split; [reflexivity|].
  simpl in *. repeat split; assumption.
Qed.

End Running.

(* ------------------------------------------------------------------ *)
(** ** The generation call and its retries *)

Section Retry.
Context {G : Type}.
Variable env : Env G.
Variable self : gemini.GeminiProvider.

Lemma advanced_untouched (w w' : World G) : untouched w w' -> advanced w w' [] [].
Proof.
  intros (a1 & a2 & a3 & a4 & a5). unfold advanced. rewrite !app_nil_r. auto.
Qed.

Lemma advanced_trans (w1 w2 w3 : World G) p1 p2 n1 n2 :
  advanced w1 w2 p1 n1 -> advanced w2 w3 p2 n2 ->
  advanced w1 w3 (p1 ++ p2) (n1 ++ n2).
Proof.
  intros (a1 & a2 & a3 & a4 & a5) (b1 & b2 & b3 & b4 & b5). unfold advanced.
  rewrite b1, a1, b2, a2, !app_assoc. repeat split; congruence.
Qed.

Lemma advanced_untouched_l (w1 w2 w3 : World G) p n :
  untouched w1 w2 -> advanced w2 w3 p n -> advanced w1 w3 p n.
Proof.
  intros U A. apply advanced_untouched in U.
  exact (advanced_trans _ _ _ _ _ _ _ U A).
Qed.

Lemma advanced_untouched_r (w1 w2 w3 : World G) p n :
  advanced w1 w2 p n -> untouched w2 w3 -> advanced w1 w3 p n.
Proof.
  intros A U. apply advanced_untouched in U.
  pose proof (advanced_trans _ _ _ _ _ _ _ A U) as H.
  now rewrite !app_nil_r in H.
Qed.

Lemma urlopen_run (prompt : string) (w : World G) :
  exists w', gemini.urlopen env prompt w
             = (Ok (gemini_urlopen env (List.length (gemini_log w)) prompt), w')
             /\ advanced w w' [prompt] [].
Proof.
  eexists; split; [reflexivity|]. unfold advanced. simpl.
  rewrite app_nil_r. auto.
Qed.

Lemma pause_run (attempt : nat) (w : World G) :
  exists w',
    (if attempt <? gemini.max_retries self
     then sleep (gemini.backoff attempt) else ret tt) w = (Ok tt, w')
    /\ advanced w w' [] (naps_of self attempt 1).
Proof.
  unfold naps_of. cbn [seq filter].
  destruct (attempt <? gemini.max_retries self); eexists; (split; [reflexivity|]).
  - unfold advanced. simpl. rewrite app_nil_r. auto.
  - unfold advanced. simpl. rewrite !app_nil_r. auto.
Qed.

(** One failed attempt: the loop goes on with the attempts that remain. *)
Lemma attempt_failed (prompt : string) (h : span_ref) (a : nat)
      (later : list nat) (le : option exn) (w : World G) :
  let o := gemini_urlopen env (List.length (gemini_log w)) prompt in
  is_transport_failure o = true ->
  exists w',
    gemini.attempt_loop env self prompt h (a :: later) le w
    = gemini.attempt_loop env self prompt h later (failure_error self a o le) w'
    /\ advanced w w' [prompt] (naps_of self a 1).
Proof.
  intros o Ho. cbn [gemini.attempt_loop].
  destruct (span_event_run (clock env) h "gemini.http.start" "ok"
              [("attempt", gemini.int_of_nat (a + 1));
               ("endpoint", VStr (gemini.endpoint self))] w) as (w1 & E1 & U1).
  rewrite (bind_ok _ _ _ _ _ E1).
  destruct (urlopen_run prompt w1) as (w2 & E2 & A2).
  rewrite (bind_ok _ _ _ _ _ E2).
  assert (Hlen : List.length (gemini_log w1) = List.length (gemini_log w))
    by (destruct U1 as (-> & _); reflexivity).
  rewrite Hlen. fold o.
  destruct o as [st raw|code detail| |reason]; try discriminate.
  - destruct (span_event_run (clock env) h "gemini.http.error" "error"
                [("attempt", gemini.int_of_nat (a + 1)); ("reason", VStr "timeout")] w2)
      as (w3 & E3 & U3).
    rewrite (bind_ok _ _ _ _ _ E3).
    destruct (pause_run a w3) as (w4 & E4 & A4).
    rewrite (bind_ok _ _ _ _ _ E4).
    exists w4. split; [reflexivity|].
    apply (advanced_untouched_l _ _ _ _ _ U1).
    apply (advanced_trans _ _ _ [prompt] [] [] _ A2).
    now apply (advanced_untouched_l _ _ _ _ _ U3).
  - destruct (span_event_run (clock env) h "gemini.http.error" "error"
                [("attempt", gemini.int_of_nat (a + 1)); ("reason", VStr reason)] w2)
      as (w3 & E3 & U3).
    rewrite (bind_ok _ _ _ _ _ E3).
    destruct (pause_run a w3) as (w4 & E4 & A4).
    rewrite (bind_ok _ _ _ _ _ E4).
    exists w4. split; [reflexivity|].
    apply (advanced_untouched_l _ _ _ _ _ U1).
    apply (advanced_trans _ _ _ [prompt] [] [] _ A2).
    now apply (advanced_untouched_l _ _ _ _ _ U3).
Qed.

(** One attempt that is answered, with a document or with an error status:
    the loop is left at once. *)
Lemma attempt_answered (prompt : string) (h : span_ref) (a : nat)
      (later : list nat) (le : option exn) (w : World G) :
  let o := gemini_urlopen env (List.length (gemini_log w)) prompt in
  exists w',
    advanced w w' [prompt] []
    /\ (forall st raw, o = HttpOk st raw ->
          gemini.attempt_loop env self prompt h (a :: later) le w
          = (Ok (raw, None), w'))
    /\ (forall code detail, o = HttpError code detail ->
          gemini.attempt_loop env self prompt h (a :: later) le w
          = (Raise (gemini.api_error code detail), w')).
Proof.
  intros o. cbn [gemini.attempt_loop].
  destruct (span_event_run (clock env) h "gemini.http.start" "ok"
              [("attempt", gemini.int_of_nat (a + 1));
               ("endpoint", VStr (gemini.endpoint self))] w) as (w1 & E1 & U1).
  rewrite (bind_ok _ _ _ _ _ E1).
  destruct (urlopen_run prompt w1) as (w2 & E2 & A2).
  rewrite (bind_ok _ _ _ _ _ E2).
  assert (Hlen : List.length (gemini_log w1) = List.length (gemini_log w))
    by (destruct U1 as (-> & _); reflexivity).
  rewrite Hlen. fold o.
  destruct o as [st raw|code detail| |reason].
  - destruct (span_event_run (clock env) h "gemini.http.success" "ok"
                [("attempt", gemini.int_of_nat (a + 1)); ("status_code", VInt st)] w2)
      as (w3 & E3 & U3).
    exists w3. split; [|split].
    + apply (advanced_untouched_l _ _ _ _ _ U1).
      now apply (advanced_untouched_r _ _ _ _ _ A2).
    + intros st' raw' [= <- <-]. now rewrite (bind_ok _ _ _ _ _ E3).
    + discriminate.
  - destruct (span_event_run (clock env) h "gemini.http.error" "error"
                [("attempt", gemini.int_of_nat (a + 1)); ("status_code", VInt code);
                 ("detail", VStr detail)] w2) as (w3 & E3 & U3).
    exists w3. split; [|split].
    + apply (advanced_untouched_l _ _ _ _ _ U1).
      now apply (advanced_untouched_r _ _ _ _ _ A2).
    + discriminate.
    + intros c' d' [= <- <-]. now rewrite (bind_ok _ _ _ _ _ E3).
  - exists w2. split; [|split]; try discriminate.
    now apply (advanced_untouched_l _ _ _ _ _ U1).
  - exists w2. split; [|split]; try discriminate.
    now apply (advanced_untouched_l _ _ _ _ _ U1).
Qed.

Lemma naps_of_succ (a k : nat) :
  naps_of self a (S k) = naps_of self a 1 ++ naps_of self (S a) k.
Proof.
  unfold naps_of. cbn [seq filter].
  destruct (a <? gemini.max_retries self); reflexivity.
Qed.

(** [k] failed attempts in a row. *)
Lemma attempts_failed (prompt : string) (h : span_ref) (later : list nat) :
  forall (k a : nat) (le : option exn) (w : World G),
    let o := fun j => gemini_urlopen env (List.length (gemini_log w) + j) prompt in
    (forall j, j < k -> is_transport_failure (o j) = true) ->
    exists w',
      gemini.attempt_loop env self prompt h (seq a k ++ later) le w
      = gemini.attempt_loop env self prompt h later
          (last_error_after self o a k le) w'
      /\ advanced w w' (repeat prompt k) (naps_of self a k).
Proof.
  induction k as [|k IH]; intros a le w o Ho.
  - exists w. split; [reflexivity|]. apply advanced_untouched, untouched_refl.
  - cbn [seq app].
    assert (H0 : is_transport_failure
                   (gemini_urlopen env (List.length (gemini_log w)) prompt) = true).
    { specialize (Ho 0 ltac:(lia)). unfold o in Ho.
      now rewrite Nat.add_0_r in Ho. }
    destruct (attempt_failed prompt h a (seq (S a) k ++ later) le w H0)
      as (w1 & E1 & A1).
    rewrite E1.
    assert (Hlen : List.length (gemini_log w1) = S (List.length (gemini_log w))).
    { destruct A1 as (-> & _). rewrite length_app. simpl. lia. }
    destruct (IH (S a)
                 (failure_error self a
                    (gemini_urlopen env (List.length (gemini_log w)) prompt) le) w1)
      as (w2 & E2 & A2).
    { intros j Hj. rewrite Hlen.
      specialize (Ho (S j) ltac:(lia)). unfold o in Ho.
      now rewrite Nat.add_succ_r in Ho. }
    exists w2. split.
    + rewrite E2. cbn [last_error_after]. unfold o.
      rewrite Nat.add_0_r. f_equal.
      rewrite Hlen.
      assert (Hext : forall k' a' le' (f g : nat -> http_outcome),
                 (forall j, f j = g j) ->
                 last_error_after self f a' k' le' = last_error_after self g a' k' le').
      { induction k' as [|k' IHk]; intros a' le' f g Hfg; simpl; [reflexivity|].
        rewrite (Hfg 0). apply IHk. intros j. apply Hfg. }
      apply Hext. intros j. now rewrite Nat.add_succ_r.
    + rewrite naps_of_succ.
      change (repeat prompt (S k)) with ([prompt] ++ repeat prompt k).
      eapply advanced_trans; eassumption.
Qed.

(** What follows the retry loop posts nothing. *)
Lemma generate_text_after (prompt : string) (h : span_ref) (w w1 : World G)
      (raw : string) (le : option exn) :
  gemini.attempt_loop env self prompt h
    (seq 0 (gemini.max_retries self + 1)) None w = (Ok (raw, le), w1) ->
  exists w2,
    gemini._generate_text env self prompt h w
    = (match le with
       | Some e => Raise e
       | None => text_result env raw
       end, w2)
    /\ untouched w1 w2.
Proof.
  intros E. unfold gemini._generate_text. rewrite (bind_ok _ _ _ _ _ E).
  destruct le as [e|].
  - exists w1. split; [reflexivity | apply untouched_refl].
  - unfold text_result, bind, lift.
    destruct (gemini.combined_text env raw) as [[|c t]|e].
    + destruct (span_event_run (clock env) h "gemini.parse.error" "error"
                  [("reason", VStr "missing_text_content")] w1) as (w2 & E2 & U2).
      exists w2. rewrite E2. split; [reflexivity | exact U2].
    + exists w1. split; [reflexivity | apply untouched_refl].
    + exists w1. split; [reflexivity | apply untouched_refl].
Qed.

Lemma init_bounds getenv key mdl :
  gemini.init getenv key mdl = Ok self ->
  gemini.max_retries self = 2 /\ gemini.request_timeout_seconds self = 60%Z.
Proof.
  unfold gemini.init. intros H.
  repeat match type of H with
         | context [match ?x with _ => _ end] => destruct x; try discriminate
         end;
    injection H as <-; split; reflexivity.
Qed.

End Retry.

Section RetryPolicy.
Context {G : Type}.
Variable env : Env G.
Variable self : gemini.GeminiProvider.

(** After [k] failed attempts, with attempts left, an answer ends the call. *)
Lemma generate_text_answered (prompt : string) (h : span_ref) (w : World G) (k : nat) :
  let o := fun j => gemini_urlopen env (List.length (gemini_log w) + j) prompt in
  k <= gemini.max_retries self ->
  (forall j, j < k -> is_transport_failure (o j) = true) ->
  exists w',
    advanced w w' (repeat prompt (S k)) (naps_of self 0 k)
    /\ (forall st raw, o k = HttpOk st raw ->
          gemini._generate_text env self prompt h w = (text_result env raw, w'))
    /\ (forall code detail, o k = HttpError code detail ->
          gemini._generate_text env self prompt h w
          = (Raise (gemini.api_error code detail), w')).
Proof.
  intros o Hk Hfail.
  assert (Hseq : seq 0 (gemini.max_retries self + 1)
                 = seq 0 k ++ k :: seq (S k) (gemini.max_retries self - k)).
  { replace (gemini.max_retries self + 1)
      with (k + S (gemini.max_retries self - k)) by lia.
    now rewrite seq_app. }
  destruct (attempts_failed env self prompt h
              (k :: seq (S k) (gemini.max_retries self - k)) k 0 None w Hfail)
    as (w1 & E1 & A1).
  assert (Hlen : List.length (gemini_log w1) = List.length (gemini_log w) + k).
  { destruct A1 as (-> & _). now rewrite length_app, repeat_length. }
  destruct (attempt_answered env self prompt h k
              (seq (S k) (gemini.max_retries self - k))
              (last_error_after self o 0 k None) w1) as (w2 & A2 & Hok & Herr).
  rewrite Hlen in Hok, Herr. fold (o k) in Hok, Herr.
  assert (A12 : advanced w w2 (repeat prompt (S k)) (naps_of self 0 k)).
  { pose proof (advanced_trans _ _ _ _ _ _ _ A1 A2) as A.
    rewrite app_nil_r in A.
    replace (repeat prompt k ++ [prompt]) with (repeat prompt (S k)) in A; [exact A|].
    clear. induction k; simpl; [reflexivity | now f_equal]. }
  destruct (o k) as [st raw|code detail| |reason] eqn:Eo.
  - assert (Hloop : gemini.attempt_loop env self prompt h
                      (seq 0 (gemini.max_retries self + 1)) None w
                    = (Ok (raw, None), w2)).
    { rewrite Hseq. unfold o in E1. rewrite E1. exact (Hok st raw eq_refl). }
    destruct (generate_text_after env self prompt h w w2 raw None Hloop)
      as (w3 & E3 & U3).
    exists w3. split; [|split].
    + now apply (advanced_untouched_r _ _ _ _ _ A12).
    + intros st' raw' [= <- <-]. exact E3.
    + discriminate.
  - exists w2. split; [exact A12|split]; [discriminate|].
    intros c d [= <- <-]. unfold gemini._generate_text.
    apply bind_raise. rewrite Hseq. unfold o in E1. rewrite E1.
    exact (Herr code detail eq_refl).
  - exists w2. split; [exact A12|split]; discriminate.
  - exists w2. split; [exact A12|split]; discriminate.
Qed.

(** Every attempt failed: the last failure is raised. *)
Lemma generate_text_exhausted (prompt : string) (h : span_ref) (w : World G) :
  let o := fun j => gemini_urlopen env (List.length (gemini_log w) + j) prompt in
  let n := gemini.max_retries self + 1 in
  (forall j, j < n -> is_transport_failure (o j) = true) ->
  exists w',
    gemini._generate_text env self prompt h w
    = (match last_error_after self o 0 n None with
       | Some e => Raise e
       | None => text_result env EmptyString
       end, w')
    /\ advanced w w' (repeat prompt n) (naps_of self 0 n).
Proof.
  intros o n Hfail.
  destruct (attempts_failed env self prompt h [] n 0 None w Hfail) as (w1 & E1 & A1).
  rewrite app_nil_r in E1. cbn [gemini.attempt_loop] in E1. unfold ret in E1.
  destruct (generate_text_after env self prompt h w w1 EmptyString _ E1)
    as (w2 & E2 & U2).
  exists w2. split; [exact E2|].
  now apply (advanced_untouched_r _ _ _ _ _ A1).
Qed.

(** Whatever the endpoint does, the attempts of one call are bounded and
    each further attempt follows a transport failure. *)
Lemma attempt_loop_bounded (prompt : string) (h : span_ref) :
  forall (m a : nat) (le : option exn) (w : World G),
    let o := fun j => gemini_urlopen env (List.length (gemini_log w) + j) prompt in
    exists r w' n,
      gemini.attempt_loop env self prompt h (seq a m) le w = (r, w')
      /\ n <= m /\ (0 < m -> 0 < n)
      /\ (exists naps, advanced w w' (repeat prompt n) naps)
      /\ (forall j, S j < n -> is_transport_failure (o j) = true).
Proof.
  induction m as [|m IH]; intros a le w o.
  - exists (Ok (EmptyString, le)), w, 0. split; [reflexivity|].
    split; [lia|]. split; [lia|]. split; [|intros j Hj; lia].
    exists []. apply advanced_untouched, untouched_refl.
  - cbn [seq].
    destruct (is_transport_failure
                (gemini_urlopen env (List.length (gemini_log w)) prompt)) eqn:E0.
    + destruct (attempt_failed env self prompt h a (seq (S a) m) le w E0)
        as (w1 & E1 & A1).
      destruct (IH (S a)
                   (failure_error self a
                      (gemini_urlopen env (List.length (gemini_log w)) prompt) le) w1)
        as (r & w2 & n & E2 & Hn & _ & (naps & A2) & Hprev).
      assert (Hlen : List.length (gemini_log w1) = S (List.length (gemini_log w))).
      { destruct A1 as (-> & _). rewrite length_app. simpl. lia. }
      exists r, w2, (S n). split; [now rewrite E1|].
      split; [lia|]. split; [lia|]. split.
      * eexists. change (repeat prompt (S n)) with ([prompt] ++ repeat prompt n).
        eapply advanced_trans; eassumption.
      * intros [|j] Hj.
        -- unfold o. now rewrite Nat.add_0_r.
        -- specialize (Hprev j ltac:(lia)). rewrite Hlen in Hprev.
           unfold o. now rewrite Nat.add_succ_r.
    + destruct (attempt_answered env self prompt h a (seq (S a) m) le w)
        as (w1 & A1 & Hok & Herr).
      destruct (gemini_urlopen env (List.length (gemini_log w)) prompt)
        as [st raw|code detail| |reason] eqn:Eo; try discriminate.
      * exists (Ok (raw, None)), w1, 1. split; [exact (Hok st raw eq_refl)|].
        split; [lia|]. split; [lia|]. split; [now exists []|intros j Hj; lia].
      * exists (Raise (gemini.api_error code detail)), w1, 1.
        split; [exact (Herr code detail eq_refl)|].
        split; [lia|]. split; [lia|]. split; [now exists []|intros j Hj; lia].
Qed.

End RetryPolicy.

(** C8.  One call of [_generate_text] by a provider as [__init__] configures
    it ([max_retries = 2]), whatever the endpoint does:
    - it posts the prompt at most three times, and every post but the last
      one was answered by a timeout or a connection error, so only transport
      failures are retried;
    - an error response with a status code, on the first attempt or after
      failed ones, is raised at once as [Gemini API error (code): detail],
      with no further post and no pause after it;
    - when all three attempts fail, the error of the last failure is raised,
      after pauses of [1.5] and [3.0] seconds between the attempts;
    - a response that is read ends the attempts and is decoded. *)
Theorem C8_retry_policy :
  forall (G : Type) (env : Env G) (getenv : string -> option string)
         (key mdl : option string) (self : gemini.GeminiProvider)
         (prompt : string) (h : span_ref) (w : World G),
    gemini.init getenv key mdl = Ok self ->
    let o := fun j => gemini_urlopen env (List.length (gemini_log w) + j) prompt in
    let run := gemini._generate_text env self prompt h w in
    (exists n naps,
        n <= 3 /\ advanced w (snd run) (repeat prompt n) naps
        /\ forall j, S j < n -> is_transport_failure (o j) = true)
    /\ (forall k code detail,
          k <= 2 ->
          (forall j, j < k -> is_transport_failure (o j) = true) ->
          o k = HttpError code detail ->
          fst run = Raise (gemini.api_error code detail)
          /\ advanced w (snd run) (repeat prompt (S k)) (map gemini.backoff (seq 0 k)))
    /\ ((forall j, j < 3 -> is_transport_failure (o j) = true) ->
        (exists e, failure_error self 2 (o 2) None = Some e /\ fst run = Raise e)
        /\ advanced w (snd run) (repeat prompt 3) (map gemini.backoff [0; 1]))
    /\ (forall k st raw,
          k <= 2 ->
          (forall j, j < k -> is_transport_failure (o j) = true) ->
          o k = HttpOk st raw ->
          fst run = text_result env raw
          /\ advanced w (snd run) (repeat prompt (S k)) (map gemini.backoff (seq 0 k))).
Proof.
  intros G env getenv key mdl self prompt h w Hinit o run.
  destruct (init_bounds self getenv key mdl Hinit) as [Hmr _].
  assert (Hnaps : forall k, k <= 2 -> naps_of self 0 k = map gemini.backoff (seq 0 k)).
  { intros k Hk. unfold naps_of. rewrite Hmr.
    destruct k as [|[|[|k]]]; try reflexivity; lia. }
  split; [|split; [|split]].
  - destruct (attempt_loop_bounded env self prompt h
                (gemini.max_retries self + 1) 0 None w)
      as (r & w1 & n & E & Hn & _ & (naps & A) & Hprev).
    rewrite Hmr in Hn. simpl in Hn.
    destruct r as [[raw le]|e].
    + destruct (generate_text_after env self prompt h w w1 raw le E) as (w2 & E2 & U2).
      exists n, naps. subst run. rewrite E2. split; [exact Hn|]. split; [|exact Hprev].
      now apply (advanced_untouched_r _ _ _ _ _ A).
    + exists n, naps. subst run. unfold gemini._generate_text.
      rewrite (bind_raise _ _ _ _ _ E). split; [exact Hn|]. split; [exact A|exact Hprev].
  - intros k code detail Hk Hfail Ho.
    destruct (generate_text_answered env self prompt h w k) as (w' & A & _ & Herr);
      [rewrite Hmr; exact Hk | exact Hfail |].
    subst run. rewrite (Herr code detail Ho). rewrite <- Hnaps by exact Hk.
    split; [reflexivity | exact A].
  - intros Hfail.
    destruct (generate_text_exhausted env self prompt h w) as (w' & E & A).
    { rewrite Hmr. exact Hfail. }
    rewrite Hmr in E, A. cbn [Nat.add] in E, A.
    assert (Hlast : exists e, failure_error self 2 (o 2) None = Some e
                              /\ last_error_after self o 0 3 None = Some e).
    { pose proof (Hfail 2 ltac:(lia)) as H2. cbn [last_error_after].
      destruct (o 2); try discriminate; eexists; split; reflexivity. }
    destruct Hlast as (e & He1 & He2).
    fold o in E. rewrite He2 in E. subst run. rewrite E.
    split; [exists e; split; [exact He1 | reflexivity]|].
    unfold naps_of in A. rewrite Hmr in A. exact A.
  - intros k st raw Hk Hfail Ho.
    destruct (generate_text_answered env self prompt h w k) as (w' & A & Hok & _);
      [rewrite Hmr; exact Hk | exact Hfail |].
    subst run. rewrite (Hok st raw Ho). rewrite <- Hnaps by exact Hk.
    split; [reflexivity | exact A].
Qed.

(** An endpoint that times out, then refuses the connection, then answers
    with status 503. *)
Lemma C8_retry_policy_witness :
  let answers := fun (n : nat) (_ : string) =>
    match n with
    | 0 => Timeout
    | 1 => UrlError "Connection refused"
    | _ => HttpError 503 "unavailable"
    end in
  let run := gemini._generate_text (demo_env answers) demo_self "hello" None demo_world in
  fst run = Raise (gemini.api_error 503 "unavailable")
  /\ gemini_log (snd run) = ["hello"; "hello"; "hello"]
  /\ sleeps (snd run) = map gemini.backoff [0; 1].
Proof.
  intros answers run.
  pose proof (C8_retry_policy (list string) (demo_env answers) (fun _ => None)
                (Some "key-1") None demo_self "hello" None demo_world eq_refl)
    as (_ & Herr & _).
  destruct (Herr 2 503%Z "unavailable") as (Hr & Hlog & Hnap & _).
  - lia.
  - intros [|[|j]] Hj; [reflexivity | reflexivity | lia].
  - reflexivity.
  - split; [exact Hr | split; [exact Hlog | exact Hnap]].
Defined.

(* ------------------------------------------------------------------ *)
(** ** The write-access check *)

Section AccessCheck.
Context {G : Type}.
Variable clk : Clock.
Variable gh : tools.GithubTools G.

Lemma ensure_run (access : tools.RepoAccess.t) (w : World G) :
  exists w',
    tools.ensure_repo_write_access clk gh access w
    = (check_outcome (repo_document gh access (host w)), w')
    /\ gemini_log w' = gemini_log w
    /\ host w' = snd (tools._request gh "GET" (tools.repo_path access) None (host w))
    /\ active_span w' = active_span w.
Proof.
  unfold tools.ensure_repo_write_access, repo_document.
  destruct (call_run clk (tools._request gh "GET" (tools.repo_path access) None) w)
    as (w1 & E1 & L1 & _ & H1 & S1 & _).
  exists w1. split; [|auto].
  unfold bind. rewrite E1. unfold check_outcome, and_then, lift, raise, ret.
  destruct (fst (fst (tools._request gh "GET" (tools.repo_path access) None (host w))))
    as [repo|e]; [|reflexivity].
  destruct (Py.get "permissions" VNone repo) as [perms|e]; [|reflexivity].
  now destruct (tools.push_denied perms).
Qed.

Lemma push_denied_iff (repo : dict) :
  tools.push_denied (dict_get_default "permissions" VNone repo) = true
  <-> exists perms, dict_get "permissions" repo = Some (VDict perms)
                    /\ push_absent_or_false perms.
Proof.
  unfold dict_get_default, push_absent_or_false.
  destruct (dict_get "permissions" repo) as [v|] eqn:E.
  - destruct v; simpl; try (split; [discriminate | intros (p & [= ] & _)]).
    split.
    + intros H. exists d. split; [reflexivity|].
      unfold dict_get_default in H.
      destruct (dict_get "push" d); [|exact I].
      now destruct (truthy v).
    + intros (p & [= <-] & H). unfold dict_get_default.
      destruct (dict_get "push" d); [now rewrite H | reflexivity].
  - simpl. split; [discriminate | intros (p & [= ] & _)].
Qed.

End AccessCheck.

(** C9.  Given the repository document the host returns, the write-access
    check raises exactly when the document has a [permissions] mapping whose
    [push] entry is absent or tests false, and then with the no-push-access
    error.  When the document has no [permissions] key, or a value under it
    that is not a mapping, the check returns, and a request outside plan
    mode that names this repository goes on into the tool loop with its
    twelve steps and an empty history, nothing posted yet. *)
Theorem C9_write_access_check :
  forall (G : Type) (env : Env G) (self : gemini.GeminiProvider)
         (access : tools.RepoAccess.t) (w : World G) (repo : dict),
    repo_document (github env) access (host w) = Ok (VDict repo) ->
    let check := tools.ensure_repo_write_access (clock env) (github env) access in
    (forall e, fst (check w) = Raise e <->
               e = RuntimeError tools.NO_PUSH_ACCESS
               /\ exists perms, dict_get "permissions" repo = Some (VDict perms)
                                /\ push_absent_or_false perms)
    /\ ((forall perms, dict_get "permissions" repo <> Some (VDict perms)) ->
        fst (check w) = Ok tt
        /\ forall request : provider.AgentRequest,
            provider.mode request <> "plan" ->
            gemini._extract_repo_access (provider.prompt request) = Ok (Some access) ->
            exists llm_span w',
              gemini.respond env self request w
              = gemini.tool_loop env self request access llm_span (seq 0 12) [] w'
              /\ gemini_log w' = gemini_log w
              /\ host w' = snd (tools._request (github env) "GET"
                                  (tools.repo_path access) None (host w))).
Proof.
  intros G env self access w repo Hdoc check.
  assert (Hcheck : forall w0 : World G, host w0 = host w ->
            exists w1, check w0
                       = (if tools.push_denied (dict_get_default "permissions" VNone repo)
                          then Raise (RuntimeError tools.NO_PUSH_ACCESS) else Ok tt, w1)
                       /\ gemini_log w1 = gemini_log w0
                       /\ host w1 = snd (tools._request (github env) "GET"
                                           (tools.repo_path access) None (host w))
                       /\ active_span w1 = active_span w0).
  { intros w0 Hh. destruct (ensure_run (clock env) (github env) access w0)
      as (w1 & E & L & H & S).
    exists w1. rewrite Hh in E, H. rewrite Hdoc in E. split; [exact E | auto]. }
  split.
  - intros e. destruct (Hcheck w eq_refl) as (w1 & E & _). rewrite E. cbn [fst].
    pose proof (push_denied_iff repo) as Hiff.
    destruct (tools.push_denied (dict_get_default "permissions" VNone repo)).
    + split.
      * intros [= <-]. split; [reflexivity | now apply Hiff].
      * intros [-> _]. reflexivity.
    + split; [discriminate|]. intros [_ Hp]. apply Hiff in Hp. discriminate.
  - intros Hnone.
    assert (Hpass : tools.push_denied (dict_get_default "permissions" VNone repo) = false).
    { destruct (tools.push_denied (dict_get_default "permissions" VNone repo)) eqn:E;
        [|reflexivity].
      apply push_denied_iff in E. destruct E as (p & Hp & _). now apply Hnone in Hp. }
    split.
    + destruct (Hcheck w eq_refl) as (w1 & E & _). rewrite E, Hpass. reflexivity.
    + intros request Hmode Haccess. unfold gemini.respond.
      destruct (trace_span_run (clock env) "llm.workflow"
                  [("provider", VStr gemini.name); ("model", VStr (gemini.model self));
                   ("mode", VStr (provider.mode request))] w)
        as (llm_span & w0 & E0 & (L0 & _ & H0 & S0 & _)).
      rewrite (bind_ok _ _ _ _ _ E0).
      apply String.eqb_neq in Hmode. rewrite Hmode.
      unfold bind at 1. unfold lift at 1. rewrite Haccess.
      destruct (Hcheck (set_active llm_span w0)) as (w1 & E1 & L1 & H1 & S1);
        [exact H0|].
      rewrite Hpass in E1.
      exists llm_span, (set_active (active_span w0) w1).
      split; [|split].
      * unfold bind, with_trace. fold check. rewrite E1. reflexivity.
      * simpl. rewrite L1. simpl. exact L0.
      * simpl. exact H1.
Qed.

(** A host whose repository document carries no [permissions] at all. *)
Lemma C9_write_access_check_witness :
  let gh := {| tools._request := fun _ _ _ g =>
                 ((Ok (VDict [("default_branch", VStr "main")]), []), g);
               tools.create_branch := tools.create_branch demo_github;
               tools.list_files := tools.list_files demo_github;
               tools.read_file := tools.read_file demo_github;
               tools.write_file := tools.write_file demo_github;
               tools.create_pull_request := tools.create_pull_request demo_github |} in
  let access := tools.RepoAccess.mk "acme" "widgets" "main" in
  fst (tools.ensure_repo_write_access demo_clock gh access demo_world) = Ok tt.
Proof.
  intros gh access.
  pose (env := {| clock := demo_clock; json_loads := DemoJson.loads;
                  json_dumps := DemoJson.dumps; plan_schema := EmptyString;
                  gemini_urlopen := fun _ _ => Timeout; github := gh |}).
  refine (proj1 (proj2 (C9_write_access_check (list string) env demo_self access
                          demo_world [("default_branch", VStr "main")] eq_refl) _)).
  intros perms. discriminate.
Defined.

(* ------------------------------------------------------------------ *)
(** ** Mode detection *)

Section Strings.

Lemma is_space_lower (c : ascii) :
  PyStr.is_space (PyStr.lower_char c) = PyStr.is_space c.
Proof. destruct c as [[] [] [] [] [] [] [] []]; reflexivity. Qed.

Lemma lower_lstrip (s : string) :
  PyStr.lower (PyStr.lstrip s) = PyStr.lstrip (PyStr.lower s).
Proof.
  unfold PyStr.lstrip. induction s as [|c t IH]; simpl; [reflexivity|].
  rewrite is_space_lower. destruct (PyStr.is_space c); [exact IH | reflexivity].
Qed.

Lemma lower_rstrip (s : string) :
  PyStr.lower (PyStr.rstrip s) = PyStr.rstrip (PyStr.lower s).
Proof.
  unfold PyStr.rstrip. induction s as [|c t IH]; simpl; [reflexivity|].
  rewrite <- IH, is_space_lower.
  destruct (PyStr.rstrip_by PyStr.is_space t); simpl; [|reflexivity].
  destruct (PyStr.is_space c); reflexivity.
Qed.

Lemma lower_strip (s : string) :
  PyStr.lower (PyStr.strip s) = PyStr.strip (PyStr.lower s).
Proof. unfold PyStr.strip. now rewrite lower_rstrip, lower_lstrip. Qed.

Lemma contains_empty (p : string) :
  p <> EmptyString -> PyStr.contains p EmptyString = false.
Proof. destruct p; [congruence | reflexivity]. Qed.

Lemma contains_lstrip (p s : string) :
  starts_nonspace p = true ->
  PyStr.contains p s = true -> PyStr.contains p (PyStr.lstrip s) = true.
Proof.
  intros Hp. destruct p as [|a p']; [discriminate|]. simpl in Hp.
  unfold PyStr.lstrip. induction s as [|c t IH]; intros H; [exact H|].
  cbn [PyStr.lstrip_by]. destruct (PyStr.is_space c) eqn:Ec; [|exact H].
  apply IH. cbn [PyStr.contains PyStr.startswith] in H.
  destruct (Ascii.eqb_spec a c) as [->|_].
  - rewrite Ec in Hp. discriminate.
  - exact H.
Qed.

Lemma ends_nonspace_nonempty (p : string) :
  ends_nonspace p = true -> p <> EmptyString.
Proof. destruct p; [discriminate | congruence]. Qed.

Lemma startswith_rstrip (p : string) :
  forall s, ends_nonspace p = true ->
            PyStr.startswith s p = true ->
            PyStr.startswith (PyStr.rstrip s) p = true.
Proof.
  unfold PyStr.rstrip.
  induction p as [|a p' IH]; intros s Hp H; [discriminate|].
  destruct s as [|c t]; [discriminate|].
  cbn [PyStr.startswith] in H. apply andb_prop in H as [Hac Ht].
  apply Ascii.eqb_eq in Hac. subst c.
  cbn [PyStr.rstrip_by].
  destruct p' as [|b p''].
  - simpl in Hp. apply negb_true_iff in Hp. rewrite Hp.
    destruct (PyStr.rstrip_by PyStr.is_space t); simpl; now rewrite Ascii.eqb_refl.
  - assert (Hp' : ends_nonspace (String b p'') = true) by exact Hp.
    specialize (IH t Hp' Ht).
    destruct (PyStr.rstrip_by PyStr.is_space t) as [|c r]; [discriminate|].
    cbn [PyStr.startswith]. rewrite Ascii.eqb_refl. exact IH.
Qed.

Lemma contains_startswith (p s : string) :
  PyStr.startswith s p = true -> PyStr.contains p s = true.
Proof. intros H. destruct s; cbn [PyStr.contains]; now rewrite H. Qed.

Lemma contains_rstrip (p : string) :
  forall s, ends_nonspace p = true ->
            PyStr.contains p s = true -> PyStr.contains p (PyStr.rstrip s) = true.
Proof.
  intros s Hp. pose proof (ends_nonspace_nonempty p Hp) as Hne.
  induction s as [|c t IH]; intros H.
  - now rewrite contains_empty in H.
  - cbn [PyStr.contains] in H. apply orb_prop in H as [H|H].
    + apply contains_startswith. now apply startswith_rstrip.
    + specialize (IH H).
      unfold PyStr.rstrip in *. cbn [PyStr.rstrip_by].
      destruct (PyStr.rstrip_by PyStr.is_space t) as [|c' r].
      * now rewrite contains_empty in IH.
      * cbn [PyStr.contains]. cbn [PyStr.contains] in IH. rewrite IH.
        apply orb_true_r.
Qed.

(** An occurrence of [p] in [s] survives [strip] when [p] neither begins
    nor ends with whitespace. *)
Lemma contains_strip (p s : string) :
  starts_nonspace p = true -> ends_nonspace p = true ->
  PyStr.contains p s = true -> PyStr.contains p (PyStr.strip s) = true.
Proof.
  intros H1 H2 H. unfold PyStr.strip.
  now apply contains_rstrip, contains_lstrip.
Qed.

End Strings.

Section PlanBranch.
Context {G : Type}.
Variable env : Env G.
Variable self : gemini.GeminiProvider.

(** One generation call: the prompt and nothing else is posted, at least
    once and at most once per allowed attempt; a document read at the first
    attempt decides the result. *)
Lemma generate_text_run (prompt : string) (h : span_ref) (w : World G) :
  exists r w' n naps,
    gemini._generate_text env self prompt h w = (r, w')
    /\ 0 < n <= gemini.max_retries self + 1
    /\ advanced w w' (repeat prompt n) naps
    /\ (forall st raw,
          gemini_urlopen env (List.length (gemini_log w)) prompt = HttpOk st raw ->
          n = 1 /\ r = text_result env raw).
Proof.
  destruct (is_transport_failure
              (gemini_urlopen env (List.length (gemini_log w)) prompt)) eqn:E0.
  - destruct (attempt_loop_bounded env self prompt h
                (gemini.max_retries self + 1) 0 None w)
      as (r & w1 & n & E & Hn & Hpos & (naps & A) & _).
    assert (Hnot : forall st raw,
               gemini_urlopen env (List.length (gemini_log w)) prompt
               <> HttpOk st raw).
    { intros st raw Habs. rewrite Habs in E0. discriminate. }
    destruct r as [[raw le]|e].
    + destruct (generate_text_after env self prompt h w w1 raw le E) as (w2 & E2 & U2).
      do 4 eexists. split; [exact E2|]. split; [split; [apply Hpos; lia | exact Hn]|].
      split; [now apply (advanced_untouched_r _ _ _ _ _ A)|].
      intros st raw' Habs. now apply Hnot in Habs.
    + do 4 eexists. split.
      { unfold gemini._generate_text. apply bind_raise. exact E. }
      split; [split; [apply Hpos; lia | exact Hn]|]. split; [exact A|].
      intros st raw' Habs. now apply Hnot in Habs.
  - destruct (generate_text_answered env self prompt h w 0) as (w' & A & Hok & Herr);
      [lia | intros j Hj; lia |].
    rewrite Nat.add_0_r in Hok, Herr.
    destruct (gemini_urlopen env (List.length (gemini_log w)) prompt)
      as [st raw|code detail| |reason] eqn:Eo; try discriminate.
    + exists (text_result env raw), w', 1, []. split; [exact (Hok st raw eq_refl)|].
      split; [lia|]. split; [exact A|].
      intros st' raw' [= <- <-]. split; reflexivity.
    + exists (Raise (gemini.api_error code detail)), w', 1, [].
      split; [exact (Herr code detail eq_refl)|].
      split; [lia|]. split; [exact A|]. intros st' raw' [=].
Qed.

(** The plan branch of [respond]: one generation call on the plan prompt,
    whose text is the response. *)
Lemma respond_plan (request : provider.AgentRequest) (w : World G) :
  provider.mode request = "plan" ->
  let plan_prompt :=
    modes.build_plan_prompt (plan_schema env) (provider.prompt request) in
  exists r w' n naps,
    gemini.respond env self request w = (r, w')
    /\ 0 < n <= gemini.max_retries self + 1
    /\ advanced w w' (repeat plan_prompt n) naps
    /\ (forall st raw,
          gemini_urlopen env (List.length (gemini_log w)) plan_prompt = HttpOk st raw ->
          n = 1
          /\ r = and_then (text_result env raw)
                   (fun text => Ok {| provider.provider := gemini.name;
                                      provider.text := text |})).
Proof.
  intros Hmode plan_prompt. unfold gemini.respond.
  destruct (trace_span_run (clock env) "llm.workflow"
              [("provider", VStr gemini.name); ("model", VStr (gemini.model self));
               ("mode", VStr (provider.mode request))] w)
    as (llm_span & w0 & E0 & U0).
  rewrite (bind_ok _ _ _ _ _ E0). rewrite Hmode. cbn [String.eqb Ascii.eqb Bool.eqb].
  fold plan_prompt.
  destruct (generate_text_run plan_prompt llm_span w0)
    as (r & w1 & n & naps & E1 & Hn & A1 & Hfirst).
  assert (Hlen : List.length (gemini_log w0) = List.length (gemini_log w))
    by (destruct U0 as (-> & _); reflexivity).
  rewrite Hlen in Hfirst.
  destruct r as [text|e].
  - rewrite (bind_ok _ _ _ _ _ E1).
    destruct (span_finish_run (clock env) llm_span "ok"
                [("mode", VStr "plan");
                 ("text_length", gemini.int_of_nat (String.length text))] w1)
      as (w2 & E2 & U2).
    rewrite (bind_ok _ _ _ _ _ E2).
    do 4 eexists. split; [reflexivity|]. split; [exact Hn|]. split.
    + apply (advanced_untouched_l _ _ _ _ _ U0).
      apply (advanced_untouched_r _ _ _ _ _ A1). exact U2.
    + intros st raw Ho. destruct (Hfirst st raw Ho) as [-> <-]. split; reflexivity.
  - rewrite (bind_raise _ _ _ _ _ E1).
    do 4 eexists. split; [reflexivity|]. split; [exact Hn|]. split.
    + apply (advanced_untouched_l _ _ _ _ _ U0). exact A1.
    + intros st raw Ho. destruct (Hfirst st raw Ho) as [-> <-]. split; reflexivity.
Qed.

End PlanBranch.

Lemma code_hints_plain :
  forallb (fun h => starts_nonspace h && ends_nonspace h) modes.CODE_HINTS = true.
Proof. reflexivity. Qed.

(** A code hint in the lower-cased prompt decides for plan mode. *)
Lemma detect_mode_code_hint (prompt hint : string) :
  In hint modes.CODE_HINTS ->
  PyStr.contains hint (PyStr.lower prompt) = true ->
  modes.mode (modes.detect_mode prompt) = "plan".
Proof.
  intros Hin Hc. unfold modes.detect_mode.
  destruct (find _ modes.PLAN_HINTS); [reflexivity|].
  destruct (find _ modes.CODE_HINTS) eqn:Ef; [reflexivity|].
  exfalso. pose proof (find_none _ _ Ef hint Hin) as Hn. cbv beta in Hn.
  pose proof code_hints_plain as Hp. rewrite forallb_forall in Hp.
  specialize (Hp hint Hin). apply andb_prop in Hp as [Hs He].
  rewrite lower_strip, (contains_strip hint _ Hs He Hc) in Hn. discriminate.
Qed.

(** C10.  A prompt whose lower-cased text contains a code hint ([fix], [bug],
    [repo], [repository], [pr], ...) is given mode [plan] by [detect_mode],
    whether or not a plan hint matched before.  The request built with that
    mode takes the plan branch of [respond]: the plan prompt, and no other,
    is posted to the generation endpoint (once per attempt of the one
    generation call), no call is made into the client of the repository
    host, so there is no access check and no tool step, and the text of the
    document read at the first attempt is the response. *)
Theorem C10_code_hints_route_to_plan :
  forall (prompt hint : string),
    In hint modes.CODE_HINTS ->
    PyStr.contains hint (PyStr.lower prompt) = true ->
    modes.mode (modes.detect_mode prompt) = "plan"
    /\ forall (G : Type) (env : Env G) (self : gemini.GeminiProvider)
              (context : dict) (w : World G),
        let request := {| provider.prompt := prompt;
                          provider.mode := modes.mode (modes.detect_mode prompt);
                          provider.context := context |} in
        let plan_prompt := modes.build_plan_prompt (plan_schema env) prompt in
        exists r w' n naps,
          gemini.respond env self request w = (r, w')
          /\ 0 < n <= gemini.max_retries self + 1
          /\ advanced w w' (repeat plan_prompt n) naps
          /\ (forall st raw,
                gemini_urlopen env (List.length (gemini_log w)) plan_prompt
                = HttpOk st raw ->
                n = 1
                /\ r = and_then (text_result env raw)
                         (fun text => Ok {| provider.provider := gemini.name;
                                            provider.text := text |})).
Proof.
  intros prompt hint Hin Hc.
  pose proof (detect_mode_code_hint prompt hint Hin Hc) as Hmode.
  split; [exact Hmode|].
  intros G env self context w request plan_prompt.
  apply (respond_plan env self request w). exact Hmode.
Qed.

Lemma C10_code_hints_route_to_plan_witness :
  modes.detect_mode scenario_b_prompt
  = {| modes.mode := "plan"; modes.reason := "matched_code_hint:bug" |}
  /\ let request := {| provider.prompt := scenario_b_prompt;
                       provider.mode := modes.mode (modes.detect_mode scenario_b_prompt);
                       provider.context := [] |} in
     fst (gemini.respond (demo_env plan_answers) demo_self request demo_world)
     = Ok {| provider.provider := "gemini";
             provider.text := dq "{'objective': 'fix it'}" |}.
Proof.
  split; [reflexivity|].
  intros request.
  assert (Hin : In "fix" modes.CODE_HINTS) by (do 7 right; left; reflexivity).
  destruct (proj2 (C10_code_hints_route_to_plan scenario_b_prompt "fix" Hin eq_refl)
              (list string) (demo_env plan_answers) demo_self [] demo_world)
    as (r & w' & n & naps & E & _ & _ & Hfirst).
  destruct (Hfirst 200%Z _ eq_refl) as [_ Hr].
  fold request in E. rewrite E. cbn [fst]. rewrite Hr. reflexivity.
Defined.

(* ------------------------------------------------------------------ *)
(** ** Structured extractor *)

Section Extractor.
Local Open Scope string_scope.

Lemma str_app_assoc (a b c : string) : (a ++ b) ++ c = a ++ b ++ c.
Proof. induction a as [|x a IH]; simpl; [reflexivity | now rewrite IH]. Qed.

Lemma str_app_nil_r (a : string) : a ++ EmptyString = a.
Proof. induction a as [|x a IH]; simpl; [reflexivity | now rewrite IH]. Qed.

Lemma str_length_app (a b : string) :
  String.length (a ++ b) = String.length a + String.length b.
Proof. induction a as [|x a IH]; simpl; [reflexivity | now rewrite IH]. Qed.

Lemma take_drop (n : nat) : forall s, PyStr.take n s ++ PyStr.drop n s = s.
Proof.
  induction n as [|n IH]; intros [|c t]; simpl; try reflexivity.
  now rewrite IH.
Qed.

Lemma drop_app (a b : string) : PyStr.drop (String.length a) (a ++ b) = b.
Proof. induction a as [|x a IH]; simpl; [now destruct b | exact IH]. Qed.

Lemma take_app (a b : string) : PyStr.take (String.length a) (a ++ b) = a.
Proof. induction a as [|x a IH]; simpl; [now destruct b | now rewrite IH]. Qed.

Lemma drop_drop (n : nat) :
  forall m s, PyStr.drop m (PyStr.drop n s) = PyStr.drop (n + m) s.
Proof.
  induction n as [|n IH]; intros m s; simpl; [reflexivity|].
  destruct s as [|c t]; [now destruct m | apply IH].
Qed.

Lemma find_app (c : ascii) (a t : string) :
  PyStr.find c a = None ->
  PyStr.find c (a ++ String c t) = Some (String.length a).
Proof.
  induction a as [|x a IH]; simpl; intros H.
  - now rewrite Ascii.eqb_refl.
  - destruct (Ascii.eqb x c); [discriminate|].
    destruct (PyStr.find c a); [discriminate|]. now rewrite IH.
Qed.

(** The first occurrence splits the text. *)
Lemma find_some (c : ascii) :
  forall s n, PyStr.find c s = Some n ->
              PyStr.find c (PyStr.take n s) = None
              /\ exists t, PyStr.drop n s = String c t.
Proof.
  induction s as [|x s IH]; intros n H; [discriminate|].
  simpl in H. destruct (Ascii.eqb_spec x c) as [->|Hne].
  - injection H as <-. split; [reflexivity | now exists s].
  - destruct (PyStr.find c s) as [i|] eqn:E; [|discriminate].
    injection H as <-. destruct (IH i eq_refl) as [Hpre Hdrop].
    split; [|exact Hdrop]. simpl.
    destruct (Ascii.eqb_spec x c); [contradiction|]. now rewrite Hpre.
Qed.

Lemma scan_from (s : string) :
  forall index depth in_string escaped n,
    json_utils.scan s index depth in_string escaped = Some n ->
    index <= n < index + String.length s.
Proof.
  induction s as [|c t IH]; intros index depth ins esc n H; [discriminate|].
  cbn [json_utils.scan] in H. cbn [String.length].
  repeat match type of H with
         | context [if ?b then _ else _] => destruct b
         end;
    try (injection H as <-; lia);
    apply IH in H; lia.
Qed.

(** Inside a string literal the scan reads to the closing quote. *)
Lemma scan_chars (body : string) :
  json_chars body ->
  forall t index depth,
    json_utils.scan (body ++ t) index depth true false
    = json_utils.scan t (index + String.length body) depth false false.
Proof.
  induction 1 as [|c b Hq Hb _ IH|e b _ IH]; intros t index depth.
  - cbn. f_equal. lia.
  - cbn [append json_utils.scan String.length].
    apply Ascii.eqb_neq in Hq, Hb. rewrite Hq, Hb, IH. f_equal. lia.
  - cbn [append json_utils.scan String.length].
    rewrite Ascii.eqb_refl, IH. f_equal. lia.
Qed.

Lemma scan_passes_nil : scan_passes EmptyString.
Proof. intros t index depth _. simpl. f_equal. lia. Qed.

Lemma scan_passes_app (a b : string) :
  scan_passes a -> scan_passes b -> scan_passes (a ++ b).
Proof.
  intros Ha Hb t index depth Hd.
  rewrite str_app_assoc, Ha, Hb, str_length_app by exact Hd. f_equal. lia.
Qed.

(** A character that is neither a quote nor a brace is read over. *)
Lemma scan_passes_char (c : ascii) :
  Ascii.eqb c DQ = false -> Ascii.eqb c LBRACE = false ->
  Ascii.eqb c RBRACE = false ->
  scan_passes (String c EmptyString).
Proof.
  intros H1 H2 H3 t index depth _. cbn [append json_utils.scan String.length].
  rewrite H1, H2, H3. f_equal. lia.
Qed.

Lemma scan_passes_chars (s : string) :
  (forall c, PyStr.mem_char c s = true ->
             Ascii.eqb c DQ = false /\ Ascii.eqb c LBRACE = false
             /\ Ascii.eqb c RBRACE = false) ->
  scan_passes s.
Proof.
  induction s as [|c s IH]; intros H; [apply scan_passes_nil|].
  change (String c s) with (String c EmptyString ++ s).
  apply scan_passes_app.
  - destruct (H c) as (H1 & H2 & H3); [simpl; now rewrite Ascii.eqb_refl|].
    now apply scan_passes_char.
  - apply IH. intros c' Hc'. apply H. simpl. rewrite Hc'. apply orb_true_r.
Qed.

Lemma ws_plain (c : ascii) :
  DemoJson.is_ws c = true ->
  Ascii.eqb c DQ = false /\ Ascii.eqb c LBRACE = false /\ Ascii.eqb c RBRACE = false.
Proof.
  destruct c as [[] [] [] [] [] [] [] []]; try discriminate; intros _; repeat split.
Qed.

Lemma atom_plain (c : ascii) :
  is_atom_char c = true ->
  Ascii.eqb c DQ = false /\ Ascii.eqb c LBRACE = false /\ Ascii.eqb c RBRACE = false.
Proof.
  destruct c as [[] [] [] [] [] [] [] []]; try discriminate; intros _; repeat split.
Qed.

Lemma scan_passes_ws (a : string) : json_ws a -> scan_passes a.
Proof. intros H. apply scan_passes_chars. intros c Hc. apply ws_plain, H, Hc. Qed.

Lemma scan_passes_string (body : string) :
  json_chars body -> scan_passes (String DQ body).
Proof.
  intros H t index depth _. cbn [append json_utils.scan String.length].
  rewrite Ascii.eqb_refl. change (Ascii.eqb DQ DQ) with true.
  rewrite (scan_chars body H). f_equal. lia.
Qed.

Lemma scan_passes_braces (inner : string) :
  scan_passes inner -> scan_passes ("{" ++ inner ++ "}").
Proof.
  intros H t index depth Hd.
  cbn [append json_utils.scan].
  change (Ascii.eqb "{" DQ) with false. change (Ascii.eqb "{" LBRACE) with true.
  cbv iota. rewrite str_app_assoc, H by lia.
  cbn [append json_utils.scan].
  change (Ascii.eqb "}" DQ) with false. change (Ascii.eqb "}" LBRACE) with false.
  change (Ascii.eqb "}" RBRACE) with true. cbv iota.
  replace (depth + 1 - 1)%Z with depth by lia.
  destruct (Z.eqb_spec depth 0); [lia|].
  cbn [String.length]. rewrite str_length_app. cbn [String.length]. f_equal. lia.
Qed.

Lemma scan_passes_brackets (inner : string) :
  scan_passes inner -> scan_passes ("[" ++ inner ++ "]").
Proof.
  intros H. change ("[" ++ inner ++ "]") with ("[" ++ (inner ++ "]")).
  apply scan_passes_app; [now apply scan_passes_char|].
  apply scan_passes_app; [exact H | now apply scan_passes_char].
Qed.

Create HintDb passes.
#[local] Hint Resolve scan_passes_ws scan_passes_string scan_passes_braces
     scan_passes_brackets scan_passes_app : passes.

(** The scan reads through every JSON value, through the items of an array
    and through the members of an object. *)
Lemma json_passes :
  (forall s, json_text s -> scan_passes s)
  /\ (forall s, json_items s -> scan_passes s)
  /\ (forall s, json_members s -> scan_passes s).
Proof.
  assert (Hcomma : scan_passes ",") by now apply scan_passes_char.
  assert (Hcolon : scan_passes ":") by now apply scan_passes_char.
  assert (H : (forall s (H : json_text s), scan_passes s)
              /\ (forall s (H : json_items s), scan_passes s)
              /\ (forall s (H : json_members s), scan_passes s)).
  { apply json_mutind; intros; auto 8 with passes.
    apply scan_passes_chars. intros c Hc. apply atom_plain.
    match goal with Ha : json_atom _ |- _ => now apply Ha end. }
  destruct H as (H1 & H2 & H3). repeat split; auto.
Qed.

(** The candidate of a text that carries a JSON object after a prefix
    without braces: the object, and what follows it. *)
Lemma candidate_span_object (pre obj rest : string) :
  PyStr.find LBRACE pre = None ->
  json_object_text obj ->
  json_utils.candidate_span (pre ++ obj ++ rest) = Ok (obj, rest).
Proof.
  intros Hpre Hobj.
  assert (Hshape : exists inner, obj = "{" ++ inner ++ "}" /\ scan_passes inner).
  { destruct Hobj as [a Ha | members Hm]; eexists; (split; [reflexivity|]).
    - now apply scan_passes_ws.
    - now apply json_passes. }
  destruct Hshape as (inner & -> & Hin).
  unfold json_utils.candidate_span.
  change (("{" ++ inner ++ "}") ++ rest) with (String LBRACE ((inner ++ "}") ++ rest)).
  rewrite (find_app LBRACE pre _ Hpre), drop_app.
  cbn [json_utils.scan].
  change (Ascii.eqb LBRACE DQ) with false. rewrite Ascii.eqb_refl. cbv iota.
  rewrite str_app_assoc, Hin by lia.
  cbn [append json_utils.scan].
  change (Ascii.eqb "}" DQ) with false. change (Ascii.eqb "}" LBRACE) with false.
  change (Ascii.eqb "}" RBRACE) with true. cbv iota.
  change (0 + 1 - 1 =? 0)%Z with true. cbv iota.
  unfold PyStr.slice.
  replace (S (String.length pre) + String.length inner + 1 - String.length pre)
    with (String.length (String LBRACE (inner ++ "}")))
    by (cbn [String.length]; rewrite str_length_app; cbn [String.length]; lia).
  change (inner ++ String "}" rest) with (inner ++ "}" ++ rest).
  rewrite <- (str_app_assoc inner "}" rest).
  change (String LBRACE ((inner ++ "}") ++ rest))
    with (String LBRACE (inner ++ "}") ++ rest).
  rewrite drop_app, take_app.
  replace (S (String.length pre) + String.length inner + 1)
    with (String.length pre + String.length (String LBRACE (inner ++ "}")))
    by (cbn [String.length]; rewrite str_length_app; cbn [String.length]; lia).
  rewrite <- drop_drop, drop_app, drop_app. reflexivity.
Qed.

End Extractor.

(* ------------------------------------------------------------------ *)
(** ** Serialized objects are JSON object texts *)

Section Serialized.
Local Open Scope string_scope.

Lemma json_ws_nil : json_ws EmptyString.
Proof. intros c Hc. discriminate. Qed.

Lemma json_ws_space : json_ws " ".
Proof.
  intros c Hc. cbn [PyStr.mem_char] in Hc. rewrite orb_false_r in Hc.
  apply Ascii.eqb_eq in Hc. now subst c.
Qed.

Lemma json_ws_app (a b : string) : json_ws a -> json_ws b -> json_ws (a ++ b).
Proof.
  intros Ha Hb c. induction a as [|x a IH]; [apply Hb|].
  cbn [append PyStr.mem_char]. intros Hc. apply orb_prop in Hc as [Hc|Hc].
  - apply Ha. cbn [PyStr.mem_char]. now rewrite Hc.
  - apply IH; [|exact Hc]. intros c' Hc'. apply Ha.
    cbn [PyStr.mem_char]. rewrite Hc'. apply orb_true_r.
Qed.

(** One escaped character in front of the rest of a string literal. *)
Lemma escape_char_chars (c : ascii) (rest : string) :
  json_chars rest -> json_chars (DemoJson.escape_char c ++ rest).
Proof.
  intros H.
  destruct c as [[] [] [] [] [] [] [] []]; cbv;
    repeat first [ exact H | apply jc_escape
                 | apply jc_plain; [discriminate | discriminate |] ].
Qed.

Lemma escape_chars (s rest : string) :
  json_chars rest -> json_chars (DemoJson.escape s ++ rest).
Proof.
  intros H. induction s as [|c t IH]; [exact H|].
  cbn [DemoJson.escape]. rewrite str_app_assoc. now apply escape_char_chars.
Qed.

Lemma quote_chars (s : string) :
  json_chars (DemoJson.escape s ++ String DQ EmptyString).
Proof. apply escape_chars, jc_close. Qed.

Lemma uint_atom_chars (d : Decimal.uint) (c : ascii) :
  PyStr.mem_char c (NilEmpty.string_of_uint d) = true -> is_atom_char c = true.
Proof.
  induction d; cbn [NilEmpty.string_of_uint PyStr.mem_char]; intros H;
    try discriminate;
    (apply orb_prop in H as [H|H];
     [apply Ascii.eqb_eq in H; subst c; reflexivity | now apply IHd]).
Qed.

Lemma int_atom (z : Z) : json_atom (NilZero.string_of_int (Z.to_int z)).
Proof.
  assert (Hu : forall d, json_atom (NilZero.string_of_uint d)).
  { intros d. split.
    - destruct d; discriminate.
    - intros c. destruct d; try (apply uint_atom_chars).
      cbn [NilZero.string_of_uint PyStr.mem_char]. intros H.
      rewrite orb_false_r in H.
      apply Ascii.eqb_eq in H. subst c. reflexivity. }
  unfold NilZero.string_of_int. destruct (Z.to_int z) as [d|d]; [apply Hu|].
  split; [discriminate|].
  intros c. cbn [PyStr.mem_char]. intros H. apply orb_prop in H as [H|H].
  - apply Ascii.eqb_eq in H. subst c. reflexivity.
  - now apply (Hu d).
Qed.

Lemma json_text_pad (s : string) : json_text s -> json_text (" " ++ s).
Proof.
  intros H. rewrite <- (str_app_nil_r s).
  exact (jt_pad " " s EmptyString json_ws_space json_ws_nil H).
Qed.

Lemma json_items_pad (r : string) : json_items r -> json_items (" " ++ r).
Proof.
  intros [s Hs | s rest Hs Hrest].
  - apply ji_last. now apply json_text_pad.
  - rewrite <- str_app_assoc. apply ji_more; [now apply json_text_pad | exact Hrest].
Qed.

Lemma json_members_pad (r : string) : json_members r -> json_members (" " ++ r).
Proof.
  intros [a k b v Ha Hk Hb Hv | a k b v rest Ha Hk Hb Hv Hrest];
    rewrite <- str_app_assoc.
  - apply jm_last; try assumption. apply json_ws_app; [apply json_ws_space | exact Ha].
  - apply jm_more; try assumption. apply json_ws_app; [apply json_ws_space | exact Ha].
Qed.

Lemma items_join (texts : list string) :
  texts <> [] -> (forall t, In t texts -> json_text t) ->
  json_items (PyStr.join ", " texts).
Proof.
  induction texts as [|t rest IH]; intros Hne Hall; [congruence|].
  destruct rest as [|t' rest'].
  - apply ji_last. apply Hall. now left.
  - change (PyStr.join ", " (t :: t' :: rest'))
      with (t ++ "," ++ " " ++ PyStr.join ", " (t' :: rest')).
    apply ji_more; [apply Hall; now left|].
    apply json_items_pad, IH; [discriminate|].
    intros x Hx. apply Hall. now right.
Qed.

Lemma member_last (k v : string) : json_text v -> json_members (member_text k v).
Proof.
  intros Hv.
  change (member_text k v)
    with (String DQ ((DemoJson.escape k ++ String DQ EmptyString) ++ ":" ++ " " ++ v)).
  change (String DQ ((DemoJson.escape k ++ String DQ EmptyString) ++ ":" ++ " " ++ v))
    with (EmptyString ++ String DQ (DemoJson.escape k ++ String DQ EmptyString)
            ++ EmptyString ++ ":" ++ " " ++ v).
  apply jm_last; [apply json_ws_nil | apply quote_chars | apply json_ws_nil|].
  now apply json_text_pad.
Qed.

Lemma member_more (k v rest : string) :
  json_text v -> json_members rest ->
  json_members (member_text k v ++ "," ++ rest).
Proof.
  intros Hv Hrest.
  replace (member_text k v ++ "," ++ rest)
    with (EmptyString ++ String DQ (DemoJson.escape k ++ String DQ EmptyString)
            ++ EmptyString ++ ":" ++ (" " ++ v) ++ "," ++ rest).
  - apply jm_more; [apply json_ws_nil | apply quote_chars | apply json_ws_nil | |exact Hrest].
    now apply json_text_pad.
  - unfold member_text, DemoJson.quote. cbn [append].
    rewrite !str_app_assoc. cbn [append]. rewrite ?str_app_assoc. reflexivity.
Qed.

Lemma members_join (entries : list (string * string)) :
  entries <> [] -> (forall k v, In (k, v) entries -> json_text v) ->
  json_members (PyStr.join ", " (map (fun '(k, v) => member_text k v) entries)).
Proof.
  induction entries as [|[k v] rest IH]; intros Hne Hall; [congruence|].
  destruct rest as [|[k' v'] rest'].
  - apply member_last. apply (Hall k). now left.
  - change (PyStr.join ", " (map (fun '(k0, v0) => member_text k0 v0)
                               ((k, v) :: (k', v') :: rest')))
      with (member_text k v ++ "," ++ " "
              ++ PyStr.join ", " (map (fun '(k0, v0) => member_text k0 v0)
                                    ((k', v') :: rest'))).
    apply member_more; [apply (Hall k); now left|].
    apply json_members_pad, IH; [discriminate|].
    intros k0 v0 Hin. apply (Hall k0). now right.
Qed.

Lemma dumps_dict_members (d : dict) :
  map (fun '(k, x) => (DemoJson.quote k ++ ": " ++ DemoJson.dumps x)) d
  = map (fun '(k, v) => member_text k v)
        (map (fun '(k, x) => (k, DemoJson.dumps x)) d).
Proof.
  induction d as [|[k x] d IH]; cbn [map]; [reflexivity|].
  rewrite IH. reflexivity.
Qed.

(** [json.dumps] writes JSON texts. *)
Lemma dumps_json_text (v : value) :
  float_free v = true -> json_text (DemoJson.dumps v).
Proof.
  induction v as [|b|z|r|s|l IH|d IH] using value_ind'; intros Hff.
  - apply jt_atom. split; [discriminate|].
    intros c Hc. cbn [DemoJson.dumps PyStr.mem_char] in Hc.
    repeat (apply orb_prop in Hc as [Hc|Hc];
            [apply Ascii.eqb_eq in Hc; subst c; reflexivity|]).
    discriminate.
  - apply jt_atom. split; [destruct b; discriminate|].
    intros c Hc. destruct b; cbn [DemoJson.dumps PyStr.mem_char] in Hc;
      repeat (apply orb_prop in Hc as [Hc|Hc];
              [apply Ascii.eqb_eq in Hc; subst c; reflexivity|]);
      discriminate.
  - apply jt_atom, int_atom.
  - discriminate.
  - apply jt_string, quote_chars.
  - change (DemoJson.dumps (VList l))
      with ("[" ++ PyStr.join ", " (map DemoJson.dumps l) ++ "]").
    destruct l as [|x l].
    + exact (jt_array_empty EmptyString json_ws_nil).
    + apply jt_array, items_join; [discriminate|].
      intros t Ht. apply in_map_iff in Ht as (y & <- & Hy).
      apply IH; [exact Hy|].
      cbn [float_free] in Hff. rewrite forallb_forall in Hff. now apply Hff.
  - change (DemoJson.dumps (VDict d))
      with ("{" ++ PyStr.join ", "
                     (map (fun '(k, x) => (DemoJson.quote k ++ ": " ++ DemoJson.dumps x)) d)
            ++ "}").
    destruct d as [|[k x] d].
    + exact (jt_object_empty EmptyString json_ws_nil).
    + apply jt_object. rewrite dumps_dict_members.
      apply members_join; [discriminate|].
      intros k0 v0 Hin. apply in_map_iff in Hin as ([k1 y] & [= <- <-] & Hy).
      apply (IH k1 y Hy).
      cbn [float_free] in Hff. rewrite forallb_forall in Hff.
      exact (Hff (k1, y) Hy).
Qed.

(** The serialization of an object is the text of a JSON object. *)
Lemma dumps_object_text (o : dict) :
  float_free (VDict o) = true ->
  json_object_text (DemoJson.dumps (VDict o)).
Proof.
  intros Hff.
  change (DemoJson.dumps (VDict o))
    with ("{" ++ PyStr.join ", "
                   (map (fun '(k, x) => (DemoJson.quote k ++ ": " ++ DemoJson.dumps x)) o)
          ++ "}").
  destruct o as [|[k x] o].
  - exact (jo_empty EmptyString json_ws_nil).
  - apply jo_members. rewrite dumps_dict_members.
    apply members_join; [discriminate|].
    intros k0 v0 Hin. apply in_map_iff in Hin as ([k1 y] & [= <- <-] & Hy).
    apply dumps_json_text.
    cbn [float_free] in Hff. rewrite forallb_forall in Hff.
    exact (Hff (k1, y) Hy).
Qed.

End Serialized.

(** The extractor on a serialized object with text around it. *)
Lemma extract_serialized_object (json_loads : string -> string + value)
      (text pre rest : string) (o : dict) :
  float_free (VDict o) = true ->
  json_utils.strip_code_fences text
  = (pre ++ DemoJson.dumps (VDict o) ++ rest)%string ->
  PyStr.find LBRACE pre = None ->
  json_loads (DemoJson.dumps (VDict o)) = inr (VDict o) ->
  json_utils.extract_first_json_object json_loads text = Ok (o, PyStr.strip rest).
Proof.
  intros Hff Htext Hpre Hloads.
  unfold json_utils.extract_first_json_object.
  rewrite Htext, (candidate_span_object pre _ rest Hpre (dumps_object_text o Hff)).
  rewrite Hloads. reflexivity.
Qed.

(** C3, counterexample.  The text is a serialized object followed by two
    blanks and a word.  Everything after the closing brace is the two blanks
    and the word; the remainder returned is the word alone. *)
Lemma C3_trailing_verbatim_counterexample :
  let text := dq "{'a': 1}  tail" in
  let object := DemoJson.dumps (VDict [("a", VInt 1)]) in
  text = (object ++ "  tail")%string
  /\ json_utils.candidate_span (json_utils.strip_code_fences text)
     = Ok (object, "  tail")
  /\ json_utils.extract_first_json_object DemoJson.loads text
     = Ok ([("a", VInt 1)], "tail")
  /\ json_utils.extract_first_json_object DemoJson.loads text
     <> Ok ([("a", VInt 1)], "  tail").
Proof. repeat split. discriminate. Qed.

(** C3, as amended.  When the text, after the fences are stripped, consists
    of a prefix without braces, the text of a JSON object (its string values
    may hold braces, quotes and escapes) and a rest, [extract] returns the
    object as [json.loads] reads it from exactly that text, together with
    the rest stripped of the whitespace at both ends. *)
Theorem C3_extract_round_trip :
  forall (json_loads : string -> string + value) (text pre obj rest : string)
         (o : dict),
    json_utils.strip_code_fences text = (pre ++ obj ++ rest)%string ->
    PyStr.find LBRACE pre = None ->
    json_object_text obj ->
    json_loads obj = inr (VDict o) ->
    json_utils.extract_first_json_object json_loads text = Ok (o, PyStr.strip rest).
Proof.
  intros json_loads text pre obj rest o Htext Hpre Hobj Hloads.
  unfold json_utils.extract_first_json_object.
  rewrite Htext, (candidate_span_object pre obj rest Hpre Hobj), Hloads.
  reflexivity.
Qed.

Lemma chatty_object_text : json_object_text chatty_object.
Proof. exact (dumps_object_text [("msg", VStr (dq "}{'"))] eq_refl). Qed.

Lemma C3_extract_round_trip_witness :
  json_utils.extract_first_json_object DemoJson.loads chatty_answer
  = Ok ([("msg", VStr (dq "}{'"))], "see above").
Proof.
  exact (C3_extract_round_trip DemoJson.loads chatty_answer
           "Sure: " chatty_object "  see above" [("msg", VStr (dq "}{'"))]
           eq_refl eq_refl chatty_object_text eq_refl).
Defined.

(** C4, counterexample.  In the first text the only brace lies inside a
    quoted string: no brace outside a string exists, yet the error is the
    unterminated-object one, not the no-object one.  In the second text the
    first brace outside a string is at index 4 and opens a JSON object, but
    the candidate is begun at the quoted brace at index 1 and never closes. *)
Lemma C4_unquoted_brace_counterexample :
  (first_unquoted_brace (dq "'{'") 0 false false = None
   /\ json_utils.extract_first_json_object DemoJson.loads (dq "'{'")
      = Raise (ValueError "Unterminated JSON object in text")
   /\ json_utils.extract_first_json_object DemoJson.loads (dq "'{'")
      <> Raise (ValueError NO_OBJECT))
  /\ (first_unquoted_brace (dq "'{' {'a': 1}") 0 false false = Some 4
      /\ PyStr.find LBRACE (dq "'{' {'a': 1}") = Some 1
      /\ json_utils.extract_first_json_object DemoJson.loads (dq "'{' {'a': 1}")
         = Raise (ValueError "Unterminated JSON object in text")).
Proof. repeat split. discriminate. Qed.

(** C4, as amended.  The candidate begins at the first brace of the
    fence-stripped text, whether or not that brace lies inside a quoted
    string: no brace precedes the candidate, and the candidate, when the scan
    closes it, is the part of the text from that brace on.  The extractor
    fails with the no-object-found error exactly when the fence-stripped text
    contains no opening brace at all.  ([json.loads] has no error with that
    message.) *)
Theorem C4_candidate_starts_at_first_brace :
  forall (json_loads : string -> string + value) (text : string),
    (forall s, json_loads s <> inl NO_OBJECT) ->
    let candidate := json_utils.strip_code_fences text in
    (json_utils.extract_first_json_object json_loads text = Raise (ValueError NO_OBJECT)
     <-> PyStr.find LBRACE candidate = None)
    /\ (forall start,
          PyStr.find LBRACE candidate = Some start ->
          PyStr.find LBRACE (PyStr.take start candidate) = None
          /\ forall raw after,
              json_utils.candidate_span candidate = Ok (raw, after) ->
              candidate = (PyStr.take start candidate ++ raw ++ after)%string
              /\ exists body, raw = String LBRACE body).
Proof.
  intros json_loads text Hloads candidate. split.
  - unfold json_utils.extract_first_json_object, json_utils.candidate_span.
    fold candidate.
    destruct (PyStr.find LBRACE candidate) as [start|]; [|split; reflexivity].
    split; [|discriminate]. intros H. exfalso.
    destruct (json_utils.scan _ _ _ _ _) as [end_|]; [|discriminate].
    destruct (json_loads _) as [msg|v] eqn:E.
    + injection H as ->. now apply Hloads in E.
    + destruct v; discriminate.
  - intros start Hfind.
    destruct (find_some LBRACE candidate start Hfind) as [Hpre [t Hdrop]].
    split; [exact Hpre|].
    intros raw after. unfold json_utils.candidate_span. rewrite Hfind.
    destruct (json_utils.scan _ _ _ _ _) as [end_|] eqn:Escan; [|discriminate].
    intros [= <- <-].
    apply scan_from in Escan.
    unfold PyStr.slice.
    replace (end_ + 1) with (start + (end_ + 1 - start)) at 2 by lia.
    rewrite <- drop_drop, take_drop, take_drop. split; [reflexivity|].
    rewrite Hdrop. destruct (end_ + 1 - start) as [|k] eqn:Ek; [lia|].
    simpl. eexists. reflexivity.
Qed.

Lemma demo_loads_messages (s : string) : DemoJson.loads s <> inl NO_OBJECT.
Proof.
  unfold DemoJson.loads.
  destruct (DemoJson.parse_value _ _) as [[v r]|];
    [destruct (DemoJson.skip_ws r)|]; discriminate.
Qed.

Lemma C4_candidate_starts_at_first_brace_witness :
  json_utils.extract_first_json_object DemoJson.loads "no object in this answer"
  = Raise (ValueError NO_OBJECT)
  /\ json_utils.candidate_span (dq "say '{' then {'a': 1}")
     <> Ok (dq "{'a': 1}", EmptyString).
Proof.
  split.
  - exact (proj2 (proj1 (C4_candidate_starts_at_first_brace DemoJson.loads
                           "no object in this answer" demo_loads_messages))
                 eq_refl).
  - intros H.
    destruct (proj2 (C4_candidate_starts_at_first_brace DemoJson.loads
                       (dq "say '{' then {'a': 1}") demo_loads_messages)
                    5 eq_refl) as [_ Hspan].
    destruct (Hspan _ _ H) as [Heq _]. discriminate Heq.
Defined.

(* ------------------------------------------------------------------ *)
(** ** The tool loop *)

Section ToolLoop.
Context {G : Type}.
Variable env : Env G.
Variable self : gemini.GeminiProvider.

Lemma lift_run {A} (r : outcome A) (w : World G) : lift r w = (r, w).
Proof. reflexivity. Qed.

Lemma parse_action_run (text : string) (h : span_ref) (w : World G) :
  exists w', gemini._parse_action env text h w = (parse_result env text, w')
             /\ untouched w w'.
Proof.
  unfold gemini._parse_action, parse_result.
  destruct (json_utils.extract_first_json_object (json_loads env) text)
    as [[payload trailing]|e].
  - destruct trailing as [|c t].
    + exists w. split; [reflexivity | apply untouched_refl].
    + destruct (span_event_run (clock env) h "gemini.action.trailing_text" "warn"
                  [("trailing", VStr (String c t))] w) as (w1 & E1 & U1).
      exists w1. split; [|exact U1].
      now rewrite (bind_ok _ _ _ _ _ E1).
  - destruct e; try (exists w; split; [reflexivity | apply untouched_refl]).
    destruct (span_event_run (clock env) h "gemini.action.parse.error" "error"
                [("error", VStr msg); ("raw", VStr text)] w) as (w1 & E1 & U1).
    exists w1. split; [|exact U1].
    now rewrite (bind_ok _ _ _ _ _ E1).
Qed.

Lemma build_tool_prompt_run (user_prompt : string) (access : tools.RepoAccess.t)
      (history : list value) (w : World G) :
  exists w',
    gemini._build_tool_prompt env user_prompt access history w
    = (Ok (json_dumps env
             (gemini.tool_prompt_payload user_prompt access history
                (epoch (clock env) (ticks w)))), w')
    /\ untouched w w'.
Proof.
  unfold gemini._build_tool_prompt.
  destruct (time_now_run (clock env) w) as (w1 & E1 & U1).
  exists w1. split; [|exact U1].
  now rewrite (bind_ok _ _ _ _ _ E1).
Qed.

(** A generation call whose first attempt is answered. *)
Lemma generate_text_first (prompt : string) (h : span_ref) (w : World G)
      (st : Z) (raw : string) :
  gemini_urlopen env (List.length (gemini_log w)) prompt = HttpOk st raw ->
  exists w', gemini._generate_text env self prompt h w = (text_result env raw, w')
             /\ advanced w w' [prompt] [].
Proof.
  intros Ho.
  destruct (generate_text_answered env self prompt h w 0) as (w' & A & Hok & _);
    [lia | intros j Hj; lia |].
  exists w'. split; [|exact A]. apply (Hok st raw).
  now rewrite Nat.add_0_r.
Qed.

(** A generation call that is answered after [tries] failed attempts. *)
Lemma generate_text_retried (prompt : string) (h : span_ref) (w : World G)
      (tries : nat) (text : string) (asked : string -> Prop) :
  asked prompt ->
  answers_after env self (List.length (gemini_log w)) tries text asked ->
  exists w', gemini._generate_text env self prompt h w = (Ok text, w')
             /\ advanced w w' (repeat prompt (S tries)) (naps_of self 0 tries).
Proof.
  intros Hasked (Hle & Hans).
  destruct (Hans prompt Hasked) as (Hfail & st & raw & Ho & Htext).
  destruct (generate_text_answered env self prompt h w tries) as (w' & A & Hok & _);
    [exact Hle | exact Hfail |].
  exists w'. split; [|exact A]. rewrite <- Htext. exact (Hok st raw Ho).
Qed.

(** An answer at the first attempt, whatever the prompt, is an answer after
    no failed attempt. *)
Lemma answers_now (n : nat) (text : string) (asked : string -> Prop) :
  answers env n text -> answers_after env self n 0 text asked.
Proof.
  intros Hans. split; [lia|]. intros prompt _. split; [intros j Hj; lia|].
  rewrite Nat.add_0_r. exact (Hans prompt).
Qed.

Lemma answers_after_mono (n tries : nat) (text : string)
      (asked asked' : string -> Prop) :
  (forall prompt, asked' prompt -> asked prompt) ->
  answers_after env self n tries text asked ->
  answers_after env self n tries text asked'.
Proof.
  intros Hsub (Hle & Hans). split; [exact Hle|].
  intros prompt Hasked. exact (Hans prompt (Hsub prompt Hasked)).
Qed.

(** The generation endpoint hears nothing of a tool call. *)
Lemma call_log {A} (op : backend_op G A) (w : World G) :
  gemini_log (snd (call (clock env) op w)) = gemini_log w.
Proof.
  destruct (call_run (clock env) op w) as (w' & E & L & _). now rewrite E.
Qed.

Lemma bind_log {A B} (c : M G A) (k : A -> M G B) :
  (forall w, gemini_log (snd (c w)) = gemini_log w) ->
  (forall a w, gemini_log (snd (k a w)) = gemini_log w) ->
  forall w, gemini_log (snd (bind c k w)) = gemini_log w.
Proof.
  intros Hc Hk w. unfold bind. specialize (Hc w).
  destruct (c w) as [[a|e] w1]; simpl in *; [|exact Hc].
  now rewrite Hk.
Qed.

Lemma execute_tool_inner_log (access : tools.RepoAccess.t) (tool arguments : value) :
  forall w, gemini_log (snd (gemini._execute_tool_inner env access tool arguments w))
            = gemini_log w.
Proof.
  unfold gemini._execute_tool_inner, tools.get_default_branch.
  repeat match goal with
         | |- forall w, gemini_log (snd ((if ?b then _ else _) w)) = _ => destruct b
         | |- forall w, gemini_log (snd (bind _ _ w)) = _ =>
             apply bind_log; [|intros ?]
         | |- forall w, gemini_log (snd (call _ _ w)) = _ => intros ?; apply call_log
         | |- forall w, gemini_log (snd (lift _ w)) = _ => reflexivity
         | |- forall w, gemini_log (snd (ret _ w)) = _ => reflexivity
         | |- forall w, gemini_log (snd (raise _ w)) = _ => reflexivity
         end.
Qed.

Lemma execute_tool_log (access : tools.RepoAccess.t) (tool arguments : value)
      (span : span_ref) (w : World G) :
  gemini_log (snd (gemini._execute_tool env access tool arguments span w))
  = gemini_log w.
Proof.
  unfold gemini._execute_tool, with_trace.
  pose proof (execute_tool_inner_log access tool arguments (set_active span w)) as H.
  destruct (gemini._execute_tool_inner env access tool arguments (set_active span w))
    as [r w'].
  simpl in *. exact H.
Qed.

(** The result of a tool call, and the state in which it leaves the
    repository host, depend on the state of the host only. *)
Abbreviation host_only c :=
  (forall w1 w2 : World G,
      host w1 = host w2 ->
      fst (c w1) = fst (c w2) /\ host (snd (c w1)) = host (snd (c w2))).

Lemma call_host {A} (op : backend_op G A) : host_only (call (clock env) op).
Proof.
  intros w1 w2 Hw.
  destruct (call_run (clock env) op w1) as (w1' & E1 & _ & _ & H1 & _).
  destruct (call_run (clock env) op w2) as (w2' & E2 & _ & _ & H2 & _).
  rewrite E1, E2. cbn [fst snd]. rewrite H1, H2, Hw. now split.
Qed.

Lemma bind_host {A B} (c : M G A) (k : A -> M G B) :
  host_only c -> (forall a, host_only (k a)) -> host_only (bind c k).
Proof.
  intros Hc Hk w1 w2 Hw. unfold bind. destruct (Hc w1 w2 Hw) as [Hr Hh].
  destruct (c w1) as [[a1|e1] w1'], (c w2) as [[a2|e2] w2'];
    cbn [fst snd] in *; try discriminate.
  - injection Hr as <-. exact (Hk a1 w1' w2' Hh).
  - injection Hr as <-. split; [reflexivity | exact Hh].
Qed.

Lemma execute_tool_inner_host (access : tools.RepoAccess.t) (tool arguments : value) :
  host_only (gemini._execute_tool_inner env access tool arguments).
Proof.
  unfold gemini._execute_tool_inner, tools.get_default_branch.
  repeat match goal with
         | |- forall w1 w2, _ -> fst ((if ?b then _ else _) w1) = _ /\ _ => destruct b
         | |- forall w1 w2, _ -> fst (bind _ _ w1) = _ /\ _ =>
             apply bind_host; [|intros ?]
         | |- forall w1 w2, _ -> fst (call _ _ w1) = _ /\ _ => apply call_host
         | |- forall w1 w2, _ -> fst (lift _ w1) = _ /\ _ =>
             intros ? ? ?; split; [reflexivity | assumption]
         | |- forall w1 w2, _ -> fst (ret _ w1) = _ /\ _ =>
             intros ? ? ?; split; [reflexivity | assumption]
         | |- forall w1 w2, _ -> fst (raise _ w1) = _ /\ _ =>
             intros ? ? ?; split; [reflexivity | assumption]
         end.
Qed.

Lemma execute_tool_host (access : tools.RepoAccess.t) (tool arguments : value)
      (span1 span2 : span_ref) (w1 w2 : World G) :
  host w1 = host w2 ->
  fst (gemini._execute_tool env access tool arguments span1 w1)
  = fst (gemini._execute_tool env access tool arguments span2 w2)
  /\ host (snd (gemini._execute_tool env access tool arguments span1 w1))
     = host (snd (gemini._execute_tool env access tool arguments span2 w2)).
Proof.
  intros Hw. unfold gemini._execute_tool, with_trace.
  pose proof (execute_tool_inner_host access tool arguments
                (set_active span1 w1) (set_active span2 w2) Hw) as [Hr Hh].
  destruct (gemini._execute_tool_inner env access tool arguments (set_active span1 w1))
    as [r1 w1'].
  destruct (gemini._execute_tool_inner env access tool arguments (set_active span2 w2))
    as [r2 w2'].
  cbn [fst snd] in *. split; [exact Hr | exact Hh].
Qed.

(** A dispatch that succeeds in one world succeeds, with the same result
    and the same effect on the host, whenever the host is in that state. *)
Lemma dispatch_succeeds_at (access : tools.RepoAccess.t) (action : dict)
      (span0 : span_ref) (w0 w0' : World G) (result : value) :
  gemini._execute_tool env access
    (dict_get_default "tool" VNone action)
    (dict_get_default "arguments" (VDict []) action) span0 w0
  = (Ok result, w0') ->
  dispatch_succeeds env access action (eq (host w0)) (eq (host w0')) (eq result).
Proof.
  intros E0 span w Hw.
  destruct (execute_tool_host access (dict_get_default "tool" VNone action)
              (dict_get_default "arguments" (VDict []) action) span0 span w0 w Hw)
    as [Hr Hh].
  rewrite E0 in Hr, Hh. cbn [fst snd] in Hr, Hh.
  destruct (gemini._execute_tool env access _ _ span w) as [r w'].
  cbn [fst snd] in Hr, Hh. subst r.
  exists result, w'. split; [reflexivity|]. split; [exact Hh | reflexivity].
Qed.

Lemma dict_get_app_some (k : string) (d extra : dict) (v : value) :
  dict_get k d = Some v -> dict_get k (d ++ extra) = Some v.
Proof.
  induction d as [|[k' x] d IH]; simpl; [discriminate|].
  destruct (String.eqb k' k); [trivial | exact IH].
Qed.

(** An action classified as a tool call names its tool. *)
Lemma tool_call_has_tool (text : string) (action : dict) :
  decodes_to_tool_call env text action ->
  exists tool, dict_get "tool" action = Some tool.
Proof.
  intros [Hparse Htype]. unfold parse_result in Hparse.
  destruct (json_utils.extract_first_json_object (json_loads env) text)
    as [[payload trailing]|e]; [|destruct e; discriminate].
  unfold gemini.classify_action in Hparse.
  destruct (Py.eq_str (dict_get_default "type" VNone payload) "tool_call") eqn:Et.
  - unfold dict_mem in Hparse.
    destruct (dict_get "tool" payload) as [tool|] eqn:Etool; [|discriminate].
    simpl in Hparse. exists tool.
    destruct (dict_get "arguments" payload); injection Hparse as <-.
    + exact Etool.
    + now apply dict_get_app_some.
  - destruct (Py.eq_str (dict_get_default "type" VNone payload) "final");
      [|discriminate].
    destruct (negb _); [discriminate|]. injection Hparse as <-.
    unfold dict_get_default in Et. rewrite Htype in Et. discriminate.
Qed.

Variable request : provider.AgentRequest.
Variable access : tools.RepoAccess.t.
Variable llm_span : span_ref.

Abbreviation loop := (gemini.tool_loop env self request access llm_span).
Abbreviation prompt_of history ts :=
  (json_dumps env
     (gemini.tool_prompt_payload (provider.prompt request) access history ts)).

(** The part of a step shared by all of its outcomes: the prompt is built
    and posted, and the answer is parsed. *)
Lemma step_decoded (i : nat) (later : list nat) (history : list value)
      (w : World G) (tries : nat) (text : string) (asked : string -> Prop) :
  asked (prompt_of history (epoch (clock env) (ticks w))) ->
  answers_after env self (List.length (gemini_log w)) tries text asked ->
  exists ts step_span w',
    gemini_log w' = gemini_log w ++ repeat (prompt_of history ts) (S tries)
    /\ host_calls w' = host_calls w
    /\ host w' = host w
    /\ loop (i :: later) history w
       = bind (lift (parse_result env text))
           (fun action =>
              bind (gemini.action_item "type" action) (fun action_type =>
              if Py.eq_str action_type "final" then
                bind (span_finish (clock env) step_span "ok"
                        [("action_type", VStr "final")]) (fun _ =>
                bind (span_finish (clock env) llm_span "ok"
                        [("mode", VStr "tool_workflow")]) (fun _ =>
                bind (gemini.action_item "message" action) (fun message =>
                lift (provider.response gemini.name message))))
              else
                bind (gemini.action_item "tool" action) (fun tool =>
                let arguments := dict_get_default "arguments" (VDict []) action in
                bind (span_child (clock env) step_span "llm.tool_call"
                        [("tool", tool); ("arguments", arguments)]) (fun tool_span =>
                bind (gemini.action_item "tool" action) (fun tool' =>
                bind (gemini._execute_tool env access tool' arguments tool_span)
                  (fun tool_result =>
                bind (span_finish (clock env) tool_span "ok" []) (fun _ =>
                bind (span_finish (clock env) step_span "ok"
                        [("action_type", VStr "tool_call")]) (fun _ =>
                loop later (history ++ [gemini.history_entry text tool_result])))))))))
           w'.
Proof.
  intros Hasked Hans. cbn [gemini.tool_loop].
  destruct (build_tool_prompt_run (provider.prompt request) access history w)
    as (w1 & E1 & U1).
  set (ts := epoch (clock env) (ticks w)) in *.
  rewrite (bind_ok _ _ _ _ _ E1).
  destruct (span_child_run (clock env) llm_span "llm.step"
              [("index", gemini.int_of_nat (i + 1))] w1) as (step_span & w2 & E2 & U2).
  rewrite (bind_ok _ _ _ _ _ E2).
  pose proof (untouched_trans _ _ _ U1 U2) as U12.
  assert (Hlen : List.length (gemini_log w2) = List.length (gemini_log w))
    by (destruct U12 as (-> & _); reflexivity).
  rewrite <- Hlen in Hans.
  destruct (generate_text_retried (prompt_of history ts) step_span w2 tries text
              asked Hasked Hans)
    as (w3 & E3 & A3).
  rewrite (bind_ok _ _ _ _ _ E3).
  destruct (parse_action_run text step_span w3) as (w4 & E4 & U4).
  exists ts, step_span, w4.
  pose proof (advanced_untouched_r _ _ _ _ _
                (advanced_untouched_l _ _ _ _ _ U12 A3) U4) as (L & _ & H & _ & C).
  split; [exact L|]. split; [exact C|]. split; [exact H|].
  unfold bind at 1. rewrite E4. unfold bind at 3, lift at 1.
  destruct (parse_result env text); reflexivity.
Qed.

Lemma action_item_run (k : string) (action : dict) (v : value) (w : World G) :
  dict_get k action = Some v -> gemini.action_item k action w = (Ok v, w).
Proof. intros H. unfold gemini.action_item, lift, Py.item. now rewrite H. Qed.

(** A step whose action is a tool call that succeeds: the prompt is posted
    until it is answered, one entry is appended, and the loop goes on. *)
Lemma step_tool_call (i : nat) (later : list nat) (history : list value)
      (w : World G) (tries : nat) (text : string) (action : dict)
      (asked : string -> Prop) (before after : G -> Prop)
      (results : value -> Prop) :
  asked (prompt_of history (epoch (clock env) (ticks w))) ->
  answers_after env self (List.length (gemini_log w)) tries text asked ->
  decodes_to_tool_call env text action ->
  dispatch_succeeds env access action before after results ->
  before (host w) ->
  exists ts result w',
    loop (i :: later) history w
    = loop later (history ++ [gemini.history_entry text result]) w'
    /\ gemini_log w' = gemini_log w ++ repeat (prompt_of history ts) (S tries)
    /\ after (host w') /\ results result.
Proof.
  intros Hasked Hans Hdec Hok Hbefore.
  destruct (tool_call_has_tool text action Hdec) as (tool & Htool).
  destruct Hdec as [Hparse Htype].
  destruct (step_decoded i later history w tries text asked Hasked Hans)
    as (ts & step_span & w1 & L1 & _ & H1 & ->).
  rewrite Hparse. rewrite (bind_ok _ _ _ _ _ (lift_run _ _)).
  rewrite (bind_ok _ _ _ _ _ (action_item_run _ _ _ _ Htype)).
  change (Py.eq_str (VStr "tool_call") "final") with false. cbv iota.
  rewrite (bind_ok _ _ _ _ _ (action_item_run _ _ _ _ Htool)).
  cbv zeta.
  destruct (span_child_run (clock env) step_span "llm.tool_call"
              [("tool", tool);
               ("arguments", dict_get_default "arguments" (VDict []) action)] w1)
    as (tool_span & w2 & E2 & U2).
  rewrite (bind_ok _ _ _ _ _ E2).
  rewrite (bind_ok _ _ _ _ _ (action_item_run _ _ _ _ Htool)).
  assert (H2 : host w2 = host w)
    by (destruct U2 as (_ & _ & -> & _); exact H1).
  rewrite <- H2 in Hbefore.
  destruct (Hok tool_span w2 Hbefore) as (result & w3 & E3 & Hafter & Hresult).
  assert (Hdef : dict_get_default "tool" VNone action = tool)
    by (unfold dict_get_default; now rewrite Htool).
  rewrite Hdef in E3.
  pose proof (execute_tool_log access tool
                (dict_get_default "arguments" (VDict []) action) tool_span w2) as L3.
  rewrite E3 in L3. cbn [snd] in L3.
  rewrite (bind_ok _ _ _ _ _ E3).
  destruct (span_finish_run (clock env) tool_span "ok" [] w3) as (w4 & E4 & U4).
  rewrite (bind_ok _ _ _ _ _ E4).
  destruct (span_finish_run (clock env) step_span "ok"
              [("action_type", VStr "tool_call")] w4) as (w5 & E5 & U5).
  rewrite (bind_ok _ _ _ _ _ E5).
  exists ts, result, w5. split; [reflexivity|].
  destruct U2 as (L2 & _).
  destruct U4 as (L4 & _ & H4 & _). destruct U5 as (L5 & _ & H5 & _).
  split; [congruence|]. split; [now rewrite H5, H4 | exact Hresult].
Qed.

(** A step whose tool call raises: the error leaves the loop at once. *)
Lemma step_tool_raises (i : nat) (later : list nat) (history : list value)
      (w : World G) (text : string) (action : dict) (e : exn) :
  answers env (List.length (gemini_log w)) text ->
  decodes_to_tool_call env text action ->
  (forall span w0,
      fst (gemini._execute_tool env access
             (dict_get_default "tool" VNone action)
             (dict_get_default "arguments" (VDict []) action) span w0) = Raise e) ->
  exists ts w',
    loop (i :: later) history w = (Raise e, w')
    /\ gemini_log w' = gemini_log w ++ [prompt_of history ts].
Proof.
  intros Hans Hdec Hraise.
  destruct (tool_call_has_tool text action Hdec) as (tool & Htool).
  destruct Hdec as [Hparse Htype].
  destruct (step_decoded i later history w 0 text (fun _ => True) I
              (answers_now _ _ _ Hans))
    as (ts & step_span & w1 & L1 & _ & _ & ->).
  cbn [repeat] in L1.
  rewrite Hparse. rewrite (bind_ok _ _ _ _ _ (lift_run _ _)).
  rewrite (bind_ok _ _ _ _ _ (action_item_run _ _ _ _ Htype)).
  change (Py.eq_str (VStr "tool_call") "final") with false. cbv iota.
  rewrite (bind_ok _ _ _ _ _ (action_item_run _ _ _ _ Htool)).
  cbv zeta.
  destruct (span_child_run (clock env) step_span "llm.tool_call"
              [("tool", tool);
               ("arguments", dict_get_default "arguments" (VDict []) action)] w1)
    as (tool_span & w2 & E2 & U2).
  rewrite (bind_ok _ _ _ _ _ E2).
  rewrite (bind_ok _ _ _ _ _ (action_item_run _ _ _ _ Htool)).
  assert (Hdef : dict_get_default "tool" VNone action = tool)
    by (unfold dict_get_default; now rewrite Htool).
  specialize (Hraise tool_span w2). rewrite Hdef in Hraise.
  pose proof (execute_tool_log access tool
                (dict_get_default "arguments" (VDict []) action) tool_span w2) as L3.
  destruct (gemini._execute_tool env access tool
              (dict_get_default "arguments" (VDict []) action) tool_span w2)
    as [r w3] eqn:E3.
  cbn [fst snd] in Hraise, L3. subst r.
  rewrite (bind_raise _ _ _ _ _ E3).
  exists ts, w3. split; [reflexivity|].
  destruct U2 as (L2 & _). congruence.
Qed.

(** A step whose action is final: the message is the response, nothing is
    appended and no call reaches the repository host. *)
Lemma step_final (i : nat) (later : list nat) (history : list value)
      (w : World G) (tries : nat) (text : string) (message : value)
      (asked : string -> Prop) :
  asked (prompt_of history (epoch (clock env) (ticks w))) ->
  answers_after env self (List.length (gemini_log w)) tries text asked ->
  decodes_to_final env text message ->
  exists ts w',
    loop (i :: later) history w = (provider.response gemini.name message, w')
    /\ gemini_log w' = gemini_log w ++ repeat (prompt_of history ts) (S tries)
    /\ host_calls w' = host_calls w
    /\ host w' = host w.
Proof.
  intros Hasked Hans (action & Hparse & Htype & Hmsg).
  destruct (step_decoded i later history w tries text asked Hasked Hans)
    as (ts & step_span & w1 & L1 & C1 & H1 & ->).
  rewrite Hparse. rewrite (bind_ok _ _ _ _ _ (lift_run _ _)).
  rewrite (bind_ok _ _ _ _ _ (action_item_run _ _ _ _ Htype)).
  change (Py.eq_str (VStr "final") "final") with true. cbv iota.
  destruct (span_finish_run (clock env) step_span "ok"
              [("action_type", VStr "final")] w1) as (w2 & E2 & U2).
  rewrite (bind_ok _ _ _ _ _ E2).
  destruct (span_finish_run (clock env) llm_span "ok"
              [("mode", VStr "tool_workflow")] w2) as (w3 & E3 & U3).
  rewrite (bind_ok _ _ _ _ _ E3).
  rewrite (bind_ok _ _ _ _ _ (action_item_run _ _ _ _ Hmsg)).
  exists ts, w3. split; [reflexivity|].
  destruct U2 as (L2 & _ & H2 & _ & C2). destruct U3 as (L3 & _ & H3 & _ & C3).
  split; [congruence|]. split; congruence.
Qed.

(** The statements after the loop. *)
Lemma loop_exhausted (history : list value) (w : World G) :
  exists w',
    loop [] history w
    = (Ok {| provider.provider := gemini.name;
             provider.text := gemini.STEP_LIMIT_TEXT |}, w')
    /\ untouched w w'.
Proof.
  cbn [gemini.tool_loop].
  destruct (span_finish_run (clock env) llm_span "error"
              [("reason", VStr "step_limit_exceeded")] w) as (w1 & E1 & U1).
  rewrite (bind_ok _ _ _ _ _ E1). exists w1. split; [reflexivity | exact U1].
Qed.

Lemma request_index_once (n0 i : nat) : request_index n0 (fun _ => 0) i = n0 + i.
Proof.
  revert n0. induction i as [|i IH]; intros n0; cbn [request_index]; [lia|].
  rewrite IH. lia.
Qed.

Lemma reposted_once (prompts : list string) : reposted (fun _ => 0) prompts = prompts.
Proof.
  induction prompts as [|p rest IH]; cbn [reposted repeat app]; [reflexivity|].
  now rewrite IH.
Qed.

(** The requests made for the prompts are those counted by [request_index]. *)
Lemma request_index_reposted (prompts : list string) :
  forall (n0 : nat) (tries : nat -> nat),
    request_index n0 tries (List.length prompts)
    = n0 + List.length (reposted tries prompts).
Proof.
  induction prompts as [|p rest IH]; intros n0 tries;
    cbn [List.length request_index reposted]; [lia|].
  rewrite IH, length_app, repeat_length. lia.
Qed.

Lemma reposted_snoc (prompts : list string) (prompt : string) :
  forall tries : nat -> nat,
    reposted tries (prompts ++ [prompt])
    = reposted tries prompts ++ repeat prompt (S (tries (List.length prompts))).
Proof.
  induction prompts as [|p rest IH]; intros tries.
  - cbn [app reposted List.length]. now rewrite app_nil_r.
  - cbn [app reposted List.length]. now rewrite IH, <- app_assoc.
Qed.

(** When no attempt fails, every prompt is posted once. *)
Lemma reposted_none (prompts : list string) :
  forall tries : nat -> nat,
    (forall i, i < List.length prompts -> tries i = 0) ->
    reposted tries prompts = prompts.
Proof.
  induction prompts as [|p rest IH]; intros tries Hnone; [reflexivity|].
  cbn [reposted]. rewrite (Hnone 0) by (cbn; lia). cbn [repeat app].
  rewrite IH; [reflexivity|].
  intros i Hi. apply Hnone. cbn. lia.
Qed.

Lemma entries_with_of (texts : nat -> string) (results : nat -> value -> Prop)
      (entries : list value) :
  entries_with texts results entries -> entries_of texts entries.
Proof.
  intros H i Hi. destruct (H i Hi) as (result & _ & E). now exists result.
Qed.

(** The prompt of a step that follows a tool call is a prompt of the run
    that began before the call. *)
Lemma step_prompt_later (history : list value) (texts : nat -> string)
      (results : nat -> value -> Prop) (result : value) (i : nat) (prompt : string) :
  results 0 result ->
  step_prompt env request access (history ++ [gemini.history_entry (texts 0) result])
    (fun j => texts (S j)) (fun j => results (S j)) i prompt ->
  step_prompt env request access history texts results (S i) prompt.
Proof.
  intros Hresult (entries & n & Hlen & Hent & ->).
  exists (gemini.history_entry (texts 0) result :: entries), n.
  split; [cbn [List.length]; now rewrite Hlen|]. split.
  - intros [|j] Hj.
    + exists result. split; [exact Hresult | reflexivity].
    + cbn [List.length] in Hj. apply (Hent j). lia.
  - now rewrite <- app_assoc.
Qed.

(** [k] steps in a row whose tool calls succeed, each in the state the
    repository host is in at that step. *)
Lemma loop_tool_run (m : nat) :
  forall (k a : nat) (history : list value) (w : World G) (tries : nat -> nat)
         (texts : nat -> string) (states : nat -> G -> Prop)
         (results : nat -> value -> Prop),
    tool_run env self request access history (List.length (gemini_log w)) k
      tries texts states results ->
    states 0 (host w) ->
    exists entries prompts w',
      loop (seq a (k + m)) history w = loop (seq (a + k) m) (history ++ entries) w'
      /\ gemini_log w' = gemini_log w ++ reposted tries prompts
      /\ List.length entries = k /\ List.length prompts = k
      /\ entries_with texts results entries
      /\ prompts_of env request access history entries prompts
      /\ states k (host w').
Proof.
  induction k as [|k IH]; intros a history w tries texts states results Hrun Hstate.
  - exists [], [], w. rewrite Nat.add_0_r, !app_nil_r.
    repeat split; try reflexivity; try exact Hstate; intros i Hi; simpl in Hi; lia.
  - cbn [Nat.add seq].
    destruct (Hrun 0 ltac:(lia)) as (Hans & action & Hdec & Hok).
    cbn [request_index] in Hans.
    assert (Hasked : step_prompt env request access history texts results 0
                       (prompt_of history (epoch (clock env) (ticks w)))).
    { exists [], (ticks w). split; [reflexivity|]. split.
      - intros i Hi. cbn in Hi. lia.
      - now rewrite app_nil_r. }
    destruct (step_tool_call a (seq (S a) (k + m)) history w (tries 0) (texts 0)
                action _ (states 0) (states 1) (results 0)
                Hasked Hans Hdec Hok Hstate)
      as (ts & result & w1 & E1 & L1 & Hstate1 & Hresult).
    destruct (IH (S a) (history ++ [gemini.history_entry (texts 0) result]) w1
                 (fun i => tries (S i)) (fun i => texts (S i))
                 (fun i => states (S i)) (fun i => results (S i)))
      as (entries & prompts & w2 & E2 & L2 & Hle & Hlp & Hent & Hpr & Hstate2).
    { intros i Hi. rewrite L1, length_app, repeat_length.
      destruct (Hrun (S i) ltac:(lia)) as (Hans' & Hact'). split; [|exact Hact'].
      refine (answers_after_mono _ _ _ _ _ _ Hans').
      intros prompt Hp. exact (step_prompt_later _ _ _ _ _ _ Hresult Hp). }
    { exact Hstate1. }
    exists (gemini.history_entry (texts 0) result :: entries),
           (prompt_of history ts :: prompts), w2.
    split; [|split; [|split; [|split; [|split; [|split]]]]].
    + rewrite E1, E2, <- app_assoc. cbn [app].
      now rewrite Nat.add_succ_r.
    + rewrite L2, L1, <- app_assoc. reflexivity.
    + cbn [List.length]. now rewrite Hle.
    + cbn [List.length]. now rewrite Hlp.
    + intros [|i] Hi.
      * exists result. split; [exact Hresult | reflexivity].
      * cbn [List.length] in Hi. apply (Hent i). lia.
    + intros [|i] Hi.
      * exists ts. cbn [firstn nth_error]. now rewrite app_nil_r.
      * cbn [List.length] in Hi. destruct (Hpr i ltac:(lia)) as (ts' & Hts').
        exists ts'. cbn [nth_error firstn]. rewrite Hts', <- app_assoc. reflexivity.
    + exact Hstate2.
Qed.

(** [k] steps in a row, each answered at the first attempt, whose tool
    calls succeed in whatever state the repository host is. *)
Lemma loop_tool_calls (m : nat) :
  forall (k a : nat) (history : list value) (w : World G) (texts : nat -> string),
    tool_calls env access (List.length (gemini_log w)) k texts ->
    exists entries prompts w',
      loop (seq a (k + m)) history w = loop (seq (a + k) m) (history ++ entries) w'
      /\ gemini_log w' = gemini_log w ++ prompts
      /\ List.length entries = k /\ List.length prompts = k
      /\ entries_of texts entries
      /\ prompts_of env request access history entries prompts.
Proof.
  intros k a history w texts Hcalls.
  destruct (loop_tool_run m k a history w (fun _ => 0) texts (fun _ _ => True)
              (fun _ _ => True))
    as (entries & prompts & w' & E & L & Hle & Hlp & Hent & Hpr & _).
  - intros i Hi. destruct (Hcalls i Hi) as (Hans & action & Hdec & Hok). split.
    + rewrite request_index_once. now apply answers_now.
    + exists action. split; [exact Hdec|]. intros span w0 _.
      destruct (Hok span w0) as (result & w1 & E1). exists result, w1.
      split; [exact E1 | split; exact I].
  - exact I.
  - rewrite reposted_once in L. exists entries, prompts, w'.
    split; [exact E|]. split; [exact L|]. split; [exact Hle|].
    split; [exact Hlp|]. split; [exact (entries_with_of _ _ _ Hent) | exact Hpr].
Qed.

(** A tool name outside the known names: the dispatch raises without a call
    into the repository host. *)
Lemma execute_unknown_tool (tool arguments : value) (w : World G) :
  unknown_tool tool ->
  gemini._execute_tool_inner env access tool arguments w
  = (Raise (RuntimeError [Lit "Unknown tool requested by Gemini: "; Fmt tool]), w).
Proof.
  intros H. unfold gemini._execute_tool_inner.
  rewrite !H by (cbv; tauto). reflexivity.
Qed.

End ToolLoop.

Section Workflow.
Context {G : Type}.
Variable env : Env G.
Variable self : gemini.GeminiProvider.

(** A request outside plan mode that names a repository to which the token
    can push: after the access check, the only call into the repository
    host so far, the loop begins with twelve steps and an empty history. *)
Lemma respond_enters_loop (request : provider.AgentRequest)
      (access : tools.RepoAccess.t) (w : World G) :
  provider.mode request <> "plan" ->
  gemini._extract_repo_access (provider.prompt request) = Ok (Some access) ->
  access_granted env access w ->
  exists llm_span w0,
    gemini.respond env self request w
    = gemini.tool_loop env self request access llm_span (seq 0 12) [] w0
    /\ gemini_log w0 = gemini_log w
    /\ host_calls w0 = S (host_calls w)
    /\ host w0 = host_after_check env access (host w).
Proof.
  intros Hmode Haccess Hgranted. unfold gemini.respond.
  destruct (trace_span_run (clock env) "llm.workflow"
              [("provider", VStr gemini.name); ("model", VStr (gemini.model self));
               ("mode", VStr (provider.mode request))] w)
    as (llm_span & w0 & E0 & (L0 & _ & H0 & _ & C0)).
  rewrite (bind_ok _ _ _ _ _ E0).
  apply String.eqb_neq in Hmode. rewrite Hmode.
  unfold bind at 1. unfold lift at 1. rewrite Haccess.
  unfold tools.ensure_repo_write_access.
  destruct (call_run (clock env)
              (tools._request (github env) "GET" (tools.repo_path access) None)
              (set_active llm_span w0)) as (w1 & E1 & L1 & _ & Hh1 & _ & C1).
  unfold access_granted, check_outcome, repo_document in Hgranted.
  cbn [host set_active] in E1. rewrite H0 in E1.
  exists llm_span, (set_active (active_span w0) w1).
  split; [|split; [|split]].
  - unfold bind at 1. unfold with_trace. unfold bind at 1. rewrite E1.
    destruct (fst (fst (tools._request (github env) "GET"
                          (tools.repo_path access) None (host w))))
      as [repo|e]; [|discriminate].
    cbn [and_then] in Hgranted. unfold bind at 1, lift at 1.
    destruct (Py.get "permissions" VNone repo) as [perms|e]; [|discriminate].
    cbn [and_then] in Hgranted.
    destruct (tools.push_denied perms); [discriminate|]. reflexivity.
  - simpl. rewrite L1. simpl. exact L0.
  - simpl. rewrite C1. simpl. now rewrite C0.
  - simpl. rewrite Hh1. simpl. unfold host_after_check. now rewrite H0.
Qed.

End Workflow.

(* ------------------------------------------------------------------ *)
(** ** The workflow: step limit, history, unknown tools *)

(** C2, counterexample.  Every answer of the oracle is the same text, which
    is no JSON at all and so decodes to no final action; yet the workflow
    does not run twelve iterations and does not return the step-limit
    message: the first iteration raises. *)
Lemma C2_never_final_counterexample :
  let env := demo_env chatter_answers in
  let text := "I cannot help with that." in
  let run := gemini.respond env demo_self demo_request demo_world in
  (forall n, answers env n text)
  /\ (forall message, ~ decodes_to_final env text message)
  /\ fst run = Raise (RuntimeError [Lit "Gemini response is not JSON: "; Lit text])
  /\ fst run <> Ok {| provider.provider := "gemini";
                      provider.text := gemini.STEP_LIMIT_TEXT |}
  /\ List.length (gemini_log (snd run)) = 1.
Proof.
  split; [|split; [|split; [|split]]].
  - intros n prompt. do 2 eexists. split; reflexivity.
  - intros message (action & Hparse & _). vm_compute in Hparse. discriminate Hparse.
  - vm_compute. reflexivity.
  - intros H. vm_compute in H. discriminate H.
  - vm_compute. reflexivity.
Qed.

(** C2, as amended.  In the tool workflow (a request outside plan mode that
    names a repository, the access check passed), when the prompt of each
    of the twelve steps is answered by the oracle, at once or after failed
    attempts that [_generate_text] retries, with a text that decodes to a
    tool call, and the dispatch of that call succeeds in the state the
    repository host is in at that step, the loop runs exactly twelve
    iterations: twelve prompts are built, the [i]-th on the history of the
    [i] tool calls before it, each posted until it is answered (once, when
    no attempt fails), and [respond] returns the fixed step-limit message
    as an ordinary response.  Nothing is raised and no thirteenth prompt is
    built.  The run enters through [tries i], the failed attempts of step
    [i]; [texts i], the text that answers it; [states i], the states the
    host may be in at step [i], the access check leaving it in one of
    [states 0]; and [results i], the results the dispatch of step [i] may
    give.  The oracle is asked about the prompts of step [i] only: those
    built on the entries of the [i] calls before. *)
Theorem C2_step_limit :
  forall (G : Type) (env : Env G) (self : gemini.GeminiProvider)
         (request : provider.AgentRequest) (access : tools.RepoAccess.t)
         (w : World G) (tries : nat -> nat) (texts : nat -> string)
         (states : nat -> G -> Prop) (results : nat -> value -> Prop),
    provider.mode request <> "plan" ->
    gemini._extract_repo_access (provider.prompt request) = Ok (Some access) ->
    access_granted env access w ->
    states 0 (host_after_check env access (host w)) ->
    tool_run env self request access [] (List.length (gemini_log w)) 12
      tries texts states results ->
    exists w' entries prompts,
      gemini.respond env self request w
      = (Ok {| provider.provider := "gemini";
               provider.text := gemini.STEP_LIMIT_TEXT |}, w')
      /\ gemini_log w' = gemini_log w ++ reposted tries prompts
      /\ List.length prompts = 12
      /\ List.length entries = 12
      /\ entries_with texts results entries
      /\ prompts_of env request access [] entries prompts
      /\ states 12 (host w')
      /\ ((forall i, i < 12 -> tries i = 0) ->
          gemini_log w' = gemini_log w ++ prompts).
Proof.
  intros G env self request access w tries texts states results
         Hmode Haccess Hgranted Hstate Hrun.
  destruct (respond_enters_loop env self request access w Hmode Haccess Hgranted)
    as (llm_span & w0 & E0 & L0 & _ & H0).
  rewrite <- L0 in Hrun. rewrite <- H0 in Hstate.
  destruct (loop_tool_run env self request access llm_span 0 12 0 [] w0 tries texts
              states results Hrun Hstate)
    as (entries & prompts & w1 & E1 & L1 & Hle & Hlp & Hent & Hpr & Hst).
  destruct (loop_exhausted env self request access llm_span ([] ++ entries) w1)
    as (w2 & E2 & (L2 & _ & H2 & _)).
  assert (L : gemini_log w2 = gemini_log w ++ reposted tries prompts) by congruence.
  exists w2, entries, prompts.
  split; [|split; [|split; [|split; [|split; [|split; [|split]]]]]];
    try assumption.
  - rewrite E0. change (seq 0 12) with (seq 0 (12 + 0)). rewrite E1. exact E2.
  - rewrite H2. exact Hst.
  - intros Hnone. rewrite L, reposted_none; [reflexivity|].
    intros i Hi. apply Hnone. lia.
Qed.

Lemma demo_granted (answers_ : nat -> string -> http_outcome) :
  access_granted (demo_env answers_) demo_access demo_world.
Proof. reflexivity. Qed.

Lemma demo_list_files_call (answers_ : nat -> string -> http_outcome) :
  exists action,
    decodes_to_tool_call (demo_env answers_) list_files_call action
    /\ tool_succeeds (demo_env answers_) demo_access action.
Proof.
  eexists. split; [split; reflexivity|].
  intros span w. do 2 eexists. reflexivity.
Qed.

(** On the host with a budget, the file list is given while a unit is left,
    and takes it. *)
Lemma metered_list_files_call (answers_ : nat -> string -> http_outcome)
      (budget : nat) :
  exists action,
    decodes_to_tool_call (metered_env answers_) list_files_call action
    /\ dispatch_succeeds (metered_env answers_) demo_access action
         (has_budget (S budget)) (has_budget budget)
         (eq (VDict [ ("files", VList [VStr "README.md"; VStr "src/app.py"]);
                      ("total_files", VInt 2) ])).
Proof.
  eexists. split; [split; reflexivity|].
  intros span [tr n log naps active g calls] Hg.
  unfold has_budget in Hg. cbn [host] in Hg. subst g.
  do 2 eexists. split; [reflexivity|]. split; reflexivity.
Qed.

(** The requests of a step of an example: those before the answer fail in
    transport, and the answer carries the text. *)
Ltac failed_attempts Hj :=
  cbn in Hj;
  match type of Hj with
  | ?j < _ => repeat (destruct j as [|j]; [reflexivity|]); lia
  end.

Ltac answered_after :=
  split; [cbn; lia|]; intros ? _;
  split; [ let j := fresh "j" in let Hj := fresh "Hj" in
           intros j Hj; failed_attempts Hj
         | do 2 eexists; split; reflexivity ].

(** Twelve file lists on a host with a budget of thirteen, the first and
    the third step needing a second attempt: fourteen requests reach the
    generation endpoint, and the budget is used up at the end. *)
Lemma C2_step_limit_witness :
  let run := gemini.respond (metered_env flaky_listing_answers) demo_self
               demo_request (metered_world 13) in
  fst run = Ok {| provider.provider := "gemini";
                  provider.text := "I couldn't complete the workflow within the step limit." |}
  /\ List.length (gemini_log (snd run)) = 14
  /\ host (snd run) = 0.
Proof.
  intros run.
  destruct (C2_step_limit nat (metered_env flaky_listing_answers) demo_self
              demo_request demo_access (metered_world 13) flaky_listing_tries
              (fun _ => list_files_call) (fun i => has_budget (12 - i))
              (fun _ => eq (VDict [ ("files", VList [VStr "README.md";
                                                     VStr "src/app.py"]);
                                    ("total_files", VInt 2) ])))
    as (w' & entries & prompts & E & L & Hlp & _ & _ & _ & Hhost & _).
  - discriminate.
  - reflexivity.
  - reflexivity.
  - reflexivity.
  - intros i Hi.
    do 12 (destruct i as [|i];
           [ split; [ answered_after
                    | exact (metered_list_files_call flaky_listing_answers _) ] |]).
    lia.
  - subst run. rewrite E. cbn [fst snd]. split; [reflexivity|].
    split; [|exact Hhost].
    pose proof (request_index_reposted prompts 0 flaky_listing_tries) as Hidx.
    rewrite Hlp in Hidx.
    change (request_index 0 flaky_listing_tries 12) with 14 in Hidx.
    rewrite L. change (gemini_log (metered_world 13)) with (@nil string).
    cbn [app]. lia.
Defined.

(** C5.  A run of the tool workflow in which [N] steps decode to tool
    calls and the next step decodes to a final action with a message.
    Each step is answered by the oracle at once or after failed attempts
    that [_generate_text] retries, and each tool call is dispatched with
    success in the state the repository host is in at that step.  Then
    [respond] ends with the response made of the message (a message that is
    not a string is refused by the response type); [N + 1] prompts were
    built, each posted until it was answered; the history has one entry per
    tool call, in call order, each holding the model's text of that step;
    the [i]-th prompt serializes the first [i] entries, so the prompt of the
    final step carries exactly the [N] entries, and the final action adds
    none and makes no call into the repository host.  The run enters
    through [tries i], the failed attempts of step [i]; [texts i], the text
    that answers it; [states i], the states the host may be in at step [i],
    the access check leaving it in one of [states 0]; and [results i], the
    results the dispatch of step [i] may give.  The oracle is asked about
    the prompts of step [i] only: those built on the entries of the [i]
    calls before. *)
Theorem C5_history_monotone :
  forall (G : Type) (env : Env G) (self : gemini.GeminiProvider)
         (request : provider.AgentRequest) (access : tools.RepoAccess.t)
         (w : World G) (tries : nat -> nat) (texts : nat -> string)
         (states : nat -> G -> Prop) (results : nat -> value -> Prop) (N : nat)
         (final_text : string) (message : value),
    provider.mode request <> "plan" ->
    gemini._extract_repo_access (provider.prompt request) = Ok (Some access) ->
    access_granted env access w ->
    N < 12 ->
    states 0 (host_after_check env access (host w)) ->
    tool_run env self request access [] (List.length (gemini_log w)) N
      tries texts states results ->
    answers_after env self (request_index (List.length (gemini_log w)) tries N)
      (tries N) final_text (step_prompt env request access [] texts results N) ->
    decodes_to_final env final_text message ->
    exists w' entries prompts,
      gemini.respond env self request w
      = (provider.response "gemini" message, w')
      /\ gemini_log w' = gemini_log w ++ reposted tries prompts
      /\ List.length entries = N
      /\ entries_of texts entries
      /\ entries_with texts results entries
      /\ List.length prompts = N + 1
      /\ prompts_of env request access [] entries prompts
      /\ (exists ts,
            nth_error prompts N
            = Some (json_dumps env
                      (gemini.tool_prompt_payload (provider.prompt request) access
                         entries ts)))
      /\ states N (host w')
      /\ ((forall i, i <= N -> tries i = 0) ->
          gemini_log w' = gemini_log w ++ prompts).
Proof.
  intros G env self request access w tries texts states results N final_text
         message Hmode Haccess Hgranted HN Hstate Hrun Hans Hfinal.
  destruct (respond_enters_loop env self request access w Hmode Haccess Hgranted)
    as (llm_span & w0 & E0 & L0 & _ & H0).
  rewrite <- L0 in Hrun, Hans. rewrite <- H0 in Hstate.
  destruct (loop_tool_run env self request access llm_span (12 - N) N 0 [] w0
              tries texts states results Hrun Hstate)
    as (entries & prompts & w1 & E1 & L1 & Hle & Hlp & Hent & Hpr & Hst).
  replace (N + (12 - N)) with 12 in E1 by lia.
  destruct (12 - N) as [|m] eqn:Em; [lia|].
  change (seq (0 + N) (S m)) with (N :: seq (S N) m) in E1.
  change ([] ++ entries) with entries in E1.
  assert (Hlen1 : List.length (gemini_log w1)
                  = request_index (List.length (gemini_log w0)) tries N).
  { rewrite <- Hlp, request_index_reposted, L1, length_app. reflexivity. }
  rewrite <- Hlen1 in Hans.
  assert (Hasked : step_prompt env request access [] texts results N
                     (json_dumps env
                        (gemini.tool_prompt_payload (provider.prompt request) access
                           entries (epoch (clock env) (ticks w1))))).
  { exists entries, (ticks w1). split; [exact Hle|]. split; [exact Hent | reflexivity]. }
  destruct (step_final env self request access llm_span N (seq (S N) m) entries w1
              (tries N) final_text message _ Hasked Hans Hfinal)
    as (ts & w2 & E2 & L2 & _ & H2).
  set (last_prompt := json_dumps env
                        (gemini.tool_prompt_payload (provider.prompt request) access
                           entries ts)) in *.
  assert (Hlast : nth_error (prompts ++ [last_prompt]) N = Some last_prompt).
  { rewrite nth_error_app2 by lia. rewrite Hlp, Nat.sub_diag. reflexivity. }
  assert (L : gemini_log w2
              = gemini_log w ++ reposted tries (prompts ++ [last_prompt])).
  { rewrite reposted_snoc, Hlp, L2, L1, L0, app_assoc. reflexivity. }
  exists w2, entries, (prompts ++ [last_prompt]).
  split; [|split; [|split; [|split; [|split; [|split; [|split; [|split; [|split]]]]]]]].
  - rewrite E0, E1, E2. reflexivity.
  - exact L.
  - exact Hle.
  - exact (entries_with_of _ _ _ Hent).
  - exact Hent.
  - rewrite length_app. cbn [List.length]. lia.
  - intros i Hi. rewrite length_app in Hi. cbn [List.length] in Hi.
    destruct (Nat.eq_dec i N) as [->|Hne].
    + exists ts. rewrite Hlast. cbn [app].
      rewrite firstn_all2 by lia. reflexivity.
    + destruct (Hpr i ltac:(lia)) as (ts' & Hts').
      exists ts'. rewrite nth_error_app1 by lia. exact Hts'.
  - exists ts. exact Hlast.
  - rewrite H2. exact Hst.
  - intros Hnone. rewrite L, reposted_none; [reflexivity|].
    intros i Hi. rewrite length_app in Hi. cbn [List.length] in Hi.
    apply Hnone. lia.
Qed.

(** Scenario B on a host with a budget of two, the access check and one
    tool call: the file list, then a request that times out and is
    repeated, then the final answer.  Three requests reach the generation
    endpoint, and the budget is used up at the end. *)
Lemma C5_history_monotone_witness :
  let run := gemini.respond (metered_env flaky_scenario_b_answers) demo_self
               demo_request (metered_world 2) in
  fst run = Ok {| provider.provider := "gemini"; provider.text := "Created PR #4" |}
  /\ List.length (gemini_log (snd run)) = 3
  /\ host (snd run) = 0.
Proof.
  intros run.
  destruct (C5_history_monotone nat (metered_env flaky_scenario_b_answers)
              demo_self demo_request demo_access (metered_world 2)
              (fun i => match i with 1 => 1 | _ => 0 end)
              (fun _ => list_files_call) (fun i => has_budget (1 - i))
              (fun _ => eq (VDict [ ("files", VList [VStr "README.md";
                                                     VStr "src/app.py"]);
                                    ("total_files", VInt 2) ]))
              1 final_answer (VStr "Created PR #4"))
    as (w' & entries & prompts & E & L & _ & _ & _ & Hlp & _ & _ & Hhost & _).
  - discriminate.
  - reflexivity.
  - reflexivity.
  - lia.
  - reflexivity.
  - intros i Hi. assert (i = 0) as -> by lia. split.
    + answered_after.
    + exact (metered_list_files_call flaky_scenario_b_answers 0).
  - answered_after.
  - eexists. repeat split.
  - subst run. rewrite E. cbn [fst snd]. split; [reflexivity|].
    split; [|exact Hhost].
    pose proof (request_index_reposted prompts 0
                  (fun i => match i with 1 => 1 | _ => 0 end)) as Hidx.
    rewrite Hlp in Hidx.
    change (request_index 0 (fun i => match i with 1 => 1 | _ => 0 end) (1 + 1))
      with 3 in Hidx.
    rewrite L. change (gemini_log (metered_world 2)) with (@nil string).
    cbn [app]. lia.
Defined.

(** C6.  A tool call whose tool name is none of [get_default_branch],
    [create_branch], [list_files], [read_file], [write_file],
    [create_pull_request]: the dispatch raises the unknown-tool error without
    a call into the repository host, and in the workflow, after [k] tool
    calls that succeeded, the error leaves [respond]: the prompt of that
    step is the last one posted, no further iteration is attempted. *)
Theorem C6_unknown_tool_aborts :
  forall (G : Type) (env : Env G) (self : gemini.GeminiProvider)
         (request : provider.AgentRequest) (access : tools.RepoAccess.t)
         (w : World G) (texts : nat -> string) (k : nat)
         (text : string) (action : dict),
    let tool := dict_get_default "tool" VNone action in
    let unknown := RuntimeError [Lit "Unknown tool requested by Gemini: "; Fmt tool] in
    unknown_tool tool ->
    (forall arguments (w0 : World G),
        gemini._execute_tool_inner env access tool arguments w0 = (Raise unknown, w0))
    /\ (provider.mode request <> "plan" ->
        gemini._extract_repo_access (provider.prompt request) = Ok (Some access) ->
        access_granted env access w ->
        k < 12 ->
        tool_calls env access (List.length (gemini_log w)) k texts ->
        answers env (List.length (gemini_log w) + k) text ->
        decodes_to_tool_call env text action ->
        exists w' prompts,
          gemini.respond env self request w = (Raise unknown, w')
          /\ gemini_log w' = gemini_log w ++ prompts
          /\ List.length prompts = k + 1).
Proof.
  intros G env self request access w texts k text action tool unknown Hunknown.
  split.
  - intros arguments w0. now apply execute_unknown_tool.
  - intros Hmode Haccess Hgranted Hk Hcalls Hans Hdec.
    destruct (respond_enters_loop env self request access w Hmode Haccess Hgranted)
      as (llm_span & w0 & E0 & L0 & _).
    rewrite <- L0 in Hcalls, Hans.
    destruct (loop_tool_calls env self request access llm_span (12 - k) k 0 [] w0
                texts Hcalls)
      as (entries & prompts & w1 & E1 & L1 & Hle & Hlp & _).
    replace (k + (12 - k)) with 12 in E1 by lia.
    destruct (12 - k) as [|m] eqn:Em; [lia|].
    change (seq (0 + k) (S m)) with (k :: seq (S k) m) in E1.
    change ([] ++ entries) with entries in E1.
    assert (Hlen1 : List.length (gemini_log w1) = List.length (gemini_log w0) + k).
    { rewrite L1, length_app. lia. }
    rewrite <- Hlen1 in Hans.
    destruct (step_tool_raises env self request access llm_span k (seq (S k) m)
                entries w1 text action unknown Hans Hdec) as (ts & w2 & E2 & L2).
    { intros span w3. unfold gemini._execute_tool, with_trace.
      fold tool. rewrite (execute_unknown_tool env access tool _ _ Hunknown).
      reflexivity. }
    exists w2, (prompts ++ [json_dumps env
                  (gemini.tool_prompt_payload (provider.prompt request) access
                     entries ts)]).
    split; [|split].
    + rewrite E0, E1, E2. reflexivity.
    + rewrite L2, L1, L0, app_assoc. reflexivity.
    + rewrite length_app. cbn [List.length]. lia.
Qed.

(** Scenario C: after one tool call the oracle asks for [delete_repo]. *)
Lemma C6_unknown_tool_aborts_witness :
  let run := gemini.respond (demo_env scenario_c_answers) demo_self demo_request
               demo_world in
  fst run = Raise (RuntimeError [Lit "Unknown tool requested by Gemini: ";
                                 Fmt (VStr "delete_repo")])
  /\ List.length (gemini_log (snd run)) = 2.
Proof.
  intros run.
  assert (Hunknown : unknown_tool (VStr "delete_repo")).
  { intros name Hin. cbv in Hin.
    repeat (destruct Hin as [<-|Hin]; [reflexivity|]). contradiction. }
  destruct (proj2 (C6_unknown_tool_aborts (list string) (demo_env scenario_c_answers)
                     demo_self demo_request demo_access demo_world
                     (fun _ => list_files_call) 1 delete_repo_call
                     [ ("type", VStr "tool_call"); ("tool", VStr "delete_repo");
                       ("arguments", VDict []) ] Hunknown))
    as (w' & prompts & E & L & Hlp).
  - discriminate.
  - reflexivity.
  - apply demo_granted.
  - lia.
  - intros i Hi. assert (i = 0) as -> by lia. split.
    + intros prompt. do 2 eexists. split; reflexivity.
    + apply demo_list_files_call.
  - intros prompt. do 2 eexists. split; reflexivity.
  - split; reflexivity.
  - subst run. rewrite E. cbn [fst snd]. split; [reflexivity|].
    rewrite L. exact Hlp.
Defined.

(* ------------------------------------------------------------------ *)
(** ** Sanitized values *)

Section SafeStrings.
Local Open Scope string_scope.

Lemma lower_app (a b : string) :
  PyStr.lower (a ++ b) = PyStr.lower a ++ PyStr.lower b.
Proof. induction a as [|c a IH]; simpl; [reflexivity | now rewrite IH]. Qed.

Lemma lower_take (n : nat) :
  forall s, PyStr.lower (PyStr.take n s) = PyStr.take n (PyStr.lower s).
Proof.
  induction n as [|n IH]; intros [|c s]; simpl; try reflexivity.
  now rewrite IH.
Qed.

Lemma length_take (n : nat) :
  forall s, String.length (PyStr.take n s) = Nat.min n (String.length s).
Proof.
  induction n as [|n IH]; intros [|c s]; simpl; try reflexivity.
  now rewrite IH.
Qed.

Lemma startswith_take (p : string) :
  forall n s, PyStr.startswith (PyStr.take n s) p = true ->
              PyStr.startswith s p = true.
Proof.
  induction p as [|a p IH]; intros n s H; [now destruct s|].
  destruct n as [|n]; destruct s as [|b s]; simpl in *; try discriminate.
  apply andb_true_iff in H as [H1 H2]. rewrite H1. simpl. now apply (IH n).
Qed.

Lemma contains_take (p : string) (n : nat) :
  forall s, PyStr.contains p (PyStr.take n s) = true -> PyStr.contains p s = true.
Proof.
  revert n. intros n s. revert n.
  induction s as [|c s IH]; intros n H.
  - destruct n; exact H.
  - destruct n as [|n].
    + simpl in H. rewrite orb_false_r in H.
      destruct p; [reflexivity | discriminate].
    + cbn [PyStr.take PyStr.contains] in H.
      cbn [PyStr.contains].
      apply orb_true_iff in H as [H|H].
      * apply orb_true_iff; left.
        exact (startswith_take p (S n) (String c s) H).
      * apply orb_true_iff; right. exact (IH n H).
Qed.

(** A match that begins in [a] cannot run over a character the needle
    does not have. *)
Lemma startswith_app_stop (c : ascii) (b : string) (p : string) :
  forall a, PyStr.mem_char c p = false ->
            PyStr.startswith (a ++ String c b) p = true ->
            PyStr.startswith a p = true.
Proof.
  induction p as [|x p IH]; intros a Hc H; [now destruct a|].
  cbn [PyStr.mem_char] in Hc. apply orb_false_iff in Hc as [Hx Hc].
  destruct a as [|y a].
  - cbn in H. apply andb_true_iff in H as [H _]. congruence.
  - cbn [append PyStr.startswith] in H |- *.
    apply andb_true_iff in H as [H1 H2]. rewrite H1. simpl.
    now apply IH.
Qed.

Lemma contains_app_stop (c : ascii) (b p : string) :
  PyStr.mem_char c p = false ->
  forall a, PyStr.contains p (a ++ String c b) = true ->
            PyStr.contains p a = true \/ PyStr.contains p b = true.
Proof.
  intros Hc. induction a as [|y a IH]; intros H.
  - cbn [append PyStr.contains] in H.
    apply orb_true_iff in H as [H|H]; [|now right].
    left. destruct p as [|x p]; [reflexivity|].
    cbn in H. cbn [PyStr.mem_char] in Hc.
    apply andb_true_iff in H as [H _].
    apply orb_false_iff in Hc as [Hx _]. congruence.
  - cbn [append PyStr.contains] in H.
    apply orb_true_iff in H as [H|H].
    + left. cbn [PyStr.contains]. apply orb_true_iff; left.
      exact (startswith_app_stop c b p (String y a) Hc H).
    + destruct (IH H) as [H'|H']; [left | now right].
      cbn [PyStr.contains]. apply orb_true_iff; now right.
Qed.

Lemma mentions_take_mark (n : nat) (s : string) :
  mentions_sensitive (PyStr.lower s) = false ->
  mentions_sensitive (PyStr.lower (PyStr.take n s ++ "...[truncated]")) = false.
Proof.
  unfold mentions_sensitive. intros H.
  rewrite lower_app, lower_take.
  change (PyStr.lower "...[truncated]") with "...[truncated]".
  apply not_true_is_false. intros E.
  apply existsb_exists in E as [tok [Hin E]].
  assert (Hs : PyStr.contains tok (PyStr.lower s) = false).
  { destruct (PyStr.contains tok (PyStr.lower s)) eqn:E'; [|reflexivity].
    rewrite <- H. symmetry. apply existsb_exists. now exists tok. }
  assert (Hdot : PyStr.mem_char "."%char tok = false
                 /\ PyStr.contains tok "..[truncated]" = false).
  { unfold SENSITIVE in Hin. simpl in Hin.
    destruct Hin as [<-|[<-|[<-|[<-|[]]]]]; split; reflexivity. }
  destruct Hdot as [Hdot Hmark].
  change "...[truncated]" with (String "."%char "..[truncated]") in E.
  destruct (contains_app_stop _ _ _ Hdot _ E) as [E'|E'].
  - apply contains_take in E'. congruence.
  - congruence.
Qed.

Lemma safe_string (s s' : string) :
  _safe_value (VStr s) = VStr s' ->
  String.length s' <= SAFE_LENGTH
  /\ mentions_sensitive (PyStr.lower s') = false.
Proof.
  unfold SAFE_LENGTH. cbn [_safe_value].
  change (String.length "...[truncated]") with 14.
  destruct (mentions_sensitive (PyStr.lower s)) eqn:Es.
  - intros [= <-]. split; [|reflexivity].
    change (String.length "[REDACTED]") with 10. lia.
  - destruct (2000 <? String.length s)%nat eqn:El.
    + remember (PyStr.take 2000 s) as cut eqn:Ecut.
      intros H. injection H as H. rewrite <- H, Ecut.
      split; [|now apply mentions_take_mark].
      rewrite str_length_app, length_take.
      change (String.length "...[truncated]") with 14. lia.
    + intros H. injection H as H. rewrite <- H.
      split; [|exact Es]. apply Nat.ltb_ge in El. lia.
Qed.

Lemma safe_str_is_str (s : string) : exists s', _safe_value (VStr s) = VStr s'.
Proof.
  cbn [_safe_value].
  destruct (mentions_sensitive (PyStr.lower s)); [now eexists|].
  destruct (2000 <? String.length s)%nat; now eexists.
Qed.

Lemma at_path_safe_string (p : list step) :
  forall v s, at_path p (_safe_value v) = Some (VStr s) ->
              exists s0, _safe_value (VStr s0) = VStr s.
Proof.
  induction p as [|st p IH]; intros v s H.
  - cbn [at_path] in H. injection H as H.
    destruct v as [| | | |s0|l|d]; try discriminate H.
    now exists s0.
  - destruct v as [|b|z|r|s0|l|d].
    + destruct st; discriminate H.
    + destruct st; discriminate H.
    + destruct st; discriminate H.
    + destruct st; discriminate H.
    + destruct (safe_str_is_str s0) as [s' E]. rewrite E in H.
      destruct st; discriminate H.
    + cbn [_safe_value] in H. destruct st as [k|i]; [discriminate H|].
      cbn [at_path] in H. rewrite nth_error_map in H.
      destruct (nth_error l i) as [x|]; [|discriminate].
      exact (IH x s H).
    + cbn [_safe_value] in H. destruct st as [k|i]; [|discriminate H].
      cbn [at_path] in H. rewrite dict_get_safe in H.
      destruct (dict_get k d) as [x|]; [|discriminate].
      exact (IH x s H).
Qed.

End SafeStrings.

(** X1.  Whatever value is sanitized, every string found in the result (at
    any depth, as a mapping value or a list item) has at most 2014
    characters and names none of the sensitive words. *)
Theorem X1_safe_value_strings :
  forall (v : value) (p : list step) (s : string),
    at_path p (_safe_value v) = Some (VStr s) ->
    String.length s <= SAFE_LENGTH
    /\ mentions_sensitive (PyStr.lower s) = false.
Proof.
  intros v p s H.
  destruct (at_path_safe_string p v s H) as [s0 H0].
  exact (safe_string s0 s H0).
Qed.

Lemma X1_safe_value_strings_witness :
  String.length "[REDACTED]" <= SAFE_LENGTH
  /\ mentions_sensitive (PyStr.lower "[REDACTED]") = false.
Proof.
  apply (X1_safe_value_strings
           (VDict [("headers", VList [VStr "Authorization: Bearer abc"])])
           [Key "headers"; Idx 0] "[REDACTED]").
  reflexivity.
Defined.

(* ------------------------------------------------------------------ *)
(** ** Mappings: assignment and update *)

Section DictLaws.

Lemma dict_get_set (k k' : string) (v : value) (d : dict) :
  dict_get k (dict_set k' v d)
  = if String.eqb k' k then Some v else dict_get k d.
Proof.
  induction d as [|[k0 v0] d IH]; cbn [dict_set dict_get].
  - reflexivity.
  - destruct (String.eqb k0 k') eqn:E0.
    + apply String.eqb_eq in E0. subst k0. cbn [dict_get].
      destruct (String.eqb k' k); reflexivity.
    + cbn [dict_get]. rewrite IH.
      destruct (String.eqb k0 k) eqn:E1; [|reflexivity].
      apply String.eqb_eq in E1. subst k0.
      now rewrite String.eqb_sym, E0.
Qed.

Lemma dict_get_app (k : string) (a b : dict) :
  dict_get k (a ++ b)
  = match dict_get k a with Some v => Some v | None => dict_get k b end.
Proof.
  induction a as [|[k0 v0] a IH]; cbn [app dict_get]; [reflexivity|].
  destruct (String.eqb k0 k); [reflexivity | exact IH].
Qed.

(** Later entries of [extra] win over earlier ones and over [d]. *)
Lemma dict_get_update (k : string) (extra : dict) :
  forall d,
    dict_get k (dict_update d extra)
    = match dict_get k (rev extra) with
      | Some v => Some v
      | None => dict_get k d
      end.
Proof.
  unfold dict_update.
  induction extra as [|[k0 v0] extra IH]; intros d; cbn [fold_left rev].
  - reflexivity.
  - rewrite IH, dict_get_app. cbn [fst snd dict_get].
    destruct (dict_get k (rev extra)); [reflexivity|].
    rewrite dict_get_set. destruct (String.eqb k0 k); reflexivity.
Qed.

(** Assignment keeps the keys where they are: the keys before it, then
    the new key if there was none. *)
Lemma dict_set_keys (k : string) (v : value) (d : dict) :
  map fst (dict_set k v d)
  = if dict_mem k d then map fst d else map fst d ++ [k].
Proof.
  unfold dict_mem.
  induction d as [|[k0 v0] d IH]; cbn [dict_set dict_get map fst]; [reflexivity|].
  destruct (String.eqb k0 k) eqn:E; [reflexivity|].
  cbn [map fst]. rewrite IH.
  destruct (dict_get k d); reflexivity.
Qed.

End DictLaws.

(** X2.  Finishing an open span with keyword data merges the data into the
    span's mapping: a key given to [finish] reads as given (the last one if
    it is given twice), every other key reads as before; the name, the
    start, the events and the children of the span are untouched, and one
    clock reading is taken for each of the two clocks. *)
Theorem X2_finish_merges_data :
  forall (clk : Clock) (st : string) (dt : dict) (sp : TraceSpan.t) (tick : nat),
    TraceSpan.finished_at sp = None ->
    let sp' := fst (TraceSpan.finish clk st dt sp tick) in
    (forall k, dict_get k (TraceSpan.data sp')
               = match dict_get k (rev dt) with
                 | Some v => Some v
                 | None => dict_get k (TraceSpan.data sp)
                 end)
    /\ TraceSpan.name sp' = TraceSpan.name sp
    /\ TraceSpan.started_at sp' = TraceSpan.started_at sp
    /\ TraceSpan.events sp' = TraceSpan.events sp
    /\ TraceSpan.children sp' = TraceSpan.children sp
    /\ snd (TraceSpan.finish clk st dt sp tick) = tick + 2.
Proof.
  intros clk st dt sp tick Hopen. unfold TraceSpan.finish. rewrite Hopen.
  cbn [fst snd TraceSpan.data TraceSpan.name TraceSpan.started_at
       TraceSpan.events TraceSpan.children].
  repeat split; try reflexivity; [|lia].
  intros k. destruct dt as [|kv dt]; [reflexivity|].
  apply dict_get_update.
Qed.

Lemma X2_finish_merges_data_witness :
  let sp := fresh_span "llm.workflow" [("mode", VStr "chat"); ("model", VStr "m")] in
  let sp' := fst (TraceSpan.finish demo_clock "ok"
                    [("mode", VStr "tool_workflow"); ("steps", VInt 3)] sp 0) in
  dict_get "mode" (TraceSpan.data sp') = Some (VStr "tool_workflow")
  /\ dict_get "model" (TraceSpan.data sp') = Some (VStr "m")
  /\ dict_get "steps" (TraceSpan.data sp') = Some (VInt 3).
Proof.
  intros sp sp'.
  destruct (X2_finish_merges_data demo_clock "ok"
              [("mode", VStr "tool_workflow"); ("steps", VInt 3)] sp 0 eq_refl)
    as [H _].
  repeat split; rewrite H; reflexivity.
Defined.

(* ------------------------------------------------------------------ *)
(** ** The trace tree only grows *)

Section Growth.

Lemma grows_children_refl (ch : list TraceSpan.t) :
  (forall c, In c ch -> grows c c) -> grows_children ch ch.
Proof.
  induction ch as [|c ch IH]; intros H; constructor.
  - apply H. now left.
  - apply IH. intros x Hx. apply H. now right.
Qed.

Lemma grows_refl (sp : TraceSpan.t) : grows sp sp.
Proof.
  induction sp as [nm st sa m fa du dt evs ch IH] using span_ind'.
  rewrite <- (app_nil_r evs) at 2.
  constructor; [now apply grows_children_refl | now intros _].
Qed.

Lemma grows_inv nm st sa m fa du dt evs ch (c : TraceSpan.t) :
  grows (TraceSpan.mk nm st sa m fa du dt evs ch) c ->
  exists st' fa' du' dt' more ch',
    c = TraceSpan.mk nm st' sa m fa' du' dt' (evs ++ more) ch'
    /\ grows_children ch ch'
    /\ (fa <> None -> st' = st /\ fa' = fa /\ du' = du /\ dt' = dt).
Proof.
  intros H. inversion H; subst.
  eexists _, _, _, _, _, _. split; [reflexivity|]. split; assumption.
Qed.

Lemma grows_children_inv c l (l3 : list TraceSpan.t) :
  grows_children (c :: l) l3 ->
  exists c' l', l3 = c' :: l' /\ grows c c' /\ grows_children l l'.
Proof.
  intros H. inversion H; subst. eexists _, _. split; [reflexivity|]. split; assumption.
Qed.

Lemma grows_trans_both :
  (forall a b, grows a b -> forall c, grows b c -> grows a c)
  /\ (forall l1 l2, grows_children l1 l2 ->
        forall l3, grows_children l2 l3 -> grows_children l1 l3).
Proof.
  apply grows_mutind.
  - intros nm st st' sa m fa fa' du du' dt dt' evs more ch ch' Hch IH Hfrozen c Hc.
    apply grows_inv in Hc
      as (st'' & fa'' & du'' & dt'' & more' & ch'' & -> & Hch' & Hfrozen').
    rewrite <- app_assoc. constructor; [now apply IH|].
    intros Hfa. destruct (Hfrozen Hfa) as (-> & -> & -> & ->).
    exact (Hfrozen' Hfa).
  - intros more l3 _. constructor.
  - intros c c' l l' Hc IHc Hl IHl l3 H3.
    apply grows_children_inv in H3 as (c'' & l'' & -> & Hc' & Hl').
    constructor; [now apply IHc | now apply IHl].
Qed.

Lemma grows_trans (a b c : TraceSpan.t) : grows a b -> grows b c -> grows a c.
Proof. intros H1 H2. exact (proj1 grows_trans_both a b H1 c H2). Qed.

Lemma grows_children_app (ch more : list TraceSpan.t) :
  grows_children ch (ch ++ more).
Proof.
  induction ch as [|c ch IH]; cbn [app]; constructor;
    [apply grows_refl | exact IH].
Qed.

Lemma grows_children_replace (ch : list TraceSpan.t) :
  forall i c c', nth_error ch i = Some c -> grows c c' ->
                 grows_children ch (TraceSpan.replace_nth i c' ch).
Proof.
  induction ch as [|x ch IH]; intros i c c' Hi Hc.
  - destruct i; discriminate.
  - destruct i as [|i]; cbn [TraceSpan.replace_nth].
    + injection Hi as ->. constructor; [exact Hc|].
      apply grows_children_refl. intros y _. apply grows_refl.
    + constructor; [apply grows_refl | exact (IH i c c' Hi Hc)].
Qed.

Lemma grows_update (path : list nat) :
  forall root sp sp',
    TraceSpan.get path root = Some sp -> grows sp sp' ->
    grows root (TraceSpan.update path (fun _ => sp') root).
Proof.
  induction path as [|i path IH]; intros root sp sp' Hget Hg.
  - cbn in Hget |- *. now injection Hget as ->.
  - cbn [TraceSpan.get TraceSpan.update] in Hget |- *.
    destruct (nth_error (TraceSpan.children root) i) as [c|] eqn:Ei;
      [|discriminate].
    destruct root as [nm st sa m fa du dt evs ch].
    cbn [TraceSpan.name TraceSpan.status TraceSpan.started_at
         TraceSpan.started_at_monotonic TraceSpan.finished_at
         TraceSpan.duration_ms TraceSpan.data TraceSpan.events
         TraceSpan.children] in *.
    rewrite <- (app_nil_r evs) at 2.
    constructor; [|now intros _].
    eapply grows_children_replace; [exact Ei|].
    exact (IH c sp sp' Hget Hg).
Qed.

(** A handle that resolved before resolves afterwards, to the grown span. *)
Lemma grows_get (path : list nat) :
  forall root root' sp,
    grows root root' -> TraceSpan.get path root = Some sp ->
    exists sp', TraceSpan.get path root' = Some sp' /\ grows sp sp'.
Proof.
  induction path as [|i path IH]; intros root root' sp Hg Hget.
  - cbn in Hget |- *. injection Hget as <-. now exists root'.
  - cbn [TraceSpan.get] in Hget |- *.
    destruct (nth_error (TraceSpan.children root) i) as [c|] eqn:Ei;
      [|discriminate].
    destruct root as [nm st sa m fa du dt evs ch].
    apply grows_inv in Hg
      as (st' & fa' & du' & dt' & more & ch' & -> & Hch & Hf).
    cbn [TraceSpan.children] in *.
    assert (Hc : exists c', nth_error ch' i = Some c' /\ grows c c').
    { clear - Hch Ei. revert i Ei.
      induction Hch as [more|x x' l l' Hx Hl IHl]; intros i Ei.
      - destruct i; discriminate.
      - destruct i as [|i]; cbn in Ei |- *.
        + injection Ei as <-. now exists x'.
        + exact (IHl i Ei). }
    destruct Hc as [c' [Ec' Hgc]]. rewrite Ec'.
    exact (IH c c' sp Hgc Hget).
Qed.

Lemma event_grows (clk : Clock) (nm st : string) (dt : dict)
      (sp : TraceSpan.t) (tick : nat) :
  grows sp (fst (TraceSpan.event clk nm st dt sp tick)).
Proof.
  destruct sp as [n s sa m fa du d evs ch]. cbn.
  constructor; [|now intros _].
  apply grows_children_refl. intros c _. apply grows_refl.
Qed.

Lemma finish_grows (clk : Clock) (st : string) (dt : dict)
      (sp : TraceSpan.t) (tick : nat) :
  grows sp (fst (TraceSpan.finish clk st dt sp tick)).
Proof.
  unfold TraceSpan.finish.
  destruct (TraceSpan.finished_at sp) as [t|] eqn:E; [apply grows_refl|].
  destruct sp as [n s sa m fa du d evs ch].
  cbn [TraceSpan.finished_at] in E. subst fa.
  cbn [fst TraceSpan.name TraceSpan.started_at TraceSpan.started_at_monotonic
       TraceSpan.events TraceSpan.children TraceSpan.data].
  rewrite <- (app_nil_r evs) at 2.
  constructor; [|intros H; now destruct H].
  apply grows_children_refl. intros c _. apply grows_refl.
Qed.

Lemma child_grows (clk : Clock) (nm : string) (dt : dict)
      (sp : TraceSpan.t) (tick : nat) :
  grows sp (fst (fst (TraceSpan.child clk nm dt sp tick))).
Proof.
  destruct sp as [n s sa m fa du d evs ch]. cbn.
  rewrite <- (app_nil_r evs) at 2.
  constructor; [apply grows_children_app | now intros _].
Qed.

End Growth.

Section Appends.
Context {G : Type}.
Variable clk : Clock.

Lemma trace_grows_refl (w : World G) : trace_grows w w.
Proof.
  unfold trace_grows. destruct (trace w) as [tr|]; [|reflexivity].
  exists tr. repeat split; try reflexivity. apply grows_refl.
Qed.

Lemma trace_grows_same (w w' : World G) : trace w' = trace w -> trace_grows w w'.
Proof.
  intros E. unfold trace_grows. rewrite E.
  destruct (trace w) as [tr|]; [|reflexivity].
  exists tr. repeat split; try reflexivity. apply grows_refl.
Qed.

Lemma trace_grows_trans (w1 w2 w3 : World G) :
  trace_grows w1 w2 -> trace_grows w2 w3 -> trace_grows w1 w3.
Proof.
  unfold trace_grows. intros H1 H2.
  destruct (trace w1) as [t1|].
  - destruct H1 as (t2 & E2 & Hid & Hmd & Hsa & Hg). rewrite E2 in H2.
    destruct H2 as (t3 & E3 & Hid' & Hmd' & Hsa' & Hg').
    exists t3. repeat split; try congruence.
    exact (grows_trans _ _ _ Hg Hg').
  - rewrite H1 in H2. exact H2.
Qed.

Lemma appends_ret {A} (a : A) : appends (ret (G := G) a).
Proof. intros w. apply trace_grows_refl. Qed.

Lemma appends_raise {A} (e : exn) : appends (raise (G := G) (A := A) e).
Proof. intros w. apply trace_grows_refl. Qed.

Lemma appends_lift {A} (r : outcome A) : appends (lift (G := G) r).
Proof. intros w. apply trace_grows_refl. Qed.

Lemma appends_bind {A B} (c : M G A) (k : A -> M G B) :
  appends c -> (forall a, appends (k a)) -> appends (bind c k).
Proof.
  intros Hc Hk w. unfold bind. specialize (Hc w).
  destruct (c w) as [[a|e] w1]; cbn [snd] in Hc |- *.
  - exact (trace_grows_trans _ _ _ Hc (Hk a w1)).
  - exact Hc.
Qed.

Lemma appends_on_span (h : span_ref)
      (f : TraceSpan.t -> nat -> TraceSpan.t * nat) :
  (forall sp tick, grows sp (fst (f sp tick))) -> appends (on_span (G := G) h f).
Proof.
  intros Hf w. unfold on_span, trace_grows.
  destruct h as [p|]; [|apply trace_grows_refl].
  destruct (trace w) as [tr|] eqn:Et; [|exact Et].
  destruct (TraceSpan.get p (RequestTrace.root tr)) as [sp|] eqn:Eg.
  - specialize (Hf sp (ticks w)).
    destruct (f sp (ticks w)) as [sp' tick']. cbn [fst snd] in Hf |- *.
    eexists. split; [reflexivity|].
    repeat split. cbn. exact (grows_update p _ sp sp' Eg Hf).
  - exists tr. split; [exact Et|]. repeat split. apply grows_refl.
Qed.

Lemma appends_span_event (h : span_ref) nm st dt :
  appends (span_event (G := G) clk h nm st dt).
Proof. apply appends_on_span. intros. apply event_grows. Qed.

Lemma appends_span_finish (h : span_ref) st dt :
  appends (span_finish (G := G) clk h st dt).
Proof. apply appends_on_span. intros. apply finish_grows. Qed.

Lemma appends_span_child (h : span_ref) nm dt :
  appends (span_child (G := G) clk h nm dt).
Proof.
  intros w. unfold span_child, trace_grows.
  destruct h as [p|]; [|apply trace_grows_refl].
  destruct (trace w) as [tr|] eqn:Et; [|exact Et].
  destruct (TraceSpan.get p (RequestTrace.root tr)) as [sp|] eqn:Eg.
  - pose proof (child_grows clk nm dt sp (ticks w)) as Hf.
    destruct (TraceSpan.child clk nm dt sp (ticks w)) as [[sp' i] tick'].
    cbn [fst snd] in Hf |- *.
    eexists. split; [reflexivity|].
    repeat split. cbn. exact (grows_update p _ sp sp' Eg Hf).
  - exists tr. split; [exact Et|]. repeat split. apply grows_refl.
Qed.

Lemma appends_trace_span nm dt : appends (trace_span (G := G) clk nm dt).
Proof.
  intros w. unfold trace_span.
  destruct (trace w) eqn:Et; [apply appends_span_child | apply trace_grows_refl].
Qed.

Lemma appends_time_now : appends (time_now (G := G) clk).
Proof. intros w. now apply trace_grows_same. Qed.

Lemma appends_sleep (seconds : Q) : appends (sleep (G := G) seconds).
Proof. intros w. now apply trace_grows_same. Qed.

Lemma appends_report (evs : list event_spec) : appends (report (G := G) clk evs).
Proof.
  induction evs as [|e evs IH]; cbn [report]; [apply appends_ret|].
  apply appends_bind; [|intros _; exact IH].
  intros w. apply appends_span_event.
Qed.

Lemma appends_call {A} (op : backend_op G A) : appends (call clk op).
Proof.
  intros w. unfold call.
  destruct (op (host w)) as [[r evs] g'].
  pose proof (appends_report evs (set_host g' w)) as H.
  destruct (report clk evs (set_host g' w)) as [u w']. cbn [snd] in H |- *.
  apply (trace_grows_trans _ (set_host g' w)); [now apply trace_grows_same | exact H].
Qed.

Lemma appends_with_trace {A} (span : span_ref) (body : M G A) :
  appends body -> appends (with_trace span body).
Proof.
  intros Hb w. unfold with_trace.
  specialize (Hb (set_active span w)).
  destruct (body (set_active span w)) as [r w']. cbn [snd] in Hb |- *.
  apply (trace_grows_trans _ (set_active span w)); [now apply trace_grows_same|].
  apply (trace_grows_trans _ w'); [exact Hb | now apply trace_grows_same].
Qed.

End Appends.

Create HintDb appends.
#[local] Hint Resolve appends_ret appends_raise appends_lift appends_span_event
  appends_span_finish appends_span_child appends_trace_span appends_time_now
  appends_sleep appends_call : appends.

(** Splits a computation along its binds and its case distinctions. *)
Ltac appends_split :=
  repeat first
    [ apply appends_bind; [|intro]
    | apply appends_with_trace
    | solve [auto with appends]
    | match goal with
      | |- appends (if ?b then _ else _) => destruct b
      | |- appends (match ?x with _ => _ end) => destruct x
      | |- appends (let '(_, _) := ?x in _) => destruct x
      end ].

Section AppendsProvider.
Context {G : Type}.
Variable env : Env G.
Variable self : gemini.GeminiProvider.

Lemma appends_urlopen (prompt : string) : appends (gemini.urlopen env prompt).
Proof. intros w. now apply trace_grows_same. Qed.

Lemma appends_attempt_loop (prompt : string) (h : span_ref) (attempts : list nat) :
  forall le, appends (gemini.attempt_loop env self prompt h attempts le).
Proof.
  induction attempts as [|a later IH]; intros le; cbn [gemini.attempt_loop].
  - apply appends_ret.
  - apply appends_bind; [auto with appends|intros _].
    apply appends_bind; [apply appends_urlopen|intros r].
    destruct r; appends_split; apply IH.
Qed.

Lemma appends_generate_text (prompt : string) (h : span_ref) :
  appends (gemini._generate_text env self prompt h).
Proof.
  unfold gemini._generate_text.
  apply appends_bind; [apply appends_attempt_loop|intros [raw le]].
  appends_split.
Qed.

Lemma appends_build_tool_prompt user_prompt access history :
  appends (gemini._build_tool_prompt env user_prompt access history).
Proof. unfold gemini._build_tool_prompt. appends_split. Qed.

Lemma appends_parse_action (text : string) (h : span_ref) :
  appends (gemini._parse_action env text h).
Proof. unfold gemini._parse_action. appends_split. Qed.

Lemma appends_get_default_branch (access : tools.RepoAccess.t) :
  appends (tools.get_default_branch (clock env) (github env) access).
Proof. unfold tools.get_default_branch. appends_split. Qed.

Lemma appends_ensure (access : tools.RepoAccess.t) :
  appends (tools.ensure_repo_write_access (clock env) (github env) access).
Proof. unfold tools.ensure_repo_write_access. appends_split. Qed.

Lemma appends_execute_tool_inner access tool arguments :
  appends (gemini._execute_tool_inner env access tool arguments).
Proof.
  unfold gemini._execute_tool_inner.
  repeat match goal with
         | |- appends (if ?b then _ else _) => destruct b
         end;
    try (apply appends_bind; [apply appends_get_default_branch|intro]);
    appends_split.
Qed.

Lemma appends_execute_tool access tool arguments span :
  appends (gemini._execute_tool env access tool arguments span).
Proof.
  unfold gemini._execute_tool. apply appends_with_trace.
  apply appends_execute_tool_inner.
Qed.

Lemma appends_tool_loop request access llm_span (steps : list nat) :
  forall history,
    appends (gemini.tool_loop env self request access llm_span steps history).
Proof.
  induction steps as [|i later IH]; intros history; cbn [gemini.tool_loop].
  - appends_split.
  - apply appends_bind; [apply appends_build_tool_prompt|intros prompt].
    apply appends_bind; [auto with appends|intros step_span].
    apply appends_bind; [apply appends_generate_text|intros model_text].
    apply appends_bind; [apply appends_parse_action|intros action].
    unfold gemini.action_item.
    apply appends_bind; [auto with appends|intros action_type].
    destruct (Py.eq_str action_type "final").
    + appends_split.
    + apply appends_bind; [auto with appends|intros tool].
      apply appends_bind; [auto with appends|intros tool_span].
      apply appends_bind; [auto with appends|intros tool'].
      apply appends_bind; [apply appends_execute_tool|intros result].
      apply appends_bind; [auto with appends|intros _].
      apply appends_bind; [auto with appends|intros _].
      apply IH.
Qed.

Lemma appends_respond (request : provider.AgentRequest) :
  appends (gemini.respond env self request).
Proof.
  unfold gemini.respond.
  apply appends_bind; [auto with appends|intros llm_span].
  destruct (String.eqb (provider.mode request) "plan").
  - apply appends_bind; [apply appends_generate_text|intros text].
    appends_split.
  - apply appends_bind; [auto with appends|intros [access|]].
    + apply appends_bind;
        [apply appends_with_trace, appends_ensure | intros _].
      apply appends_tool_loop.
    + apply appends_bind; [apply appends_generate_text|intros text].
      appends_split.
Qed.

End AppendsProvider.

(** X3.  A run of the Gemini provider only appends to the request trace:
    whatever the endpoint and the repository host answer, and whether the run
    returns or raises, the trace afterwards has the same request id, metadata
    and start, and its tree is the tree before, grown.  So every span handle
    that resolved before the run resolves after it, to a span with the same
    name and start whose events begin with the events it had; and a span that
    was finished keeps its status, end, duration and data. *)
Theorem X3_respond_appends_to_trace :
  forall (G : Type) (env : Env G) (self : gemini.GeminiProvider)
         (request : provider.AgentRequest) (w : World G),
    let w' := snd (gemini.respond env self request w) in
    trace_grows w w'
    /\ forall tr path sp,
         trace w = Some tr ->
         TraceSpan.get path (RequestTrace.root tr) = Some sp ->
         exists tr' sp' more,
           trace w' = Some tr'
           /\ TraceSpan.get path (RequestTrace.root tr') = Some sp'
           /\ TraceSpan.name sp' = TraceSpan.name sp
           /\ TraceSpan.started_at sp' = TraceSpan.started_at sp
           /\ TraceSpan.events sp' = TraceSpan.events sp ++ more
           /\ (TraceSpan.finished_at sp <> None ->
               TraceSpan.status sp' = TraceSpan.status sp
               /\ TraceSpan.finished_at sp' = TraceSpan.finished_at sp
               /\ TraceSpan.duration_ms sp' = TraceSpan.duration_ms sp
               /\ TraceSpan.data sp' = TraceSpan.data sp).
Proof.
  intros G env self request w w'.
  pose proof (appends_respond env self request w) as Hg. fold w' in Hg.
  split; [exact Hg|].
  intros tr path sp Et Hget. unfold trace_grows in Hg. rewrite Et in Hg.
  destruct Hg as (tr' & Et' & _ & _ & _ & Hroot).
  destruct (grows_get path _ _ sp Hroot Hget) as (sp' & Hget' & Hsp).
  destruct sp as [nm st sa m fa du dt evs ch].
  apply grows_inv in Hsp as (st' & fa' & du' & dt' & more & ch' & -> & _ & Hf).
  exists tr'. eexists. exists more.
  split; [exact Et'|]. split; [exact Hget'|]. cbn.
  split; [reflexivity|]. split; [reflexivity|]. split; [reflexivity|].
  exact Hf.
Qed.

Lemma X3_respond_appends_to_trace_witness :
  let w' := snd (gemini.respond (demo_env scenario_b_answers) demo_self
                   demo_request demo_world) in
  exists tr' sp' more,
    trace w' = Some tr'
    /\ TraceSpan.get [] (RequestTrace.root tr') = Some sp'
    /\ TraceSpan.name sp' = "request.lifecycle"
    /\ TraceSpan.events sp' = more.
Proof.
  intros w'.
  destruct (X3_respond_appends_to_trace _ (demo_env scenario_b_answers) demo_self
              demo_request demo_world) as [_ H].
  destruct (RequestTrace.create demo_clock "req-1" None 0) as [tr tick] eqn:E.
  specialize (H tr [] (RequestTrace.root tr)).
  assert (Et : trace demo_world = Some tr).
  { unfold demo_world. rewrite E. reflexivity. }
  destruct (H Et eq_refl) as (tr' & sp' & more & H1 & H2 & H3 & _ & H5 & _).
  exists tr', sp', more. repeat split; try assumption.
  - rewrite H3. injection E as <- _. reflexivity.
  - rewrite H5. injection E as <- _. reflexivity.
Defined.

(* ------------------------------------------------------------------ *)
(** ** Code fences *)

Section Fences.
Local Open Scope string_scope.

Lemma splitlines_from_one_line (l : string) :
  forall cur, one_line l = true ->
              PyStr.splitlines_from l cur
              = match cur ++ l with
                | EmptyString => []
                | x => [x]
                end.
Proof.
  induction l as [|c l IH]; intros cur H.
  - cbn [PyStr.splitlines_from]. rewrite str_app_nil_r. now destruct cur.
  - cbn [one_line all_chars] in H. apply andb_true_iff in H as [Hc Hl].
    apply negb_true_iff in Hc.
    cbn [PyStr.splitlines_from]. rewrite Hc.
    rewrite (IH _ Hl), str_app_assoc. reflexivity.
Qed.

Lemma splitlines_from_line (l rest : string) :
  forall cur, one_line l = true ->
              PyStr.splitlines_from (l ++ String PyStr.LF rest) cur
              = (cur ++ l) :: PyStr.splitlines_from rest EmptyString.
Proof.
  induction l as [|c l IH]; intros cur H.
  - rewrite str_app_nil_r. cbn [append PyStr.splitlines_from].
    change (PyStr.is_linebreak PyStr.LF) with true.
    change (Ascii.eqb PyStr.LF PyStr.CR) with false.
    cbn [andb]. now destruct rest.
  - cbn [one_line all_chars] in H. apply andb_true_iff in H as [Hc Hl].
    apply negb_true_iff in Hc.
    cbn [append PyStr.splitlines_from]. rewrite Hc.
    rewrite (IH _ Hl), str_app_assoc. reflexivity.
Qed.

Lemma join_cons (sep p : string) (rest : list string) :
  rest <> [] -> PyStr.join sep (p :: rest) = p ++ sep ++ PyStr.join sep rest.
Proof. destruct rest; [congruence | reflexivity]. Qed.

Lemma join_snoc (sep z : string) (l : list string) :
  l <> [] -> PyStr.join sep (l ++ [z]) = PyStr.join sep l ++ sep ++ z.
Proof.
  induction l as [|p l IH]; intros H; [congruence|].
  destruct l as [|q l].
  - reflexivity.
  - change ((p :: q :: l) ++ [z])%list with (p :: ((q :: l) ++ [z]))%list.
    rewrite join_cons by (cbn; discriminate).
    rewrite IH by discriminate.
    rewrite (join_cons sep p (q :: l)) by discriminate.
    now rewrite !str_app_assoc.
Qed.

Lemma splitlines_join (ls : list string) :
  forallb one_line ls = true -> last ls EmptyString <> EmptyString ->
  PyStr.splitlines (PyStr.join PyStr.newline ls) = ls.
Proof.
  unfold PyStr.splitlines.
  induction ls as [|p ls IH]; intros Hl Hlast; [now cbn in Hlast|].
  cbn [forallb] in Hl. apply andb_true_iff in Hl as [Hp Hl].
  destruct ls as [|q ls].
  - cbn [PyStr.join]. rewrite (splitlines_from_one_line p _ Hp).
    cbn [append]. cbn in Hlast. now destruct p.
  - rewrite join_cons by discriminate.
    change (PyStr.newline ++ PyStr.join PyStr.newline (q :: ls))
      with (String PyStr.LF (PyStr.join PyStr.newline (q :: ls))).
    rewrite (splitlines_from_line p _ _ Hp). cbn [append].
    f_equal. apply IH; [exact Hl | exact Hlast].
Qed.

Lemma lstrip_by_blank (p : ascii -> bool) (a b : string) :
  all_chars p a = true -> PyStr.lstrip_by p (a ++ b) = PyStr.lstrip_by p b.
Proof.
  induction a as [|c a IH]; intros H; [reflexivity|].
  cbn [all_chars] in H. apply andb_true_iff in H as [Hc Ha].
  cbn [append PyStr.lstrip_by]. rewrite Hc. now apply IH.
Qed.

Lemma rstrip_by_all (p : ascii -> bool) (s : string) :
  all_chars p s = true -> PyStr.rstrip_by p s = EmptyString.
Proof.
  induction s as [|c s IH]; intros H; [reflexivity|].
  cbn [all_chars] in H. apply andb_true_iff in H as [Hc Hs].
  cbn [PyStr.rstrip_by]. now rewrite (IH Hs), Hc.
Qed.

Lemma rstrip_by_blank (p : ascii -> bool) (s post : string) :
  all_chars p post = true -> PyStr.rstrip_by p (s ++ post) = PyStr.rstrip_by p s.
Proof.
  intros H. induction s as [|c s IH].
  - cbn [append]. now apply rstrip_by_all.
  - cbn [append PyStr.rstrip_by]. now rewrite IH.
Qed.

Lemma rstrip_ends_nonspace (s : string) :
  ends_nonspace s = true -> PyStr.rstrip s = s.
Proof.
  unfold PyStr.rstrip.
  induction s as [|c s IH]; intros H; [discriminate|].
  cbn [PyStr.rstrip_by]. destruct s as [|c' s].
  - cbn in H |- *. apply negb_true_iff in H. now rewrite H.
  - change (ends_nonspace (String c (String c' s)))
      with (ends_nonspace (String c' s)) in H.
    now rewrite (IH H).
Qed.

Lemma ends_nonspace_app (a b : string) :
  ends_nonspace b = true -> ends_nonspace (a ++ b) = true.
Proof.
  intros H. induction a as [|c a IH]; [exact H|].
  cbn [append]. destruct (a ++ b) eqn:E.
  - destruct a; destruct b; discriminate.
  - exact IH.
Qed.

(** Whitespace around a text that begins and ends with other characters
    is what [strip] removes. *)
Lemma strip_padded (pre s post : string) :
  blank pre = true -> blank post = true ->
  starts_nonspace s = true -> ends_nonspace s = true ->
  PyStr.strip (pre ++ s ++ post) = s.
Proof.
  intros Hpre Hpost Hs He. unfold PyStr.strip, PyStr.lstrip.
  rewrite (lstrip_by_blank _ _ _ Hpre).
  assert (E : PyStr.lstrip_by PyStr.is_space (s ++ post) = s ++ post).
  { destruct s as [|c s]; [discriminate|].
    cbn in Hs. apply negb_true_iff in Hs.
    cbn [append PyStr.lstrip_by]. now rewrite Hs. }
  rewrite E. unfold PyStr.rstrip.
  rewrite (rstrip_by_blank _ _ _ Hpost).
  now apply rstrip_ends_nonspace.
Qed.

Lemma startswith_nil (s : string) : PyStr.startswith s EmptyString = true.
Proof. now destruct s. Qed.

Lemma startswith_fence (rest : string) :
  PyStr.startswith (json_utils.FENCE ++ rest) json_utils.FENCE = true.
Proof. cbn. apply startswith_nil. Qed.

Lemma fenced_block_shape (tag : string) (body : list string) :
  starts_nonspace (fenced_block tag body) = true
  /\ ends_nonspace (fenced_block tag body) = true
  /\ PyStr.startswith (fenced_block tag body) json_utils.FENCE = true.
Proof.
  unfold fenced_block.
  rewrite join_cons by (destruct body; discriminate).
  split; [reflexivity|]. split.
  - rewrite <- join_cons by (destruct body; discriminate).
    rewrite app_comm_cons, join_snoc by discriminate.
    apply ends_nonspace_app. reflexivity.
  - rewrite str_app_assoc. apply startswith_fence.
Qed.

Lemma strip_code_fences_plain (text : string) :
  PyStr.startswith (PyStr.strip text) json_utils.FENCE = false ->
  json_utils.strip_code_fences text = PyStr.strip text.
Proof. intros H. unfold json_utils.strip_code_fences. now rewrite H. Qed.

Lemma strip_code_fences_block (pre tag post : string) (body : list string) :
  blank pre = true -> blank post = true -> one_line tag = true ->
  forallb one_line body = true ->
  json_utils.strip_code_fences (pre ++ fenced_block tag body ++ post)
  = PyStr.strip (PyStr.join PyStr.newline body).
Proof.
  intros Hpre Hpost Htag Hbody.
  destruct (fenced_block_shape tag body) as (Hs & He & Hf).
  unfold json_utils.strip_code_fences.
  rewrite (strip_padded _ _ _ Hpre Hpost Hs He), Hf. cbn [negb].
  unfold fenced_block. rewrite splitlines_join.
  - rewrite startswith_fence.
    destruct (body ++ [json_utils.FENCE])%list as [|x l] eqn:E;
      [now destruct body|].
    rewrite <- E, last_last, removelast_last.
    reflexivity.
  - cbn [forallb]. rewrite forallb_app, Hbody. cbn [forallb].
    assert (Hone : one_line (json_utils.FENCE ++ tag) = true).
    { cbn. exact Htag. }
    rewrite Hone. reflexivity.
  - rewrite app_comm_cons, last_last. discriminate.
Qed.

End Fences.

(** X4.  A fenced block is transparent.  For a text made of an opening
    fence line (three backquotes and a tag), the lines of a body and a
    closing fence line, with whitespace before and after, [strip_code_fences]
    returns the body, its lines joined by newlines and stripped; and if
    that body does not itself begin with a fence, extraction from the fenced
    text gives what extraction from the body alone gives. *)
Theorem X4_fenced_block_is_transparent :
  forall (pre tag post : string) (body : list string),
    blank pre = true -> blank post = true -> one_line tag = true ->
    forallb one_line body = true ->
    let inner := PyStr.join PyStr.newline body in
    let text := (pre ++ fenced_block tag body ++ post)%string in
    json_utils.strip_code_fences text = PyStr.strip inner
    /\ (PyStr.startswith (PyStr.strip inner) json_utils.FENCE = false ->
        forall json_loads,
          json_utils.extract_first_json_object json_loads text
          = json_utils.extract_first_json_object json_loads inner).
Proof.
  intros pre tag post body Hpre Hpost Htag Hbody inner text.
  assert (E : json_utils.strip_code_fences text = PyStr.strip inner)
    by exact (strip_code_fences_block pre tag post body Hpre Hpost Htag Hbody).
  split; [exact E|].
  intros Hplain json_loads. unfold json_utils.extract_first_json_object.
  now rewrite E, (strip_code_fences_plain inner Hplain).
Qed.

Lemma X4_fenced_block_is_transparent_witness :
  json_utils.extract_first_json_object DemoJson.loads
    (" " ++ fenced_block "json" [dq "{'type': 'final',"; dq " 'message': 'done'}"]
         ++ PyStr.newline)%string
  = Ok ([("type", VStr "final"); ("message", VStr "done")], EmptyString).
Proof.
  destruct (X4_fenced_block_is_transparent " " "json" PyStr.newline
              [dq "{'type': 'final',"; dq " 'message': 'done'}"]
              eq_refl eq_refl eq_refl eq_refl) as [_ H].
  rewrite (H eq_refl DemoJson.loads). vm_compute. reflexivity.
Defined.

(** X5.  A fenced answer written on one line loses its content: when the
    stripped text begins with a fence and holds no line break, everything
    is taken for the opening fence line, [strip_code_fences] returns the
    empty string, and extraction finds no object, whatever stands between
    the fences. *)
Theorem X5_one_line_fence_is_emptied :
  forall (text : string),
    PyStr.startswith (PyStr.strip text) json_utils.FENCE = true ->
    one_line (PyStr.strip text) = true ->
    json_utils.strip_code_fences text = EmptyString
    /\ forall json_loads,
         json_utils.extract_first_json_object json_loads text
         = Raise (ValueError "No JSON object found in text").
Proof.
  intros text Hf Hone.
  assert (E : json_utils.strip_code_fences text = EmptyString).
  { unfold json_utils.strip_code_fences. rewrite Hf. cbn [negb].
    unfold PyStr.splitlines. rewrite (splitlines_from_one_line _ _ Hone).
    cbn [append]. destruct (PyStr.strip text) as [|c s] eqn:Es; [discriminate|].
    rewrite Hf. reflexivity. }
  split; [exact E|].
  intros json_loads. unfold json_utils.extract_first_json_object.
  rewrite E. reflexivity.
Qed.

Lemma X5_one_line_fence_is_emptied_witness :
  json_utils.extract_first_json_object DemoJson.loads
    (dq "```json {'type': 'final', 'message': 'done'} ```")
  = Raise (ValueError "No JSON object found in text").
Proof.
  apply (X5_one_line_fence_is_emptied
           (dq "```json {'type': 'final', 'message': 'done'} ```")
           eq_refl eq_refl).
Defined.

(* ------------------------------------------------------------------ *)
(** ** Decoding the model's answer *)

Section Decoding.

Lemma extract_raises_value_error (json_loads : string -> string + value)
      (text : string) (e : exn) :
  json_utils.extract_first_json_object json_loads text = Raise e ->
  exists msg, e = ValueError msg.
Proof.
  unfold json_utils.extract_first_json_object, json_utils.candidate_span.
  destruct (PyStr.find LBRACE (json_utils.strip_code_fences text)) as [start|].
  - destruct (json_utils.scan _ start 0%Z false false) as [end_|].
    + destruct (json_loads _) as [msg|[]]; intros [= <-]; eauto.
    + intros [= <-]; eauto.
  - intros [= <-]; eauto.
Qed.

Lemma classify_raises_runtime (payload : dict) (e : exn) :
  gemini.classify_action payload = Raise e -> exists m, e = RuntimeError m.
Proof.
  unfold gemini.classify_action.
  destruct (Py.eq_str _ "tool_call").
  - destruct (negb (dict_mem "tool" payload)); intros [= <-]; eauto.
  - destruct (Py.eq_str _ "final").
    + destruct (negb (truthy _)); intros [= <-]; eauto.
    + intros [= <-]; eauto.
Qed.

Lemma dict_mem_app (k : string) (a b : dict) :
  dict_mem k (a ++ b) = dict_mem k a || dict_mem k b.
Proof.
  unfold dict_mem. rewrite dict_get_app.
  destruct (dict_get k a); [reflexivity|]. now destruct (dict_get k b).
Qed.

End Decoding.

(** X6.  [_parse_action] fails in one way only.  Whatever the model's text,
    an exception it raises is a [RuntimeError], and nothing but the trace
    and the clock has moved; when the text, its fences removed, holds no
    opening brace, the error is "Gemini response is not JSON: " followed by
    the text itself. *)
Theorem X6_parse_action_raises_runtime_error :
  forall (G : Type) (env : Env G) (text : string) (h : span_ref)
         (w w' : World G) (e : exn),
    gemini._parse_action env text h w = (Raise e, w') ->
    (exists m, e = RuntimeError m)
    /\ untouched w w'
    /\ (PyStr.find LBRACE (json_utils.strip_code_fences text) = None ->
        e = RuntimeError [Lit "Gemini response is not JSON: "; Lit text]).
Proof.
  intros G env text h w w' e H.
  destruct (parse_action_run env text h w) as (w1 & E & U).
  rewrite E in H. injection H as He <-.
  split; [|split; [exact U|]].
  - unfold parse_result in He.
    destruct (json_utils.extract_first_json_object (json_loads env) text)
      as [[payload trailing]|e0] eqn:Ex.
    + exact (classify_raises_runtime payload e He).
    + destruct (extract_raises_value_error _ _ _ Ex) as [msg ->].
      injection He as <-. eauto.
  - intros Hnone. unfold parse_result in He.
    unfold json_utils.extract_first_json_object, json_utils.candidate_span in He.
    rewrite Hnone in He. now injection He as <-.
Qed.

Lemma X6_parse_action_raises_runtime_error_witness :
  exists w',
    gemini._parse_action (demo_env chatter_answers) "I cannot help with that." None
      demo_world
    = (Raise (RuntimeError [ Lit "Gemini response is not JSON: ";
                             Lit "I cannot help with that." ]), w')
    /\ untouched demo_world w'.
Proof.
  destruct (gemini._parse_action (demo_env chatter_answers)
              "I cannot help with that." None demo_world) as [r w'] eqn:E.
  assert (Hr : r = Raise (RuntimeError [ Lit "Gemini response is not JSON: ";
                                         Lit "I cannot help with that." ])).
  { apply (f_equal fst) in E. cbn [fst] in E. rewrite <- E. vm_compute. reflexivity. }
  subst r. exists w'. split; [reflexivity|].
  exact (proj1 (proj2 (X6_parse_action_raises_runtime_error _ _ _ _ _ _ _ E))).
Defined.

(** X7.  What [classify_action] lets through.  An accepted action is the
    payload itself, except that a tool call without arguments gets the empty
    mapping as its [arguments], appended as the last key.  It is either a
    [tool_call] that has a [tool] and [arguments], or a [final] whose
    message tests true. *)
Theorem X7_accepted_actions :
  forall (payload action : dict),
    gemini.classify_action payload = Ok action ->
    (dict_get "type" action = Some (VStr "tool_call")
     /\ dict_mem "tool" action = true
     /\ dict_mem "arguments" action = true
     /\ (if dict_mem "arguments" payload then action = payload
         else action = payload ++ [("arguments", VDict [])]))
    \/ (dict_get "type" action = Some (VStr "final")
        /\ truthy (dict_get_default "message" VNone action) = true
        /\ action = payload).
Proof.
  intros payload action. unfold gemini.classify_action, dict_get_default.
  destruct (dict_get "type" payload) as [ty|] eqn:Ety.
  2:{ cbn. discriminate. }
  destruct ty as [| | | |ty| |]; try (cbn; discriminate).
  cbn [Py.eq_str].
  destruct (String.eqb ty "tool_call") eqn:E1.
  - apply String.eqb_eq in E1. subst ty.
    destruct (dict_mem "tool" payload) eqn:Etool; cbn [negb]; [|discriminate].
    destruct (dict_mem "arguments" payload) eqn:Eargs; intros [= <-]; left.
    + now repeat split.
    + repeat split.
      * rewrite dict_get_app, Ety. reflexivity.
      * rewrite dict_mem_app, Etool. reflexivity.
      * rewrite dict_mem_app, Eargs. reflexivity.
  - destruct (String.eqb ty "final") eqn:E2; [|discriminate].
    apply String.eqb_eq in E2. subst ty.
    destruct (truthy _) eqn:Emsg; cbn [negb]; [|discriminate].
    intros [= <-]. right. now repeat split.
Qed.

Lemma X7_accepted_actions_witness :
  gemini.classify_action [("type", VStr "tool_call"); ("tool", VStr "list_files")]
  = Ok [("type", VStr "tool_call"); ("tool", VStr "list_files");
        ("arguments", VDict [])].
Proof.
  destruct (gemini.classify_action
              [("type", VStr "tool_call"); ("tool", VStr "list_files")])
    as [action|e] eqn:E; [|discriminate E].
  destruct (X7_accepted_actions _ _ E) as [(_ & _ & _ & H)|(H & _)].
  - cbn in H. now rewrite H.
  - exfalso. cbn in E. injection E as <-. discriminate H.
Defined.

(* ------------------------------------------------------------------ *)
(** ** Mode detection: the decision *)

(** X8.  The decision of [detect_mode].  The mode is [chat] exactly when
    none of the eighteen hints occurs in the prompt, stripped and lowered,
    and the reason is then [default]; otherwise the mode is [plan].  A plan
    hint that occurs decides the reason, [matched_hint:] and the first plan
    hint of the list that occurs, whether or not a code hint occurs too. *)
Theorem X8_detect_mode_decision :
  forall (prompt : string),
    let normalized := PyStr.lower (PyStr.strip prompt) in
    let decision := modes.detect_mode prompt in
    (modes.mode decision = "chat"
     <-> forall hint, In hint ALL_HINTS -> PyStr.contains hint normalized = false)
    /\ (modes.mode decision = "chat" -> modes.reason decision = "default")
    /\ (modes.mode decision <> "chat" -> modes.mode decision = "plan")
    /\ (forall hint,
          In hint modes.PLAN_HINTS -> PyStr.contains hint normalized = true ->
          exists first before after,
            modes.PLAN_HINTS = before ++ first :: after
            /\ PyStr.contains first normalized = true
            /\ (forall h, In h before -> PyStr.contains h normalized = false)
            /\ modes.reason decision = ("matched_hint:" ++ first)%string).
Proof.
  intros prompt normalized decision. subst decision.
  unfold modes.detect_mode. fold normalized.
  destruct (find (fun hint => PyStr.contains hint normalized) modes.PLAN_HINTS)
    as [ph|] eqn:Ep.
  - cbn [modes.mode modes.reason].
    split; [split; [discriminate|]|].
    + intros Hnone. apply List.find_some in Ep as [Hin Hc].
      rewrite (Hnone ph) in Hc; [discriminate|].
      unfold ALL_HINTS. apply in_or_app. now left.
    + split; [discriminate|]. split; [reflexivity|].
      intros hint _ _.
      assert (Hsplit : forall l x,
                 find (fun hint => PyStr.contains hint normalized) l = Some x ->
                 exists before after,
                   l = before ++ x :: after
                   /\ PyStr.contains x normalized = true
                   /\ forall h, In h before -> PyStr.contains h normalized = false).
      { induction l as [|y l IH]; intros x Hx; [discriminate|].
        cbn [find] in Hx. destruct (PyStr.contains y normalized) eqn:Ey.
        - injection Hx as <-. exists [], l. repeat split; [exact Ey|intros h []].
        - destruct (IH x Hx) as (before & after & -> & Hc & Hb).
          exists (y :: before), after. repeat split; [exact Hc|].
          intros h [<-|Hh]; [exact Ey | exact (Hb h Hh)]. }
      destruct (Hsplit _ _ Ep) as (before & after & E & Hc & Hb).
      exists ph, before, after. now repeat split.
  - pose proof (List.find_none _ _ Ep) as Hplan. cbn beta in Hplan.
    destruct (find (fun hint => PyStr.contains hint normalized) modes.CODE_HINTS)
      as [ch|] eqn:Ec.
    + cbn [modes.mode modes.reason].
      split; [split; [discriminate|]|].
      * intros Hnone. apply List.find_some in Ec as [Hin Hc].
        rewrite (Hnone ch) in Hc; [discriminate|].
        unfold ALL_HINTS. apply in_or_app. now right.
      * split; [discriminate|]. split; [reflexivity|].
        intros hint Hin Hc. rewrite (Hplan hint Hin) in Hc. discriminate.
    + pose proof (List.find_none _ _ Ec) as Hcode. cbn beta in Hcode.
      cbn [modes.mode modes.reason].
      split; [split; [intros _|reflexivity]|].
      * intros hint Hin. unfold ALL_HINTS in Hin.
        apply in_app_or in Hin as [Hin|Hin]; [now apply Hplan | now apply Hcode].
      * split; [reflexivity|]. split; [congruence|].
        intros hint Hin Hc. rewrite (Hplan hint Hin) in Hc. discriminate.
Qed.

Lemma X8_detect_mode_decision_witness :
  (exists first,
      In first modes.PLAN_HINTS
      /\ modes.reason
           (modes.detect_mode "  Before you code, make a plan for the repo ")
         = ("matched_hint:" ++ first)%string)
  /\ modes.detect_mode "what time is it?"
     = {| modes.mode := "chat"; modes.reason := "default" |}.
Proof.
  split.
  - destruct (X8_detect_mode_decision "  Before you code, make a plan for the repo ")
      as (_ & _ & _ & H).
    destruct (H "before you code") as (first & before & after & E & Hc & Hb & Hr).
    + cbn. tauto.
    + reflexivity.
    + exists first. split; [|exact Hr].
      rewrite E. apply in_or_app. right. now left.
  - destruct (X8_detect_mode_decision "what time is it?") as ([_ H] & Hd & _).
    assert (Hm : modes.mode (modes.detect_mode "what time is it?") = "chat").
    { apply H. intros hint Hin. unfold ALL_HINTS in Hin. cbn in Hin.
      repeat (destruct Hin as [<-|Hin]; [reflexivity|]). destruct Hin. }
    specialize (Hd Hm).
    destruct (modes.detect_mode "what time is it?") as [m r].
    cbn in Hm, Hd. now subst.
Defined.

(* ------------------------------------------------------------------ *)
(** ** Naming a repository *)

Section RepoUrl.

Lemma startswith_replace_char (a b : ascii) (p : string) :
  PyStr.mem_char b p = false ->
  forall s, PyStr.startswith (PyStr.replace_char a b s) p = true ->
            PyStr.startswith s p = true.
Proof.
  induction p as [|x p IH]; intros Hb s H; [apply startswith_nil|].
  cbn [PyStr.mem_char] in Hb. apply orb_false_iff in Hb as [Hx Hb].
  destruct s as [|c s]; [discriminate|].
  cbn [PyStr.replace_char PyStr.startswith] in H |- *.
  apply andb_true_iff in H as [H1 H2].
  destruct (Ascii.eqb c a) eqn:Eca.
  - congruence.
  - rewrite H1. cbn [andb]. exact (IH Hb s H2).
Qed.

Lemma contains_replace_char (a b : ascii) (p : string) :
  PyStr.mem_char b p = false ->
  forall s, PyStr.contains p (PyStr.replace_char a b s) = true ->
            PyStr.contains p s = true.
Proof.
  intros Hb. induction s as [|c s IH]; intros H.
  - exact H.
  - cbn [PyStr.contains] in H |- *.
    apply orb_true_iff in H as [H|H]; apply orb_true_iff.
    + left. exact (startswith_replace_char a b p Hb (String c s) H).
    + right. exact (IH H).
Qed.

Lemma match_repo_url_prefix (s : string) (g : string * string) :
  gemini.match_repo_url s = Some g -> PyStr.startswith s gemini.URL_PREFIX = true.
Proof.
  unfold gemini.match_repo_url.
  destruct (PyStr.startswith s gemini.URL_PREFIX); [reflexivity | discriminate].
Qed.

Lemma search_repo_url_contains (s : string) (g : string * string) :
  gemini.search_repo_url s = Some g -> PyStr.contains gemini.URL_PREFIX s = true.
Proof.
  induction s as [|c s IH]; cbn [gemini.search_repo_url]; intros H.
  - destruct (gemini.match_repo_url EmptyString) eqn:E; [|discriminate].
    apply contains_startswith. exact (match_repo_url_prefix _ _ E).
  - destruct (gemini.match_repo_url (String c s)) eqn:E.
    + apply contains_startswith. exact (match_repo_url_prefix _ _ E).
    + cbn [PyStr.contains]. apply orb_true_iff. right. exact (IH H).
Qed.

(** A prompt without the URL prefix names no repository. *)
Lemma extract_repo_access_none (prompt : string) :
  PyStr.contains gemini.URL_PREFIX prompt = false ->
  gemini._extract_repo_access prompt = Ok None.
Proof.
  intros H. unfold gemini._extract_repo_access.
  destruct (gemini.search_repo_url _) as [[owner repo]|] eqn:E; [|reflexivity].
  apply search_repo_url_contains in E.
  apply contains_replace_char in E; [|reflexivity].
  apply contains_replace_char in E; [|reflexivity].
  congruence.
Qed.

Lemma span_slug_run (s : string) :
  all_chars gemini.is_slug_char (fst (gemini.span_slug s)) = true.
Proof.
  induction s as [|c s IH]; cbn [gemini.span_slug]; [reflexivity|].
  destruct (gemini.is_slug_char c) eqn:Ec; [|reflexivity].
  destruct (gemini.span_slug s) as [run rest]. cbn [fst all_chars] in *.
  now rewrite Ec, IH.
Qed.

Lemma match_repo_url_groups (s owner repo : string) :
  gemini.match_repo_url s = Some (owner, repo) ->
  all_chars gemini.is_slug_char owner = true
  /\ all_chars gemini.is_slug_char repo = true.
Proof.
  unfold gemini.match_repo_url.
  destruct (PyStr.startswith s gemini.URL_PREFIX); [|discriminate].
  pose proof (span_slug_run (PyStr.drop (String.length gemini.URL_PREFIX) s)) as H1.
  destruct (gemini.span_slug (PyStr.drop (String.length gemini.URL_PREFIX) s))
    as [g1 rest].
  cbn [fst] in H1.
  destruct g1 as [|c1 g1]; [discriminate|].
  destruct rest as [|slash rest']; [discriminate|].
  destruct (Ascii.eqb slash "/"); [|discriminate].
  pose proof (span_slug_run rest') as H2.
  destruct (gemini.span_slug rest') as [[|c2 g2] rest2]; [discriminate|].
  cbn [fst] in H2. intros [= <- <-]. now split.
Qed.

Lemma search_repo_url_groups (s owner repo : string) :
  gemini.search_repo_url s = Some (owner, repo) ->
  all_chars gemini.is_slug_char owner = true
  /\ all_chars gemini.is_slug_char repo = true.
Proof.
  induction s as [|c s IH]; cbn [gemini.search_repo_url]; intros H.
  - destruct (gemini.match_repo_url EmptyString) as [g|] eqn:E; [|discriminate].
    injection H as ->. exact (match_repo_url_groups _ _ _ E).
  - destruct (gemini.match_repo_url (String c s)) as [g|] eqn:E.
    + injection H as ->. exact (match_repo_url_groups _ _ _ E).
    + exact (IH H).
Qed.

Lemma lstrip_by_none (p : ascii -> bool) (s : string) :
  all_chars (fun c => negb (p c)) s = true -> PyStr.lstrip_by p s = s.
Proof.
  destruct s as [|c s]; [reflexivity|]. cbn [all_chars PyStr.lstrip_by].
  intros H. apply andb_true_iff in H as [H _]. apply negb_true_iff in H.
  now rewrite H.
Qed.

Lemma rstrip_by_none (p : ascii -> bool) (s : string) :
  all_chars (fun c => negb (p c)) s = true -> PyStr.rstrip_by p s = s.
Proof.
  induction s as [|c s IH]; [reflexivity|]. cbn [all_chars PyStr.rstrip_by].
  intros H. apply andb_true_iff in H as [Hc Hs]. apply negb_true_iff in Hc.
  rewrite (IH Hs). destruct s; [now rewrite Hc | reflexivity].
Qed.

Lemma all_chars_impl (p q : ascii -> bool) (s : string) :
  (forall c, p c = true -> q c = true) ->
  all_chars p s = true -> all_chars q s = true.
Proof.
  intros Hpq. induction s as [|c s IH]; [reflexivity|]. cbn [all_chars].
  intros H. apply andb_true_iff in H as [Hc Hs].
  now rewrite (Hpq c Hc), (IH Hs).
Qed.

Lemma startswith_all_chars (p : ascii -> bool) (sep : string) :
  forall s, PyStr.startswith s sep = true -> all_chars p s = true ->
            all_chars p sep = true.
Proof.
  induction sep as [|a sep IH]; intros s H Hs; [reflexivity|].
  destruct s as [|b s]; [discriminate|].
  cbn [PyStr.startswith all_chars] in *.
  apply andb_true_iff in H as [H1 H2]. apply andb_true_iff in Hs as [Hb Hs].
  apply Ascii.eqb_eq in H1. subst b. rewrite Hb. cbn [andb].
  exact (IH s H2 Hs).
Qed.

Lemma split_once_none (p : ascii -> bool) (sep : string) :
  all_chars p sep = false ->
  forall s, all_chars p s = true -> PyStr.split_once sep s = None.
Proof.
  intros Hsep. induction s as [|c s IH]; intros Hs.
  - cbn [PyStr.split_once].
    destruct (PyStr.startswith EmptyString sep) eqn:E; [|reflexivity].
    rewrite (startswith_all_chars p sep _ E Hs) in Hsep. discriminate.
  - cbn [PyStr.split_once].
    destruct (PyStr.startswith (String c s) sep) eqn:E.
    + rewrite (startswith_all_chars p sep _ E Hs) in Hsep. discriminate.
    + cbn [all_chars] in Hs. apply andb_true_iff in Hs as [_ Hs].
      now rewrite (IH Hs).
Qed.

Lemma slug_char_plain (c : ascii) :
  gemini.is_slug_char c = true ->
  negb (PyStr.is_space c) = true
  /\ negb (PyStr.mem_char c "<>") = true.
Proof.
  destruct c as [[] [] [] [] [] [] [] []]; cbn; intros H;
    try discriminate H; split; reflexivity.
Qed.

(** The validator leaves a run of slug characters alone, except for one
    [.git] at its end. *)
Lemma sanitize_slug_plain (s field_name : string) :
  all_chars gemini.is_slug_char s = true ->
  tools.sanitize_slug s field_name = PyStr.removesuffix s ".git".
Proof.
  intros Hs. unfold tools.sanitize_slug.
  assert (Hspace : all_chars (fun c => negb (PyStr.is_space c)) s = true).
  { apply (all_chars_impl _ _ s (fun c H => proj1 (slug_char_plain c H)) Hs). }
  assert (Hangle : all_chars (fun c => negb (PyStr.mem_char c "<>")) s = true).
  { apply (all_chars_impl _ _ s (fun c H => proj2 (slug_char_plain c H)) Hs). }
  assert (E1 : PyStr.strip s = s).
  { unfold PyStr.strip, PyStr.lstrip, PyStr.rstrip.
    now rewrite (lstrip_by_none _ _ Hspace), (rstrip_by_none _ _ Hspace). }
  assert (E2 : PyStr.strip_chars "<>" s = s).
  { unfold PyStr.strip_chars.
    now rewrite (lstrip_by_none _ _ Hangle), (rstrip_by_none _ _ Hangle). }
  rewrite E1, E2, E1.
  rewrite (split_once_none gemini.is_slug_char "|" eq_refl s Hs).
  rewrite (split_once_none gemini.is_slug_char "github.com/" eq_refl s Hs).
  reflexivity.
Qed.

Lemma all_chars_take (p : ascii -> bool) (n : nat) :
  forall s, all_chars p s = true -> all_chars p (PyStr.take n s) = true.
Proof.
  induction n as [|n IH]; intros [|c s] H; try reflexivity.
  cbn [PyStr.take all_chars] in *. apply andb_true_iff in H as [Hc Hs].
  now rewrite Hc, (IH s Hs).
Qed.

Lemma all_chars_removesuffix (p : ascii -> bool) (s suffix : string) :
  all_chars p s = true -> all_chars p (PyStr.removesuffix s suffix) = true.
Proof.
  intros H. unfold PyStr.removesuffix. destruct suffix; [exact H|].
  destruct (PyStr.endswith s _); [now apply all_chars_take | exact H].
Qed.

End RepoUrl.

(** X9.  The repository a prompt names.  When the first repository URL of the
    prompt has the groups [owner] and [repo], the access is made of the
    owner without one [.git] suffix and of the repository name without up
    to two [.git] suffixes (one removed by the provider, one by the
    validator), on branch [main]; and if either comes out empty, a
    validation error is raised instead.  A prompt that does not hold
    [https://github.com/] names no repository. *)
Theorem X9_repository_named_by_prompt :
  forall (prompt : string),
    (forall owner repo,
        repo_url_groups prompt = Some (owner, repo) ->
        let o := PyStr.removesuffix owner ".git" in
        let r := PyStr.removesuffix (PyStr.removesuffix repo ".git") ".git" in
        gemini._extract_repo_access prompt
        = if String.eqb o EmptyString || String.eqb r EmptyString
          then Raise ValidationError
          else Ok (Some (tools.RepoAccess.mk o r "main")))
    /\ (PyStr.contains gemini.URL_PREFIX prompt = false ->
        gemini._extract_repo_access prompt = Ok None).
Proof.
  intros prompt. split; [|apply extract_repo_access_none].
  intros owner repo Hg o r. unfold repo_url_groups in Hg.
  unfold gemini._extract_repo_access. rewrite Hg.
  destruct (search_repo_url_groups _ _ _ Hg) as [Ho Hr].
  unfold tools.RepoAccess.create.
  rewrite (sanitize_slug_plain owner "owner" Ho).
  rewrite (sanitize_slug_plain _ "repo" (all_chars_removesuffix _ repo ".git" Hr)).
  fold o r.
  destruct o as [|co o']; [reflexivity|].
  destruct r as [|cr r']; reflexivity.
Qed.

Lemma X9_repository_named_by_prompt_witness :
  gemini._extract_repo_access "clone <https://github.com/acme.git/widgets.git.git> now"
  = Ok (Some (tools.RepoAccess.mk "acme" "widgets" "main"))
  /\ gemini._extract_repo_access "see https://github.com/acme/.git please"
     = Raise ValidationError.
Proof.
  split.
  - exact (proj1 (X9_repository_named_by_prompt
                    "clone <https://github.com/acme.git/widgets.git.git> now")
             "acme.git" "widgets.git.git" eq_refl).
  - exact (proj1 (X9_repository_named_by_prompt
                    "see https://github.com/acme/.git please")
             "acme" ".git" eq_refl).
Defined.

(* ------------------------------------------------------------------ *)
(** ** The branches of [respond] outside the tool loop *)

Section DirectAnswer.
Context {G : Type}.
Variable env : Env G.
Variable self : gemini.GeminiProvider.

(** The chat branch of [respond]: one generation call on the prompt as
    it is, whose text is the response. *)
Lemma respond_direct (request : provider.AgentRequest) (w : World G) :
  provider.mode request <> "plan" ->
  gemini._extract_repo_access (provider.prompt request) = Ok None ->
  exists r w' n naps,
    gemini.respond env self request w = (r, w')
    /\ 0 < n <= gemini.max_retries self + 1
    /\ advanced w w' (repeat (provider.prompt request) n) naps
    /\ (forall st raw,
          gemini_urlopen env (List.length (gemini_log w)) (provider.prompt request)
          = HttpOk st raw ->
          n = 1
          /\ r = and_then (text_result env raw)
                   (fun text => Ok {| provider.provider := gemini.name;
                                      provider.text := text |})).
Proof.
  intros Hmode Hnone. unfold gemini.respond.
  destruct (trace_span_run (clock env) "llm.workflow"
              [("provider", VStr gemini.name); ("model", VStr (gemini.model self));
               ("mode", VStr (provider.mode request))] w)
    as (llm_span & w0 & E0 & U0).
  rewrite (bind_ok _ _ _ _ _ E0).
  apply String.eqb_neq in Hmode. rewrite Hmode.
  unfold bind at 1. unfold lift at 1. rewrite Hnone.
  destruct (generate_text_run env self (provider.prompt request) llm_span w0)
    as (r & w1 & n & naps & E1 & Hn & A1 & Hfirst).
  assert (Hlen : List.length (gemini_log w0) = List.length (gemini_log w))
    by (destruct U0 as (-> & _); reflexivity).
  rewrite Hlen in Hfirst.
  destruct r as [text|e].
  - rewrite (bind_ok _ _ _ _ _ E1).
    destruct (span_finish_run (clock env) llm_span "ok"
                [("mode", VStr "chat");
                 ("text_length", gemini.int_of_nat (String.length text))] w1)
      as (w2 & E2 & U2).
    rewrite (bind_ok _ _ _ _ _ E2).
    do 4 eexists. split; [reflexivity|]. split; [exact Hn|]. split.
    + apply (advanced_untouched_l _ _ _ _ _ U0).
      apply (advanced_untouched_r _ _ _ _ _ A1). exact U2.
    + intros st raw Ho. destruct (Hfirst st raw Ho) as [-> <-]. split; reflexivity.
  - rewrite (bind_raise _ _ _ _ _ E1).
    do 4 eexists. split; [reflexivity|]. split; [exact Hn|]. split.
    + apply (advanced_untouched_l _ _ _ _ _ U0). exact A1.
    + intros st raw Ho. destruct (Hfirst st raw Ho) as [-> <-]. split; reflexivity.
Qed.

(** The access check fails: [respond] raises what the check raises, having
    called the host once and posted nothing. *)
Lemma respond_access_refused (request : provider.AgentRequest)
      (access : tools.RepoAccess.t) (w : World G) (e : exn) :
  provider.mode request <> "plan" ->
  gemini._extract_repo_access (provider.prompt request) = Ok (Some access) ->
  check_outcome (repo_document (github env) access (host w)) = Raise e ->
  exists w',
    gemini.respond env self request w = (Raise e, w')
    /\ gemini_log w' = gemini_log w
    /\ sleeps w' = sleeps w
    /\ active_span w' = active_span w
    /\ host_calls w' = S (host_calls w)
    /\ host w' = snd (tools._request (github env) "GET"
                        (tools.repo_path access) None (host w)).
Proof.
  intros Hmode Haccess Hrefused. unfold gemini.respond.
  destruct (trace_span_run (clock env) "llm.workflow"
              [("provider", VStr gemini.name); ("model", VStr (gemini.model self));
               ("mode", VStr (provider.mode request))] w)
    as (llm_span & w0 & E0 & (L0 & S0 & H0 & A0 & C0)).
  rewrite (bind_ok _ _ _ _ _ E0).
  apply String.eqb_neq in Hmode. rewrite Hmode.
  unfold bind at 1. unfold lift at 1. rewrite Haccess.
  unfold tools.ensure_repo_write_access.
  destruct (call_run (clock env)
              (tools._request (github env) "GET" (tools.repo_path access) None)
              (set_active llm_span w0)) as (w1 & E1 & L1 & S1 & H1 & _ & C1).
  unfold check_outcome, repo_document in Hrefused.
  cbn [host set_active] in E1, H1. rewrite H0 in E1, H1.
  exists (set_active (active_span w0) w1).
  split; [|repeat split].
  - unfold bind at 1. unfold with_trace. unfold bind at 1. rewrite E1.
    destruct (fst (fst (tools._request (github env) "GET"
                          (tools.repo_path access) None (host w))))
      as [repo|e0].
    + cbn [and_then] in Hrefused. unfold bind at 1, lift at 1.
      destruct (Py.get "permissions" VNone repo) as [perms|e0].
      * cbn [and_then] in Hrefused.
        destruct (tools.push_denied perms); [|discriminate].
        injection Hrefused as <-. reflexivity.
      * cbn [and_then] in Hrefused. injection Hrefused as <-. reflexivity.
    + cbn [and_then] in Hrefused. injection Hrefused as <-. reflexivity.
  - cbn. rewrite L1. cbn. exact L0.
  - cbn. rewrite S1. cbn. exact S0.
  - cbn. exact A0.
  - cbn. rewrite C1. cbn. now rewrite C0.
  - cbn. exact H1.
Qed.

(** The chat branch when the first attempt is refused by the endpoint. *)
Lemma respond_direct_refused (request : provider.AgentRequest) (w : World G)
      (code : Z) (detail : string) :
  provider.mode request <> "plan" ->
  gemini._extract_repo_access (provider.prompt request) = Ok None ->
  gemini_urlopen env (List.length (gemini_log w)) (provider.prompt request)
  = HttpError code detail ->
  exists w',
    gemini.respond env self request w = (Raise (gemini.api_error code detail), w')
    /\ advanced w w' [provider.prompt request] [].
Proof.
  intros Hmode Hnone Hrefused. unfold gemini.respond.
  destruct (trace_span_run (clock env) "llm.workflow"
              [("provider", VStr gemini.name); ("model", VStr (gemini.model self));
               ("mode", VStr (provider.mode request))] w)
    as (llm_span & w0 & E0 & U0).
  rewrite (bind_ok _ _ _ _ _ E0).
  apply String.eqb_neq in Hmode. rewrite Hmode.
  unfold bind at 1. unfold lift at 1. rewrite Hnone.
  destruct (generate_text_answered env self (provider.prompt request) llm_span w0 0)
    as (w1 & A & _ & Herr); [lia | intros j Hj; lia |].
  assert (Hlen : List.length (gemini_log w0) = List.length (gemini_log w))
    by (destruct U0 as (-> & _); reflexivity).
  rewrite Nat.add_0_r, Hlen in Herr.
  rewrite (bind_raise _ _ _ _ _ (Herr code detail Hrefused)).
  exists w1. split; [reflexivity|].
  exact (advanced_untouched_l _ _ _ _ _ U0 A).
Qed.

End DirectAnswer.

(** X10.  A direct answer (scenario A).  A request outside plan mode whose
    prompt does not hold [https://github.com/] is answered by one generation
    call on the prompt as it is: the prompt and nothing else is posted, at
    least once and at most three times, the repository host is not called,
    and a document read at the first attempt decides the response. *)
Theorem X10_direct_answer :
  forall (G : Type) (env : Env G) (getenv : string -> option string)
         (key mdl : option string) (self : gemini.GeminiProvider)
         (request : provider.AgentRequest) (w : World G),
    gemini.init getenv key mdl = Ok self ->
    provider.mode request <> "plan" ->
    PyStr.contains gemini.URL_PREFIX (provider.prompt request) = false ->
    exists r w' n naps,
      gemini.respond env self request w = (r, w')
      /\ 0 < n <= 3
      /\ advanced w w' (repeat (provider.prompt request) n) naps
      /\ (forall st raw,
            gemini_urlopen env (List.length (gemini_log w)) (provider.prompt request)
            = HttpOk st raw ->
            n = 1
            /\ r = and_then (text_result env raw)
                     (fun text => Ok {| provider.provider := gemini.name;
                                        provider.text := text |})).
Proof.
  intros G env getenv key mdl self request w Hinit Hmode Hurl.
  destruct (init_bounds self getenv key mdl Hinit) as [Hretries _].
  destruct (respond_direct env self request w Hmode
              (extract_repo_access_none _ Hurl))
    as (r & w' & n & naps & E & Hn & A & Hfirst).
  rewrite Hretries in Hn.
  exists r, w', n, naps.
  split; [exact E|]. split; [lia|]. split; [exact A | exact Hfirst].
Qed.

Lemma X10_direct_answer_witness :
  let request := {| provider.prompt := "hello there";
                    provider.mode := "chat";
                    provider.context := [] |} in
  exists w',
    gemini.respond (demo_env greeting_answers) demo_self request demo_world
    = (Ok {| provider.provider := "gemini";
             provider.text := "Hello! How can I help?" |}, w')
    /\ gemini_log w' = ["hello there"]
    /\ host_calls w' = 0.
Proof.
  intros request.
  destruct (X10_direct_answer _ (demo_env greeting_answers)
              (fun _ => None) (Some "key-1") (Some "gemini-2.5-pro") demo_self
              request demo_world eq_refl)
    as (r & w' & n & naps & E & Hn & (Hlog & _ & _ & _ & Hcalls) & Hfirst).
  - discriminate.
  - reflexivity.
  - destruct (Hfirst 200%Z _ eq_refl) as [-> ->].
    exists w'. split; [rewrite E; f_equal|split].
    + exact Hlog.
    + exact Hcalls.
Defined.

(** X11.  Fail fast.  When a request outside plan mode names a repository
    and the write-access check raises (no push access, or the lookup itself
    fails), [respond] raises that very exception after the one call to the
    host: no prompt has been posted to the generation endpoint, nothing has
    slept, and the active span of the client is the one it was. *)
Theorem X11_access_refused_before_any_prompt :
  forall (G : Type) (env : Env G) (self : gemini.GeminiProvider)
         (request : provider.AgentRequest) (access : tools.RepoAccess.t)
         (w : World G) (e : exn),
    provider.mode request <> "plan" ->
    gemini._extract_repo_access (provider.prompt request) = Ok (Some access) ->
    check_outcome (repo_document (github env) access (host w)) = Raise e ->
    exists w',
      gemini.respond env self request w = (Raise e, w')
      /\ gemini_log w' = gemini_log w
      /\ sleeps w' = sleeps w
      /\ active_span w' = active_span w
      /\ host_calls w' = S (host_calls w)
      /\ host w' = snd (tools._request (github env) "GET"
                          (tools.repo_path access) None (host w)).
Proof.
  intros G env self request access w e. apply respond_access_refused.
Qed.

Lemma X11_access_refused_before_any_prompt_witness :
  exists w',
    gemini.respond read_only_env demo_self demo_request demo_world
    = (Raise (RuntimeError tools.NO_PUSH_ACCESS), w')
    /\ gemini_log w' = []
    /\ host w' = ["GET /repos/acme/widgets"].
Proof.
  destruct (X11_access_refused_before_any_prompt _ read_only_env demo_self
              demo_request demo_access demo_world
              (RuntimeError tools.NO_PUSH_ACCESS))
    as (w' & E & Hlog & _ & _ & _ & Hhost).
  - discriminate.
  - reflexivity.
  - reflexivity.
  - exists w'. split; [exact E|]. split; [exact Hlog | exact Hhost].
Defined.

(* ------------------------------------------------------------------ *)
(** ** The dispatch of a tool call *)

Section Dispatch.
Context {G : Type}.
Variable env : Env G.

Lemma set_active_back (span : span_ref) (w : World G) :
  set_active (active_span w) (set_active span w) = w.
Proof. now destruct w. Qed.

Lemma with_trace_raise {A} (span : span_ref) (body : M G A) (w : World G) (e : exn) :
  body (set_active span w) = (Raise e, set_active span w) ->
  with_trace span body w = (Raise e, w).
Proof.
  intros H. unfold with_trace. rewrite H. now rewrite set_active_back.
Qed.

End Dispatch.

(** X12.  Arguments are checked before the host is called.  A [write_file]
    or [create_pull_request] call whose arguments fail validation, and a
    [create_branch] or [read_file] call whose arguments lack the required
    key (or are no mapping), raise at once: the world is exactly what it was,
    so the repository host has not been called and the client's active span
    is restored. *)
Theorem X12_arguments_checked_before_host :
  forall (G : Type) (env : Env G) (access : tools.RepoAccess.t)
         (arguments : value) (span : span_ref) (w : World G) (e : exn),
    (tools.WriteFileInput.model_validate arguments = Raise e ->
     gemini._execute_tool env access (VStr "write_file") arguments span w
     = (Raise e, w))
    /\ (tools.PullRequestInput.model_validate arguments = Raise e ->
        gemini._execute_tool env access (VStr "create_pull_request") arguments span w
        = (Raise e, w))
    /\ (Py.item "new_branch" arguments = Raise e ->
        gemini._execute_tool env access (VStr "create_branch") arguments span w
        = (Raise e, w))
    /\ (Py.item "path" arguments = Raise e ->
        gemini._execute_tool env access (VStr "read_file") arguments span w
        = (Raise e, w)).
Proof.
  intros G env access arguments span w e.
  repeat split; intros H; apply with_trace_raise;
    unfold gemini._execute_tool_inner; cbn [Py.eq_str String.eqb Ascii.eqb Bool.eqb];
    unfold bind at 1; unfold lift at 1; rewrite H; reflexivity.
Qed.

Lemma X12_arguments_checked_before_host_witness :
  gemini._execute_tool (demo_env listing_answers) demo_access (VStr "write_file")
    (VDict [("path", VStr "README.md"); ("content", VStr "hi");
            ("commit_message", VStr "update"); ("force", VBool true)])
    None demo_world
  = (Raise ValidationError, demo_world)
  /\ gemini._execute_tool (demo_env listing_answers) demo_access (VStr "create_branch")
       (VDict [("from_branch", VStr "main")]) None demo_world
     = (Raise (KeyError "new_branch"), demo_world).
Proof.
  split.
  - apply (X12_arguments_checked_before_host _ (demo_env listing_answers) demo_access
             (VDict [("path", VStr "README.md"); ("content", VStr "hi");
                     ("commit_message", VStr "update"); ("force", VBool true)])
             None demo_world ValidationError).
    reflexivity.
  - apply (X12_arguments_checked_before_host _ (demo_env listing_answers) demo_access
             (VDict [("from_branch", VStr "main")])
             None demo_world (KeyError "new_branch")).
    reflexivity.
Defined.

(* ------------------------------------------------------------------ *)
(** ** Operations of the client: running them *)

Section OpRuns.
Context {G : Type}.

Lemma op_bind_ok {A B} (c : backend_op G A) (k : A -> backend_op G B)
      (g g1 : G) (a : A) (evs : list event_spec) :
  c g = ((Ok a, evs), g1) ->
  op_bind c k g
  = (let '((r2, evs2), g2) := k a g1 in ((r2, evs ++ evs2), g2)).
Proof. intros H. unfold op_bind. now rewrite H. Qed.

Lemma op_bind_raise {A B} (c : backend_op G A) (k : A -> backend_op G B)
      (g g1 : G) (e : exn) (evs : list event_spec) :
  c g = ((Raise e, evs), g1) -> op_bind c k g = ((Raise e, evs), g1).
Proof. intros H. unfold op_bind. now rewrite H. Qed.

Lemma op_bind_lift_ok {A B} (a : A) (k : A -> backend_op G B) (g : G) :
  op_bind (op_lift (Ok a)) k g = k a g.
Proof.
  unfold op_bind, op_lift. destruct (k a g) as [[r evs] g']. reflexivity.
Qed.

Lemma op_bind_lift_raise {A B} (e : exn) (k : A -> backend_op G B) (g : G) :
  op_bind (op_lift (Raise e)) k g = ((Raise e, []), g).
Proof. reflexivity. Qed.

Lemma op_bind_ret {A B} (a : A) (k : A -> backend_op G B) (g : G) :
  op_bind (op_ret a) k g = k a g.
Proof. exact (op_bind_lift_ok a k g). Qed.

Lemma stops_lift_raise {A} (e : exn) (g : G) : stops_at (op_lift (A := A) (Raise e)) g.
Proof. split; [reflexivity | now exists e]. Qed.

Lemma stops_bind {A B} (c : backend_op G A) (k : A -> backend_op G B) (g : G) :
  stops_at c g -> stops_at (op_bind c k) g.
Proof.
  intros [Hg [e He]]. unfold stops_at, op_bind.
  destruct (c g) as [[r evs] g1]. cbn [fst snd] in *. subst r g1.
  split; [reflexivity | now exists e].
Qed.

Lemma stops_bind_lift {A B} (r : outcome A) (k : A -> backend_op G B) (g : G) :
  (forall a, r = Ok a -> stops_at (k a) g) -> stops_at (op_bind (op_lift r) k) g.
Proof.
  intros H. destruct r as [a|e].
  - unfold stops_at. rewrite op_bind_lift_ok. now apply H.
  - apply stops_bind, stops_lift_raise.
Qed.

Lemma stops_except {A} (body : backend_op G A)
      (handler : list fragment -> backend_op G A) (g : G) :
  stops_at body g ->
  (forall msg, fst (fst (body g)) = Raise (RuntimeError msg) -> stops_at (handler msg) g) ->
  stops_at (op_except_runtime body handler) g.
Proof.
  intros [Hg [e He]] Hh. unfold stops_at, op_except_runtime.
  destruct (body g) as [[r evs] g1]. cbn [fst snd] in *. subst r g1.
  destruct e as [msg|msg|k| | |]; try (split; [reflexivity | eexists; reflexivity]).
  destruct (Hh msg eq_refl) as [Hg' [e' He']].
  destruct (handler msg g) as [[r2 evs2] g2]. cbn [fst snd] in *. subst.
  split; [reflexivity | now exists e'].
Qed.

End OpRuns.

Section NoToken.
Context {G : Type}.
Variable b64encode : string -> string.
Variable b64decode : string -> string + string.
Variable request : string -> string -> option value -> backend_op G value.
Variable g : G.

(** A [_request] that refuses every request in [g]. *)
Hypothesis refused : forall method path payload,
    request method path payload g
    = ((Raise (RuntimeError GithubTools.MISSING_TOKEN), [AUTH_ERROR]), g).

Lemma request_stops method path payload : stops_at (request method path payload) g.
Proof.
  unfold stops_at. rewrite refused. split; [reflexivity | eexists; reflexivity].
Qed.

Lemma get_default_branch_stops access :
  stops_at (GithubTools.get_default_branch request access) g.
Proof. apply stops_bind, request_stops. Qed.

Lemma quote_value_raises (safe : string) (v : value) (e : exn) :
  parse.quote_value safe v = Raise e -> e = TypeError.
Proof. destruct v; cbn; congruence. Qed.

Lemma missing_token_is_no_404 :
  PyStr.contains GithubTools.NOT_FOUND (PyFmt.render GithubTools.MISSING_TOKEN) = false.
Proof. reflexivity. Qed.

Lemma create_branch_stops access nb fb :
  stops_at (GithubTools.create_branch request access nb fb) g.
Proof.
  unfold GithubTools.create_branch.
  destruct (truthy fb).
  - unfold stops_at. rewrite op_bind_ret. apply stops_bind_lift. intros quoted _.
    apply stops_bind, request_stops.
  - apply stops_bind, get_default_branch_stops.
Qed.

Lemma get_tree_stops access ref :
  stops_at (GithubTools._get_tree_with_fallback request access ref) g.
Proof.
  unfold GithubTools._get_tree_with_fallback.
  apply stops_except.
  - apply stops_bind_lift. intros quoted _. apply request_stops.
  - intros msg Hmsg.
    destruct (parse.quote_value EmptyString ref) as [quoted|e] eqn:Eq.
    + rewrite op_bind_lift_ok, refused in Hmsg. cbn in Hmsg.
      injection Hmsg as <-. rewrite missing_token_is_no_404. cbn [negb].
      split; [reflexivity | eexists; reflexivity].
    + apply quote_value_raises in Eq. subst e. cbn in Hmsg. discriminate.
Qed.

Lemma list_files_stops access branch :
  stops_at (GithubTools.list_files request access branch) g.
Proof. apply stops_bind, get_tree_stops. Qed.

Lemma read_file_stops access path branch :
  stops_at (GithubTools.read_file b64decode request access path branch) g.
Proof.
  unfold GithubTools.read_file.
  apply stops_bind_lift. intros encoded_path _.
  apply stops_bind. apply stops_except.
  - apply stops_bind_lift. intros quoted _. apply request_stops.
  - intros msg Hmsg.
    destruct (parse.quote_value EmptyString _) as [quoted|e] eqn:Eq.
    + rewrite op_bind_lift_ok, refused in Hmsg. cbn in Hmsg.
      injection Hmsg as <-. rewrite missing_token_is_no_404. cbn [negb].
      split; [reflexivity | eexists; reflexivity].
    + apply quote_value_raises in Eq. subst e. cbn in Hmsg. discriminate.
Qed.

Lemma write_file_stops access payload :
  stops_at (GithubTools.write_file b64encode request access payload) g.
Proof.
  unfold GithubTools.write_file.
  apply stops_bind. apply stops_except.
  - apply stops_bind, request_stops.
  - intros msg Hmsg.
    rewrite (op_bind_raise _ _ _ _ _ _ (refused _ _ _)) in Hmsg. cbn in Hmsg.
    injection Hmsg as <-. rewrite missing_token_is_no_404. cbn [negb].
    split; [reflexivity | eexists; reflexivity].
Qed.

Lemma create_pull_request_stops access payload :
  stops_at (GithubTools.create_pull_request request access payload) g.
Proof. apply stops_bind, request_stops. Qed.

End NoToken.

(** X13.  Without a token nothing is sent.  For a client whose token is
    missing or empty, [_request] raises "Missing GITHUB_TOKEN for GitHub
    tools" after reporting one [github.auth.error] event, and every
    operation of the client raises with the host exactly as it was: no
    request reaches [urlopen]. *)
Theorem X13_without_token_nothing_is_sent :
  forall (G : Type) (json_loads : string -> string + value)
         (json_dumps : value -> string)
         (b64encode : string -> string) (b64decode : string -> string + string)
         (self : GithubTools.t G),
    GithubTools.token self = None \/ GithubTools.token self = Some EmptyString ->
    let gh := GithubTools.client json_loads json_dumps b64encode b64decode self in
    forall (access : tools.RepoAccess.t) (g : G),
      (forall method path payload,
          tools._request gh method path payload g
          = ((Raise (RuntimeError GithubTools.MISSING_TOKEN), [AUTH_ERROR]), g))
      /\ (forall new_branch from_branch,
            stops_at (tools.create_branch gh access new_branch from_branch) g)
      /\ (forall branch, stops_at (tools.list_files gh access branch) g)
      /\ (forall path branch, stops_at (tools.read_file gh access path branch) g)
      /\ (forall payload, stops_at (tools.write_file gh access payload) g)
      /\ (forall payload, stops_at (tools.create_pull_request gh access payload) g).
Proof.
  intros G json_loads json_dumps b64encode b64decode self Htoken gh access g.
  assert (Hreq : forall method path payload,
             GithubTools._request json_loads json_dumps self method path payload g
             = ((Raise (RuntimeError GithubTools.MISSING_TOKEN), [AUTH_ERROR]), g)).
  { intros method path payload. unfold GithubTools._request.
    destruct Htoken as [-> | ->]; reflexivity. }
  subst gh. cbn [GithubTools.client tools._request tools.create_branch
                 tools.list_files tools.read_file tools.write_file
                 tools.create_pull_request].
  split; [exact Hreq|].
  split; [intros; now apply create_branch_stops|].
  split; [intros; now apply list_files_stops|].
  split; [intros; now apply read_file_stops|].
  split; [intros; now apply write_file_stops|].
  intros; now apply create_pull_request_stops.
Qed.

Lemma X13_without_token_nothing_is_sent_witness :
  let gh := anonymous_client (fun _ _ => GithubTools.Answered 200 "{}") in
  snd (tools.write_file gh demo_access
         (tools.WriteFileInput.mk "README.md" "hi" "update" None) []) = []
  /\ fst (tools._request gh "GET" "/repos/acme/widgets" None [])
     = (Raise (RuntimeError [Lit "Missing GITHUB_TOKEN for GitHub tools"]),
        [AUTH_ERROR]).
Proof.
  intros gh.
  destruct (X13_without_token_nothing_is_sent (list string)
              DemoJson.loads DemoJson.dumps demo_b64encode demo_b64decode
              (GithubTools.mk None "https://api.github.com"
                 (recording (fun _ _ => GithubTools.Answered 200 "{}")))
              (or_introl eq_refl) demo_access [])
    as (Hreq & _ & _ & _ & Hwrite & _).
  split.
  - exact (proj1 (Hwrite (tools.WriteFileInput.mk "README.md" "hi" "update" None))).
  - unfold gh, anonymous_client. now rewrite Hreq.
Defined.

(* ------------------------------------------------------------------ *)
(** ** The text of a failed request *)

Section FailureText.
Local Open Scope string_scope.

Lemma startswith_app (p s : string) : PyStr.startswith (p ++ s) p = true.
Proof.
  induction p as [|c p IH]; [apply startswith_nil|].
  cbn [append PyStr.startswith]. now rewrite Ascii.eqb_refl, IH.
Qed.

Lemma contains_app_l (p a b : string) : PyStr.contains p (p ++ b) = true.
Proof. apply contains_startswith, startswith_app. Qed.

Lemma contains_app_r (p a b : string) :
  PyStr.contains p b = true -> PyStr.contains p (a ++ b) = true.
Proof.
  intros H. induction a as [|c a IH]; [exact H|].
  cbn [append PyStr.contains]. rewrite IH. apply orb_true_r.
Qed.

Lemma render_http_error (method path : string) (code : Z) (detail : string) :
  exists hint,
    PyFmt.render (GithubTools.http_error_message method path code detail)
    = http_error_prefix method path code detail ++ hint.
Proof.
  unfold GithubTools.http_error_message, http_error_prefix.
  destruct ((code =? 404)%Z && PyStr.startswith path "/repos/") eqn:E404.
  - apply andb_true_iff in E404 as [Ec _]. apply Z.eqb_eq in Ec. subst code.
    eexists. cbn [PyFmt.render].
    change (PyFmt.str (VInt 404)) with "404".
    rewrite !str_app_assoc. cbn [append]. reflexivity.
  - destruct ((code =? 403)%Z && PyStr.startswith path "/repos/"
              && existsb (String.eqb method) GithubTools.WRITE_METHODS) eqn:E403.
    + apply andb_true_iff in E403 as [E403 _].
      apply andb_true_iff in E403 as [Ec _]. apply Z.eqb_eq in Ec. subst code.
      eexists. cbn [PyFmt.render].
      change (PyFmt.str (VInt 403)) with "403".
      rewrite !str_app_assoc. cbn [append]. reflexivity.
    + exists EmptyString. cbn [PyFmt.render].
      rewrite !str_app_assoc, !str_app_nil_r. reflexivity.
Qed.

Lemma http_error_prefix_code (method path : string) (code : Z) (detail hint : string) :
  PyStr.contains ("GitHub API error (" ++ PyFmt.str (VInt code) ++ ")")
    (http_error_prefix method path code detail ++ hint) = true.
Proof.
  unfold http_error_prefix. apply contains_startswith.
  replace (("GitHub API error (" ++ PyFmt.str (VInt code) ++ ") on " ++ method ++ " "
            ++ path ++ ": " ++ detail) ++ hint)
    with (("GitHub API error (" ++ PyFmt.str (VInt code) ++ ")")
          ++ (" on " ++ method ++ " " ++ path ++ ": " ++ detail ++ hint)).
  - apply startswith_app.
  - rewrite !str_app_assoc. cbn [append]. reflexivity.
Qed.

Lemma startswith_app_more (p hint : string) :
  forall s, PyStr.startswith s p = true -> PyStr.startswith (s ++ hint) p = true.
Proof.
  induction p as [|x p IH]; intros s H; [apply startswith_nil|].
  destruct s as [|y s]; [discriminate|].
  cbn [append PyStr.startswith] in H |- *.
  apply andb_true_iff in H as [H1 H2]. rewrite H1. cbn [andb].
  exact (IH s H2).
Qed.

Lemma contains_app_more (p hint : string) :
  forall s, PyStr.contains p s = true -> PyStr.contains p (s ++ hint) = true.
Proof.
  induction s as [|c s IH]; intros H.
  - destruct p; [|discriminate]. apply contains_startswith, startswith_nil.
  - cbn [append PyStr.contains] in H |- *.
    apply orb_true_iff in H as [H|H]; apply orb_true_iff.
    + left. exact (startswith_app_more p hint (String c s) H).
    + right. exact (IH H).
Qed.

Lemma http_error_prefix_detail (p method path : string) (code : Z)
      (detail hint : string) :
  PyStr.contains p detail = true ->
  PyStr.contains p (http_error_prefix method path code detail ++ hint) = true.
Proof.
  intros H. unfold http_error_prefix. rewrite !str_app_assoc.
  do 7 apply contains_app_r. now apply contains_app_more.
Qed.

End FailureText.

(** X14.  The text of a failed request.  When [urlopen] raises an
    [HTTPError], [_request] reports the start and the failure and raises a
    [RuntimeError] whose text begins with "GitHub API error (<code>) on
    <method> <path>: <detail>", whatever hint follows.  So the text of a
    404 holds "GitHub API error (404)", on which the fallbacks of
    [read_file], [write_file] and the tree lookup test; and the text of a
    422 whose body holds "Reference already exists" passes the test of
    [create_branch]. *)
Theorem X14_text_of_http_failures :
  forall (G : Type) (json_loads : string -> string + value)
         (json_dumps : value -> string) (self : GithubTools.t G)
         (method path : string) (payload : option value) (g g' : G)
         (c : ascii) (k : string) (code : Z) (detail : string),
    GithubTools.token self = Some (String c k) ->
    GithubTools.urlopen self method (GithubTools.api_base self ++ path)%string
      (GithubTools.headers (String c k)) (option_map json_dumps payload) g
    = (GithubTools.HTTPError code detail, g') ->
    exists msg hint,
      GithubTools._request json_loads json_dumps self method path payload g
      = ((Raise (RuntimeError msg),
          [ GithubTools.event "github.http.start" "ok"
              [("method", VStr method); ("path", VStr path)];
            GithubTools.event "github.http.error" "error"
              [ ("method", VStr method); ("path", VStr path);
                ("status_code", VInt code); ("detail", VStr detail) ] ]), g')
      /\ PyFmt.render msg
         = (http_error_prefix method path code detail ++ hint)%string
      /\ (code = 404%Z ->
          PyStr.contains GithubTools.NOT_FOUND (PyFmt.render msg) = true)
      /\ (code = 422%Z ->
          PyStr.contains "Reference already exists" detail = true ->
          GithubTools.already_exists (PyFmt.render msg) = true).
Proof.
  intros G json_loads json_dumps self method path payload g g' c k code detail
         Htoken Hreply.
  destruct (render_http_error method path code detail) as [hint Hrender].
  exists (GithubTools.http_error_message method path code detail), hint.
  split; [|split; [exact Hrender|split]].
  - unfold GithubTools._request. rewrite Htoken, Hreply. reflexivity.
  - intros ->. rewrite Hrender.
    exact (http_error_prefix_code method path 404 detail hint).
  - intros -> Hdetail. rewrite Hrender. unfold GithubTools.already_exists.
    rewrite (http_error_prefix_detail _ method path 422 detail hint Hdetail).
    rewrite andb_true_r.
    exact (http_error_prefix_code method path 422 detail hint).
Qed.

Lemma X14_text_of_http_failures_witness :
  let gh := demo_client (fun _ _ => GithubTools.HTTPError 404 "Not Found") in
  exists msg,
    fst (fst (tools._request gh "GET" "/repos/acme/widgets" None []))
    = Raise (RuntimeError msg)
    /\ PyStr.contains GithubTools.NOT_FOUND (PyFmt.render msg) = true.
Proof.
  intros gh.
  destruct (X14_text_of_http_failures (list string) DemoJson.loads DemoJson.dumps
              (GithubTools.mk (Some "ghp_1") "https://api.github.com"
                 (recording (fun _ _ => GithubTools.HTTPError 404 "Not Found")))
              "GET" "/repos/acme/widgets" None [] _ "g"%char "hp_1" 404%Z "Not Found"
              eq_refl eq_refl)
    as (msg & hint & E & _ & H404 & _).
  exists msg. split; [|exact (H404 eq_refl)].
  unfold gh, demo_client. cbn [GithubTools.client tools._request].
  now rewrite E.
Defined.

(* ------------------------------------------------------------------ *)
(** ** The operations, request by request *)

Section Requests.
Context {G : Type}.
Variable b64encode : string -> string.
Variable b64decode : string -> string + string.
Variable request : string -> string -> option value -> backend_op G value.

Lemma create_branch_run (access : tools.RepoAccess.t) (new_branch from_branch : value)
      (source : string) (source_ref object sha : value)
      (g g0 g1 g2 : G) (evs0 evs1 evs2 : list event_spec) (r : outcome value) :
  source_branch request access from_branch g = ((Ok (VStr source), evs0), g0) ->
  request "GET" (GithubTools.ref_path access (parse.quote EmptyString source)) None g0
  = ((Ok source_ref, evs1), g1) ->
  Py.item "object" source_ref = Ok object ->
  Py.item "sha" object = Ok sha ->
  request "POST" (GithubTools.refs_path access) (Some (new_ref new_branch sha)) g1
  = ((r, evs2), g2) ->
  GithubTools.create_branch request access new_branch from_branch g
  = ((match r with
      | Ok _ => Ok new_branch
      | Raise (RuntimeError msg) =>
          if GithubTools.already_exists (PyFmt.render msg) then Ok new_branch
          else Raise (RuntimeError msg)
      | Raise e => Raise e
      end, evs0 ++ evs1 ++ evs2), g2).
Proof.
  intros Hsource Hget Hobject Hsha Hpost.
  unfold GithubTools.create_branch. fold (source_branch request access from_branch).
  rewrite (op_bind_ok _ _ _ _ _ _ Hsource).
  cbn [parse.quote_value]. rewrite op_bind_lift_ok.
  rewrite (op_bind_ok _ _ _ _ _ _ Hget).
  rewrite Hobject, op_bind_lift_ok, Hsha, op_bind_lift_ok.
  fold (new_ref new_branch sha).
  unfold op_bind at 1. unfold op_except_runtime. unfold op_bind at 1.
  rewrite Hpost.
  destruct r as [v|[msg|msg|k| | |]]; cbn; rewrite ?app_nil_r; try reflexivity.
  destruct (GithubTools.already_exists (PyFmt.render msg)); cbn;
    rewrite ?app_nil_r; reflexivity.
Qed.

Lemma write_file_run (access : tools.RepoAccess.t) (payload : tools.WriteFileInput.t)
      (g g1 : G) (evs1 : list event_spec) (r1 : outcome value) :
  let encoded_path := parse.quote "/" (tools.WriteFileInput.path payload) in
  let body := write_body b64encode access payload in
  request "GET"
    (GithubTools.contents_at access encoded_path
       (parse.quote EmptyString (target_branch access payload))) None g
  = ((r1, evs1), g1) ->
  let put (body' : dict) :=
    request "PUT" (GithubTools.contents_path access encoded_path)
      (Some (VDict body')) g1 in
  let after (body' : dict) :=
    ((and_then (fst (fst (put body'))) commit_sha, evs1 ++ snd (fst (put body'))),
     snd (put body')) in
  GithubTools.write_file b64encode request access payload g
  = match r1 with
    | Ok existing =>
        match Py.get "sha" VNone existing with
        | Ok sha => if truthy sha then after (body ++ [("sha", sha)]) else after body
        | Raise e => ((Raise e, evs1), g1)
        end
    | Raise (RuntimeError msg) =>
        if PyStr.contains GithubTools.NOT_FOUND (PyFmt.render msg) then after body
        else ((Raise (RuntimeError msg), evs1), g1)
    | Raise e => ((Raise e, evs1), g1)
    end.
Proof.
  intros encoded_path body Hget put after.
  unfold GithubTools.write_file.
  fold (target_branch access payload). fold encoded_path.
  fold (write_body b64encode access payload). fold body.
  assert (Hafter : forall body' evs,
             (let '((r2, evs2), g2) :=
                op_bind (request "PUT" (GithubTools.contents_path access encoded_path)
                           (Some (VDict body')))
                  (fun response =>
                     op_bind (op_lift (Py.get "commit" (VDict []) response))
                       (fun commit => op_lift (Py.get "sha" (VStr EmptyString) commit)))
                  g1 in
              ((r2, (evs1 ++ evs) ++ evs2), g2))
             = ((and_then (fst (fst (put body'))) commit_sha,
                 (evs1 ++ evs) ++ snd (fst (put body'))), snd (put body'))).
  { intros body' evs. subst put. cbn beta. unfold op_bind at 1.
    destruct (request "PUT" _ _ g1) as [[r2 evs2] g2]. cbn [fst snd].
    destruct r2 as [response|e]; [|reflexivity].
    unfold commit_sha. cbn [and_then].
    destruct (Py.get "commit" (VDict []) response) as [commit|e].
    - rewrite op_bind_lift_ok. cbn [and_then op_lift]. now rewrite app_nil_r.
    - cbn. now rewrite app_nil_r. }
  unfold op_bind at 1. unfold op_except_runtime. unfold op_bind at 1.
  rewrite Hget.
  destruct r1 as [existing|e].
  - destruct (Py.get "sha" VNone existing) as [sha|e] eqn:Esha.
    + rewrite op_bind_lift_ok.
      destruct (truthy sha) eqn:Et.
      * assert (Eitem : Py.item "sha" existing = Ok sha).
        { destruct existing as [| | | | | |d]; try discriminate Esha.
          cbn in Esha |- *. unfold dict_get_default in Esha.
          destruct (dict_get "sha" d) as [x|]; [congruence|].
          injection Esha as <-. discriminate Et. }
        rewrite Eitem, op_bind_lift_ok. cbn [op_ret].
        change (dict_set "sha" sha body) with (body ++ [("sha", sha)]).
        rewrite (Hafter _ []). unfold after. now rewrite app_nil_r.
      * cbn [op_ret]. rewrite (Hafter _ []). unfold after. now rewrite app_nil_r.
    + assert (e = AttributeError) as ->.
      { destruct existing; cbn in Esha; congruence. }
      rewrite op_bind_lift_raise. now rewrite app_nil_r.
  - destruct e as [msg|msg|k| | |]; try reflexivity.
    destruct (PyStr.contains GithubTools.NOT_FOUND (PyFmt.render msg)); cbn [negb].
    + cbn [op_ret]. rewrite (Hafter _ []). unfold after. now rewrite app_nil_r.
    + cbn. now rewrite app_nil_r.
Qed.

Lemma read_file_run (access : tools.RepoAccess.t) (path ref : string) (branch : value)
      (g g1 : G) (evs1 : list event_spec) (r1 : outcome value) :
  (if truthy branch then branch else VStr (tools.RepoAccess.branch access)) = VStr ref ->
  let encoded_path := parse.quote "/" path in
  request "GET" (GithubTools.contents_at access encoded_path
                   (parse.quote EmptyString ref)) None g
  = ((r1, evs1), g1) ->
  GithubTools.read_file b64decode request access (VStr path) branch g
  = match r1 with
    | Ok data => ((file_text b64decode data, evs1), g1)
    | Raise (RuntimeError msg) =>
        if PyStr.contains GithubTools.NOT_FOUND (PyFmt.render msg) then
          let '((fallback, evs2), g2) :=
            GithubTools.get_default_branch request access g1 in
          match fallback with
          | Ok (VStr fb) =>
              let '((r3, evs3), g3) :=
                request "GET" (GithubTools.contents_at access encoded_path
                                 (parse.quote EmptyString fb)) None g2 in
              ((and_then r3 (file_text b64decode), evs1 ++ evs2 ++ evs3), g3)
          | Ok _ => ((Raise TypeError, evs1 ++ evs2), g2)
          | Raise e => ((Raise e, evs1 ++ evs2), g2)
          end
        else ((Raise (RuntimeError msg), evs1), g1)
    | Raise e => ((Raise e, evs1), g1)
    end.
Proof.
  intros Href encoded_path Hget.
  unfold GithubTools.read_file. rewrite Href.
  cbn [parse.quote_value]. rewrite op_bind_lift_ok. fold encoded_path.
  assert (Htail : forall data evs (g' : G),
             (let '((r2, evs2), g2) :=
                op_bind (op_lift (GithubTools.content_of data))
                  (fun content =>
                     match content with
                     | EmptyString => op_ret EmptyString
                     | String _ _ =>
                         op_lift match b64decode content with
                                 | inl msg => Raise (ValueError msg)
                                 | inr text => Ok text
                                 end
                     end) g' in
              ((r2, evs ++ evs2), g2))
             = ((file_text b64decode data, evs), g')).
  { intros data evs g'. unfold file_text.
    destruct (GithubTools.content_of data) as [content|e].
    - rewrite op_bind_lift_ok. cbn [and_then].
      destruct content; cbn; now rewrite app_nil_r.
    - cbn. now rewrite app_nil_r. }
  unfold op_bind at 1. unfold op_except_runtime.
  rewrite op_bind_lift_ok, Hget.
  destruct r1 as [data|e].
  - apply Htail.
  - destruct e as [msg|msg|k| | |]; try reflexivity.
    destruct (PyStr.contains GithubTools.NOT_FOUND (PyFmt.render msg)); cbn [negb].
    + unfold op_bind at 1.
      destruct (GithubTools.get_default_branch request access g1)
        as [[fallback evs2] g2].
      destruct fallback as [fb|e].
      * destruct fb as [| | | |fb| |]; try (cbn; now rewrite ?app_nil_r).
        cbn [parse.quote_value]. rewrite op_bind_lift_ok.
        destruct (request "GET" _ None g2) as [[r3 evs3] g3].
        destruct r3 as [data|e].
        -- cbn [and_then]. rewrite <- (Htail data (evs1 ++ evs2 ++ evs3) g3).
           destruct (op_bind _ _ g3) as [[r4 evs4] g4]. reflexivity.
        -- reflexivity.
      * reflexivity.
    + cbn. now rewrite app_nil_r.
Qed.

Lemma get_tree_run (access : tools.RepoAccess.t) (ref : string)
      (g g1 : G) (evs1 : list event_spec) (r1 : outcome value) :
  request "GET" (GithubTools.tree_path access (parse.quote EmptyString ref)) None g
  = ((r1, evs1), g1) ->
  GithubTools._get_tree_with_fallback request access (VStr ref) g
  = match r1 with
    | Raise (RuntimeError msg) =>
        if PyStr.contains GithubTools.NOT_FOUND (PyFmt.render msg) then
          let '((fallback, evs2), g2) :=
            GithubTools.get_default_branch request access g1 in
          match fallback with
          | Ok (VStr fb) =>
              if String.eqb fb ref then ((Raise (RuntimeError msg), evs1 ++ evs2), g2)
              else
                let '((r3, evs3), g3) :=
                  request "GET" (GithubTools.tree_path access
                                   (parse.quote EmptyString fb)) None g2 in
                ((r3, evs1 ++ evs2 ++ evs3), g3)
          | Ok _ => ((Raise TypeError, evs1 ++ evs2), g2)
          | Raise e => ((Raise e, evs1 ++ evs2), g2)
          end
        else ((Raise (RuntimeError msg), evs1), g1)
    | _ => ((r1, evs1), g1)
    end.
Proof.
  intros Hget. unfold GithubTools._get_tree_with_fallback, op_except_runtime.
  cbn [parse.quote_value]. rewrite op_bind_lift_ok, Hget.
  destruct r1 as [tree|e]; [reflexivity|].
  destruct e as [msg|msg|k| | |]; try reflexivity.
  destruct (PyStr.contains GithubTools.NOT_FOUND (PyFmt.render msg)); cbn [negb].
  - unfold op_bind at 1.
    destruct (GithubTools.get_default_branch request access g1)
      as [[fallback evs2] g2].
    destruct fallback as [fb|e]; [|reflexivity].
    destruct fb as [| | | |fb| |]; try (cbn; now rewrite ?app_nil_r).
    destruct (String.eqb fb ref).
    + cbn. now rewrite ?app_nil_r.
    + cbn [parse.quote_value]. rewrite op_bind_lift_ok.
      destruct (request "GET" _ None g2) as [[r3 evs3] g3]. reflexivity.
  - cbn. now rewrite app_nil_r.
Qed.

Lemma blob_paths_dicts (entries : list dict) :
  GithubTools.blob_paths (map VDict entries) = Ok (paths_of entries).
Proof.
  unfold paths_of.
  induction entries as [|entry entries IH]; [reflexivity|].
  cbn [map GithubTools.blob_paths Py.get and_then filter].
  unfold is_blob at 1.
  destruct (Py.eq_str (dict_get_default "type" VNone entry) "blob"); cbn [andb and_then].
  - destruct (truthy (dict_get_default "path" VNone entry)) eqn:Et.
    + assert (Eitem : Py.item "path" (VDict entry)
                      = Ok (dict_get_default "path" VNone entry)).
      { cbn. unfold dict_get_default in Et |- *.
        destruct (dict_get "path" entry); [reflexivity | discriminate Et]. }
      rewrite Eitem. cbn [and_then]. rewrite IH. reflexivity.
    + cbn [and_then]. rewrite IH. reflexivity.
  - cbn [truthy and_then]. rewrite IH. reflexivity.
Qed.

Lemma list_files_run (access : tools.RepoAccess.t) (branch : value)
      (g g1 : G) (evs : list event_spec) (tree : dict) (entries : list dict) :
  GithubTools._get_tree_with_fallback request access
    (if truthy branch then branch else VStr (tools.RepoAccess.branch access)) g
  = ((Ok (VDict tree), evs), g1) ->
  dict_get "tree" tree = Some (VList (map VDict entries)) ->
  GithubTools.list_files request access branch g
  = ((Ok (paths_of entries), evs), g1).
Proof.
  intros Htree Hentries. unfold GithubTools.list_files.
  rewrite (op_bind_ok _ _ _ _ _ _ Htree).
  cbn [Py.get and_then]. unfold dict_get_default. rewrite Hentries.
  cbn [Py.iter]. rewrite op_bind_lift_ok. unfold op_lift.
  rewrite blob_paths_dicts. now rewrite app_nil_r.
Qed.

End Requests.

(** X15.  Creating a branch that exists.  Once the source branch is found
    and its head is read, [create_branch] posts the new reference.  If the
    post succeeds, or raises a [RuntimeError] whose text holds both
    "GitHub API error (422)" and "Reference already exists", the name of
    the new branch is returned; any other exception of the post is passed
    on.  The events are those of the requests, in order. *)
Theorem X15_create_branch_tolerates_existing_branch :
  forall (G : Type)
         (request : string -> string -> option value -> backend_op G value)
         (access : tools.RepoAccess.t) (new_branch from_branch : value)
         (source : string) (source_ref object sha : value)
         (g g0 g1 g2 : G) (evs0 evs1 evs2 : list event_spec) (r : outcome value),
    source_branch request access from_branch g = ((Ok (VStr source), evs0), g0) ->
    request "GET" (GithubTools.ref_path access (parse.quote EmptyString source)) None g0
    = ((Ok source_ref, evs1), g1) ->
    Py.item "object" source_ref = Ok object ->
    Py.item "sha" object = Ok sha ->
    request "POST" (GithubTools.refs_path access) (Some (new_ref new_branch sha)) g1
    = ((r, evs2), g2) ->
    GithubTools.create_branch request access new_branch from_branch g
    = ((match r with
        | Ok _ => Ok new_branch
        | Raise (RuntimeError msg) =>
            if GithubTools.already_exists (PyFmt.render msg) then Ok new_branch
            else Raise (RuntimeError msg)
        | Raise e => Raise e
        end, evs0 ++ evs1 ++ evs2), g2).
Proof. intros G request. apply create_branch_run. Qed.

Lemma X15_create_branch_tolerates_existing_branch_witness :
  let run := tools.create_branch (demo_client branch_exists_answer) demo_access
               (VStr "feature/x") (VStr "main") [] in
  fst (fst run) = Ok (VStr "feature/x")
  /\ snd run = [ "GET https://api.github.com/repos/acme/widgets/git/ref/heads/main";
                 dq "POST https://api.github.com/repos/acme/widgets/git/refs {'ref': 'refs/heads/feature/x', 'sha': 'abc'}" ].
Proof.
  intros run. subst run. unfold demo_client.
  cbn [GithubTools.client tools.create_branch].
  set (request := GithubTools._request _ _ _).
  destruct (request "GET"
              (GithubTools.ref_path demo_access (parse.quote EmptyString "main"))
              None []) as [[r1 evs1] g1] eqn:E1.
  pose proof E1 as E1'. vm_compute in E1'. injection E1' as <- <- <-.
  destruct (request "POST" (GithubTools.refs_path demo_access)
              (Some (new_ref (VStr "feature/x") (VStr "abc")))
              ["GET https://api.github.com/repos/acme/widgets/git/ref/heads/main"])
    as [[r2 evs2] g2] eqn:E2.
  pose proof E2 as E2'. vm_compute in E2'. injection E2' as <- <- <-.
  rewrite (X15_create_branch_tolerates_existing_branch (list string) request
             demo_access (VStr "feature/x") (VStr "main") "main" _ _ _
             [] [] _ _ [] _ _ _ eq_refl E1 eq_refl eq_refl E2).
  split; vm_compute; reflexivity.
Defined.

(** X16.  Writing a file updates or creates.  [write_file] first asks for
    the file on the target branch.  If the answer is a mapping with a [sha]
    that tests true, the [PUT] that follows carries message, content,
    branch and that [sha]; if the mapping has no such [sha], or the lookup
    raised a [RuntimeError] whose text holds "GitHub API error (404)", the
    [PUT] carries message, content and branch only; the result is the
    commit [sha] of the answer to the [PUT].  If the lookup raised a
    [RuntimeError] without that text, it is raised again and no [PUT] is
    made. *)
Theorem X16_write_file_updates_or_creates :
  forall (G : Type) (b64encode : string -> string)
         (request : string -> string -> option value -> backend_op G value)
         (access : tools.RepoAccess.t) (payload : tools.WriteFileInput.t) (g : G),
    let encoded_path := parse.quote "/" (tools.WriteFileInput.path payload) in
    let body := write_body b64encode access payload in
    let lookup :=
      request "GET"
        (GithubTools.contents_at access encoded_path
           (parse.quote EmptyString (target_branch access payload))) None g in
    let put (body' : dict) :=
      request "PUT" (GithubTools.contents_path access encoded_path)
        (Some (VDict body')) (snd lookup) in
    let written (body' : dict) :=
      ((and_then (fst (fst (put body'))) commit_sha,
        snd (fst lookup) ++ snd (fst (put body'))), snd (put body')) in
    let run := GithubTools.write_file b64encode request access payload g in
    (forall existing sha,
        fst (fst lookup) = Ok (VDict existing) ->
        dict_get "sha" existing = Some sha -> truthy sha = true ->
        run = written (body ++ [("sha", sha)]))
    /\ (forall existing,
          fst (fst lookup) = Ok (VDict existing) ->
          truthy (dict_get_default "sha" VNone existing) = false ->
          run = written body)
    /\ (forall msg,
          fst (fst lookup) = Raise (RuntimeError msg) ->
          PyStr.contains GithubTools.NOT_FOUND (PyFmt.render msg) = true ->
          run = written body)
    /\ (forall msg,
          fst (fst lookup) = Raise (RuntimeError msg) ->
          PyStr.contains GithubTools.NOT_FOUND (PyFmt.render msg) = false ->
          run = ((Raise (RuntimeError msg), snd (fst lookup)), snd lookup)).
Proof.
  intros G b64encode request access payload g encoded_path body lookup put written run.
  destruct lookup as [[r1 evs1] g1] eqn:E1. cbn [fst snd] in *.
  pose proof (write_file_run b64encode request access payload g g1 evs1 r1 E1) as H.
  cbv zeta in H. fold encoded_path body in H. fold run in H.
  repeat split.
  - intros existing sha -> Hsha Ht. rewrite H. cbn [Py.get].
    unfold dict_get_default. rewrite Hsha, Ht. reflexivity.
  - intros existing -> Ht. rewrite H. cbn [Py.get]. rewrite Ht. reflexivity.
  - intros msg -> Hc. rewrite H, Hc. reflexivity.
  - intros msg -> Hc. rewrite H, Hc. reflexivity.
Qed.

Lemma X16_write_file_updates_or_creates_witness :
  let updated := tools.write_file (demo_client file_exists_answer) demo_access
                   demo_write [] in
  let created := tools.write_file (demo_client file_missing_answer) demo_access
                   demo_write [] in
  (fst (fst updated) = Ok (VStr "c0ffee")
   /\ snd updated
      = [ "GET https://api.github.com/repos/acme/widgets/contents/docs/read%20me.md?ref=main";
          dq "PUT https://api.github.com/repos/acme/widgets/contents/docs/read%20me.md {'message': 'update docs', 'content': 'aGk=', 'branch': 'main', 'sha': 'abc'}" ])
  /\ (fst (fst created) = Ok (VStr "c0ffee")
      /\ snd created
         = [ "GET https://api.github.com/repos/acme/widgets/contents/docs/read%20me.md?ref=main";
             dq "PUT https://api.github.com/repos/acme/widgets/contents/docs/read%20me.md {'message': 'update docs', 'content': 'aGk=', 'branch': 'main'}" ]).
Proof.
  intros updated created. split.
  - pose proof (X16_write_file_updates_or_creates (list string) demo_b64encode
                  (tools._request (demo_client file_exists_answer))
                  demo_access demo_write []) as H.
    cbv zeta in H. destruct H as (H & _).
    specialize (H [("sha", VStr "abc"); ("content", VStr "aGk=")] (VStr "abc")).
    unfold updated, demo_client.
    cbn [GithubTools.client tools.write_file].
    unfold demo_client in H. cbn [GithubTools.client tools._request] in H.
    rewrite H.
    + split; vm_compute; reflexivity.
    + vm_compute. reflexivity.
    + reflexivity.
    + reflexivity.
  - pose proof (X16_write_file_updates_or_creates (list string) demo_b64encode
                  (tools._request (demo_client file_missing_answer))
                  demo_access demo_write []) as H.
    cbv zeta in H. destruct H as (_ & _ & H & _).
    unfold created, demo_client.
    cbn [GithubTools.client tools.write_file].
    unfold demo_client in H. cbn [GithubTools.client tools._request] in H.
    erewrite H.
    + split; vm_compute; reflexivity.
    + vm_compute. reflexivity.
    + vm_compute. reflexivity.
Defined.

(** X17.  Reading a file falls back to the default branch.  [read_file]
    asks for the file at the given branch (or the branch of the access).  An
    answer is decoded and returned.  A [RuntimeError] whose text does not
    hold "GitHub API error (404)" is raised again, with no further request.
    One whose text holds it makes [read_file] look up the default branch
    and ask once more for the same path there; what that second request
    gives is the result. *)
Theorem X17_read_file_falls_back_to_default_branch :
  forall (G : Type) (b64decode : string -> string + string)
         (request : string -> string -> option value -> backend_op G value)
         (access : tools.RepoAccess.t) (path ref : string) (branch : value) (g : G),
    (if truthy branch then branch else VStr (tools.RepoAccess.branch access))
    = VStr ref ->
    let encoded_path := parse.quote "/" path in
    let first :=
      request "GET" (GithubTools.contents_at access encoded_path
                       (parse.quote EmptyString ref)) None g in
    let run := GithubTools.read_file b64decode request access (VStr path) branch g in
    (forall data,
        fst (fst first) = Ok data ->
        run = ((file_text b64decode data, snd (fst first)), snd first))
    /\ (forall msg,
          fst (fst first) = Raise (RuntimeError msg) ->
          PyStr.contains GithubTools.NOT_FOUND (PyFmt.render msg) = false ->
          run = ((Raise (RuntimeError msg), snd (fst first)), snd first))
    /\ (forall msg fallback evs2 g2,
          fst (fst first) = Raise (RuntimeError msg) ->
          PyStr.contains GithubTools.NOT_FOUND (PyFmt.render msg) = true ->
          GithubTools.get_default_branch request access (snd first)
          = ((Ok (VStr fallback), evs2), g2) ->
          let second :=
            request "GET" (GithubTools.contents_at access encoded_path
                             (parse.quote EmptyString fallback)) None g2 in
          run = ((and_then (fst (fst second)) (file_text b64decode),
                  snd (fst first) ++ evs2 ++ snd (fst second)), snd second)).
Proof.
  intros G b64decode request access path ref branch g Href encoded_path first run.
  destruct first as [[r1 evs1] g1] eqn:E1. cbn [fst snd].
  pose proof (read_file_run b64decode request access path ref branch g g1 evs1 r1
                Href E1) as H.
  cbv zeta in H. fold encoded_path in H. fold run in H.
  repeat split.
  - intros data ->. exact H.
  - intros msg -> Hc. now rewrite Hc in H.
  - intros msg fallback evs2 g2 -> Hc Hfb. rewrite Hc, Hfb in H.
    destruct (request "GET" _ None g2) as [[r3 evs3] g3]. exact H.
Qed.

Lemma X17_read_file_falls_back_to_default_branch_witness :
  let run := tools.read_file (demo_client only_on_trunk_answer) demo_access
               (VStr "README.md") VNone [] in
  fst (fst run) = Ok "hi"
  /\ snd run
     = [ "GET https://api.github.com/repos/acme/widgets/contents/README.md?ref=main";
         "GET https://api.github.com/repos/acme/widgets";
         "GET https://api.github.com/repos/acme/widgets/contents/README.md?ref=trunk" ].
Proof.
  intros run.
  pose proof (X17_read_file_falls_back_to_default_branch (list string) demo_b64decode
                (tools._request (demo_client only_on_trunk_answer))
                demo_access "README.md" "main" VNone [] eq_refl) as H.
  cbv zeta in H. destruct H as (_ & _ & H).
  destruct (tools._request (demo_client only_on_trunk_answer) "GET"
              (GithubTools.contents_at demo_access (parse.quote "/" "README.md")
                 (parse.quote EmptyString "main"))
              None []) as [[r1 evs1] g1] eqn:E1.
  pose proof E1 as E1'. vm_compute in E1'. injection E1' as <- <- <-.
  cbn [fst snd] in H.
  destruct (GithubTools.get_default_branch
              (tools._request (demo_client only_on_trunk_answer)) demo_access
              ["GET https://api.github.com/repos/acme/widgets/contents/README.md?ref=main"])
    as [[r2 evs2] g2] eqn:E2.
  pose proof E2 as E2'. vm_compute in E2'. injection E2' as <- <- <-.
  specialize (H _ "trunk" _ _ eq_refl eq_refl E2).
  unfold run, demo_client. cbn [GithubTools.client tools.read_file].
  unfold demo_client in H. cbn [GithubTools.client tools._request] in H.
  rewrite H. split; vm_compute; reflexivity.
Defined.

(** X18.  The tree lookup retries on another branch only.  When the tree
    of [ref] cannot be found (a [RuntimeError] whose text holds "GitHub API
    error (404)"), [_get_tree_with_fallback] looks up the default branch.
    If that is [ref] itself, the first error is raised again and no third
    request is made; if it is another branch, its tree is asked for and
    that answer is the result.  Answers and other exceptions of the first
    request are passed on as they are. *)
Theorem X18_tree_lookup_retries_on_another_branch_only :
  forall (G : Type)
         (request : string -> string -> option value -> backend_op G value)
         (access : tools.RepoAccess.t) (ref : string) (g : G),
    let first :=
      request "GET" (GithubTools.tree_path access (parse.quote EmptyString ref))
        None g in
    let run := GithubTools._get_tree_with_fallback request access (VStr ref) g in
    (forall msg,
        fst (fst first) = Raise (RuntimeError msg) ->
        PyStr.contains GithubTools.NOT_FOUND (PyFmt.render msg) = true ->
        forall fallback evs2 g2,
          GithubTools.get_default_branch request access (snd first)
          = ((Ok (VStr fallback), evs2), g2) ->
          (fallback = ref ->
           run = ((Raise (RuntimeError msg), snd (fst first) ++ evs2), g2))
          /\ (fallback <> ref ->
              let second :=
                request "GET" (GithubTools.tree_path access
                                 (parse.quote EmptyString fallback)) None g2 in
              run = ((fst (fst second), snd (fst first) ++ evs2 ++ snd (fst second)),
                     snd second)))
    /\ ((forall msg, fst (fst first) = Raise (RuntimeError msg) ->
                     PyStr.contains GithubTools.NOT_FOUND (PyFmt.render msg) = false) ->
        run = first).
Proof.
  intros G request access ref g first run.
  destruct first as [[r1 evs1] g1] eqn:E1. cbn [fst snd].
  pose proof (get_tree_run request access ref g g1 evs1 r1 E1) as H.
  fold run in H. split.
  - intros msg -> Hc fallback evs2 g2 Hfb. rewrite Hc, Hfb in H. split.
    + intros ->. now rewrite String.eqb_refl in H.
    + intros Hne. apply String.eqb_neq in Hne. rewrite Hne in H. cbv zeta.
      destruct (request "GET" _ None g2) as [[r3 evs3] g3]. exact H.
  - intros Hno. rewrite H. destruct r1 as [tree|e]; [reflexivity|].
    destruct e as [msg|msg|k| | |]; try reflexivity.
    now rewrite (Hno msg eq_refl).
Qed.

Lemma X18_tree_lookup_retries_on_another_branch_only_witness :
  let run := GithubTools._get_tree_with_fallback
               (tools._request (demo_client no_tree_answer)) demo_access
               (VStr "main") [] in
  (exists msg, fst (fst run) = Raise (RuntimeError msg)
               /\ PyStr.contains GithubTools.NOT_FOUND (PyFmt.render msg) = true)
  /\ snd run
     = [ "GET https://api.github.com/repos/acme/widgets/git/trees/main?recursive=1";
         "GET https://api.github.com/repos/acme/widgets" ].
Proof.
  intros run.
  pose proof (X18_tree_lookup_retries_on_another_branch_only (list string)
                (tools._request (demo_client no_tree_answer)) demo_access "main" [])
    as H.
  cbv zeta in H. destruct H as (H & _).
  destruct (tools._request (demo_client no_tree_answer) "GET"
              (GithubTools.tree_path demo_access (parse.quote EmptyString "main"))
              None []) as [[r1 evs1] g1] eqn:E1.
  pose proof E1 as E1'. vm_compute in E1'. injection E1' as <- <- <-.
  cbn [fst snd] in H.
  destruct (GithubTools.get_default_branch (tools._request (demo_client no_tree_answer))
              demo_access
              ["GET https://api.github.com/repos/acme/widgets/git/trees/main?recursive=1"])
    as [[r2 evs2] g2] eqn:E2.
  pose proof E2 as E2'. vm_compute in E2'. injection E2' as <- <- <-.
  destruct (H _ eq_refl eq_refl "main" _ _ E2) as [Hsame _].
  unfold run. rewrite (Hsame eq_refl). split.
  - eexists. split; [reflexivity|]. vm_compute. reflexivity.
  - reflexivity.
Defined.

(** X19.  What the model sees of the file list.  [list_files] returns the
    paths of the entries of the tree that are blobs with a path, in the
    order of the tree; the [list_files] tool hands the model the first 500
    of them and the number of all of them, after one call into the
    client. *)
Theorem X19_list_files_tool_shows_the_first_500 :
  forall (G : Type) (env : Env G)
         (request : string -> string -> option value -> backend_op G value)
         (access : tools.RepoAccess.t) (arguments branch : value) (w : World G)
         (g1 : G) (evs : list event_spec) (tree : dict) (entries : list dict),
    tools.list_files (github env) = GithubTools.list_files request ->
    Py.get "branch" VNone arguments = Ok branch ->
    GithubTools._get_tree_with_fallback request access
      (if truthy branch then branch else VStr (tools.RepoAccess.branch access))
      (host w)
    = ((Ok (VDict tree), evs), g1) ->
    dict_get "tree" tree = Some (VList (map VDict entries)) ->
    exists w',
      gemini._execute_tool_inner env access (VStr "list_files") arguments w
      = (Ok (VDict [ ("files", VList (firstn 500 (paths_of entries)));
                     ("total_files",
                      VInt (Z.of_nat (List.length (paths_of entries)))) ]), w')
      /\ List.length (firstn 500 (paths_of entries)) <= 500
      /\ host w' = g1
      /\ host_calls w' = S (host_calls w)
      /\ gemini_log w' = gemini_log w.
Proof.
  intros G env request access arguments branch w g1 evs tree entries
         Hclient Hbranch Htree Hentries.
  unfold gemini._execute_tool_inner.
  cbn [Py.eq_str String.eqb Ascii.eqb Bool.eqb].
  unfold bind at 1. unfold lift at 1. rewrite Hbranch.
  destruct (call_run (clock env) (tools.list_files (github env) access branch) w)
    as (w' & E & L & _ & H & _ & C).
  rewrite Hclient in E, H.
  rewrite (list_files_run request access branch (host w) g1 evs tree entries
             Htree Hentries) in E, H.
  cbn [fst snd] in E, H.
  exists w'. split; [|split; [|split; [exact H|split; [exact C|exact L]]]].
  - rewrite <- Hclient in E. unfold bind. rewrite E. reflexivity.
  - rewrite length_firstn. lia.
Qed.

Lemma X19_list_files_tool_shows_the_first_500_witness :
  fst (gemini._execute_tool_inner (client_env tree_answer listing_answers)
         demo_access (VStr "list_files") (VDict []) demo_world)
  = Ok (VDict [ ("files", VList [VStr "README.md"; VStr "src/app.py"]);
                ("total_files", VInt 2) ]).
Proof.
  destruct (tools._request (demo_client tree_answer) "GET"
              (GithubTools.tree_path demo_access (parse.quote EmptyString "main"))
              None []) as [[r1 evs1] g1] eqn:E1.
  pose proof E1 as E1'. vm_compute in E1'. injection E1' as <- <- <-.
  pose proof (get_tree_run (tools._request (demo_client tree_answer))
                demo_access "main" [] _ _ _ E1) as Htree.
  cbv iota in Htree.
  destruct (X19_list_files_tool_shows_the_first_500 (list string)
              (client_env tree_answer listing_answers)
              (tools._request (demo_client tree_answer))
              demo_access (VDict []) VNone demo_world _ _ _
              [ [("path", VStr "README.md"); ("type", VStr "blob")];
                [("path", VStr "src"); ("type", VStr "tree")];
                [("path", VStr "src/app.py"); ("type", VStr "blob")] ]
              eq_refl eq_refl Htree eq_refl)
    as (w' & E & _).
  rewrite E. reflexivity.
Defined.

(* ------------------------------------------------------------------ *)
(** ** Running the application *)

Section AppRuns.
Context {G : Type}.

Lemma app_bind_ok {A B} (c : App G A) (k : A -> App G B) s s' (a : A) :
  c s = (Ok a, s') -> app_bind c k s = k a s'.
Proof. intros H. unfold app_bind. now rewrite H. Qed.

Lemma app_bind_raise {A B} (c : App G A) (k : A -> App G B) s s' (e : exn) :
  c s = (Raise e, s') -> app_bind c k s = (Raise e, s').
Proof. intros H. unfold app_bind. now rewrite H. Qed.

Lemma run_ok {A} (c : M G A) (w w' : World G) (o : Outbox) (r : outcome A) :
  c w = (r, w') -> run c (w, o) = (r, (w', o)).
Proof. intros H. unfold run. cbn [fst snd]. now rewrite H. Qed.

Lemma has_trace_grows (w w' : World G) :
  trace_grows w w' -> has_trace w -> has_trace w'.
Proof.
  unfold trace_grows, has_trace. intros Hg Hw.
  destruct (trace w) as [tr|]; [|congruence].
  destruct Hg as (tr' & E & _). congruence.
Qed.

Lemma untouched_sym (w w' : World G) : untouched w w' -> untouched w' w.
Proof. intros (H1 & H2 & H3 & H4 & H5). repeat split; congruence. Qed.

End AppRuns.

Section Steps.
Context {G : Type}.
Variable clk : Clock.

(** One step of the application on the trace: it returns, the outbox is
    as it was, the world has moved in its trace and clock only, and the
    trace has grown. *)
Lemma step_event (h : span_ref) nm st dt (w : World G) (o : Outbox) :
  exists w', run (span_event clk h nm st dt) (w, o) = (Ok tt, (w', o))
             /\ untouched w w' /\ trace_grows w w'.
Proof.
  destruct (span_event_run clk h nm st dt w) as (w' & E & U).
  exists w'. split; [exact (run_ok _ _ _ _ _ E)|]. split; [exact U|].
  pose proof (appends_span_event clk h nm st dt w) as Hg. now rewrite E in Hg.
Qed.

Lemma step_finish (h : span_ref) st dt (w : World G) (o : Outbox) :
  exists w', run (span_finish clk h st dt) (w, o) = (Ok tt, (w', o))
             /\ untouched w w' /\ trace_grows w w'.
Proof.
  destruct (span_finish_run clk h st dt w) as (w' & E & U).
  exists w'. split; [exact (run_ok _ _ _ _ _ E)|]. split; [exact U|].
  pose proof (appends_span_finish clk h st dt w) as Hg. now rewrite E in Hg.
Qed.

Lemma step_span nm dt (w : World G) (o : Outbox) :
  exists h w', run (trace_span clk nm dt) (w, o) = (Ok h, (w', o))
               /\ untouched w w' /\ trace_grows w w'.
Proof.
  destruct (trace_span_run clk nm dt w) as (h & w' & E & U).
  exists h, w'. split; [exact (run_ok _ _ _ _ _ E)|]. split; [exact U|].
  pose proof (appends_trace_span clk nm dt w) as Hg. now rewrite E in Hg.
Qed.

(** Finishing the root of a trace leaves it finished. *)
Lemma finish_root (st : string) (dt : dict) (w : World G) :
  has_trace w ->
  root_finished (snd (span_finish clk ROOT st dt w)).
Proof.
  unfold has_trace, root_finished, span_finish, on_span, ROOT. intros Hw.
  destruct (trace w) as [tr|] eqn:Et; [|congruence].
  cbn [TraceSpan.get].
  pose proof (finish_finished clk st dt (RequestTrace.root tr) (ticks w)) as Hf.
  destruct (TraceSpan.finish clk st dt (RequestTrace.root tr) (ticks w))
    as [sp' tick'].
  cbn [fst snd TraceSpan.update] in *.
  eexists. split; [reflexivity|]. exact Hf.
Qed.

Lemma root_finished_grows (w w' : World G) :
  trace_grows w w' -> root_finished w -> root_finished w'.
Proof.
  unfold trace_grows, root_finished. intros Hg (tr & Et & Hf).
  rewrite Et in Hg. destruct Hg as (tr' & Et' & _ & _ & _ & Hroot).
  exists tr'. split; [exact Et'|].
  destruct (RequestTrace.root tr) as [nm st sa m fa du dt evs ch].
  apply grows_inv in Hroot as (st' & fa' & du' & dt' & more & ch' & -> & _ & Hfrozen).
  cbn [TraceSpan.finished_at] in *.
  destruct (Hfrozen Hf) as (_ & -> & _). exact Hf.
Qed.

End Steps.

Section Persist.
Context {G : Type}.
Variable clk : Clock.
Variable json_dumps_indent : value -> string.

Lemma close_root_run (w : World G) :
  has_trace w ->
  exists w', TraceStore.close_root clk w = (Ok tt, w')
             /\ root_finished w' /\ untouched w w' /\ trace_grows w w'.
Proof.
  intros Hw. unfold TraceStore.close_root.
  pose proof Hw as Hw'. unfold has_trace in Hw'.
  destruct (trace w) as [tr|] eqn:Et; [|congruence].
  destruct (TraceSpan.finished_at (RequestTrace.root tr)) as [t|] eqn:Ef.
  - exists w. split; [reflexivity|]. split; [|split].
    + exists tr. split; [exact Et|]. congruence.
    + apply untouched_refl.
    + apply trace_grows_refl.
  - destruct (span_finish_run clk ROOT (TraceSpan.status (RequestTrace.root tr)) [] w)
      as (w' & E & U).
    exists w'. split; [exact E|]. split; [|split; [exact U|]].
    + pose proof (finish_root clk (TraceSpan.status (RequestTrace.root tr)) [] w Hw)
        as Hf.
      now rewrite E in Hf.
    + pose proof (appends_span_finish clk ROOT
                    (TraceSpan.status (RequestTrace.root tr)) [] w) as Hg.
      now rewrite E in Hg.
Qed.

Lemma persist_run (w : World G) (o : Outbox) :
  has_trace w ->
  exists w' o',
    TraceStore.persist clk json_dumps_indent (w, o) = (Ok tt, (w', o'))
    /\ said o' = said o
    /\ printed o' = printed o ++ trace_lines json_dumps_indent (document_of w')
    /\ root_finished w' /\ untouched w w' /\ trace_grows w w'.
Proof.
  intros Hw.
  destruct (close_root_run w Hw) as (w' & E & Hf & U & Hg).
  unfold TraceStore.persist.
  rewrite (app_bind_ok _ _ _ _ _ (run_ok _ _ _ o _ E)).
  destruct Hf as (tr & Et & Hfin).
  assert (Ep : TraceStore.payload w' = (Ok (RequestTrace.as_dict tr), w')).
  { unfold TraceStore.payload. now rewrite Et. }
  rewrite (app_bind_ok _ _ _ _ _ (run_ok _ _ _ o _ Ep)).
  exists w'. eexists. split; [reflexivity|]. cbn [said printed fst snd].
  split; [reflexivity|]. split.
  - unfold trace_lines, document_of. rewrite Et.
    now rewrite <- !app_assoc.
  - split; [exists tr; now split|]. now split.
Qed.

End Persist.

(** X20.  Persisting closes the root.  [persist] on a world that holds a
    trace returns after printing exactly three lines, [TRACE_START], the
    document of the trace and [TRACE_END]; the document is that of a trace
    whose root is finished.  A root that was open is closed with the status
    it had (so a root nobody finished is printed as finished and
    [in_progress]); a root that was finished is printed as it was.
    Nothing is said, and nothing else of the world moves. *)
Theorem X20_persist_closes_the_root :
  forall (G : Type) (clk : Clock) (json_dumps_indent : value -> string)
         (w : World G) (o : Outbox) (tr : RequestTrace.t),
    trace w = Some tr ->
    exists w' o' tr',
      TraceStore.persist clk json_dumps_indent (w, o) = (Ok tt, (w', o'))
      /\ said o' = said o
      /\ printed o'
         = printed o ++ [ "TRACE_START";
                          json_dumps_indent (RequestTrace.as_dict tr');
                          "TRACE_END" ]
      /\ trace w' = Some tr'
      /\ TraceSpan.finished_at (RequestTrace.root tr') <> None
      /\ TraceSpan.status (RequestTrace.root tr')
         = TraceSpan.status (RequestTrace.root tr)
      /\ (TraceSpan.finished_at (RequestTrace.root tr) <> None -> tr' = tr)
      /\ untouched w w'.
Proof.
  intros G clk json_dumps_indent w o tr Et.
  assert (Hw : has_trace w) by (unfold has_trace; congruence).
  destruct (persist_run clk json_dumps_indent w o Hw)
    as (w' & o' & E & Hs & Hp & (tr' & Et' & Hf) & U & Hg).
  exists w', o', tr'. split; [exact E|]. split; [exact Hs|]. split.
  { rewrite Hp. unfold trace_lines, document_of. now rewrite Et'. }
  split; [exact Et'|]. split; [exact Hf|].
  (* the status and the finished root: by the statements of [persist] *)
  unfold TraceStore.persist in E.
  unfold app_bind at 1 in E. unfold run at 1 in E. cbn [fst snd] in E.
  unfold TraceStore.close_root in E. rewrite Et in E.
  destruct (TraceSpan.finished_at (RequestTrace.root tr)) as [t|] eqn:Ef.
  - assert (Ew : w' = w /\ tr' = tr).
    { unfold app_bind at 1 in E. unfold run at 1 in E. cbn [fst snd] in E.
      unfold TraceStore.payload in E. rewrite Et in E.
      cbn in E. injection E as Ew _. subst w'. split; [reflexivity|]. congruence. }
    destruct Ew as [-> ->].
    split; [reflexivity|]. split; [intros _; reflexivity | exact U].
  - split; [|split; [congruence | exact U]].
    unfold span_finish, on_span, ROOT in E. rewrite Et in E.
    cbn [TraceSpan.get] in E.
    unfold TraceSpan.finish in E. rewrite Ef in E.
    cbn [TraceSpan.update] in E.
    unfold app_bind at 1 in E. unfold run at 1 in E. cbn [fst snd] in E.
    unfold TraceStore.payload in E. cbn [trace set_ticks set_trace] in E.
    cbn in E. injection E as Ew _. subst w'.
    cbn [trace set_ticks set_trace] in Et'. injection Et' as <-. reflexivity.
Qed.

Lemma X20_persist_closes_the_root_witness :
  exists w' o' tr',
    TraceStore.persist demo_clock DemoJson.dumps (demo_world, empty_outbox)
    = (Ok tt, (w', o'))
    /\ printed o' = [ "TRACE_START"; DemoJson.dumps (RequestTrace.as_dict tr');
                      "TRACE_END" ]
    /\ TraceSpan.finished_at (RequestTrace.root tr') <> None
    /\ TraceSpan.status (RequestTrace.root tr') = "in_progress".
Proof.
  destruct (RequestTrace.create demo_clock "req-1" None 0) as [tr tick] eqn:E.
  assert (Et : trace demo_world = Some tr).
  { unfold demo_world. rewrite E. reflexivity. }
  destruct (X20_persist_closes_the_root (list string) demo_clock DemoJson.dumps
              demo_world empty_outbox tr Et)
    as (w' & o' & tr' & H1 & _ & H3 & _ & H5 & H6 & _).
  exists w', o', tr'. split; [exact H1|]. split; [exact H3|]. split; [exact H5|].
  rewrite H6. injection E as <- _. reflexivity.
Defined.

Section Handle.
Context {G : Type}.
Variable clk : Clock.
Variable uuid4 : nat -> string.
Variable json_loads : string -> string + value.
Variable json_dumps_indent : value -> string.
Variable describe : exn -> string.
Variable provider_ : AgentProvider G.

(** The provider only appends to the trace it is given. *)
Hypothesis provider_appends :
  forall request, appends (provider_respond provider_ request).

Ltac step_with lemma :=
  let w1 := fresh "w" in
  let E := fresh "E" in
  let U := fresh "U" in
  let Hg := fresh "Hg" in
  destruct lemma as (w1 & E & U & Hg);
  rewrite (app_bind_ok _ _ _ _ _ E).

Lemma create_run (metadata : dict) (w : World G) :
  exists w' tr,
    TraceStore.create clk uuid4 metadata w = (Ok tt, w')
    /\ trace w' = Some tr
    /\ RequestTrace.request_id tr = uuid4 (ticks w)
    /\ TraceSpan.finished_at (RequestTrace.root tr) = None
    /\ untouched w w'.
Proof.
  unfold TraceStore.create, RequestTrace.create, TraceSpan.create.
  eexists. eexists. split; [reflexivity|].
  cbn. repeat split.
Qed.

Lemma answer_run (request : provider.AgentRequest) (span : span_ref)
      (response : provider.AgentResponse) (w : World G) (o : Outbox) :
  exists w',
    app.answer clk json_loads describe request span response (w, o)
    = (Ok (reply_text json_loads describe (provider.mode request) (Ok response)),
       (w', o))
    /\ untouched w w' /\ trace_grows w w'.
Proof.
  unfold app.answer, reply_text.
  step_with (step_finish clk span "ok"
               [("text_length", app.length_of (provider.text response))] w o).
  step_with (step_event clk ROOT "response.ready" "ok"
               [ ("provider", VStr (provider.provider response));
                 ("text_length", app.length_of (provider.text response)) ] w0 o).
  assert (U01 : untouched w w1) by exact (untouched_trans _ _ _ U U0).
  assert (G01 : trace_grows w w1) by exact (trace_grows_trans _ _ _ Hg Hg0).
  destruct (String.eqb (provider.mode request) "plan").
  - destruct (step_span clk "plan.validate" [] w1 o) as (h & w2 & E2 & U2 & G2).
    rewrite (app_bind_ok _ _ _ _ _ E2).
    destruct (plan_schema.parse_plan_response json_loads (provider.text response))
      as [plan|exc].
    + step_with (step_finish clk h "ok" [] w2 o).
      exists w3. split; [reflexivity|]. split.
      * exact (untouched_trans _ _ _ U01 (untouched_trans _ _ _ U2 U1)).
      * exact (trace_grows_trans _ _ _ G01 (trace_grows_trans _ _ _ G2 Hg1)).
    + step_with (step_finish clk h "error"
                   [("error", VStr (str_exc describe exc))] w2 o).
      step_with (step_event clk ROOT "plan.validation.failed" "warn"
                   [("error", VStr (str_exc describe exc))] w3 o).
      exists w4. split; [reflexivity|]. split.
      * exact (untouched_trans _ _ _ U01
                 (untouched_trans _ _ _ U2 (untouched_trans _ _ _ U1 U3))).
      * exact (trace_grows_trans _ _ _ G01
                 (trace_grows_trans _ _ _ G2 (trace_grows_trans _ _ _ Hg1 Hg2))).
  - exists w1. split; [reflexivity|]. now split.
Qed.

Lemma apologize_run (span : span_ref) (exc : exn) (w : World G) (o : Outbox) :
  has_trace w ->
  exists w' o',
    app.apologize clk json_dumps_indent describe span exc (w, o) = (Ok tt, (w', o'))
    /\ said o' = said o ++ [(app.SORRY ++ str_exc describe exc)%string]
    /\ printed o' = printed o ++ trace_lines json_dumps_indent (document_of w')
    /\ root_finished w' /\ untouched w w'.
Proof.
  intros Hw. unfold app.apologize.
  step_with (step_finish clk span "error"
               [("error", VStr (str_exc describe exc))] w o).
  step_with (step_finish clk ROOT "error"
               [("error", VStr (str_exc describe exc))] w0 o).
  step_with (step_event clk ROOT "request.error" "error"
               [("error", VStr (str_exc describe exc))] w1 o).
  assert (Hw2 : has_trace w2).
  { apply (has_trace_grows w1); [exact Hg1|].
    apply (has_trace_grows w0); [exact Hg0|].
    now apply (has_trace_grows w). }
  destruct (persist_run clk json_dumps_indent w2 o Hw2)
    as (w3 & o3 & E3 & Hs & Hp & Hf & U3 & G3).
  unfold app.persist. rewrite (app_bind_ok _ _ _ _ _ E3).
  exists w3. eexists. split; [reflexivity|]. cbn [said printed fst snd].
  split; [now rewrite Hs|]. split; [exact Hp|]. split; [exact Hf|].
  exact (untouched_trans _ _ _ U
           (untouched_trans _ _ _ U0 (untouched_trans _ _ _ U1 U3))).
Qed.

Lemma deliver_run (text : string) (w : World G) (o : Outbox) :
  has_trace w ->
  exists w' o',
    app.deliver clk json_dumps_indent text (w, o) = (Ok tt, (w', o'))
    /\ said o' = said o ++ [text]
    /\ printed o' = printed o ++ trace_lines json_dumps_indent (document_of w')
    /\ root_finished w' /\ untouched w w'.
Proof.
  intros Hw. unfold app.deliver.
  destruct (step_span clk "slack.say" [] w o) as (h & w0 & E0 & U0 & G0).
  rewrite (app_bind_ok _ _ _ _ _ E0).
  unfold app_bind at 1. unfold say at 1. cbn [fst snd].
  set (o1 := {| said := said o ++ [text]; printed := printed o |}).
  step_with (step_finish clk h "ok" [] w0 o1).
  step_with (step_event clk ROOT "response.sent" "ok" [] w1 o1).
  step_with (step_finish clk ROOT "ok" [] w2 o1).
  assert (Hw3 : has_trace w3).
  { apply (has_trace_grows w2); [exact Hg1|].
    apply (has_trace_grows w1); [exact Hg0|].
    apply (has_trace_grows w0); [exact Hg|].
    now apply (has_trace_grows w). }
  destruct (persist_run clk json_dumps_indent w3 o1 Hw3)
    as (w4 & o4 & E4 & Hs & Hp & Hf & U4 & G4).
  unfold app.persist. rewrite E4.
  exists w4, o4. split; [reflexivity|].
  split; [rewrite Hs; reflexivity|]. split; [rewrite Hp; reflexivity|].
  split; [exact Hf|].
  exact (untouched_trans _ _ _ U0
           (untouched_trans _ _ _ U
              (untouched_trans _ _ _ U1 (untouched_trans _ _ _ U2 U4)))).
Qed.

(** [handle_event] on an event with a text: the provider is asked once, in
    a world that differs from the one at the start in its trace and clock
    only; what it gives decides the one message said; the trace is printed
    once, its root finished. *)
Lemma handle_event_run (event : dict) (c : ascii) (s : string)
      (w : World G) (o : Outbox) :
  app.text_of event = VStr (String c s) ->
  let request := request_for event (String c s) (uuid4 (ticks w)) in
  exists w0 w' o',
    untouched w w0
    /\ app.handle_event clk uuid4 json_loads json_dumps_indent describe provider_
         event (w, o)
       = (Ok tt, (w', o'))
    /\ said o'
       = said o ++ [reply_text json_loads describe (provider.mode request)
                      (fst (provider_respond provider_ request w0))]
    /\ printed o' = printed o ++ trace_lines json_dumps_indent (document_of w')
    /\ root_finished w'
    /\ untouched (snd (provider_respond provider_ request w0)) w'.
Proof.
  intros Htext request. unfold app.handle_event.
  destruct (create_run (app.metadata_of provider_ event) w)
    as (w1 & tr1 & E1 & Et1 & Hid & _ & U1).
  rewrite (app_bind_ok _ _ _ _ _ (run_ok _ _ _ o _ E1)).
  assert (Hw1 : has_trace w1) by (unfold has_trace; congruence).
  step_with (step_event clk ROOT "request.received" "ok" [] w1 o).
  rewrite Htext. cbn [app.detect]. unfold app_bind at 1. unfold app_lift at 1.
  step_with (step_event clk ROOT "mode.detected" "ok"
               [ ("mode", VStr (modes.mode (modes.detect_mode (String c s))));
                 ("reason", VStr (modes.reason (modes.detect_mode (String c s)))) ]
               w0 o).
  unfold app.build_agent_request. rewrite Htext.
  unfold app_bind at 1. unfold app_lift at 1.
  assert (Hw2 : has_trace w2).
  { apply (has_trace_grows w0); [exact Hg0|]. now apply (has_trace_grows w1). }
  assert (Erid : app.request_id w2 = (Ok (uuid4 (ticks w)), w2)).
  { unfold app.request_id.
    pose proof (trace_grows_trans _ _ _ Hg Hg0) as Hg12.
    unfold trace_grows in Hg12. rewrite Et1 in Hg12.
    destruct Hg12 as (tr2 & Et2 & Hid2 & _). rewrite Et2. congruence. }
  rewrite (app_bind_ok _ _ _ _ _ (run_ok _ _ _ o _ Erid)).
  cbn [provider.prompt provider.mode provider.context dict_set String.eqb
       Ascii.eqb Bool.eqb].
  fold (request_for event (String c s) (uuid4 (ticks w))). fold request.
  destruct (step_span clk "provider.respond"
              [ ("provider", VStr (provider_name provider_));
                ("mode", VStr (provider.mode request)) ] w2 o)
    as (span & w3 & E3 & U3 & G3).
  rewrite (app_bind_ok _ _ _ _ _ E3).
  assert (Hw3 : has_trace w3) by now apply (has_trace_grows w2).
  assert (U03 : untouched w w3).
  { exact (untouched_trans _ _ _ U1
             (untouched_trans _ _ _ U (untouched_trans _ _ _ U0 U3))). }
  exists w3.
  destruct (provider_respond provider_ request w3) as [r w4] eqn:E4.
  assert (Hw4 : has_trace w4).
  { apply (has_trace_grows w3); [|exact Hw3].
    pose proof (provider_appends request w3) as H. now rewrite E4 in H. }
  cbn [fst snd].
  unfold app_bind at 1. unfold app_except.
  rewrite (run_ok _ _ _ o _ E4) || (unfold app_bind at 1; rewrite (run_ok _ _ _ o _ E4)).
  destruct r as [response|exc].
  - destruct (answer_run request span response w4 o) as (w5 & E5 & U5 & G5).
    rewrite (app_bind_ok _ _ _ _ _ E5). cbn [app_ret].
    assert (Hw5 : has_trace w5) by now apply (has_trace_grows w4).
    destruct (deliver_run
                (reply_text json_loads describe (provider.mode request) (Ok response))
                w5 o Hw5) as (w6 & o6 & E6 & Hs & Hp & Hf & U6).
    exists w6, o6. split; [exact U03|]. split; [exact E6|].
    split; [exact Hs|]. split; [exact Hp|]. split; [exact Hf|].
    exact (untouched_trans _ _ _ U5 U6).
  - destruct (apologize_run span exc w4 o Hw4) as (w5 & o5 & E5 & Hs & Hp & Hf & U5).
    rewrite (app_bind_ok _ _ _ _ _ E5). cbn [app_ret].
    exists w5, o5. split; [exact U03|]. split; [reflexivity|].
    split; [exact Hs|]. split; [exact Hp|]. split; [exact Hf|]. exact U5.
Qed.

End Handle.

(** X21.  One reply and one trace for every event with a text.  For a
    provider that only appends to the trace it is given, [handle_event] on
    an event whose text is a non-empty string returns without raising,
    whatever the provider does, raise included.  It has then called [say]
    exactly once and printed exactly the three lines of one trace, whose
    document is that of the trace of the world at the end, with a finished
    root. *)
Theorem X21_one_reply_and_one_trace_per_event :
  forall (G : Type) (clk : Clock) (uuid4 : nat -> string)
         (json_loads : string -> string + value)
         (json_dumps_indent : value -> string) (describe : exn -> string)
         (provider_ : AgentProvider G) (event : dict) (c : ascii) (s : string)
         (w : World G) (o : Outbox),
    (forall request, appends (provider_respond provider_ request)) ->
    app.text_of event = VStr (String c s) ->
    exists w' o' reply tr,
      app.handle_event clk uuid4 json_loads json_dumps_indent describe provider_
        event (w, o)
      = (Ok tt, (w', o'))
      /\ said o' = said o ++ [reply]
      /\ printed o'
         = printed o ++ [ "TRACE_START";
                          json_dumps_indent (RequestTrace.as_dict tr);
                          "TRACE_END" ]
      /\ trace w' = Some tr
      /\ TraceSpan.finished_at (RequestTrace.root tr) <> None.
Proof.
  intros G clk uuid4 json_loads json_dumps_indent describe provider_ event c s w o
         Happ Htext.
  destruct (handle_event_run clk uuid4 json_loads json_dumps_indent describe
              provider_ Happ event c s w o Htext)
    as (w0 & w' & o' & _ & E & Hs & Hp & (tr & Et & Hf) & _).
  exists w', o'. eexists. exists tr.
  split; [exact E|]. split; [exact Hs|]. split; [|now split].
  rewrite Hp. unfold trace_lines, document_of. now rewrite Et.
Qed.

Lemma X21_one_reply_and_one_trace_per_event_witness :
  exists w' o' tr,
    demo_handle quota_answers hello_event (demo_world, empty_outbox)
    = (Ok tt, (w', o'))
    /\ List.length (said o') = 1
    /\ printed o' = [ "TRACE_START"; DemoJson.dumps (RequestTrace.as_dict tr);
                      "TRACE_END" ]
    /\ TraceSpan.finished_at (RequestTrace.root tr) <> None.
Proof.
  destruct (X21_one_reply_and_one_trace_per_event (list string) demo_clock
              demo_uuid4 DemoJson.loads DemoJson.dumps demo_describe
              (gemini_provider (demo_env quota_answers) demo_self)
              hello_event "h"%char "ello there" demo_world empty_outbox)
    as (w' & o' & reply & tr & E & Hs & Hp & _ & Hf).
  - intros request. apply appends_respond.
  - reflexivity.
  - exists w', o', tr. split; [exact E|]. split; [now rewrite Hs|].
    split; [exact Hp | exact Hf].
Defined.

(** X22.  What is said.  Under the conditions of X21 the provider is asked
    once, for the request made of the text, the mode [detect_mode] finds for
    it and a context that ends with the request id of the trace, in a world
    that differs from the one at the start in its trace and clock only.  If
    the provider raises, the message said is "Sorry, I hit an error while
    processing your request: " and the text of the exception.  If it
    answers outside plan mode, its text is said as it is.  In plan mode the
    formatted plan is said when the text holds a valid plan, and otherwise
    the text itself after two sentences of explanation: the answer of the
    model is never lost.  After the provider has returned, only the trace
    and the clock move. *)
Theorem X22_what_is_said :
  forall (G : Type) (clk : Clock) (uuid4 : nat -> string)
         (json_loads : string -> string + value)
         (json_dumps_indent : value -> string) (describe : exn -> string)
         (provider_ : AgentProvider G) (event : dict) (c : ascii) (s : string)
         (w : World G) (o : Outbox),
    (forall request, appends (provider_respond provider_ request)) ->
    app.text_of event = VStr (String c s) ->
    let request := request_for event (String c s) (uuid4 (ticks w)) in
    exists w0 w' o',
      untouched w w0
      /\ app.handle_event clk uuid4 json_loads json_dumps_indent describe provider_
           event (w, o)
         = (Ok tt, (w', o'))
      /\ untouched (snd (provider_respond provider_ request w0)) w'
      /\ match fst (provider_respond provider_ request w0) with
         | Raise exc =>
             said o' = said o ++ [(app.SORRY ++ str_exc describe exc)%string]
         | Ok response =>
             if String.eqb (provider.mode request) "plan" then
               match plan_schema.parse_plan_response json_loads
                       (provider.text response) with
               | Ok plan => said o' = said o ++ [app.format_plan_for_slack plan]
               | Raise _ =>
                   said o' = said o ++ [(app.PLAN_FALLBACK
                                         ++ provider.text response)%string]
               end
             else said o' = said o ++ [provider.text response]
         end.
Proof.
  intros G clk uuid4 json_loads json_dumps_indent describe provider_ event c s w o
         Happ Htext request.
  destruct (handle_event_run clk uuid4 json_loads json_dumps_indent describe
              provider_ Happ event c s w o Htext)
    as (w0 & w' & o' & U0 & E & Hs & _ & _ & U).
  fold request in Hs, U.
  exists w0, w', o'. split; [exact U0|]. split; [exact E|]. split; [exact U|].
  unfold reply_text in Hs.
  destruct (fst (provider_respond provider_ request w0)) as [response|exc];
    [|exact Hs].
  destruct (String.eqb (provider.mode request) "plan"); [|exact Hs].
  destruct (plan_schema.parse_plan_response json_loads (provider.text response));
    exact Hs.
Qed.

Lemma X22_what_is_said_witness :
  (exists w' o',
      demo_handle greeting_answers hello_event (demo_world, empty_outbox)
      = (Ok tt, (w', o'))
      /\ said o' = ["Hello! How can I help?"])
  /\ (exists w' o',
         demo_handle quota_answers hello_event (demo_world, empty_outbox)
         = (Ok tt, (w', o'))
         /\ said o'
            = [ "Sorry, I hit an error while processing your request: Gemini API error (429): quota exceeded" ]).
Proof.
  split.
  - pose proof (X22_what_is_said (list string) demo_clock
                  demo_uuid4 DemoJson.loads DemoJson.dumps demo_describe
                  (gemini_provider (demo_env greeting_answers) demo_self)
                  hello_event "h"%char "ello there" demo_world empty_outbox
                  (fun request => appends_respond _ _ request) eq_refl) as H.
    cbv zeta in H. destruct H as (w0 & w' & o' & U0 & E & _ & Hs).
    exists w', o'. split; [exact E|].
    destruct U0 as (L0 & S0 & H0 & A0 & C0).
    assert (Er : fst (provider_respond
                        (gemini_provider (demo_env greeting_answers) demo_self)
                        (request_for hello_event "hello there"
                           (demo_uuid4 (ticks demo_world))) w0)
                 = Ok {| provider.provider := "gemini";
                         provider.text := "Hello! How can I help?" |}).
    { destruct (respond_direct (demo_env greeting_answers) demo_self
                  (request_for hello_event "hello there"
                     (demo_uuid4 (ticks demo_world))) w0)
        as (r & w1 & n & naps & Er & _ & _ & Hfirst).
      - discriminate.
      - reflexivity.
      - cbn [gemini_provider provider_respond]. rewrite Er. cbn [fst].
        destruct (Hfirst 200%Z _ eq_refl) as [_ ->]. reflexivity. }
    rewrite Er in Hs. exact Hs.
  - pose proof (X22_what_is_said (list string) demo_clock
                  demo_uuid4 DemoJson.loads DemoJson.dumps demo_describe
                  (gemini_provider (demo_env quota_answers) demo_self)
                  hello_event "h"%char "ello there" demo_world empty_outbox
                  (fun request => appends_respond _ _ request) eq_refl) as H.
    cbv zeta in H. destruct H as (w0 & w' & o' & U0 & E & _ & Hs).
    exists w', o'. split; [exact E|].
    assert (Er : fst (provider_respond
                        (gemini_provider (demo_env quota_answers) demo_self)
                        (request_for hello_event "hello there"
                           (demo_uuid4 (ticks demo_world))) w0)
                 = Raise (gemini.api_error 429 "quota exceeded")).
    { destruct (respond_direct_refused (demo_env quota_answers) demo_self
                  (request_for hello_event "hello there"
                     (demo_uuid4 (ticks demo_world))) w0 429%Z "quota exceeded")
        as (w1 & Er & _).
      - discriminate.
      - reflexivity.
      - reflexivity.
      - cbn [gemini_provider provider_respond]. now rewrite Er. }
    rewrite Er in Hs. exact Hs.
Defined.

Section NoText.
Context {G : Type}.
Variable clk : Clock.
Variable uuid4 : nat -> string.
Variable json_loads : string -> string + value.
Variable json_dumps_indent : value -> string.
Variable describe : exn -> string.
Variable provider_ : AgentProvider G.

Abbreviation handle :=
  (app.handle_event clk uuid4 json_loads json_dumps_indent describe provider_).

Lemma handle_event_prelude (event : dict) (w : World G) (o : Outbox) :
  exists w1,
    untouched w w1
    /\ handle event (w, o)
       = match app.detect (app.text_of event) with
         | Raise e => (Raise e, (w1, o))
         | Ok decision =>
             app_bind
               (run (span_event clk ROOT "mode.detected" "ok"
                       [ ("mode", VStr (modes.mode decision));
                         ("reason", VStr (modes.reason decision)) ]))
               (fun _ =>
                  app_bind (app_lift (app.build_agent_request event
                                        (modes.mode decision)))
                    (fun built =>
                       app_bind (run app.request_id) (fun rid =>
                       let request :=
                         {| provider.prompt := provider.prompt built;
                            provider.mode := provider.mode built;
                            provider.context :=
                              dict_set "request_id" (VStr rid)
                                (provider.context built) |} in
                       app_bind
                         (run (trace_span clk "provider.respond"
                                 [ ("provider", VStr (provider_name provider_));
                                   ("mode", VStr (provider.mode request)) ]))
                         (fun provider_span =>
                            app_bind
                              (app_except
                                 (app_bind (run (provider_respond provider_ request))
                                    (fun response =>
                                       app_bind
                                         (app.answer clk json_loads describe request
                                            provider_span response)
                                         (fun outgoing_text =>
                                            app_ret (Some outgoing_text))))
                                 (fun exc =>
                                    app_bind
                                      (app.apologize clk json_dumps_indent describe
                                         provider_span exc)
                                      (fun _ => app_ret None)))
                              (fun outgoing =>
                                 match outgoing with
                                 | Some outgoing_text =>
                                     app.deliver clk json_dumps_indent outgoing_text
                                 | None => app_ret tt
                                 end)))))
               (w1, o)
         end.
Proof.
  unfold app.handle_event.
  destruct (create_run clk uuid4 (app.metadata_of provider_ event) w)
    as (w1 & tr1 & E1 & _ & _ & _ & U1).
  rewrite (app_bind_ok _ _ _ _ _ (run_ok _ _ _ o _ E1)).
  destruct (step_event clk ROOT "request.received" "ok" [] w1 o)
    as (w2 & E2 & U2 & _).
  rewrite (app_bind_ok _ _ _ _ _ E2).
  exists w2. split; [exact (untouched_trans _ _ _ U1 U2)|].
  unfold app_bind at 1. unfold app_lift at 1.
  destruct (app.detect (app.text_of event)); reflexivity.
Qed.

Lemma handle_event_empty_text (event : dict) (w : World G) (o : Outbox) :
  app.text_of event = VStr EmptyString ->
  exists w', handle event (w, o) = (Raise ValidationError, (w', o))
             /\ untouched w w'.
Proof.
  intros Htext.
  destruct (handle_event_prelude event w o) as (w1 & U1 & E). rewrite E, Htext.
  cbn [app.detect].
  destruct (step_event clk ROOT "mode.detected" "ok"
              [ ("mode", VStr (modes.mode (modes.detect_mode EmptyString)));
                ("reason", VStr (modes.reason (modes.detect_mode EmptyString))) ]
              w1 o) as (w2 & E2 & U2 & _).
  rewrite (app_bind_ok _ _ _ _ _ E2).
  unfold app.build_agent_request. rewrite Htext.
  exists w2. split; [reflexivity | exact (untouched_trans _ _ _ U1 U2)].
Qed.

Lemma handle_event_no_string (event : dict) (w : World G) (o : Outbox) :
  (forall s, app.text_of event <> VStr s) ->
  exists w', handle event (w, o) = (Raise AttributeError, (w', o))
             /\ untouched w w'.
Proof.
  intros Htext.
  destruct (handle_event_prelude event w o) as (w1 & U1 & E). rewrite E.
  exists w1. split; [|exact U1].
  destruct (app.text_of event) as [| | | |s| |]; try reflexivity.
  now destruct (Htext s).
Qed.

End NoText.

(** X23.  An event without a text gets no reply.  When the event has no
    [text], or one that tests false, [handle_event] raises the validation
    error of the request (its prompt would be empty); when its text is not a
    string, it raises the [AttributeError] of [detect_mode].  Either way
    the exception leaves [handle_event] before the [try]: nothing has been
    said or printed, the trace begun for the event is not persisted, and
    the provider has not been asked (nothing but trace and clock moved). *)
Theorem X23_no_text_no_reply :
  forall (G : Type) (clk : Clock) (uuid4 : nat -> string)
         (json_loads : string -> string + value)
         (json_dumps_indent : value -> string) (describe : exn -> string)
         (provider_ : AgentProvider G) (event : dict) (w : World G) (o : Outbox),
    let run_ := app.handle_event clk uuid4 json_loads json_dumps_indent describe
                  provider_ event (w, o) in
    (truthy (dict_get_default "text" VNone event) = false ->
     fst run_ = Raise ValidationError
     /\ snd (snd run_) = o /\ untouched w (fst (snd run_)))
    /\ (truthy (dict_get_default "text" VNone event) = true ->
        (forall s, dict_get "text" event <> Some (VStr s)) ->
        fst run_ = Raise AttributeError
        /\ snd (snd run_) = o /\ untouched w (fst (snd run_))).
Proof.
  intros G clk uuid4 json_loads json_dumps_indent describe provider_ event w o run_.
  subst run_. split.
  - intros Hfalse.
    destruct (handle_event_empty_text clk uuid4 json_loads json_dumps_indent
                describe provider_ event w o) as (w' & E & U).
    + unfold app.text_of. now rewrite Hfalse.
    + rewrite E. split; [reflexivity|]. split; [reflexivity | exact U].
  - intros Htrue Hnot.
    destruct (handle_event_no_string clk uuid4 json_loads json_dumps_indent
                describe provider_ event w o) as (w' & E & U).
    + intros s. unfold app.text_of. rewrite Htrue.
      unfold dict_get_default in *.
      destruct (dict_get "text" event) as [v|]; [|discriminate Htrue].
      intros ->. now apply (Hnot s).
    + rewrite E. split; [reflexivity|]. split; [reflexivity | exact U].
Qed.

Lemma X23_no_text_no_reply_witness :
  let run_ := demo_handle greeting_answers join_event (demo_world, empty_outbox) in
  fst run_ = Raise ValidationError /\ snd (snd run_) = empty_outbox.
Proof.
  intros run_.
  destruct (X23_no_text_no_reply (list string) demo_clock demo_uuid4 DemoJson.loads
              DemoJson.dumps demo_describe
              (gemini_provider (demo_env greeting_answers) demo_self)
              join_event demo_world empty_outbox) as [H _].
  destruct (H eq_refl) as (H1 & H2 & _). split; [exact H1 | exact H2].
Defined.



(* ------------------------------------------------------------------ *)
(** ** Plans *)

Section Plans.






End Plans.

